(* ===== verification/_CoqProject ===== *)
-Q . S2P
Prelude.v
PyData.v
Env.v
Mock.v
Llm.v
Browser.v
Extract.v
Tab.v
Inspect.v
AxTree.v
Actions.v
Loop.v
Logger.v
Executor.v
Plan.v
Repair.v
Replayer.v
Exporters.v
Planner.v
Orchestrator.v
Lifecycle.v
Cli.v
