(* ===== verification/Prelude.v ===== *)
(** * A verification library for winky, a browser-automation agent

    winky (src/) drives a browser page through a list of declarative
    tasks planned by a language model.  This library models, in Rocq,
    the parts of it that carry the logic (the plan executor, the
    pattern loop, the session recorder and replayer, the one-shot
    actions they run, the exporters, the planner with its context
    memory and its model client, the orchestrator's lifecycle and the
    command line) and
    proves what makes them correct, and where
    they depart from spec.md.

    ** The program and how its parts interact

    - src/core/executor.py, [Executor]: runs a plan (a list of task
      dicts) through its action registry.  [execute_task] runs one task,
      remembers the data of a successful [inspect], repairs a failing
      [extract] with the first suggested selector, retries a failure by
      a recursive self-call while [retry_count < max_retries] (sleeping,
      and reloading the page when the error mentions a timeout), logs the
      final result to the recorder and collects the data of successful
      [extract] and [loop] tasks.  [execute_plan] opens a session, runs
      the tasks, retries the whole plan up to [max_retries] times and
      seals the session.
    - src/actions/loop.py, [LoopAction]: repeats a pattern of steps
      through the registry it is given, paginating between iterations
      (a click on a next button, or a scroll), until [max_iterations],
      a stop condition, the [on_empty] policy or a missing next page.
    - src/actions/navigate.py, click.py, wait.py, reload.py,
      type_text.py, scroll.py, extract.py, inspect.py, tab.py,
      screenshot.py: one-shot actions, each an [execute] that turns
      page failures into a failed [ActionResult] (src/actions/base.py).
      [inspect] suggests the common selectors that match; the executor
      feeds the first one to a failing [extract].
    - src/session_logging/action_logger.py, [ActionLogger]: the session
      recorder; entries are appended to a buffer and sealed into the
      file [<logs_dir>/<session_id>.json]; [list_sessions] (and
      [Orchestrator.list_sessions]) summarises the directory's logs,
      newest first.
    - src/session_logging/replayer.py, [Replayer], and
      [Orchestrator.replay] (src/core/orchestrator.py): load a sealed
      session and re-drive its entries on the page, with a speed factor
      and a stop-on-error policy.
    - src/export/json_exporter.py and csv_exporter.py, [JSONExporter]
      and [CSVExporter]: write the collected data to timestamped files
      of an output directory, append to them and read them back.
    - src/core/goal_planner.py, [GoalPlanner], with
      src/memory/context.py ([ContextManager]) and
      src/memory/vector_store.py ([VectorStore]): [plan] records the goal
      in the context, renders the context into its prompt, asks the model
      for JSON and returns its ["tasks"] after adding them to the
      context.
    - src/llm/ollama_client.py, [OllamaClient]: posts the prompt to the
      Ollama HTTP API and parses the answer ([generate_json] falls back
      to the text between its first [{] and last [}]); [check_connection]
      and [list_models] probe the server.
    - src/core/orchestrator.py, [Orchestrator]: [initialize] builds the
      client, the memory, the browser manager, the planner and the
      executor; [run] plans, runs the tasks through [execute_plan] and
      hands the collected data to [_export_data], which writes a CSV and
      a JSON file named after the goal; [replay] and [close].
    - src/main.py: the command line, which runs one goal, one replay or
      the session listing inside [async with Orchestrator()], or reads
      goals from standard input in [interactive_mode].

    ** Files and what they model

    - [Prelude] (this file): the state and exception monad [st] in which
      the Python code is written (an exception is the outcome [Exc msg];
      the state is threaded explicitly), its notations in [winky_scope],
      the relation framework [st_rel] for frame and invariant proofs,
      the tactics, the hint databases and the monad laws.
    - [PyData]: Python values ([Value]: None, bool, int, str, list,
      dict, opaque objects, references to shared dicts), dicts as
      insertion-ordered association lists, truthiness, [str()] and the
      string methods the code calls, [os.path.join] and the clock's
      [strftime] by the civil calendar; [ActionResult] and
      [validate_params] of base.py.
    - [Env]: the boundary to Playwright, the clock, [uuid4], the
      Ollama HTTP API and the ChromaDB collection: a
      typeclass whose operation [handle] answers a [call] in an abstract
      world, possibly with an exception; the action registry and the
      interface [ActionImpl] through which the executor and the loop run
      the one-shot actions, with the contract [ActionContract].
    - [Mock]: test fixtures, not code: a paginated site, a test double
      for the actions, a page that accepts every call, a page whose
      next button is disabled, a browser context with tabs, and an
      Ollama server whose model answers a plan holding a string task,
      with a [json.loads] double.  The witnesses run on them.
    - [Llm]: [OllamaClient] as the record [client]; [generate], [chat],
      [generate_json], [check_connection], [list_models] and [close] over
      the [HttpPost], [HttpGet] and [HttpClose] calls of the [Env]; the
      Python types of its signatures and the API's answers as [ty] with
      the boolean typing [has_type].
    - [Extract], [Inspect], [Tab]: [ExtractAction] (with its unused
      [extract_table]), [InspectAction] (the accessibility tree walked
      to depth 10, and its suggestions against the executor's cut),
      [TabAction] over the context's pages (with the
      context contract of its invariant) and [ScreenshotAction].
    - [Browser]: [PlaywrightConfig] as the record [config] read from
      the environment ([config_of_env]), its launch arguments and
      options, and [BrowserManager] as the record [manager] with its
      lifecycle ([bm_initialize], [bm_new_page], [bm_get_page],
      [bm_screenshot], [bm_close]) over [PwCall]s.
    - [AxTree]: [AXTreeAnalyzer] (src/browser/ax_tree.py), which no
      other module calls, with its cached snapshot as state.
    - [Actions]: navigate, click, wait, reload, type_text and scroll,
      and [run_action], the dispatch [cls(page).execute( **params)] over
      all the action classes; classes added by [register_action] are a
      parameter.
    - [Loop]: [LoopAction.execute] (its locals [iteration] and
      [collected_data] live in the state [loop_state], as they survive
      an exception), [_execute_step], the inline steps and [_paginate].
    - [Logger]: [ActionLogger] as a record of its fields, with the logs
      directory as a map from path to the JSON value of the file;
      [list_sessions] reads the directory through [listdir] and sorts
      the summaries by an insertion sort, stable as Python's sort.
    - [Executor]: the record [executor] of the executor's fields, the
      recorder, the page and a heap of the tasks' params dicts (the
      repair writes into the task's own dict and the log entries refer
      to it, as in Python); [execute_task] and [execute_plan]; the frame
      relations, the retry state machine [task_run], the task-level
      theorems and the termination of the whole-plan loop.
    - [Plan]: the plan-level theorems of [execute_plan].
    - [Repair]: a plan run with the modelled actions, in which an
      inspection repairs a failing extraction.
    - [Replayer]: [replay], [_execute_action] and [Orchestrator.replay].
    - [Exporters]: both exporters over an output directory held as a
      store of JSON values and a store of CSV rows.
    - [Planner]: the [ContextManager] as the record [context], the
      vector store's [add_memory], [search], [get_recent] (a stable
      sort newest first, [sort_recent_perm]), [clear] and [count] over
      the ChromaDB calls of the [Env],
      [ContextManager.get_relevant_memories], the planner's prompts
      ([SYSTEM_PROMPT] verbatim) and [GoalPlanner.plan], [refine_task] and
      [create_loop_pattern] over the client's [generate_json].
    - [Orchestrator]: [Executor.__init__], [Orchestrator.run] on the
      executor and the output directory (also with the planner, the
      plan's dicts loaded into the executor's heap), [_export_data] and
      its file name, [list_sessions].
    - [Lifecycle]: the orchestrator's attributes as the record [agent]
      (the parts [__init__] leaves [None] are options), [initialize],
      [run] and [replay] (which initialise first when needed) and
      [close], the step relation [agent_step] of these calls and its
      invariant.
    - [Cli]: src/main.py: [main] over the parsed arguments and
      [interactive_mode] over the list of inputs still to be read.

    ** What the theorems show (claims C1 to C40)

    - Plan executor: a plan whose tasks all succeed runs once (C1); with
      a task that always fails the plan is run [max_retries] times and
      reports that task's index (C2); [execute_task] refines the retry
      state machine of spec section 4.2 (C3) and its fuel is never
      exhausted (C5); the whole-plan loop stops by its guard
      [plan_attempts < max_plan_attempts], before its fuel runs out (C4).
    - Loop: one iteration without pagination (C6); when the next
      button never resolves, one successful iteration whose
      [stop_reason] is the configured stop type (C7); the [while] loop
      stops by its guard, before its fuel runs out (C15), after at most
      [max_iterations] iterations (C12), exactly [k] for a stop value
      [k] (C13).
    - Recorder: round trip of a session through [get_log] (C9), reset
      on [end_session] (C16), sessions listed newest first (C18).
    - Replayer: success on navigate/wait/click sessions (C10), success
      exactly when every action succeeded (C14).
    - Actions: they never raise, tab when its operation is a string
      (C11); [extract_fields] makes [multiple] irrelevant (C27); an inspection's
      lists are cut to their limits (C28); no tab operation closes the
      last page, under the context contract (C40).
    - Inspection and repair: the suggestions cut by the executor are
      common selectors, in order (C17).
    - Findings, proved as theorems: [collected_data] is not reset
      between plan attempts (C19); only the final attempt of a task
      is logged (C20); an unknown action is retried (C21);
      [max_retries <= 0] makes [execute_plan] raise (C22); a non-dict
      [stop_condition] makes the loop raise (C23); [max_iterations <= 0]
      gives no iteration (C24); [interactive_mode] returns exactly at
      ["exit"] or Ctrl-C and spins forever once standard input is
      exhausted (C25).
    - Exporters: a JSON export reads back as its data (C31); [append]
      extends a file exported without timestamp (C32); a CSV
      export of items reads back as the header zipped with each item's
      cells (C34); appending rows with other keys misaligns them.
    - Orchestrator: the data of a failed plan, of every attempt, are
      exported all the same (C38); in
      every state reachable by [initialize], [run], [replay] and [close]
      an initialised orchestrator has all its parts (C30); [initialize]
      goes through from any state when the driver, the model server and
      the store answer, and leaves fresh parts (C37).
    - Model client: [generate] posts the payload it builds to
      [/api/generate] and returns the answer's ["response"] (C8), and
      raises on a status outside 2xx (C33); [list_models] returns a
      [List[str]] on an answer of the documented schema (C29).
    - Browser: from any state, [BrowserManager.initialize] with a
      driver that answers returns a page and leaves the manager
      initialised with it (C36).
    - Planner: the client's [generate_json] recovers a JSON object
      wrapped in prose (C26); [plan] returns a falsy value or a list of dicts, and adds
      the answer's items to the context (C39); a context that holds a
      task that is not a dict, which one malformed answer leaves behind,
      makes every later [plan] raise (C35).

    ** Bounds and fuel

    The recursion of [execute_task] runs on fuel
    [Z.to_nat (max_retries - retry_count)], the number of retries its
    guard still allows; C5 proves that more fuel changes nothing, so the
    fuel-exhausted branch is unreachable.  The loop's [while] runs on
    fuel [1 + Z.to_nat max_iterations] from [iteration = 0], one above
    the iterations its guard [iteration < max_iterations] allows, and
    C15 proves any fuel above that bound gives the same result: the
    guard, not the fuel, ends the loop (so C12, C13 and C24 are about
    the guard).  The plan's [while] runs on fuel
    [1 + Z.to_nat max_retries] from [plan_attempts = 0], one above the
    attempts its guard allows, and C4 proves the same for it; C2 shows
    every attempt the guard allows is used.  The accessibility tree is walked with the depth
    left, [11 - depth], which is exactly the code's [depth > 10] cut;
    the analyser's walk, which has no cut, runs on the tree's size plus
    one, and [AxTree.ax_interactive_fuel] shows more fuel changes
    nothing.  [interactive_mode]'s [while True] runs on fuel, one unit
    per input read; C25 gives its result for every fuel, so that "no
    fuel is enough" is the statement that the loop never returns.
    Integers are unbounded, as Python's are.

    ** Not modelled

    httpx and the Ollama server (the [Env]'s HTTP calls answer with a
    status and a body), [json.loads] and [json.dumps] (parameters);
    ChromaDB itself (its client and collection are [Env] calls, and
    whether the module imports is the parameter [CHROMADB_AVAILABLE]);
    argparse (the command line starts from the parsed arguments);
    [PlaywrightConfig.print_config], the [print]s and the [self.log]
    lines of the actions (output only); src/setup.py and
    src/actions/__init__.py (declarations without behaviour).  The
    exporters' [print]s and failures of [open] are not modelled, and
    the CSV text's quoting is taken as the [csv] module's own round
    trip.  Playwright is the abstract [Env]: what a call
    accepts and answers is its business.  Timestamps are the clock's
    reading printed in decimal (the exporters' file names render it,
    read as milliseconds since 1970, with [strftime]); the order of [os.listdir] is the
    store's order (it decides only the order of sessions with equal
    start times); [json.dump] followed by [json.load] is
    the identity on the values modelled (no floats); exception messages
    are strings that carry the exception's class; replay speed is a
    rational number. *)

From stdpp Require Export base list sets strings pretty.
From Stdlib Require Export ZArith.
From Stdlib Require Import Lia.

Declare Scope winky_scope.
Delimit Scope winky_scope with winky.

(** ** Outcomes and the state/exception monad *)

(** The outcome of a Python computation: a value, or a raised exception
    carrying its message. *)
Inductive outcome (A : Type) : Type :=
| Ok (a : A)
| Exc (e : string).
Arguments Ok {A} a.
Arguments Exc {A} e.

(** A stateful Python computation: state in, outcome and state out.  The
    state after an exception is kept: side effects done before a raise
    are not undone. *)
Definition st (S A : Type) : Type := S -> outcome A * S.

Section Monad.
Context {S : Type}.

Definition ret {A} (a : A) : st S A := fun s => (Ok a, s).

Definition bind {A B} (m : st S A) (k : A -> st S B) : st S B :=
  fun s => match m s with
           | (Ok a, s') => k a s'
           | (Exc e, s') => (Exc e, s')
           end.

Definition raise {A} (e : string) : st S A := fun s => (Exc e, s).

(** [try: m except Exception as e: h(str(e))] *)
Definition try_except {A} (m : st S A) (h : string -> st S A) : st S A :=
  fun s => match m s with
           | (Ok a, s') => (Ok a, s')
           | (Exc e, s') => h e s'
           end.

Definition get : st S S := fun s => (Ok s, s).
Definition put (s : S) : st S unit := fun _ => (Ok tt, s).
Definition modify (f : S -> S) : st S unit := fun s => (Ok tt, f s).

(** A pure Python computation that may raise, lifted into [st]. *)
Definition lift_outcome {A} (o : outcome A) : st S A := fun s => (o, s).

(** [m] never raises, from any state. *)
Definition never_raises {A} (m : st S A) : Prop :=
  forall s, exists a s', m s = (Ok a, s').
End Monad.

(** Running a computation on one field of a larger state (the executor
    runs the browser's computations on its page, for instance). *)
Definition zoom {S T A} (getf : S -> T) (setf : T -> S -> S) (m : st T A) : st S A :=
  fun s => let (o, t') := m (getf s) in (o, setf t' s).

Notation "'let!' x ':=' m 'in' k" := (bind m (fun x => k))
  (at level 10, x name, m at level 100, k at level 200) : winky_scope.
Notation "'let!' ' p ':=' m 'in' k" := (bind m (fun x => match x with p => k end))
  (at level 10, p pattern, m at level 100, k at level 200) : winky_scope.
Notation "m '!;' k" := (bind m (fun _ => k))
  (at level 100, right associativity) : winky_scope.

(** Sequencing of pure computations that may raise. *)
Definition obind {A B} (o : outcome A) (k : A -> outcome B) : outcome B :=
  match o with Ok a => k a | Exc e => Exc e end.

Notation "'let?' x ':=' o 'in' k" := (obind o (fun x => k))
  (at level 10, x name, o at level 100, k at level 200) : winky_scope.

Open Scope winky_scope.

(** ** The development's hint database and tactics *)

Create HintDb winky discriminated.
Create Rewrite HintDb winky_rw.

(** Reduce the monad's plumbing in the goal. *)
Ltac st_unfold := unfold bind, ret, raise, try_except, get, put, modify, lift_outcome, zoom in *.

(** Case on the outcome of the computation that heads a [bind]. *)
Ltac st_case m :=
  let o := fresh "o" in let s' := fresh "s" in let E := fresh "E" in
  destruct m as [[?|?] ?] eqn:E.

Ltac inv_pair :=
  repeat match goal with
  | H : (_, _) = (_, _) |- _ => inversion H; clear H; subst
  | H : Ok _ = Ok _ |- _ => inversion H; clear H; subst
  | H : Some _ = Some _ |- _ => inversion H; clear H; subst
  | H : Ok _ = Exc _ |- _ => discriminate H
  | H : Exc _ = Ok _ |- _ => discriminate H
  | H : negb _ = false |- _ => apply negb_false_iff in H
  | H : negb _ = true |- _ => apply negb_true_iff in H
  | H : _ && _ = true |- _ => apply andb_prop in H; destruct H
  | H : bool_decide _ = true |- _ => apply bool_decide_eq_true in H
  | H : bool_decide _ = false |- _ => apply bool_decide_eq_false in H
  | H : ?x = true |- _ => is_var x; subst x
  | H : ?x = false |- _ => is_var x; subst x
  end.

(** Destruct every [match] and [if] in the hypotheses, recording the
    equations, then clean up the pair equations: after unfolding a
    computation in a hypothesis [E : m s = (o, s')], this enumerates its
    paths. *)
Ltac destruct_hyp_matches :=
  repeat match goal with
  | H : context [match ?x with _ => _ end] |- _ => destruct x eqn:?
  | H : context [if ?b then _ else _] |- _ => destruct b eqn:?
  end; inv_pair; try discriminate.

(** ** Monad laws *)

Section Laws.
Context {S : Type}.

Lemma bind_ret_l {A B} (a : A) (k : A -> st S B) s :
  bind (ret a) k s = k a s.
Proof. reflexivity. Qed.

Lemma bind_ok {A B} (m : st S A) (k : A -> st S B) s a s' :
  m s = (Ok a, s') -> bind m k s = k a s'.
Proof. unfold bind. by intros ->. Qed.

Lemma bind_exc {A B} (m : st S A) (k : A -> st S B) s e s' :
  m s = (Exc e, s') -> bind m k s = (Exc e, s').
Proof. unfold bind. by intros ->. Qed.

Lemma bind_assoc {A B C} (m : st S A) (k : A -> st S B) (j : B -> st S C) s :
  bind (bind m k) j s = bind m (fun a => bind (k a) j) s.
Proof. unfold bind. by destruct (m s) as [[a|e] s']. Qed.

Lemma bind_ext {A B} (m : st S A) (k1 k2 : A -> st S B) s :
  (forall a s', k1 a s' = k2 a s') -> bind m k1 s = bind m k2 s.
Proof. intros Hk. unfold bind. destruct (m s) as [[a|e] s']; [apply Hk|done]. Qed.

(** The continuations need only agree on what [m] can return from [s]. *)
Lemma bind_ext_ok {A B} (m : st S A) (k1 k2 : A -> st S B) s :
  (forall a s', m s = (Ok a, s') -> k1 a s' = k2 a s') -> bind m k1 s = bind m k2 s.
Proof. intros Hk. unfold bind. destruct (m s) as [[a|e'] s'] eqn:E; [by apply Hk|done]. Qed.

Lemma try_except_ext {A} (m : st S A) h1 h2 s :
  (forall e s', h1 e s' = h2 e s') -> try_except m h1 s = try_except m h2 s.
Proof. intros Hh. unfold try_except. destruct (m s) as [[a|e] s']; [done|apply Hh]. Qed.

Lemma try_except_ok {A} (m : st S A) h s a s' :
  m s = (Ok a, s') -> try_except m h s = (Ok a, s').
Proof. unfold try_except. by intros ->. Qed.

Lemma try_except_exc {A} (m : st S A) h s e s' :
  m s = (Exc e, s') -> try_except m h s = h e s'.
Proof. unfold try_except. by intros ->. Qed.

(** A handler that never raises makes the whole [try] never raise. *)
Lemma try_except_never_raises {A} (m : st S A) h :
  (forall e, never_raises (h e)) -> never_raises (try_except m h).
Proof.
  intros Hh s. unfold try_except.
  destruct (m s) as [[a|e] s']; [by eauto | apply Hh].
Qed.

Lemma bind_never_raises {A B} (m : st S A) (k : A -> st S B) :
  never_raises m -> (forall a, never_raises (k a)) -> never_raises (bind m k).
Proof.
  intros Hm Hk s. destruct (Hm s) as (a & s' & E).
  rewrite (bind_ok _ _ _ _ _ E). apply Hk.
Qed.

Lemma ret_never_raises {A} (a : A) : never_raises (S:=S) (ret a).
Proof. intros s. by exists a, s. Qed.
End Laws.

(** ** Relations every step of a computation respects

    [st_rel R m]: whatever [m] does, on every outcome, its final state is
    related by [R] to its initial state.  With [R] a preorder the property
    composes through [bind] and [try]; it is how the components' frame
    and append-only properties are proved. *)

Definition st_rel {S A} (R : S -> S -> Prop) (m : st S A) : Prop :=
  forall s o s', m s = (o, s') -> R s s'.

Section StRel.
Context {S : Type} (R : S -> S -> Prop) `{!PreOrder R}.

Lemma st_rel_ret {A} (a : A) : st_rel R (ret a).
Proof. intros s o s' E. inversion E. reflexivity. Qed.

Lemma st_rel_raise {A} e : st_rel R (raise (A:=A) e).
Proof. intros s o s' E. inversion E. reflexivity. Qed.

Lemma st_rel_get : st_rel R get.
Proof. intros s o s' E. inversion E. reflexivity. Qed.

Lemma st_rel_lift_outcome {A} (o : outcome A) : st_rel R (lift_outcome o).
Proof. intros s o' s' E. inversion E. reflexivity. Qed.

Lemma st_rel_modify f : (forall s, R s (f s)) -> st_rel R (modify f).
Proof. intros Hf s o s' E. inversion E. apply Hf. Qed.

Lemma st_rel_bind {A B} (m : st S A) (k : A -> st S B) :
  st_rel R m -> (forall a, st_rel R (k a)) -> st_rel R (bind m k).
Proof.
  intros Hm Hk s o s' E. unfold bind in E.
  destruct (m s) as [[a|e] s1] eqn:Em.
  - etransitivity; [by eapply Hm | by eapply Hk].
  - inversion E; subst. by eapply Hm.
Qed.

Lemma st_rel_try_except {A} (m : st S A) h :
  st_rel R m -> (forall e, st_rel R (h e)) -> st_rel R (try_except m h).
Proof.
  intros Hm Hh s o s' E. unfold try_except in E.
  destruct (m s) as [[a|e] s1] eqn:Em.
  - inversion E; subst. by eapply Hm.
  - etransitivity; [by eapply Hm | by eapply Hh].
Qed.
End StRel.

(** A lens carries a relation of the focused state to the whole state. *)
Lemma st_rel_zoom {S T A} (R : S -> S -> Prop) (R' : T -> T -> Prop)
    (getf : S -> T) (setf : T -> S -> S) (m : st T A) :
  st_rel R' m -> (forall s t', R' (getf s) t' -> R s (setf t' s)) -> st_rel R (zoom getf setf m).
Proof.
  intros Hm Hs s o s' E. unfold zoom in E.
  destruct (m (getf s)) as [o' t'] eqn:Em. inversion E; subst. eapply Hs, Hm, Em.
Qed.

(** One step of the decomposition of a goal [st_rel R m] along the
    structure of [m]; [st_rel_auto] repeats it.  A client that has
    lemmas for its own operations tries them before this step, which
    would otherwise unfold them. *)
Ltac st_rel_step :=
  first
    [ progress intros
    | progress cbv beta
    | apply st_rel_bind
    | apply st_rel_try_except
    | apply st_rel_ret
    | apply st_rel_raise
    | apply st_rel_get
    | apply st_rel_lift_outcome
    | match goal with
      | |- st_rel _ (if ?b then _ else _) => destruct b
      | |- st_rel _ (match ?x with _ => _ end) => destruct x
      | |- PreOrder _ => typeclasses eauto
      end ].

Ltac st_rel_auto := repeat st_rel_step.

#[export] Hint Resolve try_except_never_raises bind_never_raises ret_never_raises : winky.
#[export] Hint Rewrite @bind_ret_l : winky_rw.

(** ** Postconditions on the value a computation returns

    [post P m]: whenever [m] returns normally, its value satisfies [P]
    (a raise satisfies it vacuously).  It composes through [bind] with
    an intermediate postcondition, and through [try] when the handler
    satisfies it too. *)

Definition post {S A} (P : A -> Prop) (m : st S A) : Prop :=
  forall s a s', m s = (Ok a, s') -> P a.

Section Post.
Context {S : Type}.

Lemma post_ret {A} (P : A -> Prop) (a : A) : P a -> post (S:=S) P (ret a).
Proof. intros Ha s a' s' E. by inversion E; subst. Qed.

Lemma post_raise {A} (P : A -> Prop) e : post (S:=S) P (raise e).
Proof. intros s a s' E. discriminate. Qed.

Lemma post_lift_outcome {A} (P : A -> Prop) (o : outcome A) :
  (forall a, o = Ok a -> P a) -> post (S:=S) P (lift_outcome o).
Proof. intros Ho s a s' E. inversion E; subst. by apply Ho. Qed.

Lemma post_true {A} (m : st S A) : post (fun _ => True) m.
Proof. done. Qed.

Lemma post_bind {A B} (P : A -> Prop) (Q : B -> Prop) (m : st S A) (k : A -> st S B) :
  post P m -> (forall a, P a -> post Q (k a)) -> post Q (bind m k).
Proof.
  intros Hm Hk s b s' E. unfold bind in E.
  destruct (m s) as [[a|e] s1] eqn:Em; [|discriminate]. by eapply Hk; [eapply Hm|].
Qed.

Lemma post_try_except {A} (P : A -> Prop) (m : st S A) h :
  post P m -> (forall e, post P (h e)) -> post P (try_except m h).
Proof.
  intros Hm Hh s a s' E. unfold try_except in E.
  destruct (m s) as [[a'|e] s1] eqn:Em; [inversion E; subst; by eapply Hm|by eapply Hh].
Qed.

(** [bind] through a step whose value is not constrained. *)
Lemma post_bind_any {A B} (Q : B -> Prop) (m : st S A) (k : A -> st S B) :
  (forall a, post Q (k a)) -> post Q (bind m k).
Proof. intros Hk. apply (post_bind (fun _ => True)); [apply post_true|by intros a _]. Qed.
End Post.

(** ** Generic list lemmas shared by the components *)

(** The result of appending the chunks [f i] for the first [n] items in
    order: the accumulation pattern [acc.extend(chunk)] of the loop. *)
Lemma fold_left_app_concat {A} (l : list (list A)) (acc : list A) :
  fold_left (fun a c => a ++ c) l acc = acc ++ concat l.
Proof.
  revert acc. induction l as [|c l IH]; intros acc; simpl.
  - by rewrite app_nil_r.
  - by rewrite IH, app_assoc.
Qed.

Lemma forallb_map {A B} (f : B -> bool) (g : A -> B) (l : list A) :
  forallb f (map g l) = forallb (fun x => f (g x)) l.
Proof. induction l as [|x l IH]; simpl; [done|by rewrite IH]. Qed.

Lemma Z_to_nat_pos_S (a b : Z) :
  (a < b)%Z -> exists n, Z.to_nat (b - a) = S n /\ Z.to_nat (b - (a + 1)) = n.
Proof. intros H. exists (Z.to_nat (b - (a + 1))). split; lia. Qed.

(** ** Generic string lemmas

    stdpp makes [String.append] opaque to [simpl]; the inductive steps
    hold by conversion. *)

Lemma string_app_assoc (a b c : string) : (a +:+ b) +:+ c = a +:+ (b +:+ c).
Proof. induction a as [|x a IH]; [done|exact (f_equal (String x) IH)]. Qed.

Lemma string_app_nil_r (a : string) : a +:+ "" = a.
Proof. induction a as [|x a IH]; [done|exact (f_equal (String x) IH)]. Qed.

Lemma string_app_length (a b : string) :
  String.length (a +:+ b) = String.length a + String.length b.
Proof. induction a as [|x a IH]; [done|exact (f_equal S IH)]. Qed.

Lemma string_prefix_app (p x : string) : String.prefix p (p +:+ x) = true.
Proof.
  induction p as [|a p IH]; [by destruct x|].
  change (String a p +:+ x) with (String a (p +:+ x)). cbn [String.prefix].
  by destruct (Ascii.ascii_dec a a).
Qed.

Lemma string_substring_full (x : string) : String.substring 0 (String.length x) x = x.
Proof. induction x as [|a x IH]; [done|exact (f_equal (String a) IH)]. Qed.

(** Dropping a prefix: [(p + x)[len(p):] == x]. *)
Lemma string_substring_app (p x : string) :
  String.substring (String.length p) (String.length x) (p +:+ x) = x.
Proof. induction p as [|a p IH]; [apply string_substring_full|exact IH]. Qed.

Lemma string_substring_prefix (x y : string) : String.substring 0 (String.length x) (x +:+ y) = x.
Proof. induction x as [|a x IH]; [by destruct y|exact (f_equal (String a) IH)]. Qed.

Lemma string_substring_shift (p s : string) n m :
  String.substring (String.length p + n) m (p +:+ s) = String.substring n m s.
Proof. induction p as [|a p IH]; [done|exact IH]. Qed.

Lemma list_ascii_of_string_app (a b : string) :
  String.list_ascii_of_string (a +:+ b) = String.list_ascii_of_string a ++ String.list_ascii_of_string b.
Proof. induction a as [|x a IH]; [done|exact (f_equal (cons x) IH)]. Qed.

Lemma string_of_list_ascii_app (a b : list Ascii.ascii) :
  String.string_of_list_ascii (a ++ b) = String.string_of_list_ascii a +:+ String.string_of_list_ascii b.
Proof. induction a as [|x a IH]; [done|exact (f_equal (String x) IH)]. Qed.

#[export] Hint Rewrite string_app_assoc string_app_nil_r string_app_length : winky_rw.
