(* ===== verification/PyData.v ===== *)
(** * Python data as the code uses it

    The values that flow through winky are JSON-like Python values: task
    and parameter dicts produced by the planner, action results, log
    entries.  This file gives them one inductive type [Value], dicts as
    insertion-ordered association lists with Python's [d.get(k, default)]
    and [d[k] = v], truthiness ([if x:]), [str()], the string methods the
    code calls, Python's dynamically typed comparisons, and the
    [ActionResult] class of src/actions/base.py with [validate_params]. *)

From S2P Require Import Prelude.
From Stdlib Require Import Ascii.

(** ** Values *)

#[local] Set Warnings "-register-all".

(** [VObj h] is an opaque Python object, such as a Playwright element
    handle; it is truthy and has no fields the code reads directly.
    [VRef n] is a reference to the [n]-th mutable dict of the executor's
    heap (a task's [params] dict, shared by the task and the log entries
    that record it); only the recorder holds such references. *)
Inductive Value : Type :=
| VNone
| VBool (b : bool)
| VInt (z : Z)
| VStr (s : string)
| VList (l : list Value)
| VDict (d : list (string * Value))
| VObj (h : N)
| VRef (n : nat).

(** A Python dict with string keys, in insertion order. *)
Abbreviation Dict := (list (string * Value)).

(** ** Dicts *)

(** [d.get(k)]: the value of the first binding of [k]. *)
Fixpoint dget {V} (d : list (string * V)) (k : string) : option V :=
  match d with
  | [] => None
  | (k', v) :: d' => if String.eqb k' k then Some v else dget d' k
  end.

(** [d.get(k, default)] *)
Definition dget_or (d : Dict) (k : string) (default : Value) : Value :=
  match dget d k with Some v => v | None => default end.

(** [d[k] = v]: replaces the value in place when [k] is bound, appends
    the binding at the end otherwise (Python keeps insertion order). *)
Fixpoint dset {V} (d : list (string * V)) (k : string) (v : V) : list (string * V) :=
  match d with
  | [] => [(k, v)]
  | (k', v') :: d' => if String.eqb k' k then (k', v) :: d' else (k', v') :: dset d' k v
  end.

(** [{k: v for k, v in d.items() if k != key}] *)
Definition ddel {V} (d : list (string * V)) (key : string) : list (string * V) :=
  List.filter (fun kv => negb (String.eqb kv.1 key)) d.

(** A dict has each key once. *)
Definition dict_wf {V} (d : list (string * V)) : Prop := NoDup d.*1.

(** ** Truthiness, [str()] and comparisons *)

(** [bool(v)] *)
Definition truthy (v : Value) : bool :=
  match v with
  | VNone => false
  | VBool b => b
  | VInt z => negb (Z.eqb z 0)
  | VStr s => negb (String.eqb s "")
  | VList l => negb (bool_decide (l = []))
  | VDict d => negb (bool_decide (d = []))
  | VObj _ | VRef _ => true
  end.

(** [v is None] *)
Definition is_none (v : Value) : bool := match v with VNone => true | _ => false end.

(** [v == "s"] for a string literal [s]. *)
Definition is_str (v : Value) (s : string) : bool :=
  match v with VStr s' => String.eqb s' s | _ => false end.

Definition join_with (sep : string) (l : list string) : string :=
  match l with
  | [] => ""
  | x :: l' => fold_left (fun acc y => acc +:+ sep +:+ y) l' x
  end.

(** [repr(v)] (string escapes are not modelled). *)
Fixpoint py_repr (v : Value) : string :=
  match v with
  | VNone => "None"
  | VBool true => "True"
  | VBool false => "False"
  | VInt z => pretty z
  | VStr s => "'" +:+ s +:+ "'"
  | VList l => "[" +:+ join_with ", " (map py_repr l) +:+ "]"
  | VDict d => "{" +:+ join_with ", " (map (fun kv => "'" +:+ kv.1 +:+ "': " +:+ py_repr kv.2) d) +:+ "}"
  | VObj _ => "<object>"
  | VRef _ => "<dict>"
  end.

(** [str(v)] *)
Definition py_str (v : Value) : string :=
  match v with VStr s => s | _ => py_repr v end.

(** [str(e)] for an optional error message. *)
Definition err_str (e : option string) : string :=
  match e with Some s => s | None => "None" end.

(** The integer a value stands for in arithmetic ([True] is [1]). *)
Definition as_int (v : Value) : option Z :=
  match v with
  | VInt z => Some z
  | VBool b => Some (if b then 1 else 0)%Z
  | _ => None
  end.

Definition type_error (op : string) : string :=
  "TypeError: '" +:+ op +:+ "' not supported between these operand types".

(** [a < b]: numbers compare as numbers, strings lexicographically,
    anything else raises [TypeError]. *)
Definition py_lt (a b : Value) : outcome bool :=
  match as_int a, as_int b, a, b with
  | Some x, Some y, _, _ => Ok (Z.ltb x y)
  | _, _, VStr x, VStr y => Ok (match String.compare x y with Lt => true | _ => false end)
  | _, _, _, _ => Exc (type_error "<")
  end.

(** [a >= b] *)
Definition py_ge (a b : Value) : outcome bool :=
  match py_lt a b with Ok r => Ok (negb r) | Exc e => Exc (type_error ">=") end.

(** [a > 0] for a delay. *)
Definition py_gt0 (a : Value) : outcome bool :=
  match as_int a with Some x => Ok (Z.ltb 0 x) | None => Exc (type_error ">") end.

(** The milliseconds of [asyncio.sleep(v / 1000)]; [/] on a non-number
    raises. *)
Definition as_ms (v : Value) : outcome Z :=
  match as_int v with
  | Some x => Ok x
  | None => Exc "TypeError: unsupported operand type(s) for /"
  end.

(** [type(v).__name__] *)
Definition py_type_name (v : Value) : string :=
  match v with
  | VNone => "NoneType" | VBool _ => "bool" | VInt _ => "int" | VStr _ => "str"
  | VList _ => "list" | VDict _ | VRef _ => "dict" | VObj _ => "object"
  end.

(** The message of calling a missing method [m] on [v]. *)
Definition no_method (v : Value) (m : string) : string :=
  "AttributeError: '" +:+ py_type_name v +:+ "' object has no attribute '" +:+ m +:+ "'".

(** [d.get(...)] on a value that must be a dict. *)
Definition as_dict (v : Value) : outcome Dict :=
  match v with
  | VDict d => Ok d
  | _ => Exc (no_method v "get")
  end.

(** [v.get(key, default)] *)
Definition py_get (v : Value) (key : string) (default : Value) : outcome Value :=
  match v with
  | VDict d => Ok (dget_or d key default)
  | _ => Exc (no_method v "get")
  end.

(** [d[k]] on a value that must be a dict. *)
Definition py_subscript (v : Value) (k : string) : outcome Value :=
  match v with
  | VDict d => match dget d k with Some x => Ok x | None => Exc ("KeyError: '" +:+ k +:+ "'") end
  | _ => Exc ("TypeError: '" +:+ py_type_name v +:+ "' object is not subscriptable")
  end.

(** [os.getenv(k, default)] over the process environment [env]. *)
Definition getenv (env : list (string * string)) (k d : string) : string := default d (dget env k).

(** [**params] *)
Definition as_kwargs (v : Value) : outcome Dict :=
  match v with
  | VDict d => Ok d
  | _ => Exc "TypeError: argument after ** must be a mapping"
  end.

(** Iterating a value in a [for] loop: lists give their items, dicts their
    keys, strings their characters; anything else raises. *)
Definition as_iter (v : Value) : outcome (list Value) :=
  match v with
  | VList l => Ok l
  | VDict d => Ok (map (fun kv => VStr kv.1) d)
  | VStr s => Ok (map (fun c => VStr (String c EmptyString)) (String.list_ascii_of_string s))
  | _ => Exc "TypeError: object is not iterable"
  end.

(** ** String methods *)

Definition ascii_lower (c : ascii) : ascii :=
  let n := nat_of_ascii c in
  if (65 <=? n) && (n <=? 90) then ascii_of_nat (n + 32) else c.

(** [s.lower()] on ASCII text. *)
Fixpoint lower (s : string) : string :=
  match s with
  | EmptyString => EmptyString
  | String c s' => String (ascii_lower c) (lower s')
  end.

(** [needle in hay] *)
Definition str_contains (needle hay : string) : bool :=
  match String.index 0 needle hay with Some _ => true | None => false end.

(** The double quote character. *)
Definition dq : string := String (Ascii.ascii_of_nat 34) EmptyString.

(** The newline character. *)
Definition nl : string := String (Ascii.ascii_of_nat 10) EmptyString.

(** [s.split(sep)[0]]: the text before the first occurrence of [sep]. *)
Definition split_first (sep s : string) : string :=
  match String.index 0 sep s with
  | Some n => String.substring 0 n s
  | None => s
  end.

(** [v.split(" (")[0]] *)
Definition py_split_first (v : Value) : outcome string :=
  match v with
  | VStr s => Ok (split_first " (" s)
  | _ => Exc (no_method v "split")
  end.

Definition is_space (c : ascii) : bool :=
  match nat_of_ascii c with 32 | 9 | 10 | 11 | 12 | 13 => true | _ => false end.

Fixpoint lstrip (s : string) : string :=
  match s with
  | String c s' => if is_space c then lstrip s' else s
  | EmptyString => EmptyString
  end.

Definition string_rev (s : string) : string :=
  String.string_of_list_ascii (rev (String.list_ascii_of_string s)).

(** [s.strip()] on ASCII whitespace. *)
Definition strip (s : string) : string := string_rev (lstrip (string_rev (lstrip s))).

(** [s.lower()] on a value: strings only. *)
Definition py_lower (v : Value) : outcome string :=
  match v with VStr s => Ok (lower s) | _ => Exc (no_method v "lower") end.

(** ** Paths and timestamps *)

(** [s.startswith("/")], [s.endswith("/")] *)
Definition starts_with_slash (s : string) : bool :=
  match s with String "/"%char _ => true | _ => false end.
Definition ends_with_slash (s : string) : bool := starts_with_slash (string_rev s).

(** [os.path.join(a, b)] *)
Definition path_join (a b : string) : string :=
  if starts_with_slash b then b
  else if String.eqb a "" || ends_with_slash a then a +:+ b else a +:+ "/" +:+ b.

(** The decimal digit [d] (0 to 9) as a character. *)
Definition digit (d : Z) : ascii := ascii_of_nat (48 + Z.to_nat d).

(** [z] in decimal on [n] digits, zero-padded ([%Y], [%m], ...). *)
Fixpoint pad (n : nat) (z : Z) : string :=
  match n with
  | O => ""
  | S n' => pad n' (z / 10) +:+ String (digit (z mod 10)) ""
  end.

(** Year, month and day of the [days]-th day after 1970-01-01. *)
Definition civil_from_days (days : Z) : Z * Z * Z :=
  (let z := days + 719468 in
  let era := z / 146097 in
  let doe := z - era * 146097 in
  let yoe := (doe - doe / 1460 + doe / 36524 - doe / 146096) / 365 in
  let doy := doe - (365 * yoe + yoe / 4 - yoe / 100) in
  let mp := (5 * doy + 2) / 153 in
  let d := doy - (153 * mp + 2) / 5 + 1 in
  let m := if mp <? 10 then mp + 3 else mp - 9 in
  (yoe + era * 400 + (if m <=? 2 then 1 else 0), m, d))%Z.

(** [datetime.now().strftime("%Y%m%d_%H%M%S")] of a clock reading: a
    reading [VInt ms] is a count of milliseconds since 1970-01-01. *)
Definition strftime_ts (t : Value) : string :=
  (match t with
  | VInt ms =>
      let secs := ms / 1000 in
      let '(y, m, d) := civil_from_days (secs / 86400) in
      let s := secs mod 86400 in
      pad 4 y +:+ pad 2 m +:+ pad 2 d +:+ "_" +:+
      pad 2 (s / 3600) +:+ pad 2 (s mod 3600 / 60) +:+ pad 2 (s mod 60)
  | v => py_str v
  end)%Z.

(** [s.endswith(suffix)] *)
Definition str_ends_with (suffix s : string) : bool :=
  String.prefix (string_rev suffix) (string_rev s).

(** ** Action results (src/actions/base.py) *)

Record ActionResult : Type := mkResult {
  ar_success : bool;
  ar_action_name : Value;
  ar_data : Value;
  ar_error : option string;
  ar_metadata : Dict
}.

(** [ActionResult(success=False, action_name=name, error=msg)] *)
Definition fail_result (name : Value) (msg : string) : ActionResult :=
  mkResult false name VNone (Some msg) [].

(** [ActionResult(success=True, action_name=name, data=data, metadata=md)] *)
Definition ok_result (name : Value) (data : Value) (md : Dict) : ActionResult :=
  mkResult true name data None md.

Definition opt_str (e : option string) : Value :=
  match e with Some s => VStr s | None => VNone end.

(** [ActionResult.to_dict] *)
Definition to_dict (r : ActionResult) : Value :=
  VDict [("action", ar_action_name r); ("success", VBool (ar_success r));
         ("data", ar_data r); ("error", opt_str (ar_error r));
         ("metadata", VDict (ar_metadata r))].

(** [BaseAction.validate_params(required, provided)] *)
Definition validate_params (required : list string) (provided : Dict) : option string :=
  let missing := List.filter (fun p => match dget provided p with
                                  | None | Some VNone => true
                                  | Some _ => false end) required in
  match missing with
  | [] => None
  | _ => Some ("Missing required parameters: " +:+ join_with ", " missing)
  end.

(** ** Lemmas on dicts and values *)

Lemma dget_dset_eq {V} (d : list (string * V)) k v : dget (dset d k v) k = Some v.
Proof.
  induction d as [|[k' v'] d IH]; simpl.
  - by rewrite String.eqb_refl.
  - destruct (String.eqb_spec k' k) as [->|Hne]; simpl.
    + by rewrite String.eqb_refl.
    + apply String.eqb_neq in Hne. by rewrite Hne.
Qed.

Lemma dget_dset_ne {V} (d : list (string * V)) k k2 v : k <> k2 -> dget (dset d k v) k2 = dget d k2.
Proof.
  intros Hne. induction d as [|[k' v'] d IH]; simpl.
  - apply String.eqb_neq in Hne. by rewrite Hne.
  - destruct (String.eqb_spec k' k) as [->|Hk]; simpl.
    + apply String.eqb_neq in Hne. by rewrite Hne.
    + by rewrite IH.
Qed.

Lemma dset_elem_of {V} (d : list (string * V)) k v : (k, v) ∈ dset d k v.
Proof.
  induction d as [|[k' v'] d IH]; cbn [dset]; [by left|].
  destruct (String.eqb_spec k' k) as [->|_]; [by left|by right].
Qed.

Lemma list_ascii_of_string_rev (s : string) :
  String.list_ascii_of_string (string_rev s) = rev (String.list_ascii_of_string s).
Proof. unfold string_rev. apply String.list_ascii_of_string_of_list_ascii. Qed.

Lemma string_rev_app (a b : string) : string_rev (a +:+ b) = string_rev b +:+ string_rev a.
Proof. unfold string_rev. by rewrite list_ascii_of_string_app, rev_app_distr, string_of_list_ascii_app. Qed.

Lemma string_length_ascii (s : string) : String.length s = length (String.list_ascii_of_string s).
Proof. induction s as [|a s IH]; [done|exact (f_equal S IH)]. Qed.

Lemma string_rev_length (s : string) : String.length (string_rev s) = String.length s.
Proof. by rewrite !string_length_ascii, list_ascii_of_string_rev, length_rev. Qed.

Lemma str_ends_with_app (suffix s : string) : str_ends_with suffix (s +:+ suffix) = true.
Proof.
  unfold str_ends_with, string_rev.
  rewrite list_ascii_of_string_app, rev_app_distr, string_of_list_ascii_app.
  apply string_prefix_app.
Qed.

Lemma dset_keys_elem {V} (d : list (string * V)) k v x : x ∈ (dset d k v).*1 -> x ∈ d.*1 \/ x = k.
Proof.
  induction d as [|[k' v'] d IH]; simpl.
  - set_solver.
  - destruct (String.eqb_spec k' k) as [->|Hk]; simpl; [set_solver|].
    rewrite !elem_of_cons. intros [->|Hx]; [tauto|]. destruct (IH Hx); tauto.
Qed.

(** Assigning an item keeps a dict well formed. *)
Lemma dset_wf {V} (d : list (string * V)) k v : dict_wf d -> dict_wf (dset d k v).
Proof.
  unfold dict_wf. induction d as [|[k' v'] d IH]; simpl.
  - intros _. apply NoDup_singleton.
  - rewrite NoDup_cons. intros [Hn Hd].
    destruct (String.eqb_spec k' k) as [->|Hk]; simpl; rewrite NoDup_cons; [done|].
    split; [|by apply IH]. intros Hin.
    destruct (dset_keys_elem _ _ _ _ Hin); [by apply Hn | congruence].
Qed.

Lemma dset_length_le {V} (d : list (string * V)) k v : length (dset d k v) <= S (length d).
Proof.
  induction d as [|[k' v'] d IH]; simpl; [lia|].
  destruct (String.eqb k' k); simpl; lia.
Qed.

Lemma dget_ddel_ne {V} (d : list (string * V)) k k2 : k <> k2 -> dget (ddel d k) k2 = dget d k2.
Proof.
  intros Hne. induction d as [|[k' v'] d IH]; [done|].
  unfold ddel in *. simpl.
  destruct (String.eqb_spec k' k) as [->|Hk]; simpl.
  - apply String.eqb_neq in Hne. by rewrite Hne.
  - by rewrite IH.
Qed.

Lemma dget_ddel_eq {V} (d : list (string * V)) k : dget (ddel d k) k = None.
Proof.
  induction d as [|[k' v'] d IH]; [done|].
  unfold ddel in *. simpl.
  destruct (String.eqb_spec k' k) as [->|Hk]; simpl; [done|].
  apply String.eqb_neq in Hk. by rewrite Hk.
Qed.

Lemma is_str_iff v s : is_str v s = true <-> v = VStr s.
Proof.
  destruct v; simpl; split; try discriminate; intros H.
  - apply String.eqb_eq in H. by subst.
  - inversion H. apply String.eqb_refl.
Qed.

Lemma py_lt_int (x y : Z) : py_lt (VInt x) (VInt y) = Ok (Z.ltb x y).
Proof. reflexivity. Qed.

Lemma py_ge_int (x y : Z) : py_ge (VInt x) (VInt y) = Ok (Z.leb y x).
Proof. unfold py_ge. simpl. by rewrite Z.leb_antisym. Qed.

#[export] Hint Rewrite @dget_dset_eq @dget_ddel_eq py_lt_int py_ge_int : winky_rw.
