(* ===== verification/Env.v ===== *)
(** * The boundary to the browser driver and the action registry

    Playwright, the clock, the random source, the language model's HTTP
    API and the ChromaDB collection are not part of winky;
    the code only calls them.  They are modelled here as one handler:
    every call the code makes ([page.goto], [page.click],
    [page.query_selector], [element.get_attribute], [asyncio.sleep],
    [datetime.now], [uuid.uuid4], ...) is a constructor of [call], and an
    [Env] answers a call in its world with a Python value or an
    exception.  Theorems about the components hold for every [Env];
    those that need the page to behave in some way say so in their
    hypotheses.

    The second half gives the registry of action classes of
    src/core/executor.py ([action_registry]), and [ActionImpl], the
    interface through which the executor and the loop run a one-shot
    action ([action_class(page).execute( **params)]), with the contract of
    spec section 4.1 ([ActionContract]: an action never raises). *)

From Stdlib Require Import QArith.
From S2P Require Import Prelude PyData.

(** ** Calls into the driver *)

(** The JSON body [OllamaClient] posts to the Ollama API (src/llm/
    ollama_client.py): its ["options"] dict, and the payload dict of
    [generate] and of [chat], whose keys ["system"] and ["format"] are
    present exactly when the field is [Some].  The temperature is a
    Python float, kept as a rational. *)
Record llm_options : Type := mkOptions {
  opt_temperature : Q;
  opt_num_predict : Z
}.

Inductive http_body : Type :=
| GenerateBody (model prompt : string) (stream : bool) (options : llm_options)
               (system format : option string)
| ChatBody (model : string) (messages : Value) (stream : bool) (options : llm_options)
           (format : option string).

Inductive call : Type :=
| Goto (url : string) (wait_until : string)      (** [page.goto(url, wait_until=...)] *)
| Reload (wait_until : string)                   (** [page.reload(wait_until=...)] *)
| ClickSel (sel : string) (timeout : option Z)   (** [page.click(selector[, timeout=...])] *)
| Fill (sel : string) (text : string)            (** [page.fill(selector, text)] *)
| TypeSel (sel : string) (text : string)         (** [page.type(selector, text)] *)
| Press (sel : string) (key : string)            (** [page.press(selector, key)] *)
| QuerySelector (sel : string)                   (** [page.query_selector]: [None] or a handle *)
| QuerySelectorAll (sel : string)                (** [page.query_selector_all]: a list of handles *)
| GetAttribute (h : N) (name : string)           (** [element.get_attribute(name)] *)
| TextContent (h : N)                            (** [element.text_content()] *)
| ClickElem (h : N)                              (** [element.click()] *)
| Evaluate (script : string)                     (** [page.evaluate(script)] *)
| Sleep (ms : Z)                                 (** [asyncio.sleep(ms / 1000)] *)
| SleepSec (secs : Q)                            (** [asyncio.sleep(secs)], a float of seconds *)
| Now                                            (** [datetime.now()], as an integer clock *)
| Uuid4Hex                                       (** [uuid.uuid4().hex] *)
(** The calls of the one-shot actions, whose arguments are the action's
    parameters as the plan gives them: Playwright decides what it
    accepts. *)
| NavGoto (url wait_until timeout : Value)       (** [page.goto(url, wait_until=, timeout=)] *)
| RespStatus (response : Value)                  (** [response.status] *)
| PageClick (locator timeout : Value)            (** [page.click(locator, timeout=)] *)
| WaitLoad (state timeout : Value)               (** [page.wait_for_load_state(state, timeout=)] *)
| WaitSel (sel timeout state : Value)            (** [page.wait_for_selector(sel, timeout=, state=)] *)
| PageReload (wait_until timeout : Value)        (** [page.reload(wait_until=, timeout=)] *)
| PageUrl                                        (** [page.url] *)
| LocVisible (loc timeout : Value)               (** [page.locator(loc).first.is_visible(timeout=)] *)
| LocWaitFor (loc state timeout : Value)         (** [...first.wait_for(state=, timeout=)] *)
| LocClick (loc : Value)                         (** [...first.click()] *)
| LocFill (loc text : Value)                     (** [...first.fill(text)] *)
| LocType (loc text delay : Value)               (** [...first.type(text, delay=)] *)
| LocPress (loc key : Value)                     (** [...first.press(key)] *)
| LocScroll (loc : Value)                        (** [...first.scroll_into_view_if_needed()] *)
(** The calls of the extraction and inspection actions. *)
| ElemQuery (h : N) (sel : Value)                (** [element.query_selector(sel)] *)
| ElemQueryAll (h : N) (sel : string)            (** [element.query_selector_all(sel)] *)
| PageTitle                                      (** [page.title()] *)
| LocCount (loc : Value)                         (** [page.locator(loc).count()] *)
| AxSnapshot                                     (** [page.accessibility.snapshot()] *)
(** The calls of the tab and screenshot actions; [h] names a page of
    the browser context, [PageClose] closes the action's own page. *)
| CtxPages                                       (** [context.pages] *)
| CtxNewPage                                     (** [context.new_page()] *)
| GotoOn (h : N) (url : Value) (wait_until : string) (** [page.goto(url, wait_until=...)] *)
| PageCloseOn (h : N)                            (** [pages[i].close()] *)
| PageClose                                      (** [self.page.close()] *)
| BringToFront (h : N)                           (** [pages[i].bring_to_front()] *)
| PageUrlOf (h : N)                              (** [pages[i].url] *)
| PageTitleOf (h : N)                            (** [pages[i].title()] *)
| PageScreenshot (path : string) (full_page : Value) (** [page.screenshot(path=, full_page=)] *)
| ElemScreenshot (h : N) (path : string)         (** [element.screenshot(path=)] *)
(** The browser's lifecycle and the file system: *)
| PwCall (target : Value) (meth : string) (args : list Value) (kwargs : Dict)
    (** [target.meth( *args, **kwargs)] on a Playwright object ([None]:
        a module-level call such as [async_playwright().start()]) *)
| Makedirs (path : string)                        (** [os.makedirs(path, exist_ok=True)] *)
(** The language model's HTTP API (a response is [http_response]) and
    the memory store: *)
| LocatorFill (loc text : string)                (** [page.locator(loc).fill(text)] *)
| LocatorType (loc text : string) (delay : Z)     (** [page.locator(loc).type(text, delay=)] *)
| LocatorPress (loc key : string)                 (** [page.locator(loc).press(key)] *)
| HttpPost (url : string) (body : http_body)     (** [client.post(url, json=body)]: the response *)
| HttpGet (url : string)                          (** [client.get(url)]: the response *)
| HttpClose                                       (** [client.aclose()] *)
| VsAdd (content : string) (meta : Dict) (id : string) (** [collection.add(documents=, metadatas=, ids=)] *)
| VsQuery (query : string) (n : Z) (where_ : Value) (** [collection.query(query_texts=[q], n_results=n, where=w)] *)
| VsGetAll                                        (** [collection.get(include=["documents", "metadatas"])] *)
| VsCount                                         (** [collection.count()] *)
| VsRecreate                                      (** [client.delete_collection(...)] then [create_collection(...)] *)
| ChromaClient (path : string)                    (** [chromadb.PersistentClient(path=path, settings=...)] *)
| ChromaCollection (name : string).               (** [client.get_or_create_collection(name=name, metadata=...)] *)

(** An [httpx.Response] as the client's calls return it: its status
    code and its body text, which [response.json()] parses. *)
Definition http_response (code : Z) (body : string) : Value :=
  VDict [("status_code", VInt code); ("text", VStr body)].

Class Env : Type := {
  world : Type;
  handle : call -> world -> outcome Value * world
}.

Section Calls.
Context `{Env}.

Definition io (c : call) : st world Value := handle c.

Definition as_str (v : Value) : outcome string :=
  match v with
  | VStr s => Ok s
  | _ => Exc ("TypeError: expected str, got " +:+ py_type_name v)
  end.

(** [page.query_selector(selector)] *)
Definition query_selector (sel : Value) : st world Value :=
  let! s := lift_outcome (as_str sel) in io (QuerySelector s).

(** [page.query_selector_all(selector)], iterated by a [for] loop *)
Definition query_selector_all (sel : Value) : st world (list Value) :=
  let! s := lift_outcome (as_str sel) in
  let! r := io (QuerySelectorAll s) in
  lift_outcome (as_iter r).

(** [el.get_attribute(name)] *)
Definition get_attribute (el : Value) (name : Value) : st world Value :=
  match el with
  | VObj h => let! n := lift_outcome (as_str name) in io (GetAttribute h n)
  | _ => raise (no_method el "get_attribute")
  end.

(** [el.text_content()] *)
Definition text_content (el : Value) : st world Value :=
  match el with
  | VObj h => io (TextContent h)
  | _ => raise (no_method el "text_content")
  end.

(** [el.query_selector(sel)] *)
Definition elem_query (el : Value) (sel : Value) : st world Value :=
  match el with
  | VObj h => io (ElemQuery h sel)
  | _ => raise (no_method el "query_selector")
  end.

(** [el.query_selector_all(sel)], iterated by a [for] loop *)
Definition elem_query_all (el : Value) (sel : string) : st world (list Value) :=
  match el with
  | VObj h => let! r := io (ElemQueryAll h sel) in lift_outcome (as_iter r)
  | _ => raise (no_method el "query_selector_all")
  end.

(** [el.click()] *)
Definition click_elem (el : Value) : st world Value :=
  match el with
  | VObj h => io (ClickElem h)
  | _ => raise (no_method el "click")
  end.

(** [await asyncio.sleep(v / 1000)] *)
Definition sleep_ms (v : Value) : st world Value :=
  let! ms := lift_outcome (as_ms v) in io (Sleep ms).

(** [v.strip()] *)
Definition py_strip (v : Value) : outcome Value :=
  match v with
  | VStr s => Ok (VStr (strip s))
  | _ => Exc (no_method v "strip")
  end.
End Calls.

(** ** The action registry *)

(** The one-shot action classes of src/actions/, and the loop. *)
Inductive simple_kind : Type :=
| KClick | KNavigate | KExtract | KTypeText | KWait | KReload
| KTab | KScroll | KScreenshot | KInspect
| KCustom (name : string).   (** a class added by [register_action] *)

Inductive action_class : Type :=
| Simple (k : simple_kind)
| LoopClass.

Abbreviation registry := (list (string * action_class)).

(** [Executor.__init__]'s [self.action_registry] *)
Definition default_registry : registry :=
  [("click", Simple KClick); ("navigate", Simple KNavigate);
   ("extract", Simple KExtract); ("type_text", Simple KTypeText);
   ("wait", Simple KWait); ("loop", LoopClass); ("reload", Simple KReload);
   ("tab", Simple KTab); ("scroll", Simple KScroll);
   ("screenshot", Simple KScreenshot); ("inspect", Simple KInspect)].

(** [Executor.register_action(name, cls)] *)
Definition register_action (reg : registry) (name : string) (c : action_class) : registry :=
  dset reg name c.

(** [registry.get(action_name)]: a string is looked up, other hashable
    values are never keys, lists and dicts are unhashable. *)
Definition reg_lookup (reg : registry) (v : Value) : outcome (option action_class) :=
  match v with
  | VStr s => Ok (dget reg s)
  | VList _ | VDict _ => Exc "TypeError: unhashable type"
  | _ => Ok None
  end.

(** How the executor and the loop run a one-shot action:
    [act_execute k has_context params] is
    [cls(page[, context]).execute( **params)] for the class [k]; the flag
    says whether a browser context was passed (only [TabAction] uses
    it). *)
Class ActionImpl `{Env} : Type := {
  act_execute : simple_kind -> bool -> Dict -> st world ActionResult
}.

(** Spec section 4.1: an action never raises to its caller. *)
Class ActionContract `{Env} `{ActionImpl} : Prop := {
  act_never_raises : forall k c p, never_raises (act_execute k c p)
}.

(** ** Lemmas *)

Lemma reg_lookup_str (reg : registry) s : reg_lookup reg (VStr s) = Ok (dget reg s).
Proof. reflexivity. Qed.

Lemma default_registry_extract : dget default_registry "extract" = Some (Simple KExtract).
Proof. reflexivity. Qed.

Lemma register_action_lookup (reg : registry) name c :
  dget (register_action reg name c) name = Some c.
Proof. apply dget_dset_eq. Qed.

#[export] Hint Rewrite reg_lookup_str : winky_rw.
