(* ===== verification/Mock.v ===== *)
(** * A concrete world for the witnesses

    A small deterministic stand-in for Playwright: a site whose listing
    is split into pages of items, with a "button.next" control while a
    next page exists, a set of selectors that [page.click] finds (other
    clicks time out, as Playwright does), a clock advanced by
    [asyncio.sleep] and a counter behind [uuid4].  [mock_actions] is a
    test double for the one-shot actions (navigate, click, extract,
    inspect, ...) that answers through this world and never raises.
    [accept_env] is a page on which every call succeeds and changes
    nothing, [disabled_env] a page whose next button carries an empty
    [disabled] attribute, and [tabs_env] a browser context whose world
    is its list of open pages.  The site's language model answers every
    prompt with a plan wrapped in prose, whose one task is a string;
    [mock_loads] is a [json.loads] double that reads that plan.
    Nothing here models code of src/; it
    only gives the theorems of the other files concrete inputs. *)

From Stdlib Require Import QArith Qround.
From S2P Require Import Prelude PyData Env.

Record site : Type := mkSite {
  s_pages : list (list string);   (** the items listed on each page *)
  s_page : nat;                   (** the page shown *)
  s_clock : Z;                    (** milliseconds *)
  s_ids : N;                      (** uuid4 calls so far *)
  s_clickable : list string       (** selectors [page.click] finds *)
}.

Definition next_handle : N := 1000.
Definition response_handle : N := 2000.

Definition cur_items (s : site) : list string := default [] (s_pages s !! s_page s).

Definition set_page (n : nat) (s : site) : site :=
  mkSite (s_pages s) n (s_clock s) (s_ids s) (s_clickable s).

Definition tick (ms : Z) (s : site) : site :=
  mkSite (s_pages s) (s_page s) (s_clock s + Z.max 0 ms) (s_ids s) (s_clickable s).

Definition timeout_error (sel : string) : string :=
  "Timeout 5000ms exceeded waiting for " +:+ sel.

Definition clickable (s : site) (sel : string) : bool :=
  bool_decide (sel ∈ s_clickable s).

(** A double-quoted JSON string. *)
Definition json_quote (s : string) : string :=
  String (Ascii.ascii_of_nat 34) (s +:+ String (Ascii.ascii_of_nat 34) EmptyString).

(** The JSON object [{"tasks": ["navigate"]}]: a plan whose one task is
    a string, not a dict. *)
Definition mock_plan_json : string :=
  "{" +:+ json_quote "tasks" +:+ ": [" +:+ json_quote "navigate" +:+ "]}".

(** What the mock language model answers to every prompt: that plan
    wrapped in prose. *)
Definition mock_llm_answer : string := "Here is the plan: " +:+ mock_plan_json +:+ " Done.".

(** A JSON string literal: [s] quoted, with its double quotes escaped. *)
Fixpoint json_escape (s : string) : string :=
  match s with
  | EmptyString => EmptyString
  | String c r =>
      if Ascii.eqb c (Ascii.ascii_of_nat 34) then String (Ascii.ascii_of_nat 92) (String c (json_escape r))
      else String c (json_escape r)
  end.

(** The body of the mock server's answer to [/api/generate]: the model's
    answer under ["response"]. *)
Definition mock_generate_body : string :=
  "{" +:+ json_quote "response" +:+ ": " +:+ json_quote (json_escape mock_llm_answer) +:+ "}".

(** The body of its answer to [/api/tags]: one model. *)
Definition mock_tags_body : string :=
  "{" +:+ json_quote "models" +:+ ": [{" +:+ json_quote "name" +:+ ": " +:+ json_quote "codellama:7b" +:+ "}]}".

(** A [json.loads] double that knows the mock plan and the mock server's
    bodies. *)
Definition mock_loads (s : string) : outcome Value :=
  if String.eqb s mock_plan_json then Ok (VDict [("tasks", VList [VStr "navigate"])])
  else if String.eqb s mock_generate_body then Ok (VDict [("response", VStr mock_llm_answer)])
  else if String.eqb s mock_tags_body then
    Ok (VDict [("models", VList [VDict [("name", VStr "codellama:7b")]])])
  else Exc "JSONDecodeError: Expecting value".

Definition mock_handle (c : call) (s : site) : outcome Value * site :=
  match c with
  | Goto _ _ => (Ok VNone, set_page 0 s)
  | Reload _ => (Ok VNone, s)
  | ClickSel sel _ | Fill sel _ | TypeSel sel _ | Press sel _ =>
      if clickable s sel then (Ok VNone, s) else (Exc (timeout_error sel), s)
  | QuerySelector sel =>
      if String.eqb sel "button.next" then
        (Ok (if bool_decide (S (s_page s) < length (s_pages s)) then VObj next_handle else VNone), s)
      else if String.eqb sel ".item" then
        (Ok (if bool_decide (cur_items s = []) then VNone else VObj 0), s)
      else (Ok VNone, s)
  | QuerySelectorAll sel =>
      if String.eqb sel ".item" then
        (Ok (VList (map (fun i => VObj (N.of_nat i)) (seq 0 (length (cur_items s))))), s)
      else (Ok (VList []), s)
  | GetAttribute _ _ => (Ok VNone, s)
  | TextContent h =>
      (Ok (match cur_items s !! N.to_nat h with Some t => VStr t | None => VNone end), s)
  | ClickElem h =>
      if N.eqb h next_handle then (Ok VNone, set_page (S (s_page s)) s) else (Ok VNone, s)
  | Evaluate _ => (Ok VNone, s)
  | Sleep ms => (Ok VNone, tick ms s)
  | SleepSec q => (Ok VNone, tick (Qfloor (q * 1000)) s)
  | Now => (Ok (VInt (s_clock s)), s)
  | Uuid4Hex =>
      (Ok (VStr ("u" +:+ pretty (s_ids s))),
       mkSite (s_pages s) (s_page s) (s_clock s) (N.succ (s_ids s)) (s_clickable s))
  | NavGoto (VStr _) _ _ => (Ok (VObj response_handle), set_page 0 s)
  | RespStatus (VObj _) => (Ok (VInt 200), s)
  | PageClick (VStr sel) _ | LocWaitFor (VStr sel) _ _ | LocClick (VStr sel)
  | LocFill (VStr sel) _ | LocType (VStr sel) _ _ | LocPress (VStr sel) _ | LocScroll (VStr sel) =>
      if clickable s sel then (Ok VNone, s) else (Exc (timeout_error sel), s)
  | WaitSel (VStr sel) _ _ =>
      if clickable s sel || (String.eqb sel ".item" && negb (bool_decide (cur_items s = [])))
      then (Ok (VObj 0), s) else (Exc (timeout_error sel), s)
  | LocVisible (VStr sel) _ => (Ok (VBool (clickable s sel)), s)
  | WaitLoad _ _ | PageReload _ _ => (Ok VNone, s)
  | PageUrl => (Ok (VStr "https://example.com/"), s)
  | ElemQuery _ _ => (Ok VNone, s)
  | ElemQueryAll _ _ => (Ok (VList []), s)
  | PageTitle => (Ok (VStr "Listing"), s)
  | LocCount (VStr sel) =>
      (Ok (VInt (if String.eqb sel ".item" then Z.of_nat (length (cur_items s))
                 else if String.eqb sel "ul li" then 1%Z else 0%Z)), s)
  | AxSnapshot =>
      (Ok (VDict [("role", VStr "WebArea"); ("name", VStr "Listing");
                  ("children", VList (if bool_decide (S (s_page s) < length (s_pages s))
                                      then [VDict [("role", VStr "button"); ("name", VStr "Next")]]
                                      else []))]), s)
  | CtxPages => (Ok (VList [VObj 0]), s)
  | CtxNewPage => (Ok (VObj 1), s)
  | PageUrlOf _ => (Ok (VStr "https://example.com/"), s)
  | PageTitleOf _ => (Ok (VStr "Listing"), s)
  | GotoOn _ _ _ | PageCloseOn _ | PageClose | BringToFront _ | PageScreenshot _ _
  | ElemScreenshot _ _ | VsAdd _ _ _ | VsRecreate => (Ok VNone, s)
  | ChromaClient _ | ChromaCollection _ => (Ok (VObj 0), s)
  | VsQuery _ _ _ => (Ok (VDict [("ids", VList [VList []]); ("documents", VList [VList []]);
                                 ("metadatas", VList [VList []]); ("distances", VList [VList []])]), s)
  | VsGetAll => (Ok (VDict [("ids", VList []); ("documents", VList []); ("metadatas", VList [])]), s)
  | VsCount => (Ok (VInt 0), s)
  | LocatorFill sel _ | LocatorType sel _ _ | LocatorPress sel _ =>
      if clickable s sel then (Ok VNone, s) else (Exc (timeout_error sel), s)
  | HttpPost _ _ => (Ok (http_response 200 mock_generate_body), s)
  | HttpGet _ => (Ok (http_response 200 mock_tags_body), s)
  | HttpClose => (Ok VNone, s)
  | PwCall _ meth _ _ =>
      if String.eqb meth "pages" then (Ok (VList []), s)
      else (Ok (if existsb (String.eqb meth) ["start"; "chromium.launch";
                                              "chromium.launch_persistent_context"; "new_context"; "new_page"]
                then VObj 0 else VNone), s)
  | Makedirs _ => (Ok VNone, s)
  | NavGoto v _ _ | RespStatus v | PageClick v _ | WaitSel v _ _ | LocVisible v _ | LocCount v
  | LocWaitFor v _ _ | LocClick v | LocFill v _ | LocType v _ _ | LocPress v _ | LocScroll v =>
      (Exc ("Error: expected string, got " +:+ py_type_name v), s)
  end.

#[export] Instance mock_env : Env := { world := site; handle := mock_handle }.

(** ** A test double for the one-shot actions *)

Fixpoint texts_of (els : list Value) : st site (list Value) :=
  match els with
  | [] => ret []
  | el :: rest => let! t := text_content el in let! ts := texts_of rest in ret (t :: ts)
  end.

Definition double_body (k : simple_kind) (p : Dict) : st site ActionResult :=
  match k with
  | KNavigate =>
      let! url := lift_outcome (as_str (dget_or p "url" VNone)) in
      io (Goto url "domcontentloaded") !;
      ret (ok_result (VStr "navigate") VNone [])
  | KClick =>
      let! sel := lift_outcome (as_str (dget_or p "selector" VNone)) in
      io (ClickSel sel None) !;
      ret (ok_result (VStr "click") VNone [])
  | KExtract =>
      let! els := query_selector_all (dget_or p "selector" VNone) in
      if bool_decide (els = []) then raise (timeout_error (py_str (dget_or p "selector" VNone)))
      else let! ts := texts_of els in ret (ok_result (VStr "extract") (VList ts) [])
  | KInspect =>
      let! els := query_selector_all (VStr ".item") in
      ret (ok_result (VStr "inspect")
             (VDict [("suggested_selectors",
                      VList (if bool_decide (els = []) then []
                             else [VStr (".item (" +:+ pretty (N.of_nat (length els)) +:+ ")")]))]) [])
  | _ => ret (ok_result VNone VNone [])
  end.

Definition kind_name (k : simple_kind) : Value :=
  match k with
  | KNavigate => VStr "navigate" | KClick => VStr "click" | KExtract => VStr "extract"
  | KInspect => VStr "inspect" | _ => VNone
  end.

#[export] Instance mock_actions : ActionImpl := {
  act_execute k _ p := try_except (double_body k p) (fun e => ret (fail_result (kind_name k) e))
}.

#[export] Instance mock_contract : ActionContract.
Proof. constructor. intros k c p. apply try_except_never_raises. intros e. apply ret_never_raises. Qed.

(** A listing of [n] pages, each with its items. *)
Definition listing (pages : list (list string)) : site :=
  mkSite pages 0 0 0 ["button.ok"].

(** Two pages: the next button is gone once the second page shows. *)
Definition two_pages : site := listing [["a"; "b"]; ["c"]].

(** ** A page that accepts every call

    Every call answers [None] and changes nothing: the page on which
    "all actions succeed" and a pause has no effect. *)
Definition accept_env : Env := {| world := unit; handle _ _ := (Ok VNone, tt) |}.

Definition accept_actions : @ActionImpl accept_env :=
  {| act_execute _ _ _ := ret (ok_result VNone VNone []) |}.

(** ** A page whose next button is disabled

    The query finds a button, whose [disabled] attribute is present with
    an empty value (the HTML [<button disabled>]); every call counts. *)
Definition disabled_env : Env :=
  {| world := nat;
     handle c n := match c with
                   | QuerySelector _ => (Ok (VObj 1), S n)
                   | GetAttribute _ _ => (Ok (VStr ""), S n)
                   | _ => (Ok VNone, S n)
                   end |}.

(** ** A browser context with tabs

    The world is the list of open pages, the action's own page being
    page 0; a new page gets a fresh number, a close removes the page
    named, and the other calls change nothing. *)
Fixpoint remove_page (h : N) (l : list N) : list N :=
  match l with
  | [] => []
  | x :: r => if N.eqb x h then r else x :: remove_page h r
  end.

Definition tabs_env : Env :=
  {| world := list N;
     handle c l := match c with
                   | CtxPages => (Ok (VList (map VObj l)), l)
                   | CtxNewPage => let h := N.of_nat (S (length l) + list_sum (map N.to_nat l)) in
                                   (Ok (VObj h), l ++ [h])
                   | PageClose => (Ok VNone, remove_page 0 l)
                   | PageCloseOn h => (Ok VNone, remove_page h l)
                   | PageUrlOf _ | PageUrl => (Ok (VStr "about:blank"), l)
                   | PageTitleOf _ => (Ok (VStr ""), l)
                   | _ => (Ok VNone, l)
                   end |}.
