(* ===== verification/Llm.v ===== *)
(** * The language-model client (src/llm/ollama_client.py)

    [OllamaClient] talks to the Ollama HTTP API through an
    [httpx.AsyncClient]: [generate] and [chat] post a JSON payload
    ([generate_payload], [chat_payload], the [http_body] of the [Env])
    and read one field of the JSON answer; [generate_json] parses the
    generated text, falling back on the text from its first ["{"] to its
    last ["}"]; [check_connection] and [list_models] read [/api/tags]
    and turn every exception into [False] and [[]]; [close] closes the
    HTTP client.  The client's state is the record [client] built by
    [__init__] from its arguments and the environment; the HTTP client is
    the [HttpPost], [HttpGet] and [HttpClose] calls of the [Env], whose
    responses are [http_response] values.  [json.loads] (and
    [response.json()], which applies it to the body) is the section
    parameter [json_loads].  The [print]s of the [except] blocks are not
    modelled; a handler that prints and re-raises is the identity on
    outcomes.

    The types the code declares ([-> str], [-> List[str]]) and the
    answers the Ollama API documents are written as [ty], with the
    boolean typing [has_type]. *)

From Stdlib Require Import Ascii QArith.
From S2P Require Import Prelude PyData Env Mock.

(** ** Strings: [find], [rfind] and slices *)

(** [s.find(c)] and [s.rfind(c)] for a one-character [c]: the index of
    the first (last) occurrence, [-1] when there is none. *)
Fixpoint str_index (c : ascii) (s : string) : option nat :=
  match s with
  | EmptyString => None
  | String a s' => if Ascii.ascii_dec a c then Some 0 else S <$> str_index c s'
  end.

Definition py_find (c : ascii) (s : string) : Z :=
  match str_index c s with Some n => Z.of_nat n | None => (-1)%Z end.

Definition py_rfind (c : ascii) (s : string) : Z :=
  match str_index c (string_rev s) with
  | Some n => (Z.of_nat (String.length s) - 1 - Z.of_nat n)%Z
  | None => (-1)%Z
  end.

(** [s[start:end]] for [0 <= start <= end]. *)
Definition str_slice (start end_ : Z) (s : string) : string :=
  String.substring (Z.to_nat start) (Z.to_nat (end_ - start)) s.

(** The exception [except json.JSONDecodeError] catches. *)
Definition is_json_error (e : string) : bool := String.prefix "JSONDecodeError" e.

(** ** Declared types and the API's answers *)

(** The Python types of the client's signatures and of the JSON the API
    documents: anything, [str], [List[t]], and a dict holding at least
    the given keys at the given types. *)
Inductive ty : Type :=
| TAny
| TStr
| TList (t : ty)
| TRecord (fields : list (string * ty)).

Fixpoint has_type (t : ty) (v : Value) : bool :=
  match t, v with
  | TAny, _ => true
  | TStr, VStr _ => true
  | TList t', VList l => forallb (has_type t') l
  | TRecord fs, VDict d =>
      forallb (fun kt => match dget d kt.1 with Some x => has_type kt.2 x | None => false end) fs
  | _, _ => false
  end.

(** The answers of [/api/generate], [/api/chat] and [/api/tags]. *)
Definition generate_schema : ty := TRecord [("response", TStr)].
Definition chat_schema : ty := TRecord [("message", TRecord [("content", TStr)])].
Definition tags_schema : ty := TRecord [("models", TList (TRecord [("name", TStr)]))].

(** ** The client *)

(** [OllamaClient.__init__]: the fields it sets; [httpx.AsyncClient] is
    the HTTP calls of the [Env]. *)
Record client : Type := mkClient {
  cl_base_url : string;
  cl_model : string;
  cl_timeout : Z
}.

(** [x or default] for an optional string argument. *)
Definition str_or (x : option string) (d : string) : string :=
  match x with Some s => if String.eqb s "" then d else s | None => d end.

(** [OllamaClient(base_url, model, timeout)] in the process environment
    [env] (after [load_dotenv()]). *)
Definition new_client (env : list (string * string)) (base_url model : option string) (timeout : Z) : client :=
  mkClient (str_or base_url (getenv env "OLLAMA_BASE_URL" "http://localhost:11434"))
           (str_or model (getenv env "OLLAMA_MODEL" "codellama:7b"))
           timeout.

(** [if system: payload["system"] = system] and
    [if format == "json": payload["format"] = "json"]. *)
Definition system_field (system : option string) : option string :=
  match system with Some s => if String.eqb s "" then None else Some s | None => None end.
Definition format_field (format : option string) : option string :=
  match format with Some f => if String.eqb f "json" then Some "json" else None | None => None end.

(** The payload of [generate] and of [chat]. *)
Definition generate_payload (cl : client) (prompt : string) (system : option string)
    (temperature : Q) (max_tokens : Z) (format : option string) : http_body :=
  GenerateBody (cl_model cl) prompt false (mkOptions temperature max_tokens)
               (system_field system) (format_field format).

Definition chat_payload (cl : client) (messages : Value) (temperature : Q) (max_tokens : Z)
    (format : option string) : http_body :=
  ChatBody (cl_model cl) messages false (mkOptions temperature max_tokens) (format_field format).

(** [response.status_code] and [response.text] of an [http_response]. *)
Definition resp_field (r : Value) (k : string) : outcome Value :=
  match r with
  | VDict d => match dget d k with Some x => Ok x | None => Exc (no_method r k) end
  | _ => Exc (no_method r k)
  end.

Definition resp_status (r : Value) : outcome Z :=
  let? c := resp_field r "status_code" in
  match c with VInt z => Ok z | v => Exc (no_method v "status_code") end.

(** The exception of [response.raise_for_status()]: httpx accepts the
    2xx codes only. *)
Definition status_error (code : Z) : string := "HTTPStatusError: status " +:+ pretty code.

Definition raise_for_status (r : Value) : outcome unit :=
  let? code := resp_status r in
  if (200 <=? code)%Z && (code <? 300)%Z then Ok tt else Exc (status_error code).

Section OllamaClient.
Context `{Env} (json_loads : string -> outcome Value).

(** [response.json()] *)
Definition response_json (r : Value) : outcome Value :=
  let? t := resp_field r "text" in
  match t with VStr s => json_loads s | v => Exc (no_method v "json") end.

(** [OllamaClient.generate(prompt, system, temperature, max_tokens,
    format)]: the [except httpx.HTTPError] prints and re-raises. *)
Definition generate (cl : client) (prompt : string) (system : option string)
    (temperature : Q) (max_tokens : Z) (format : option string) : st world Value :=
  let! response := io (HttpPost (cl_base_url cl +:+ "/api/generate")
                                (generate_payload cl prompt system temperature max_tokens format)) in
  lift_outcome (raise_for_status response) !;
  let! result := lift_outcome (response_json response) in
  lift_outcome (py_get result "response" (VStr "")).

(** [OllamaClient.chat(messages, temperature, max_tokens, format)] *)
Definition chat (cl : client) (messages : Value) (temperature : Q) (max_tokens : Z)
    (format : option string) : st world Value :=
  let! response := io (HttpPost (cl_base_url cl +:+ "/api/chat")
                                (chat_payload cl messages temperature max_tokens format)) in
  lift_outcome (raise_for_status response) !;
  let! result := lift_outcome (response_json response) in
  let! message := lift_outcome (py_get result "message" (VDict [])) in
  lift_outcome (py_get message "content" (VStr "")).

(** [OllamaClient.generate_json(prompt, system, temperature)]: the
    answer is parsed; when it is not JSON, the text from its first [{]
    to its last [}] is. *)
Definition generate_json (cl : client) (prompt : string) (system : option string) (temperature : Q)
    : st world Value :=
  let! response := generate cl prompt system temperature 2048 (Some "json") in
  match response with
  | VStr r =>
      match json_loads r with
      | Ok v => ret v
      | Exc e =>
          if is_json_error e then
            let start := py_find "{"%char r in
            let end_ := (py_rfind "}"%char r + 1)%Z in
            if negb (Z.eqb start (-1)) && (start <? end_)%Z
            then lift_outcome (json_loads (str_slice start end_ r))
            else raise e
          else raise e
      end
  | v => raise ("TypeError: the JSON object must be str, bytes or bytearray, not " +:+ py_type_name v)
  end.

(** [OllamaClient.check_connection()] *)
Definition check_connection (cl : client) : st world bool :=
  try_except
    (let! response := io (HttpGet (cl_base_url cl +:+ "/api/tags")) in
     let! code := lift_outcome (resp_status response) in
     ret (Z.eqb code 200))
    (fun _ => ret false).

(** [[m["name"] for m in models]] *)
Fixpoint model_names (ms : list Value) : outcome (list Value) :=
  match ms with
  | [] => Ok []
  | m :: rest => let? n := py_subscript m "name" in let? ns := model_names rest in Ok (n :: ns)
  end.

(** [OllamaClient.list_models()] *)
Definition list_models (cl : client) : st world Value :=
  try_except
    (let! response := io (HttpGet (cl_base_url cl +:+ "/api/tags")) in
     lift_outcome (raise_for_status response) !;
     let! data := lift_outcome (response_json response) in
     let! models := lift_outcome (py_get data "models" (VList [])) in
     let! ms := lift_outcome (as_iter models) in
     let! names := lift_outcome (model_names ms) in
     ret (VList names))
    (fun _ => ret (VList [])).

(** [OllamaClient.close()] *)
Definition ollama_close : st world unit := io HttpClose !; ret tt.

End OllamaClient.

(** ** Properties of [generate_json] *)

Lemma str_index_none_iff c s : str_index c s = None <-> c ∉ String.list_ascii_of_string s.
Proof.
  induction s as [|a s IH]; cbn [str_index String.list_ascii_of_string].
  - split; [intros _; apply not_elem_of_nil|done].
  - rewrite not_elem_of_cons. destruct (Ascii.ascii_dec a c) as [->|Hne]; [naive_solver|].
    rewrite <- IH. destruct (str_index c s); naive_solver.
Qed.

Lemma str_index_rev_none c s : str_index c s = None -> str_index c (string_rev s) = None.
Proof.
  rewrite !str_index_none_iff, list_ascii_of_string_rev. intros H Hin. apply H, list_elem_of_In, in_rev, list_elem_of_In, Hin.
Qed.

Lemma str_index_app_hit c p x :
  str_index c p = None -> str_index c (p +:+ String c x) = Some (String.length p).
Proof.
  induction p as [|a p IH]; intros Hp.
  - change ("" +:+ String c x) with (String c x). cbn [str_index].
    by destruct (Ascii.ascii_dec c c).
  - change (String a p +:+ String c x) with (String a (p +:+ String c x)).
    cbn [str_index] in *. destruct (Ascii.ascii_dec a c); [done|].
    rewrite IH; [done|]. by destruct (str_index c p).
Qed.

Lemma py_find_at c pre x :
  str_index c pre = None -> py_find c (pre +:+ String c x) = Z.of_nat (String.length pre).
Proof. intros H. unfold py_find. by rewrite str_index_app_hit. Qed.

Lemma py_rfind_at c a post :
  str_index c post = None -> py_rfind c (a +:+ String c post) = Z.of_nat (String.length a).
Proof.
  intros H. unfold py_rfind.
  rewrite string_rev_app. change (String c post) with (String c "" +:+ post).
  rewrite string_rev_app. change (string_rev (String c "")) with (String c "").
  rewrite string_app_assoc. change (String c "" +:+ string_rev a) with (String c (string_rev a)).
  rewrite str_index_app_hit by (by apply str_index_rev_none).
  rewrite string_rev_length, !string_app_length. cbn [String.length]. lia.
Qed.

Section GenerateJsonProofs.
Context `{Env} (json_loads : string -> outcome Value).

(** C26: [generate_json] recovers a JSON object wrapped in prose: when
    the generated text is not JSON as a whole, it parses the text from its
    first ["{"] to its last ["}"], whatever comes before and after. *)
Theorem generate_json_extracts cl prompt system temperature w w' pre mid post e :
  generate json_loads cl prompt system temperature 2048 (Some "json") w
    = (Ok (VStr (pre +:+ "{" +:+ mid +:+ "}" +:+ post)), w') ->
  str_index "{"%char pre = None -> str_index "}"%char post = None ->
  json_loads (pre +:+ "{" +:+ mid +:+ "}" +:+ post) = Exc e -> is_json_error e = true ->
  generate_json json_loads cl prompt system temperature w = (json_loads ("{" +:+ mid +:+ "}"), w').
Proof.
  intros Hh Hpre Hpost Hj He. unfold generate_json, bind at 1. rewrite Hh. cbv beta iota. rewrite Hj, He.
  assert (Hf : py_find "{"%char (pre +:+ "{" +:+ mid +:+ "}" +:+ post) = Z.of_nat (String.length pre))
    by exact (py_find_at "{"%char pre _ Hpre).
  rewrite Hf.
  assert (Er : pre +:+ "{" +:+ mid +:+ "}" +:+ post = (pre +:+ "{" +:+ mid) +:+ String "}" post)
    by (rewrite !string_app_assoc; reflexivity).
  rewrite Er, (py_rfind_at _ (pre +:+ "{" +:+ mid)) by done.
  assert (Hl : String.length (pre +:+ "{" +:+ mid) = String.length pre + S (String.length mid))
    by (rewrite !string_app_length; reflexivity).
  assert (Hx : String.length ("{" +:+ mid +:+ "}") = S (String.length mid + 1))
    by (rewrite !string_app_length; reflexivity).
  rewrite Hl.
  assert (Hc : (negb (Z.of_nat (String.length pre) =? -1) &&
                (Z.of_nat (String.length pre) <? Z.of_nat (String.length pre + S (String.length mid)) + 1))%Z
               = true)
    by (apply andb_true_iff; split; [apply negb_true_iff, Z.eqb_neq|apply Z.ltb_lt]; lia).
  rewrite Hc. unfold str_slice, lift_outcome. rewrite Nat2Z.id.
  replace (Z.to_nat (Z.of_nat (String.length pre + S (String.length mid)) + 1 - Z.of_nat (String.length pre)))
    with (String.length ("{" +:+ mid +:+ "}")) by (rewrite Hx; lia).
  assert (Er2 : (pre +:+ "{" +:+ mid) +:+ String "}" post = pre +:+ ("{" +:+ mid +:+ "}") +:+ post)
    by (rewrite !string_app_assoc; reflexivity).
  by rewrite Er2, <- (Nat.add_0_r (String.length pre)), string_substring_shift, string_substring_prefix.
Qed.

End GenerateJsonProofs.


(** ** Properties of the client *)

(** What the client reads of an [http_response]. *)
Lemma raise_for_status_http code body :
  raise_for_status (http_response code body)
  = if (200 <=? code)%Z && (code <? 300)%Z then Ok tt else Exc (status_error code).
Proof. reflexivity. Qed.

Lemma resp_status_http code body : resp_status (http_response code body) = Ok code.
Proof. reflexivity. Qed.

Lemma response_json_http json_loads code body :
  response_json json_loads (http_response code body) = json_loads body.
Proof. reflexivity. Qed.

Lemma status_ok code : (200 <= code < 300)%Z -> ((200 <=? code)%Z && (code <? 300)%Z) = true.
Proof. intros. apply andb_true_iff. lia. Qed.

Lemma status_not_ok code : ~ (200 <= code < 300)%Z -> ((200 <=? code)%Z && (code <? 300)%Z) = false.
Proof. intros Hc. apply not_true_iff_false. rewrite andb_true_iff, Z.leb_le, Z.ltb_lt. lia. Qed.

Create Rewrite HintDb llm_rw.
#[export] Hint Rewrite raise_for_status_http resp_status_http response_json_http : llm_rw.

(** A dict of the [/api/tags] schema holds a list of named models. *)
Lemma tags_schema_inv data :
  has_type tags_schema data = true ->
  exists d ms, data = VDict d /\ dget d "models" = Some (VList ms) /\
    forallb (has_type (TRecord [("name", TStr)])) ms = true.
Proof.
  destruct data as [| | | | |d| |]; try done. unfold tags_schema. cbn [has_type forallb fst snd].
  rewrite andb_true_r. destruct (dget d "models") as [v|] eqn:Ed; [|done].
  destruct v as [| | | |ms| | |]; intros Hm; try discriminate Hm.
  exists d, ms. by split; [|split; [|exact Hm]].
Qed.

Lemma model_names_typed ms :
  forallb (has_type (TRecord [("name", TStr)])) ms = true ->
  exists names, model_names ms = Ok names /\ has_type (TList TStr) (VList names) = true.
Proof.
  induction ms as [|m ms IH]; cbn [forallb model_names]; [by exists []|].
  rewrite andb_true_iff. intros [Hm Hms]. destruct (IH Hms) as (names & -> & Hn).
  destruct m as [| | | | |d| |]; try done. cbn in Hm. cbn [py_subscript obind].
  destruct (dget d "name") as [x|]; [|done]. rewrite andb_true_r in Hm.
  exists (x :: names). split; [done|]. cbn in Hn |- *. by rewrite Hm, Hn.
Qed.

Lemma model_names_spec ms names :
  model_names ms = Ok names -> Forall2 (fun m n => py_subscript m "name" = Ok n) ms names.
Proof.
  revert names. induction ms as [|m ms IH]; intros names; cbn; [intros [= <-]; constructor|].
  destruct (py_subscript m "name") as [n|] eqn:En; cbn; [|done].
  destruct (model_names ms) as [ns|]; cbn; [|done]. intros [= <-]. constructor; [done|]. by apply IH.
Qed.

Section ClientProofs.
Context `{Env} (json_loads : string -> outcome Value) (cl : client).

(** C8: [generate] posts the payload it builds to [/api/generate] of the
    client's base URL and, on a 2xx answer, returns the ["response"]
    field of the JSON body, [""] when it is missing (and raises when the
    body is not a dict). *)
Theorem generate_request prompt system temperature max_tokens format w w' code body result :
  handle (HttpPost (cl_base_url cl +:+ "/api/generate")
                   (generate_payload cl prompt system temperature max_tokens format)) w
    = (Ok (http_response code body), w') ->
  (200 <= code < 300)%Z -> json_loads body = Ok result ->
  generate json_loads cl prompt system temperature max_tokens format w
    = (py_get result "response" (VStr ""), w').
Proof.
  intros Hh Hc Hj. unfold generate, bind, io, lift_outcome. rewrite Hh.
  autorewrite with llm_rw. by rewrite status_ok, Hj.
Qed.

(** C33: an answer with a status outside 2xx makes [generate] raise
    httpx's [HTTPStatusError] (re-raised by its [except]), whatever the
    body holds. *)
Theorem generate_status_error prompt system temperature max_tokens format w w' code body :
  handle (HttpPost (cl_base_url cl +:+ "/api/generate")
                   (generate_payload cl prompt system temperature max_tokens format)) w
    = (Ok (http_response code body), w') ->
  ~ (200 <= code < 300)%Z ->
  generate json_loads cl prompt system temperature max_tokens format w = (Exc (status_error code), w').
Proof.
  intros Hh Hc. unfold generate, bind, io, lift_outcome. rewrite Hh.
  autorewrite with llm_rw. by rewrite status_not_ok.
Qed.

(** [list_models] never raises: every exception gives [[]]. *)
Lemma list_models_never_raises w : exists names w', list_models json_loads cl w = (Ok (VList names), w').
Proof.
  unfold list_models, try_except, bind, io, lift_outcome, ret.
  destruct (handle _ w) as [[r|e] w1]; [|by eexists _, _].
  destruct (raise_for_status r); [|by eexists _, _].
  destruct (response_json json_loads r); [|by eexists _, _].
  destruct (py_get _ "models" _); [|by eexists _, _].
  destruct (as_iter _); [|by eexists _, _].
  destruct (model_names _); by eexists _, _.
Qed.

(** C29: [list_models] keeps its declared type: when the server's
    answer follows the [/api/tags] schema, it returns a list of [str],
    the ["name"] of each listed model in order (and no exception escapes
    it in any case, [list_models_never_raises]). *)
Theorem list_models_typed w w' code body data :
  handle (HttpGet (cl_base_url cl +:+ "/api/tags")) w = (Ok (http_response code body), w') ->
  (200 <= code < 300)%Z -> json_loads body = Ok data -> has_type tags_schema data = true ->
  exists ms names, py_subscript data "models" = Ok (VList ms) /\
    list_models json_loads cl w = (Ok (VList names), w') /\
    has_type (TList TStr) (VList names) = true /\
    Forall2 (fun m n => py_subscript m "name" = Ok n) ms names.
Proof.
  intros Hh Hc Hj Ht. destruct (tags_schema_inv _ Ht) as (d & ms & -> & Hd & Hms).
  destruct (model_names_typed _ Hms) as (names & Hn & Htn). exists ms, names.
  split; [by cbn; rewrite Hd|]. split; [|split; [done|by apply model_names_spec]].
  unfold list_models, try_except, bind, io, lift_outcome, ret. rewrite Hh.
  autorewrite with llm_rw. rewrite status_ok, Hj by done.
  cbn [py_get]. unfold dget_or. rewrite Hd. cbn [default as_iter]. by rewrite Hn.
Qed.

(** [check_connection] never raises, and on an answer it is true
    exactly when the status is [200] (not any 2xx). *)
Lemma check_connection_spec w :
  exists b w', check_connection cl w = (Ok b, w') /\
    forall code body, handle (HttpGet (cl_base_url cl +:+ "/api/tags")) w = (Ok (http_response code body), w') ->
    b = Z.eqb code 200.
Proof.
  unfold check_connection, try_except, bind, io, lift_outcome, ret.
  destruct (handle _ w) as [[r|e] w1] eqn:E.
  - destruct (resp_status r) as [c|e] eqn:Es;
      [exists (Z.eqb c 200), w1|exists false, w1]; split; try done;
      intros code body Hh; injection Hh as ->;
      rewrite resp_status_http in Es; by simplify_eq.
  - exists false, w1. split; [done|]. by intros code body Hh.
Qed.

End ClientProofs.

(** ** Witnesses *)

(** [OllamaClient()] with no [.env]: the local server and [codellama:7b]. *)
Definition default_client : client := new_client [] None None 120.

Definition llm_site : site := mkSite [["a"]] 0 5 0 [].

(** A server that answers every request with the same response. *)
Definition fixed_server (code : Z) (body : string) : Env :=
  {| world := unit; handle := fun _ w => (Ok (http_response code body), w) |}.

Lemma generate_request_witness :
  @generate mock_env mock_loads default_client "g" None (7 # 10) 2048 None llm_site
    = (Ok (VStr mock_llm_answer), llm_site).
Proof.
  pose proof (@generate_request mock_env mock_loads default_client "g" None (7 # 10) 2048 None
                llm_site llm_site 200 mock_generate_body (VDict [("response", VStr mock_llm_answer)])
                eq_refl ltac:(lia) ltac:(vm_compute; reflexivity)) as E.
  rewrite E. reflexivity.
Defined.

Lemma generate_status_error_witness :
  @generate (fixed_server 503 "") (fun _ => Exc "JSONDecodeError") default_client "g" None (7 # 10) 2048 None tt
    = (Exc (status_error 503), tt).
Proof.
  exact (@generate_status_error (fixed_server 503 "") (fun _ => Exc "JSONDecodeError") default_client
           "g" None (7 # 10) 2048 None tt tt 503 "" eq_refl ltac:(lia)).
Defined.

Lemma list_models_typed_witness :
  exists ms names, py_subscript (VDict [("models", VList [VDict [("name", VStr "codellama:7b")]])]) "models"
      = Ok (VList ms) /\
    @list_models mock_env mock_loads default_client llm_site = (Ok (VList names), llm_site) /\
    has_type (TList TStr) (VList names) = true /\
    Forall2 (fun m n => py_subscript m "name" = Ok n) ms names.
Proof.
  exact (@list_models_typed mock_env mock_loads default_client llm_site llm_site 200 mock_tags_body
           (VDict [("models", VList [VDict [("name", VStr "codellama:7b")]])])
           eq_refl ltac:(lia) ltac:(vm_compute; reflexivity) ltac:(vm_compute; reflexivity)).
Defined.

Lemma generate_json_extracts_witness :
  @generate_json mock_env mock_loads default_client "g" None (3 # 10) llm_site
    = (mock_loads ("{" +:+ (json_quote "tasks" +:+ ": [" +:+ json_quote "navigate" +:+ "]") +:+ "}"), llm_site).
Proof.
  exact (@generate_json_extracts mock_env mock_loads default_client "g" None (3 # 10) llm_site llm_site
           "Here is the plan: " (json_quote "tasks" +:+ ": [" +:+ json_quote "navigate" +:+ "]") " Done."
           "JSONDecodeError: Expecting value"
           ltac:(vm_compute; reflexivity) ltac:(vm_compute; reflexivity) ltac:(vm_compute; reflexivity)
           ltac:(vm_compute; reflexivity) ltac:(vm_compute; reflexivity)).
Defined.

(** [generate] is declared [-> str], but returns whatever the answer's
    ["response"] holds: [None] for [{"response": null}]. *)
Example generate_returns_non_str :
  @generate mock_env (fun _ => Ok (VDict [("response", VNone)])) default_client "g" None (7 # 10) 2048 None llm_site
    = (Ok VNone, llm_site) /\ has_type TStr VNone = false.
Proof. split; reflexivity. Qed.
