(* ===== verification/Browser.v ===== *)
(** * Configuration and the browser's lifecycle (src/config.py,
      src/browser/manager.py)

    [PlaywrightConfig] reads its settings from the environment when it
    is imported ([load_dotenv] then [os.getenv] with defaults, [int()]
    on the numeric ones); [config_of_env] is that import, which raises
    [ValueError] on a numeric setting that is not an integer.  Its class
    methods build the browser's launch arguments and options.
    [BrowserManager] starts Playwright, launches the browser (a
    persistent context when a profile is used), injects the stealth
    script, opens the page and closes it all again; its fields are the
    record [manager], and each Playwright call is a [PwCall] of the
    [Env].  Paths are POSIX paths; [os.path.abspath] resolves against the
    working directory [cwd]. *)

From Stdlib Require Import Ascii.
From S2P Require Import Prelude PyData Env Mock.

(** ** [PlaywrightConfig] *)

Definition is_digit (c : ascii) : bool := (48 <=? Ascii.nat_of_ascii c) && (Ascii.nat_of_ascii c <=? 57).

(** The digits of [int(s)]: at least one, an underscore only between
    two digits. *)
Fixpoint parse_digits (s : string) (acc : Z) (after_digit : bool) : option Z :=
  match s with
  | EmptyString => if after_digit then Some acc else None
  | String c r =>
      if is_digit c then parse_digits r (acc * 10 + Z.of_nat (Ascii.nat_of_ascii c - 48))%Z true
      else if Ascii.eqb c "_"%char && after_digit then parse_digits r acc false
      else None
  end.

(** [int(s)] on an ASCII string: surrounding whitespace and a sign are
    allowed. *)
Definition py_int (s : string) : outcome Z :=
  let t := strip s in
  let parsed :=
    match t with
    | String c r =>
        if Ascii.eqb c "-"%char then Z.opp <$> parse_digits r 0 false
        else if Ascii.eqb c "+"%char then parse_digits r 0 false
        else parse_digits t 0 false
    | EmptyString => None
    end in
  match parsed with
  | Some z => Ok z
  | None => Exc ("ValueError: invalid literal for int() with base 10: '" +:+ s +:+ "'")
  end.

Record config : Type := mkConfig {
  cfg_browser_type : string;
  cfg_chrome_path : string;
  cfg_use_profile : bool;
  cfg_profile_path : string;
  cfg_headless : bool;
  cfg_slow_mo : Z;
  cfg_viewport_width : Z;
  cfg_viewport_height : Z;
  cfg_default_timeout : Z;
  cfg_navigation_timeout : Z;
  cfg_environment : string
}.

(** [os.getenv(k, "false").lower() == "true"] *)
Definition env_flag (env : list (string * string)) (k : string) : bool :=
  String.eqb (lower (getenv env k "false")) "true".

(** The class attributes of [PlaywrightConfig], evaluated in order. *)
Definition config_of_env (env : list (string * string)) : outcome config :=
  let? slow_mo := py_int (getenv env "SLOW_MO" "100") in
  let? vw := py_int (getenv env "VIEWPORT_WIDTH" "1280") in
  let? vh := py_int (getenv env "VIEWPORT_HEIGHT" "720") in
  let? dt := py_int (getenv env "DEFAULT_TIMEOUT" "30000") in
  let? nt := py_int (getenv env "NAVIGATION_TIMEOUT" "60000") in
  Ok (mkConfig (getenv env "BROWSER_TYPE" "playwright")
               (getenv env "CHROME_EXECUTABLE_PATH" "C:\Program Files\Google\Chrome\Application\chrome.exe")
               (env_flag env "USE_BROWSER_PROFILE") (getenv env "BROWSER_PROFILE_PATH" "./browser_data")
               (env_flag env "HEADLESS") slow_mo vw vh dt nt (getenv env "ENVIRONMENT" "development")).

(** [PlaywrightConfig.is_local_browser()] *)
Definition is_local_browser (c : config) : bool := String.eqb (lower (cfg_browser_type c)) "local".

(** The path's components between slashes. *)
Fixpoint split_slash (s : string) (cur : string) : list string :=
  match s with
  | EmptyString => [string_rev cur]
  | String c r =>
      if Ascii.eqb c "/"%char then string_rev cur :: split_slash r ""
      else split_slash r (String c cur)
  end.

(** [os.path.normpath] of an absolute path: empty and [.] components
    dropped, [..] removing the one before it. *)
Definition normpath_abs (p : string) : string :=
  let parts := fold_left (fun acc part =>
                 if String.eqb part "" || String.eqb part "." then acc
                 else if String.eqb part ".." then take (length acc - 1) acc
                 else acc ++ [part]) (split_slash p "") [] in
  "/" +:+ join_with "/" parts.

(** [os.path.abspath(p)] in the working directory [cwd] (absolute). *)
Definition abspath (cwd p : string) : string :=
  normpath_abs (if starts_with_slash p then p else cwd +:+ "/" +:+ p).

Definition base_browser_args : list string :=
  ["--disable-blink-features=AutomationControlled"; "--disable-infobars";
   "--disable-dev-shm-usage"; "--no-sandbox"; "--disable-setuid-sandbox"; "--disable-gpu";
   "--start-maximized"; "--no-first-run"; "--no-default-browser-check";
   "--disable-background-networking"; "--disable-sync"; "--disable-translate";
   "--disable-features=IsolateOrigins,site-per-process"].

(** [PlaywrightConfig.get_browser_args()] *)
Definition get_browser_args (cwd : string) (c : config) : list string :=
  base_browser_args ++
  (if cfg_use_profile c then ["--user-data-dir=" +:+ abspath cwd (cfg_profile_path c)] else []).

(** [PlaywrightConfig.get_launch_options()] *)
Definition get_launch_options (cwd : string) (c : config) : Dict :=
  let options :=
    [("headless", VBool (cfg_headless c)); ("slow_mo", VInt (cfg_slow_mo c));
     ("args", VList (map VStr (get_browser_args cwd c)));
     ("ignore_default_args",
        VList [VStr "--enable-automation"; VStr "--enable-blink-features=AutomationControlled"])] in
  if is_local_browser c then
    dset (dset options "executable_path" (VStr (cfg_chrome_path c))) "channel" VNone
  else options.

Definition user_agent : string :=
  "Mozilla/5.0 (Windows NT 10.0; Win64; x64) " +:+
  "AppleWebKit/537.36 (KHTML, like Gecko) " +:+
  "Chrome/120.0.0.0 Safari/537.36".

(** [PlaywrightConfig.get_context_options()] *)
Definition get_context_options (c : config) : Dict :=
  [("viewport", VDict [("width", VInt (cfg_viewport_width c)); ("height", VInt (cfg_viewport_height c))]);
   ("user_agent", VStr user_agent)].

(** ** [BrowserManager] *)

(** [STEALTH_SCRIPTS], the script injected into every page. *)
Definition STEALTH_SCRIPTS : string := "
// Hide webdriver property
Object.defineProperty(navigator, 'webdriver', {
    get: () => undefined,
    configurable: true
});

// Override the navigator.plugins to have length > 0
Object.defineProperty(navigator, 'plugins', {
    get: () => {
        return [
            { name: 'Chrome PDF Plugin', filename: 'internal-pdf-viewer', description: 'Portable Document Format' },
            { name: 'Chrome PDF Viewer', filename: 'mhjfbmdgcfjbbpaeojofohoefgiehjai', description: '' },
            { name: 'Native Client', filename: 'internal-nacl-plugin', description: '' }
        ];
    },
    configurable: true
});

// Override navigator.languages
Object.defineProperty(navigator, 'languages', {
    get: () => ['en-US', 'en'],
    configurable: true
});

// Fix Chrome detection
window.chrome = {
    runtime: {},
    loadTimes: function() {},
    csi: function() {},
    app: {}
};
".

Record manager : Type := mkManager {
  bm_playwright : Value;
  bm_browser : Value;
  bm_context : Value;
  bm_page : Value;
  bm_initialized : bool
}.

(** [BrowserManager()] *)
Definition new_manager : manager := mkManager VNone VNone VNone VNone false.

(** [context_options.update({...})]: the geolocation of London. *)
Definition context_extras : Dict :=
  [("permissions", VList [VStr "geolocation"]);
   ("geolocation", VDict [("latitude", VStr "51.5074"); ("longitude", VStr "-0.1278")]);
   ("locale", VStr "en-US")].

Definition update_dict (d extra : Dict) : Dict := fold_left (fun d kv => dset d kv.1 kv.2) extra d.

(** [a.startswith("--user-data-dir")] on an argument. *)
Definition is_user_data_arg (a : Value) : bool :=
  match a with VStr s => String.prefix "--user-data-dir" s | _ => false end.

(** The keyword arguments of [launch_persistent_context]. *)
Definition persistent_kwargs (profile : string) (launch : Dict) (ctx_opts : Dict) : outcome Dict :=
  let? args := as_iter (dget_or launch "args" (VList [])) in
  Ok ([("user_data_dir", VStr profile); ("headless", dget_or launch "headless" (VBool false));
       ("slow_mo", dget_or launch "slow_mo" (VInt 100));
       ("args", VList (filter (fun a => negb (is_user_data_arg a)) args));
       ("ignore_default_args", dget_or launch "ignore_default_args" (VList []));
       ("executable_path", dget_or launch "executable_path" VNone)] ++ ctx_opts).

Abbreviation bm_st := (manager * world)%type.

Section Manager.
Context `{Env} (cwd : string) (c : config).

Definition bm_on_world {A} (m : st world A) : st bm_st A := zoom snd (fun w s => (s.1, w)) m.
Definition bm_get : st bm_st manager := fun s => (Ok s.1, s).
Definition bm_modify (f : manager -> manager) : st bm_st unit := fun s => (Ok tt, (f s.1, s.2)).

Definition set_playwright (v : Value) (m : manager) : manager :=
  mkManager v (bm_browser m) (bm_context m) (bm_page m) (bm_initialized m).
Definition set_browser (v : Value) (m : manager) : manager :=
  mkManager (bm_playwright m) v (bm_context m) (bm_page m) (bm_initialized m).
Definition set_context (v : Value) (m : manager) : manager :=
  mkManager (bm_playwright m) (bm_browser m) v (bm_page m) (bm_initialized m).
Definition set_bm_page (v : Value) (m : manager) : manager :=
  mkManager (bm_playwright m) (bm_browser m) (bm_context m) v (bm_initialized m).
Definition set_initialized (b : bool) (m : manager) : manager :=
  mkManager (bm_playwright m) (bm_browser m) (bm_context m) (bm_page m) b.

(** [target.meth(...)]: a method of [None] raises [AttributeError]. *)
Definition pw (target : Value) (meth : string) (args : list Value) (kwargs : Dict) : st bm_st Value :=
  if is_none target then raise (no_method target meth)
  else bm_on_world (io (PwCall target meth args kwargs)).

(** The module-level calls [async_playwright().start()] and
    [stealth_async(page)]. *)
Definition playwright_module : Value := VStr "playwright.async_api".
Definition stealth_module : Value := VStr "playwright_stealth".

(** The persistent-context branch of [initialize]. *)
Definition launch_persistent (pwv : Value) : st bm_st Value :=
  let profile := abspath cwd (cfg_profile_path c) in
  let ctx_opts := update_dict (get_context_options c) context_extras in
  let! kw := lift_outcome (persistent_kwargs profile (get_launch_options cwd c) ctx_opts) in
  let! ctx := pw pwv "chromium.launch_persistent_context" [] kw in
  bm_modify (fun m => set_browser ctx (set_context ctx m)) !;
  pw ctx "add_init_script" [VStr STEALTH_SCRIPTS] [] !;
  let! pages := pw ctx "pages" [] [] in
  if truthy pages then
    let! p0 := lift_outcome (match pages with
                             | VList (p :: _) => Ok p
                             | v => Exc ("TypeError: '" +:+ py_type_name v +:+ "' object is not subscriptable")
                             end) in
    ret p0
  else pw ctx "new_page" [] [].

(** The branch of [initialize] without a profile. *)
Definition launch_plain (pwv : Value) : st bm_st Value :=
  let! browser := pw pwv "chromium.launch" [] (get_launch_options cwd c) in
  bm_modify (set_browser browser) !;
  let ctx_opts := update_dict (get_context_options c) context_extras in
  let! ctx := pw browser "new_context" [] ctx_opts in
  bm_modify (set_context ctx) !;
  pw ctx "add_init_script" [VStr STEALTH_SCRIPTS] [] !;
  pw ctx "new_page" [] [].

(** [BrowserManager.initialize()] *)
Definition bm_initialize : st bm_st Value :=
  let! m := bm_get in
  if bm_initialized m then ret (bm_page m)
  else
    (if cfg_use_profile c then bm_on_world (io (Makedirs (abspath cwd (cfg_profile_path c)))) !; ret tt
     else ret tt) !;
    let! pwv := pw playwright_module "start" [] [] in
    bm_modify (set_playwright pwv) !;
    let! page := if cfg_use_profile c then launch_persistent pwv else launch_plain pwv in
    bm_modify (set_bm_page page) !;
    let! m := bm_get in
    pw (bm_context m) "set_default_timeout" [VInt (cfg_default_timeout c)] [] !;
    pw stealth_module "stealth_async" [page] [] !;
    bm_modify (set_initialized true) !;
    ret page.

(** [BrowserManager.new_page()] *)
Definition bm_new_page : st bm_st Value :=
  let! m := bm_get in
  if negb (bm_initialized m) then bm_initialize
  else
    let! page := pw (bm_context m) "new_page" [] [] in
    pw stealth_module "stealth_async" [page] [] !;
    ret page.

(** [BrowserManager.get_page()] *)
Definition bm_get_page : st bm_st Value :=
  let! m := bm_get in
  if negb (bm_initialized m) then bm_initialize else ret (bm_page m).

(** [BrowserManager.screenshot(path)] *)
Definition bm_screenshot (path : string) : st bm_st string :=
  let! m := bm_get in
  (if truthy (bm_page m) then pw (bm_page m) "screenshot" [] [("path", VStr path)] !; ret tt
   else ret tt) !;
  ret path.

(** [BrowserManager.close()]: [self.playwright] is stopped but kept. *)
Definition bm_close : st bm_st unit :=
  let! m := bm_get in
  (if cfg_use_profile c then
     if truthy (bm_context m) then pw (bm_context m) "close" [] [] !; ret tt else ret tt
   else if truthy (bm_browser m) then pw (bm_browser m) "close" [] [] !; ret tt else ret tt) !;
  (if truthy (bm_playwright m) then pw (bm_playwright m) "stop" [] [] !; ret tt else ret tt) !;
  bm_modify (fun m => mkManager (bm_playwright m) VNone VNone VNone false).

End Manager.

(** ** Properties of the lifecycle *)

Section ManagerProofs.
Context `{Env} (cwd : string) (c : config).

(** [initialize] on an initialised manager returns its page and makes
    no call. *)
Lemma bm_initialize_idempotent s : bm_initialized s.1 = true -> bm_initialize cwd c s = (Ok (bm_page s.1), s).
Proof. intros Hi. unfold bm_initialize, bind, bm_get. cbn. by rewrite Hi. Qed.

(** The calls whose answers [initialize] calls methods on. *)
Definition object_methods : list string :=
  ["start"; "chromium.launch"; "chromium.launch_persistent_context"; "new_context"].

(** A driver whose Playwright calls answer, with objects where the code
    calls methods on the answer ([context.pages] a list), and whose
    [os.makedirs] succeeds. *)
Definition answers_objects : Prop :=
  (forall t m a k w, exists v w', handle (PwCall t m a k) w = (Ok v, w') /\
       (m ∈ object_methods -> is_none v = false) /\ (m = "pages" -> exists l, v = VList l)) /\
  (forall p w, exists w', handle (Makedirs p) w = (Ok VNone, w')).

Context (Hd : answers_objects).

Lemma pw_ok t m a k s :
  is_none t = false ->
  exists v w', pw t m a k s = (Ok v, (s.1, w')) /\ (m ∈ object_methods -> is_none v = false) /\
               (m = "pages" -> exists l, v = VList l).
Proof.
  intros Ht. unfold pw. rewrite Ht. destruct (proj1 Hd t m a k s.2) as (v & w' & E & Hv & Hp).
  exists v, w'. unfold bm_on_world, zoom, io. rewrite E. auto.
Qed.

Lemma launch_plain_ok pwv s :
  is_none pwv = false ->
  exists page s', launch_plain cwd c pwv s = (Ok page, s') /\ is_none (bm_context s'.1) = false.
Proof.
  intros Hp. unfold launch_plain.
  destruct (pw_ok pwv "chromium.launch" [] (get_launch_options cwd c) s Hp) as (b & w1 & E1 & Hb & _).
  specialize (Hb ltac:(unfold object_methods; by repeat constructor)).
  rewrite (bind_ok _ _ _ _ _ E1). unfold bind at 1, bm_modify at 1. cbn beta iota.
  destruct (pw_ok b "new_context" [] (update_dict (get_context_options c) context_extras)
              (set_browser b s.1, w1) Hb) as (ctx & w2 & E2 & Hc & _).
  specialize (Hc ltac:(unfold object_methods; by repeat constructor)).
  rewrite (bind_ok _ _ _ _ _ E2). unfold bind at 1, bm_modify at 1. cbn beta iota.
  destruct (pw_ok ctx "add_init_script" [VStr STEALTH_SCRIPTS] []
              (set_context ctx (set_browser b s.1), w2) Hc) as (u & w3 & E3 & _).
  rewrite (bind_ok _ _ _ _ _ E3).
  destruct (pw_ok ctx "new_page" [] [] (set_context ctx (set_browser b s.1), w3) Hc) as (pg & w4 & E4 & _).
  exists pg, (set_context ctx (set_browser b s.1), w4). split; [exact E4|exact Hc].
Qed.

Lemma launch_args_list : exists l, as_iter (dget_or (get_launch_options cwd c) "args" (VList [])) = Ok l.
Proof. unfold get_launch_options, dget_or. destruct (is_local_browser c); eexists; reflexivity. Qed.

Lemma launch_persistent_ok pwv s :
  is_none pwv = false ->
  exists page s', launch_persistent cwd c pwv s = (Ok page, s') /\ is_none (bm_context s'.1) = false.
Proof.
  intros Hp. unfold launch_persistent.
  destruct launch_args_list as [args Ea].
  unfold persistent_kwargs. rewrite Ea. cbn [obind]. unfold bind at 1, lift_outcome at 1. cbn beta iota.
  match goal with |- context [pw pwv "chromium.launch_persistent_context" [] ?kw] =>
    destruct (pw_ok pwv "chromium.launch_persistent_context" [] kw s Hp) as (ctx & w1 & E1 & Hc & _) end.
  specialize (Hc ltac:(unfold object_methods; by repeat constructor)).
  rewrite (bind_ok _ _ _ _ _ E1). unfold bind at 1, bm_modify at 1. cbn beta iota.
  destruct (pw_ok ctx "add_init_script" [VStr STEALTH_SCRIPTS] []
              (set_browser ctx (set_context ctx s.1), w1) Hc) as (u & w2 & E2 & _).
  rewrite (bind_ok _ _ _ _ _ E2).
  destruct (pw_ok ctx "pages" [] [] (set_browser ctx (set_context ctx s.1), w2) Hc)
    as (pages & w3 & E3 & _ & Hl).
  rewrite (bind_ok _ _ _ _ _ E3). destruct (Hl eq_refl) as [l ->].
  destruct l as [|p0 l]; cbn [truthy].
  - destruct (pw_ok ctx "new_page" [] [] (set_browser ctx (set_context ctx s.1), w3) Hc) as (pg & w4 & E4 & _).
    exists pg, (set_browser ctx (set_context ctx s.1), w4). split; [exact E4|exact Hc].
  - exists p0, (set_browser ctx (set_context ctx s.1), w3). split; [reflexivity|exact Hc].
Qed.

(** The launch of either branch, as [initialize] runs it. *)
Lemma launch_ok pwv s :
  is_none pwv = false ->
  exists page s', (if cfg_use_profile c then launch_persistent cwd c pwv else launch_plain cwd c pwv) s
                  = (Ok page, s') /\ is_none (bm_context s'.1) = false.
Proof. intros Hp. destruct (cfg_use_profile c); [apply launch_persistent_ok|apply launch_plain_ok]; done. Qed.

Lemma makedirs_step s :
  exists s', (if cfg_use_profile c then bm_on_world (io (Makedirs (abspath cwd (cfg_profile_path c)))) !; ret tt
              else ret tt) s = (Ok tt, s').
Proof.
  destruct (cfg_use_profile c); [|by eexists].
  destruct (proj2 Hd (abspath cwd (cfg_profile_path c)) s.2) as [w' E].
  unfold bind, bm_on_world, zoom, io. rewrite E. by eexists.
Qed.

Lemma bm_initialize_ready s :
  exists page s', bm_initialize cwd c s = (Ok page, s') /\ bm_initialized s'.1 = true /\ bm_page s'.1 = page.
Proof.
  destruct (bm_initialized s.1) eqn:Hi.
  { exists (bm_page s.1), s. by rewrite bm_initialize_idempotent by done. }
  unfold bm_initialize, bind at 1, bm_get at 1. cbn beta iota. rewrite Hi. cbn [negb].
  destruct (makedirs_step s) as [s1 E1]. rewrite (bind_ok _ _ _ _ _ E1).
  destruct (pw_ok playwright_module "start" [] [] s1 eq_refl) as (pwv & w2 & E2 & Hp & _).
  specialize (Hp ltac:(unfold object_methods; by repeat constructor)).
  rewrite (bind_ok _ _ _ _ _ E2). unfold bind at 1, bm_modify at 1. cbn beta iota.
  destruct (launch_ok pwv (set_playwright pwv s1.1, w2) Hp) as (page & s3 & E3 & Hc).
  rewrite (bind_ok _ _ _ _ _ E3). unfold bind at 1, bm_modify at 1. cbn beta iota.
  unfold bind at 1, bm_get at 1. cbn beta iota.
  destruct (pw_ok (bm_context (set_bm_page page s3.1)) "set_default_timeout" [VInt (cfg_default_timeout c)] []
              (set_bm_page page s3.1, s3.2) Hc) as (u & w4 & E4 & _).
  rewrite (bind_ok _ _ _ _ _ E4).
  destruct (pw_ok stealth_module "stealth_async" [page] [] (set_bm_page page s3.1, w4) eq_refl) as (u' & w5 & E5 & _).
  rewrite (bind_ok _ _ _ _ _ E5). unfold bind, bm_modify, ret. cbn.
  eexists _, _. split; [reflexivity|]. by split.
Qed.


(** C36: liveness of the browser's lifecycle: whatever state the
    manager is in (fresh, initialised or closed), [initialize] with a
    driver that answers its calls returns a page and leaves the manager
    initialised with that page, which [get_page] then returns without a
    call. *)
Theorem bm_initialize_progress s :
  exists page s', bm_initialize cwd c s = (Ok page, s') /\ bm_initialized s'.1 = true /\
    bm_page s'.1 = page /\ bm_get_page cwd c s' = (Ok page, s').
Proof.
  destruct (bm_initialize_ready s) as (page & s' & E & Hi & Hp). exists page, s'.
  do 3 (split; [done|]). unfold bm_get_page, bind, bm_get. cbn. by rewrite Hi, Hp.
Qed.

End ManagerProofs.

(** ** Witnesses on the mock driver *)

Lemma mock_answers_objects : @answers_objects mock_env.
Proof.
  split.
  - intros t m a k w. cbn. destruct (String.eqb m "pages") eqn:Ep.
    + eexists _, _. split; [reflexivity|]. split; [done|]. by eexists.
    + eexists _, _. split; [reflexivity|]. split.
      * intros Hm. unfold object_methods in Hm.
        repeat (apply elem_of_cons in Hm as [->|Hm]; [reflexivity|]). by apply elem_of_nil in Hm.
      * intros ->. by rewrite String.eqb_refl in Ep.
  - intros p w. by eexists.
Qed.

(** A configuration without a profile, headless. *)
Definition mock_config : config :=
  mkConfig "playwright" "" false "./browser_data" true 100 1280 720 30000 60000 "test".

Lemma bm_initialize_progress_witness :
  @answers_objects mock_env /\
  exists page s', @bm_initialize mock_env "/app" mock_config (new_manager, two_pages) = (Ok page, s') /\
    bm_initialized s'.1 = true /\ bm_page s'.1 = page /\
    @bm_get_page mock_env "/app" mock_config s' = (Ok page, s').
Proof.
  split; [exact mock_answers_objects|].
  exact (@bm_initialize_progress mock_env "/app" mock_config mock_answers_objects (new_manager, two_pages)).
Defined.
