(* ===== verification/Extract.v ===== *)
(** * The extraction action (src/actions/extract.py)

    [ExtractAction.execute] waits for its selector, then reads either
    every matching element ([multiple]: a dict per element of its text,
    its link and the asked attribute) or the first one (its text or the
    asked attribute), or, given [extract_fields], a dict of sub-fields
    per container element ([_extract_complex]).  [extract_table] reads an
    HTML table into a list of row dicts; no caller of the code uses it.
    Element handles are [VObj] values; a call on [None] raises the
    [AttributeError] Python raises, which the action's [try] turns into
    a failed result.  The [self.log] lines print and are not modelled. *)

From S2P Require Import Prelude PyData Env Mock.

Definition extract_name : Value := VStr "extract".

(** [isinstance(v, str)] *)
Definition is_string (v : Value) : bool := match v with VStr _ => true | _ => false end.

(** [if attribute and not isinstance(attribute, str): attribute = None] *)
Definition clean_attribute (a : Value) : Value :=
  if truthy a && negb (is_string a) then VNone else a.

(** [if v: d[k] = v] *)
Definition set_if_truthy (d : Dict) (k : string) (v : Value) : Dict :=
  if truthy v then dset d k v else d.

(** [len(data) if isinstance(data, list) else 1] *)
Definition data_count (data : Value) : Z :=
  match data with VList l => Z.of_nat (length l) | _ => 1 end.

(** [text.strip() if text else ""] as a string. *)
Definition text_or_empty (v : Value) : outcome string :=
  if truthy v then match v with VStr s => Ok (strip s) | _ => Exc (no_method v "strip") end
  else Ok "".

(** [headers[idx] if idx < len(headers) else f"column_{idx}"] *)
Definition column_key (headers : list string) (idx : nat) : string :=
  match headers !! idx with Some h => h | None => "column_" +:+ pretty (N.of_nat idx) end.

Section Extract.
Context `{Env}.

(** The body of the [for element in elements] loop of the [multiple]
    branch: [item_data]. *)
Definition extract_element (attribute el : Value) : st world Dict :=
  let! text := text_content el in
  let! item := if truthy text then let! t := lift_outcome (py_strip text) in ret [("text", t)]
               else ret [] in
  let! link := elem_query el (VStr "a") in
  let! item :=
    if truthy link then
      let! href := get_attribute link (VStr "href") in ret (set_if_truthy item "link" href)
    else if is_str attribute "href" then
      let! href := get_attribute el (VStr "href") in ret (set_if_truthy item "link" href)
    else ret item in
  if truthy attribute && is_string attribute then
    let! av := get_attribute el attribute in ret (set_if_truthy item (py_str attribute) av)
  else ret item.

(** The loop itself: [if item_data: data.append(item_data)]. *)
Fixpoint extract_elements (attribute : Value) (els : list Value) : st world (list Value) :=
  match els with
  | [] => ret []
  | el :: rest =>
      let! item := extract_element attribute el in
      let! data := extract_elements attribute rest in
      ret (if bool_decide (item = []) then data else VDict item :: data)
  end.

(** One [field_name, field_config] of [_extract_complex]'s inner loop. *)
Definition extract_field (el : Value) (item : Dict) (field : string * Value) : st world Dict :=
  match field.2 with
  | VDict cfg =>
      let sub_selector := dget_or cfg "selector" (VStr "") in
      let attr := dget_or cfg "attribute" VNone in
      let! sub := elem_query el sub_selector in
      if truthy sub then
        let! value := if truthy attr then get_attribute sub attr else text_content sub in
        if truthy value then let! v := lift_outcome (py_strip value) in ret (dset item field.1 v)
        else ret item
      else ret item
  | _ => ret item
  end.

Fixpoint extract_fields_of (el : Value) (fields : Dict) (item : Dict) : st world Dict :=
  match fields with
  | [] => ret item
  | f :: rest => let! item := extract_field el item f in extract_fields_of el rest item
  end.

Fixpoint extract_complex_items (fields : Dict) (els : list Value) : st world (list Value) :=
  match els with
  | [] => ret []
  | el :: rest =>
      let! item := extract_fields_of el fields [] in
      let! data := extract_complex_items fields rest in
      ret (if bool_decide (item = []) then data else VDict item :: data)
  end.

(** [ExtractAction._extract_complex(container_selector, fields,
    multiple, save_as, timeout)]: [multiple] and [timeout] are not
    read. *)
Definition extract_complex (container : Value) (fields : Dict) (multiple save_as timeout : Value)
    : st world ActionResult :=
  try_except
    (let! els := query_selector_all container in
     let! data := extract_complex_items fields els in
     ret (mkResult true extract_name (VList data) None
            [("save_as", save_as); ("count", VInt (Z.of_nat (length data)))]))
    (fun e => ret (fail_result extract_name e)).

(** [ExtractAction.execute(selector=None, attribute=None,
    multiple=False, save_as=None, timeout=5000, extract_fields=None)] *)
Definition extract_execute (p : Dict) : st world ActionResult :=
  let selector := dget_or p "selector" VNone in
  let multiple := dget_or p "multiple" (VBool false) in
  let save_as := dget_or p "save_as" VNone in
  let timeout := dget_or p "timeout" (VInt 5000) in
  let extract_fields := dget_or p "extract_fields" VNone in
  if negb (truthy selector) then ret (fail_result extract_name "'selector' parameter is required")
  else
    let attribute := clean_attribute (dget_or p "attribute" VNone) in
    try_except
      (io (WaitSel selector timeout VNone) !;
       let complex :=
         match extract_fields with
         | VDict fields => if truthy extract_fields then Some fields else None
         | _ => None
         end in
       match complex with
       | Some fields => extract_complex selector fields multiple save_as timeout
       | None =>
           let! data :=
             if truthy multiple then
               let! els := query_selector_all selector in
               let! data := extract_elements attribute els in
               ret (VList data)
             else
               let! element := query_selector selector in
               let! data := if truthy attribute && is_string attribute
                            then get_attribute element attribute else text_content element in
               if truthy data then lift_outcome (py_strip data) else ret data in
           ret (mkResult true extract_name data None
                  [("selector", selector); ("attribute", attribute); ("multiple", multiple);
                   ("save_as", save_as); ("count", VInt (data_count data))])
       end)
      (fun e => ret (mkResult false extract_name VNone (Some e) [("selector", selector)])).

(** The header row of [extract_table]: the stripped text of each cell. *)
Fixpoint header_texts (cells : list Value) : st world (list string) :=
  match cells with
  | [] => ret []
  | c :: rest =>
      let! text := text_content c in
      let! h := lift_outcome (text_or_empty text) in
      let! hs := header_texts rest in
      ret (h :: hs)
  end.

(** [for idx, cell in enumerate(cells): row_data[key] = ...] *)
Fixpoint table_cells (headers : list string) (idx : nat) (cells : list Value) (row : Dict)
    : st world Dict :=
  match cells with
  | [] => ret row
  | c :: rest =>
      let! text := text_content c in
      let! t := lift_outcome (text_or_empty text) in
      table_cells headers (S idx) rest (dset row (column_key headers idx) (VStr t))
  end.

(** [for row in rows[start_idx:]] *)
Fixpoint table_rows (headers : list string) (cell_selector : string) (rows : list Value)
    : st world (list Value) :=
  match rows with
  | [] => ret []
  | r :: rest =>
      let! cells := elem_query_all r cell_selector in
      let! row := table_cells headers 0 cells [] in
      let! data := table_rows headers cell_selector rest in
      ret (VDict row :: data)
  end.

(** [ExtractAction.extract_table(table_selector, row_selector="tr",
    cell_selector="td", headers=None, skip_header_row=True,
    timeout=5000)] *)
Definition extract_table (table_selector row_selector cell_selector : string)
    (headers : option (list string)) (skip_header_row : bool) (timeout : Value)
    : st world ActionResult :=
  try_except
    (io (WaitSel (VStr table_selector) timeout VNone) !;
     let! rows := query_selector_all (VStr (table_selector +:+ " " +:+ row_selector)) in
     match rows with
     | [] => ret (fail_result extract_name "No rows found in table")
     | r0 :: _ =>
         let! headers :=
           match headers with
           | Some h => ret h
           | None => let! cells := elem_query_all r0 "th, td" in header_texts cells
           end in
         let! data := table_rows headers cell_selector (drop (if skip_header_row then 1 else 0) rows) in
         ret (mkResult true extract_name (VList data) None
                [("table_selector", VStr table_selector); ("row_count", VInt (Z.of_nat (length data)));
                 ("headers", VList (map VStr headers))])
     end)
    (fun e => ret (fail_result extract_name e)).

End Extract.

(** ** Properties of the extraction *)

Lemma dget_or_dset_ne (p : Dict) k k' v d : k <> k' -> dget_or (dset p k v) k' d = dget_or p k' d.
Proof. intros Hk. unfold dget_or. by rewrite dget_dset_ne. Qed.

Section ExtractProofs.
Context `{Henv : Env}.

(** C27: with a non-empty [extract_fields] dict the [multiple] flag
    has no effect: [_extract_complex] reads every container the
    selector matches, so [multiple=False] still returns one item per
    container, not the first container's fields. *)
Theorem extract_fields_ignore_multiple p fields m1 m2 :
  dget_or p "extract_fields" VNone = VDict fields -> fields <> [] ->
  extract_execute (dset p "multiple" m1) = extract_execute (dset p "multiple" m2).
Proof.
  intros Ef Hf. unfold extract_execute.
  rewrite !(dget_or_dset_ne p "multiple" "selector"), !(dget_or_dset_ne p "multiple" "save_as"),
    !(dget_or_dset_ne p "multiple" "timeout"), !(dget_or_dset_ne p "multiple" "extract_fields"),
    !(dget_or_dset_ne p "multiple" "attribute"), Ef by done.
  destruct fields as [|f fs]; [done|]. reflexivity.
Qed.

End ExtractProofs.

(** ** Witnesses *)

(** An extraction of a title per card. *)
Definition cards_params : Dict :=
  [("selector", VStr ".card"); ("extract_fields", VDict [("title", VDict [("selector", VStr "h2")])])].

Lemma extract_fields_ignore_multiple_witness :
  dget_or cards_params "extract_fields" VNone = VDict [("title", VDict [("selector", VStr "h2")])] /\
  [("title", VDict [("selector", VStr "h2")])] <> [] /\
  @extract_execute mock_env (dset cards_params "multiple" (VBool true))
    = extract_execute (dset cards_params "multiple" (VBool false)).
Proof.
  split; [reflexivity|]. split; [discriminate|].
  apply extract_fields_ignore_multiple with (fields := [("title", VDict [("selector", VStr "h2")])]);
    [reflexivity|discriminate].
Defined.
