(* ===== verification/Tab.v ===== *)
(** * The tab and screenshot actions (src/actions/tab.py, screenshot.py)

    [TabAction] is built with the page and the browser context (the
    executor passes [self.context], [None] when there is none:
    [has_context]).  Its operations open, close, switch to and list the
    context's pages, or reload the action's page.  The context's pages
    are what the driver answers to [CtxPages] (a fresh list at each
    read, as [context.pages] is); a page is a [VObj] handle, and the
    action's own page is the implicit page of the other calls.
    [operation.lower()] runs before the [try], so a truthy operation that
    is not a string makes the action raise.  [ScreenshotAction] writes
    the page or an element to [./screenshots], under a name made from the
    clock when none is given. *)

From S2P Require Import Prelude PyData Env Mock.

Definition tab_name : Value := VStr "tab".

Definition no_context : string := "Browser context not available".

(** [0 <= tab_index < len(pages)]: ints and bools compare, anything
    else raises. *)
Definition py_index_ok (v : Value) (n : nat) : outcome bool :=
  match v with
  | VInt z => Ok ((0 <=? z) && (z <? Z.of_nat n))%Z
  | VBool b => Ok (Nat.ltb (if b then 1 else 0) n)
  | _ => Exc ("TypeError: '<=' not supported between instances of 'int' and '"
              +:+ py_type_name v +:+ "'")
  end.

(** [pages[tab_index]] *)
Definition page_at (pages : list Value) (v : Value) : outcome Value :=
  let i := match v with VInt z => Z.to_nat z | VBool true => 1 | _ => 0 end in
  match pages !! i with Some pg => Ok pg | None => Exc "IndexError: list index out of range" end.

Definition invalid_index (v : Value) : string := "Invalid tab index: " +:+ py_str v.

Section Tab.
Context `{Env}.

(** A method call on a page object. *)
Definition on_page_obj (pg : Value) (f : N -> call) (m : string) : st world Value :=
  match pg with VObj h => io (f h) | _ => raise (no_method pg m) end.

(** [self.context.pages] *)
Definition context_pages : st world (list Value) :=
  let! v := io CtxPages in lift_outcome (as_iter v).

Definition tab_count_data (pages : list Value) : Value :=
  VDict [("tab_count", VInt (Z.of_nat (length pages)))].

(** [TabAction._new_tab(url)] *)
Definition new_tab (has_context : bool) (url : Value) : st world ActionResult :=
  if negb has_context then ret (fail_result tab_name no_context)
  else
    let! new_page := io CtxNewPage in
    (if truthy url then on_page_obj new_page (fun h => GotoOn h url "domcontentloaded") "goto" !; ret tt
     else ret tt) !;
    let! pages := context_pages in
    ret (mkResult true tab_name (tab_count_data pages) None [("operation", VStr "new"); ("url", url)]).

(** [TabAction._close_tab(tab_index)] *)
Definition close_tab (has_context : bool) (tab_index : Value) : st world ActionResult :=
  if negb has_context then ret (fail_result tab_name no_context)
  else
    let! pages := context_pages in
    if Nat.leb (length pages) 1 then ret (fail_result tab_name "Cannot close the only tab")
    else
      let! early :=
        match tab_index with
        | VNone => io PageClose !; ret None
        | _ =>
            let! ok := lift_outcome (py_index_ok tab_index (length pages)) in
            if ok then
              let! pg := lift_outcome (page_at pages tab_index) in
              on_page_obj pg PageCloseOn "close" !; ret None
            else ret (Some (fail_result tab_name (invalid_index tab_index)))
        end in
      match early with
      | Some r => ret r
      | None =>
          let! pages' := context_pages in
          ret (mkResult true tab_name (tab_count_data pages') None
                 [("operation", VStr "close"); ("tab_index", tab_index)])
      end.

(** [TabAction._switch_tab(tab_index)]: brings the page to the front;
    the action's own page, and the executor's, stay what they were. *)
Definition switch_tab (has_context : bool) (tab_index : Value) : st world ActionResult :=
  if negb has_context then ret (fail_result tab_name no_context)
  else
    let! pages := context_pages in
    match tab_index with
    | VNone => ret (fail_result tab_name "tab_index required for switch operation")
    | _ =>
        let! ok := lift_outcome (py_index_ok tab_index (length pages)) in
        if ok then
          let! pg := lift_outcome (page_at pages tab_index) in
          on_page_obj pg BringToFront "bring_to_front" !;
          let! url := on_page_obj pg PageUrlOf "url" in
          ret (mkResult true tab_name (VDict [("current_tab", tab_index); ("url", url)]) None
                 [("operation", VStr "switch"); ("tab_index", tab_index)])
        else ret (fail_result tab_name (invalid_index tab_index))
    end.

(** The [for i, page in enumerate(self.context.pages)] loop. *)
Fixpoint tab_entries (i : nat) (pages : list Value) : st world (list Value) :=
  match pages with
  | [] => ret []
  | pg :: rest =>
      let! url := on_page_obj pg PageUrlOf "url" in
      let! title := on_page_obj pg PageTitleOf "title" in
      let! tabs := tab_entries (S i) rest in
      ret (VDict [("index", VInt (Z.of_nat i)); ("url", url); ("title", title)] :: tabs)
  end.

(** [TabAction._list_tabs()] *)
Definition list_tabs (has_context : bool) : st world ActionResult :=
  if negb has_context then ret (fail_result tab_name no_context)
  else
    let! pages := context_pages in
    let! tabs := tab_entries 0 pages in
    ret (mkResult true tab_name (VList tabs) None
           [("operation", VStr "list"); ("tab_count", VInt (Z.of_nat (length tabs)))]).

(** [TabAction._reload()]: [reload(wait_until="domcontentloaded")]
    without a timeout. *)
Definition reload_tab : st world ActionResult :=
  io (PageReload (VStr "domcontentloaded") VNone) !;
  let! url := io PageUrl in
  ret (mkResult true tab_name VNone None [("operation", VStr "reload"); ("url", url)]).

(** [TabAction.execute(operation=None, url=None, tab_index=None)] *)
Definition tab_execute (has_context : bool) (p : Dict) : st world ActionResult :=
  let operation := dget_or p "operation" VNone in
  let url := dget_or p "url" VNone in
  let tab_index := dget_or p "tab_index" VNone in
  if negb (truthy operation) then
    ret (fail_result tab_name "'operation' parameter required (new, close, switch, list)")
  else
    let! op := lift_outcome (py_lower operation) in
    try_except
      (if String.eqb op "new" then new_tab has_context url
       else if String.eqb op "close" then close_tab has_context tab_index
       else if String.eqb op "switch" then switch_tab has_context tab_index
       else if String.eqb op "list" then list_tabs has_context
       else if String.eqb op "reload" then reload_tab
       else ret (fail_result tab_name ("Unknown operation: " +:+ op)))
      (fun e => ret (fail_result tab_name e)).

(** ** The screenshot action *)

Definition screenshot_name : Value := VStr "screenshot".

(** [ScreenshotAction(page)]'s [output_dir]. *)
Definition screenshot_dir : string := "./screenshots".

(** [ScreenshotAction.execute(filename=None, selector=None,
    full_page=False)] *)
Definition screenshot_execute (p : Dict) : st world ActionResult :=
  let filename := dget_or p "filename" VNone in
  let selector := dget_or p "selector" VNone in
  let full_page := dget_or p "full_page" (VBool false) in
  try_except
    (let! filename :=
       if negb (truthy filename) then
         let! t := io Now in ret ("screenshot_" +:+ strftime_ts t +:+ ".png")
       else match filename with
            | VStr f => ret f
            | v => raise (no_method v "endswith")
            end in
     let filename := if str_ends_with ".png" filename then filename else filename +:+ ".png" in
     let filepath := path_join screenshot_dir filename in
     let! shot :=
       if truthy selector then
         let! element := query_selector selector in
         if truthy element then on_page_obj element (fun h => ElemScreenshot h filepath) "screenshot" !;
                                ret true
         else ret false
       else io (PageScreenshot filepath full_page) !; ret true in
     if shot then
       ret (mkResult true screenshot_name (VDict [("path", VStr filepath)]) None
              [("filename", VStr filename); ("full_page", full_page); ("selector", selector)])
     else ret (fail_result screenshot_name ("Element not found: " +:+ py_str selector)))
    (fun e => ret (fail_result screenshot_name e)).

End Tab.

(** ** The tab action keeps a tab open *)

(** What the code relies on of the browser context, for a function
    [open_tabs] giving the pages open in a world: [context.pages] lists
    them without changing anything, a [close] closes at most one page,
    and no other call closes any. *)
Record context_contract `{Env} (open_tabs : world -> list N) : Prop := {
  cc_pages : forall w, handle CtxPages w = (Ok (VList (map VObj (open_tabs w))), w);
  cc_close : forall c w o w', (c = PageClose \/ exists h, c = PageCloseOn h) ->
               handle c w = (o, w') -> length (open_tabs w) <= S (length (open_tabs w'));
  cc_other : forall c w o w', c <> PageClose -> (forall h, c <> PageCloseOn h) ->
               handle c w = (o, w') -> length (open_tabs w) <= length (open_tabs w')
}.

Section TabProofs.
Context `{Henv : Env} (open_tabs : world -> list N) (Hcc : context_contract open_tabs).

(** No page closed. *)
Definition tabs_mono (w w' : world) : Prop := length (open_tabs w) <= length (open_tabs w').

#[local] Instance tabs_mono_preorder : PreOrder tabs_mono.
Proof. split; [intros w; unfold tabs_mono; lia|intros w1 w2 w3; unfold tabs_mono; lia]. Qed.

(** Some page still open, if one was. *)
Definition tabs_kept (w w' : world) : Prop :=
  1 <= length (open_tabs w) -> 1 <= length (open_tabs w').

#[local] Instance tabs_kept_preorder : PreOrder tabs_kept.
Proof. split; [intros w H; exact H|intros w1 w2 w3 H1 H2 H; by apply H2, H1]. Qed.

Lemma st_rel_mono_kept {A} (m : st world A) : st_rel tabs_mono m -> st_rel tabs_kept m.
Proof. intros Hm s o s' E Hs. specialize (Hm s o s' E). unfold tabs_mono in Hm. lia. Qed.

Lemma io_mono c : c <> PageClose -> (forall h, c <> PageCloseOn h) -> st_rel tabs_mono (io c).
Proof. intros H1 H2 w o w' E. by eapply (cc_other _ Hcc). Qed.

Lemma on_page_obj_mono pg f m :
  (forall h, f h <> PageClose /\ forall h', f h <> PageCloseOn h') -> st_rel tabs_mono (on_page_obj pg f m).
Proof.
  intros Hf. destruct pg; simpl; try (apply io_mono; apply Hf).
  all: intros w o w' E; inversion E; reflexivity.
Qed.

Lemma context_pages_spec w : context_pages w = (Ok (map VObj (open_tabs w)), w).
Proof. unfold context_pages, bind, io. rewrite (cc_pages _ Hcc). reflexivity. Qed.

Lemma context_pages_mono : st_rel tabs_mono context_pages.
Proof. intros w o w' E. rewrite context_pages_spec in E. inversion E. reflexivity. Qed.

Ltac tabs_step :=
  first
    [ apply context_pages_mono
    | apply on_page_obj_mono; intros; split; [discriminate|intros; discriminate]
    | apply io_mono; [discriminate|intros; discriminate]
    | st_rel_step ].

Lemma tab_entries_mono i pages : st_rel tabs_mono (tab_entries i pages).
Proof. revert i. induction pages as [|pg pages IH]; intros i; simpl; repeat tabs_step; apply IH. Qed.

Lemma new_tab_mono c url : st_rel tabs_mono (new_tab c url).
Proof. unfold new_tab. repeat tabs_step. Qed.

Lemma switch_tab_mono c ti : st_rel tabs_mono (switch_tab c ti).
Proof. unfold switch_tab. repeat tabs_step. Qed.

Lemma list_tabs_mono c : st_rel tabs_mono (list_tabs c).
Proof. unfold list_tabs. repeat (apply tab_entries_mono || tabs_step). Qed.

Lemma reload_tab_mono : st_rel tabs_mono reload_tab.
Proof. unfold reload_tab. repeat tabs_step. Qed.

(** A close from a world with two pages or more leaves one. *)
Lemma close_keeps c w o w' :
  (c = PageClose \/ exists h, c = PageCloseOn h) -> 2 <= length (open_tabs w) ->
  handle c w = (o, w') -> 1 <= length (open_tabs w').
Proof. intros Hc Hw E. pose proof (cc_close _ Hcc c w o w' Hc E). lia. Qed.

(** A step that keeps a page open, followed by steps that close none. *)
Lemma bind_keeps {A B} (m : st world A) (k : A -> st world B) w o w' :
  (forall o1 w1, m w = (o1, w1) -> 1 <= length (open_tabs w1)) ->
  (forall a, st_rel tabs_mono (k a)) -> bind m k w = (o, w') -> 1 <= length (open_tabs w').
Proof.
  intros Hm Hk E. unfold bind in E. destruct (m w) as [[a|e] w1] eqn:Em.
  - specialize (Hk a w1 o w' E). specialize (Hm _ _ eq_refl). unfold tabs_mono in Hk. lia.
  - inversion E; subst. by eapply Hm.
Qed.

Lemma close_tab_kept c ti : st_rel tabs_kept (close_tab c ti).
Proof.
  intros w o w' E Hw. unfold close_tab in E. destruct c; simpl in E; [|by inversion E; subst].
  rewrite (bind_ok _ _ _ _ _ (context_pages_spec w)) in E. rewrite length_map in E.
  destruct (Nat.leb_spec (length (open_tabs w)) 1) as [Hle|Hgt]; [by inversion E; subst|].
  refine (bind_keeps _ _ w o w' _ _ E); [|intros [r|]; repeat tabs_step].
  intros o1 w1 E1. destruct ti; try (
    unfold bind, lift_outcome in E1; destruct (py_index_ok _ _) as [[]|e]; simpl in E1;
      [destruct (page_at _ _) as [[]|e]; simpl in E1; try (inversion E1; subst; lia);
       unfold bind, io in E1; destruct (handle (PageCloseOn _) w) as [o2 w2] eqn:E2;
       destruct o2; inversion E1; subst;
       exact (close_keeps _ w _ _ (or_intror (ex_intro _ _ eq_refl)) ltac:(lia) E2)
      |inversion E1; subst; lia|inversion E1; subst; lia]).
  unfold bind, io in E1. destruct (handle PageClose w) as [o2 w2] eqn:E2.
  destruct o2; inversion E1; subst; exact (close_keeps _ w _ _ (or_introl eq_refl) ltac:(lia) E2).
Qed.
(** C40: under the context contract, no tab operation closes the last
    page: [_close_tab] refuses when [context.pages] has one page, closes
    one page otherwise, and every other operation closes none; so a
    browser with a page open keeps one, whatever the params. *)
Theorem tab_keeps_a_page c p w o w' :
  1 <= length (open_tabs w) -> tab_execute c p w = (o, w') -> 1 <= length (open_tabs w').
Proof.
  intros Hw E. assert (Hk : st_rel tabs_kept (tab_execute c p)); [|exact (Hk w o w' E Hw)].
  unfold tab_execute.
  repeat first
    [ apply close_tab_kept
    | apply st_rel_mono_kept;
      first [apply new_tab_mono | apply switch_tab_mono | apply list_tabs_mono | apply reload_tab_mono]
    | st_rel_step ].
Qed.

End TabProofs.

(** ** Witnesses *)

Lemma remove_page_length h l : length l <= S (length (remove_page h l)).
Proof. induction l as [|x l IH]; simpl; [lia|]. destruct (N.eqb x h); simpl; lia. Qed.

Lemma tabs_env_contract : @context_contract tabs_env (fun l => l).
Proof.
  split; [done| |].
  - intros c w o w' [->|[h ->]] E; simpl in E; inversion E; subst; apply remove_page_length.
  - intros c w o w' H1 H2 E. destruct c; simpl in E; inversion E; subst; try lia.
    all: first [ rewrite length_app; simpl; lia | by destruct H1
               | match goal with H : forall h, PageCloseOn ?x <> PageCloseOn h |- _ => by destruct (H x) end ].
Qed.

Lemma tab_keeps_a_page_witness :
  @context_contract tabs_env (fun l => l) /\ 1 <= length [0%N; 1%N] /\
  1 <= length (@tab_execute tabs_env true [("operation", VStr "close")] [0%N; 1%N]).2.
Proof.
  split; [exact tabs_env_contract|]. split; [simpl; lia|].
  destruct (@tab_execute tabs_env true [("operation", VStr "close")] [0%N; 1%N]) as [o w'] eqn:E.
  exact (@tab_keeps_a_page tabs_env (fun l => l) tabs_env_contract true _ [0%N; 1%N] o w' ltac:(simpl; lia) E).
Defined.
