(* ===== verification/Inspect.v ===== *)
(** * The inspection action (src/actions/inspect.py)

    [InspectAction.execute] reports the page's URL and title, tests a
    selector, lists the interactive elements of the accessibility tree
    (or, when the snapshot raises, those found by selectors), the links,
    buttons and inputs, and the common selectors that match something,
    each as ["<selector> (<count>)"].  The executor keeps that result and
    repairs a failing extraction with the first suggestion, cut at
    [" ("].  The accessibility tree is the [Value] Playwright answers;
    [_extract_elements] stops below depth 10, so its recursion is on the
    depth left ([ax_elements]), which is exact.  Slices [v[:n]] are
    [py_slice].  The last section proves that the executor's cut gives
    back the common selectors the suggestions were made from. *)

From S2P Require Import Prelude PyData Env Mock.

(** [v[:n]] *)
Definition py_slice (n : nat) (v : Value) : outcome Value :=
  match v with
  | VStr s => Ok (VStr (String.substring 0 n s))
  | VList l => Ok (VList (take n l))
  | VDict _ => Exc "TypeError: unhashable type: 'slice'"
  | _ => Exc ("TypeError: '" +:+ py_type_name v +:+ "' object is not subscriptable")
  end.

(** [a or b] *)
Definition py_or (a b : Value) : Value := if truthy a then a else b.

Definition interactive_roles : list string :=
  ["button"; "link"; "textbox"; "searchbox"; "combobox";
   "checkbox"; "radio"; "menuitem"; "tab"; "option"].

(** [role in interactive_roles]: a set lookup, which raises on an
    unhashable role. *)
Definition role_in (role : Value) : outcome bool :=
  match role with
  | VStr s => Ok (bool_decide (s ∈ interactive_roles))
  | VList _ | VDict _ => Exc "TypeError: unhashable type"
  | _ => Ok false
  end.

(** [InspectAction._extract_elements(node, result, depth)] with
    [budget = 11 - depth]: a node at depth above 10 is not visited. *)
Fixpoint ax_elements (budget : nat) (node : Value) (result : list Value) : outcome (list Value) :=
  match budget with
  | O => Ok result
  | S b =>
      if negb (truthy node) then Ok result
      else
        let? role := py_get node "role" (VStr "") in
        let? name := py_get node "name" (VStr "") in
        let? interactive := role_in role in
        let? result :=
          if interactive && truthy name then
            let? nm := py_slice 100 name in
            let? focused := py_get node "focused" (VBool false) in
            Ok (result ++ [VDict [("role", role); ("name", nm); ("focused", focused)]])
          else Ok result in
        let? children := py_get node "children" (VList []) in
        let? kids := as_iter children in
        (fix go (kids : list Value) (result : list Value) : outcome (list Value) :=
           match kids with
           | [] => Ok result
           | k :: ks => let? result := ax_elements b k result in go ks result
           end) kids result
  end.

(** The selectors [_find_working_selectors] tries, in order. *)
Definition common_selectors : list string :=
  ["article"; ".post"; ".card"; ".item"; "table"; "tr"; "ul li"; "ol li";
   "h1"; "h2"; "h3"; "p"; ".content"; ".main"; "#content"].

(** [f"{selector} ({count})"] *)
Definition suggestion (sel : string) (count : Value) : Value :=
  VStr (sel +:+ " (" +:+ py_str count +:+ ")").

Section Inspect.
Context `{Env}.

(** [InspectAction._get_links()] over [elements[:50]] *)
Fixpoint links_of (els : list Value) : st world (list Value) :=
  match els with
  | [] => ret []
  | el :: rest =>
      let! href := get_attribute el (VStr "href") in
      let! text := text_content el in
      let! link :=
        if truthy href then
          let! t := lift_outcome (let? t := py_strip (py_or text (VStr "")) in py_slice 50 t) in
          let! h := lift_outcome (py_slice 200 href) in
          ret [VDict [("text", t); ("href", h)]]
        else ret [] in
      let! links := links_of rest in
      ret (link ++ links)
  end.

Definition get_links : st world (list Value) :=
  let! els := query_selector_all (VStr "a[href]") in links_of (take 50 els).

(** [InspectAction._get_buttons()] over [elements[:30]] *)
Fixpoint buttons_of (els : list Value) : st world (list Value) :=
  match els with
  | [] => ret []
  | el :: rest =>
      let! text := text_content el in
      let! text := if truthy text then ret text
                   else let! v := get_attribute el (VStr "value") in ret (py_or v (VStr "")) in
      let! t := lift_outcome (let? t := py_strip text in py_slice 50 t) in
      let! buttons := buttons_of rest in
      ret (VDict [("text", t)] :: buttons)
  end.

Definition get_buttons : st world (list Value) :=
  let! els := query_selector_all (VStr "button, input[type='submit'], [role='button']") in
  buttons_of (take 30 els).

(** [InspectAction._get_inputs()] over [elements[:30]] *)
Fixpoint inputs_of (els : list Value) : st world (list Value) :=
  match els with
  | [] => ret []
  | el :: rest =>
      let! name := get_attribute el (VStr "name") in
      let! type_ := get_attribute el (VStr "type") in
      let! placeholder := get_attribute el (VStr "placeholder") in
      let! ph := lift_outcome (py_slice 50 (py_or placeholder (VStr ""))) in
      let! inputs := inputs_of rest in
      ret (VDict [("name", py_or name (VStr "")); ("type", py_or type_ (VStr "text"));
                  ("placeholder", ph)] :: inputs)
  end.

Definition get_inputs : st world (list Value) :=
  let! els := query_selector_all (VStr "input, textarea, select") in inputs_of (take 30 els).

(** [InspectAction._find_working_selectors()]: a failing count is
    skipped ([except: pass]). *)
Fixpoint working_selectors (sels : list string) : st world (list Value) :=
  match sels with
  | [] => ret []
  | sel :: rest =>
      let! found :=
        try_except
          (let! count := io (LocCount (VStr sel)) in
           let! pos := lift_outcome (py_gt0 count) in
           ret (if pos then [suggestion sel count] else []))
          (fun _ => ret []) in
      let! working := working_selectors rest in
      ret (found ++ working)
  end.

Definition find_working_selectors : st world (list Value) := working_selectors common_selectors.

(** The three loops of [_get_interactive_elements_fallback]. *)
Fixpoint fallback_named (role : string) (els : list Value) : st world (list Value) :=
  match els with
  | [] => ret []
  | el :: rest =>
      let! text := text_content el in
      let! here :=
        if truthy text then
          let! t := lift_outcome (py_strip text) in
          if truthy t then let! nm := lift_outcome (py_slice 50 t) in
                            ret [VDict [("role", VStr role); ("name", nm)]]
          else ret []
        else ret [] in
      let! more := fallback_named role rest in
      ret (here ++ more)
  end.

Fixpoint fallback_inputs (els : list Value) : st world (list Value) :=
  match els with
  | [] => ret []
  | el :: rest =>
      let! placeholder := get_attribute el (VStr "placeholder") in
      let! name := get_attribute el (VStr "name") in
      let! more := fallback_inputs rest in
      ret (VDict [("role", VStr "textbox");
                  ("name", py_or (py_or placeholder (VStr "")) (py_or (py_or name (VStr "")) (VStr "input")))]
           :: more)
  end.

(** [InspectAction._get_interactive_elements_fallback()] *)
Definition interactive_fallback : st world (list Value) :=
  let! links := query_selector_all (VStr "a[href]") in
  let! l := fallback_named "link" (take 20 links) in
  let! buttons := query_selector_all (VStr "button, [role='button']") in
  let! b := fallback_named "button" (take 10 buttons) in
  let! inputs := query_selector_all (VStr "input, textarea") in
  let! i := fallback_inputs (take 10 inputs) in
  ret (l ++ b ++ i).

(** The [find_elements] block: the accessibility snapshot, or the
    fallback when it raises. *)
Definition interactive_elements : st world (list Value) :=
  try_except
    (let! ax := io AxSnapshot in
     lift_outcome (if truthy ax then ax_elements 11 ax [] else Ok []))
    (fun _ => interactive_fallback).

Definition inspect_name : Value := VStr "inspect".

(** [InspectAction.execute(find_elements=True, get_links=False,
    get_buttons=False, get_inputs=False, selector=None)] *)
Definition inspect_execute (p : Dict) : st world ActionResult :=
  let find_elements := dget_or p "find_elements" (VBool true) in
  let links := dget_or p "get_links" (VBool false) in
  let buttons := dget_or p "get_buttons" (VBool false) in
  let inputs := dget_or p "get_inputs" (VBool false) in
  let selector := dget_or p "selector" VNone in
  try_except
    (let! url := io PageUrl in
     let! title := io PageTitle in
     let data := [("url", url); ("title", title)] in
     let! data :=
       if truthy selector then
         let! count := io (LocCount selector) in
         let! found := lift_outcome (py_gt0 count) in
         ret (dset data "selector_test"
                (VDict [("selector", selector); ("found", VBool found); ("count", count)]))
       else ret data in
     let! data :=
       if truthy find_elements then
         let! els := interactive_elements in ret (dset data "interactive_elements" (VList (take 50 els)))
       else ret data in
     let! data :=
       if truthy links then let! l := get_links in ret (dset data "links" (VList (take 30 l)))
       else ret data in
     let! data :=
       if truthy buttons then let! b := get_buttons in ret (dset data "buttons" (VList (take 20 b)))
       else ret data in
     let! data :=
       if truthy inputs then let! i := get_inputs in ret (dset data "inputs" (VList (take 20 i)))
       else ret data in
     let! working := find_working_selectors in
     let data := dset data "suggested_selectors" (VList working) in
     let! url' := io PageUrl in
     ret (mkResult true inspect_name (VDict data) None [("url", url')]))
    (fun e => ret (fail_result inspect_name e)).

End Inspect.

(** ** Properties of the inspection *)

(** The sizes [execute] cuts its lists to. *)
Definition inspect_limits : list (string * nat) :=
  [("interactive_elements", 50); ("links", 30); ("buttons", 20); ("inputs", 20);
   ("suggested_selectors", 15)].

Definition within_limits (d : Dict) : Prop :=
  forall k n l, (k, n) ∈ inspect_limits -> dget d k = Some (VList l) -> length l <= n.

Lemma within_limits_dset d k v :
  within_limits d ->
  (forall n l, (k, n) ∈ inspect_limits -> v = VList l -> length l <= n) ->
  within_limits (dset d k v).
Proof.
  intros Hd Hv k' n l Hk E. destruct (String.eqb_spec k k') as [->|Hne].
  - rewrite dget_dset_eq in E. inversion E; subst. by eapply Hv.
  - rewrite dget_dset_ne in E by done. by eapply Hd.
Qed.

Lemma within_limits_other d k v :
  within_limits d -> k ∉ inspect_limits.*1 -> within_limits (dset d k v).
Proof.
  intros Hd Hk. apply within_limits_dset; [done|]. intros n l Hin _.
  exfalso. apply Hk, list_elem_of_fmap. by exists (k, n).
Qed.

Lemma within_limits_take d k n l :
  within_limits d -> (k, n) ∈ inspect_limits -> within_limits (dset d k (VList (take n l))).
Proof.
  intros Hd Hk. apply within_limits_dset; [done|]. intros n' l' Hk' E. inversion E; subst.
  assert (n' = n) as ->.
  { unfold inspect_limits in Hk, Hk'. repeat rewrite elem_of_cons in Hk, Hk'.
    rewrite elem_of_nil in Hk, Hk'. naive_solver. }
  rewrite length_take. lia.
Qed.

Section InspectProofs.
Context `{Henv : Env}.

Lemma working_selectors_length sels :
  post (fun w => length w <= length sels) (working_selectors sels).
Proof.
  induction sels as [|sel sels IH]; simpl; [by apply post_ret|].
  apply (post_bind (fun f => length f <= 1)).
  - apply post_try_except; [|intros; apply post_ret; simpl; lia].
    apply post_bind_any. intros c. apply post_bind_any. intros b. apply post_ret. destruct b; simpl; lia.
  - intros f Hf. apply (post_bind _ _ _ _ IH). intros w Hw. apply post_ret.
    rewrite length_app. lia.
Qed.

(** One optional block of [execute]: the list it stores is cut to its
    limit. *)
Lemma within_limits_block (b : bool) (m : st world (list Value)) d k n :
  within_limits d -> (k, n) ∈ inspect_limits ->
  post within_limits (if b then let! l := m in ret (dset d k (VList (take n l))) else ret d).
Proof.
  intros Hd Hk. destruct b; [|by apply post_ret].
  apply post_bind_any. intros l. apply post_ret. by apply within_limits_take.
Qed.

(** C28: whatever the page answers, the lists of a successful
    inspection are cut to their limits: at most 50 interactive
    elements, 30 links, 20 buttons, 20 inputs and 15 suggested
    selectors. *)
Theorem inspect_bounds p :
  post (fun r => forall d, ar_data r = VDict d -> within_limits d) (inspect_execute p).
Proof.
  unfold inspect_execute. apply post_try_except; [|intros; by apply post_ret].
  apply post_bind_any. intros url. apply post_bind_any. intros title.
  apply (post_bind within_limits).
  { destruct (truthy _).
    - apply post_bind_any. intros c. apply post_bind_any. intros f. apply post_ret.
      apply within_limits_other; [|set_solver].
      intros k n l Hk. unfold inspect_limits in Hk. set_solver.
    - apply post_ret. intros k n l Hk. unfold inspect_limits in Hk. set_solver. }
  intros d1 H1. apply (post_bind within_limits); [apply within_limits_block; [done|set_solver]|].
  intros d2 H2. apply (post_bind within_limits); [apply within_limits_block; [done|set_solver]|].
  intros d3 H3. apply (post_bind within_limits); [apply within_limits_block; [done|set_solver]|].
  intros d4 H4. apply (post_bind within_limits); [apply within_limits_block; [done|set_solver]|].
  intros d5 H5. apply (post_bind _ _ _ _ (working_selectors_length common_selectors)).
  intros w Hw. apply post_bind_any. intros url'. apply post_ret. intros d E. inversion E; subst.
  apply within_limits_dset; [done|]. intros n l Hk E'. inversion E'; subst.
  assert (n = 15) as -> by (unfold inspect_limits in Hk; set_solver). done.
Qed.

End InspectProofs.

(** ** Witnesses *)

Lemma inspect_bounds_witness :
  post (fun r => forall d, ar_data r = VDict d -> within_limits d)
    (@inspect_execute mock_env [("get_links", VBool true)]).
Proof. apply inspect_bounds. Defined.

(** ** The suggestions against the executor's repair *)

(** None of the common selectors contains [" ("], so cutting a
    suggestion at its first [" ("] gives its selector back. *)
Lemma common_selectors_split :
  Forall (fun s => forall x, split_first " (" (s +:+ " (" +:+ x) = s) common_selectors.
Proof.
  apply Forall_forall. intros s Hs x. unfold common_selectors in Hs.
  repeat (apply elem_of_cons in Hs as [->|Hs]; [destruct x; vm_compute; reflexivity|]).
  by apply elem_of_nil in Hs.
Qed.

Section RepairProofs.
Context `{Henv : Env}.

(** One selector of [_find_working_selectors]: no suggestion, or the
    suggestion of that selector with the count the page answered. *)
Lemma working_step sel w :
  exists found w', try_except
      (let! count := io (LocCount (VStr sel)) in
       let! pos := lift_outcome (py_gt0 count) in
       ret (if pos then [suggestion sel count] else []))
      (fun _ => ret []) w = (Ok found, w') /\
    (found = [] \/ exists c, found = [suggestion sel c]).
Proof.
  unfold try_except, bind, io, lift_outcome, ret.
  destruct (handle (LocCount (VStr sel)) w) as [[c|e] w1]; simpl.
  - destruct (py_gt0 c) as [[]|e]; simpl; (eexists _, _; split; [reflexivity|]); eauto.
  - eexists _, _. split; [reflexivity|]. auto.
Qed.

Lemma working_selectors_parse sels w :
  Forall (fun s => forall x, split_first " (" (s +:+ " (" +:+ x) = s) sels ->
  exists working chosen w',
    working_selectors sels w = (Ok working, w') /\ sublist chosen sels /\
    Forall2 (fun sug s => py_split_first sug = Ok s) working chosen.
Proof.
  revert w. induction sels as [|sel sels IH]; intros w Hs.
  { exists [], [], w. split; [done|]. split; constructor. }
  apply Forall_cons in Hs as [Hsel Hs].
  destruct (working_step sel w) as (found & w1 & E1 & Hf).
  destruct (IH w1 Hs) as (working & chosen & w2 & E2 & Hsub & H2).
  simpl. rewrite bind_ok with (1 := E1), bind_ok with (1 := E2).
  destruct Hf as [->|[c ->]].
  - exists working, chosen, w2. split; [done|]. split; [by apply sublist_cons|done].
  - exists (suggestion sel c :: working), (sel :: chosen), w2. split; [done|].
    split; [by apply sublist_skip|]. constructor; [|done]. simpl. f_equal. apply Hsel.
Qed.

(** C17: [_find_working_selectors] never raises, and the executor's
    repair, [suggested[i].split(" (")[0]], turns its suggestions back
    into common selectors, in the order the inspection listed them: the
    selector a failing extraction is retried with is always one of the
    fifteen common selectors that matched on the page. *)
Theorem suggestions_parse_back w :
  exists working chosen w',
    find_working_selectors w = (Ok working, w') /\ sublist chosen common_selectors /\
    Forall2 (fun sug s => py_split_first sug = Ok s) working chosen.
Proof. apply working_selectors_parse, common_selectors_split. Qed.

End RepairProofs.
