(* ===== verification/AxTree.v ===== *)
(** * The accessibility-tree analyser (src/browser/ax_tree.py)

    [AXTreeAnalyzer] caches the page's accessibility snapshot, lists its
    interactive elements, builds role locators, finds a search box,
    summarises the page for a language model, and clicks or types into
    an element by role.  No other module calls it.  Its state is the
    cached tree ([None] when there is none).  [_extract_interactive]
    recurses through the children without a depth limit, so its model
    runs on fuel, the size of the tree plus one, and [ax_interactive_enough]
    proves that fuel is never exhausted. *)

From S2P Require Import Prelude PyData Env Mock Inspect.

(** The size of a value: one per node, list and dict entries included. *)
Fixpoint value_size (v : Value) : nat :=
  match v with
  | VList l => S ((fix go (l : list Value) : nat :=
                     match l with [] => 0 | x :: r => value_size x + go r end) l)
  | VDict d => S ((fix go (d : list (string * Value)) : nat :=
                     match d with [] => 0 | (_, x) :: r => value_size x + go r end) d)
  | _ => 1
  end.

(** The roles [_extract_interactive] keeps. *)
Definition ax_roles : list string :=
  ["button"; "link"; "textbox"; "searchbox"; "combobox"; "checkbox"; "radio";
   "menuitem"; "tab"; "option"; "spinbutton"; "slider"; "switch"].

(** [role in interactive_roles]: a set lookup, which raises on an
    unhashable role. *)
Definition ax_role_in (role : Value) : outcome bool :=
  match role with
  | VStr s => Ok (bool_decide (s ∈ ax_roles))
  | VList _ | VDict _ => Exc "TypeError: unhashable type"
  | _ => Ok false
  end.

(** The dict [_extract_interactive] appends for an interactive node. *)
Definition ax_entry (node role name : Value) (depth : nat) : outcome Value :=
  let? desc := py_get node "description" (VStr "") in
  let? value := py_get node "value" (VStr "") in
  let? focused := py_get node "focused" (VBool false) in
  Ok (VDict [("role", role); ("name", name); ("description", desc); ("value", value);
             ("focused", focused); ("depth", VInt (Z.of_nat depth))]).

(** [AXTreeAnalyzer._extract_interactive(node, result, depth)], on fuel. *)
Fixpoint ax_interactive (fuel : nat) (node : Value) (depth : nat) (result : list Value)
    : outcome (list Value) :=
  match fuel with
  | O => Ok result
  | S f =>
      if negb (truthy node) then Ok result
      else
        let? role := py_get node "role" (VStr "") in
        let? name := py_get node "name" (VStr "") in
        let? interactive := ax_role_in role in
        let? result :=
          if interactive then let? e := ax_entry node role name depth in Ok (result ++ [e])
          else Ok result in
        let? children := py_get node "children" (VList []) in
        let? kids := as_iter children in
        (fix go (kids : list Value) (result : list Value) : outcome (list Value) :=
           match kids with
           | [] => Ok result
           | k :: ks => let? result := ax_interactive f k (S depth) result in go ks result
           end) kids result
  end.

(** [AXTreeAnalyzer.find_element_by_role(role, name, exact)] *)
Definition find_element_by_role (role : string) (name : Value) (exact : bool) : string :=
  if truthy name then
    if exact then "role=" +:+ role +:+ "[name=" +:+ dq +:+ py_str name +:+ dq +:+ "]"
    else "role=" +:+ role +:+ "[name*=" +:+ dq +:+ py_str name +:+ dq +:+ " i]"
  else "role=" +:+ role.

(** [find_button(text)] and [find_link(text)] *)
Definition find_button (text : string) : string :=
  "role=button[name*=" +:+ dq +:+ text +:+ dq +:+ " i]".
Definition find_link (text : string) : string :=
  "role=link[name*=" +:+ dq +:+ text +:+ dq +:+ " i]".

(** The first loop of [find_search_box]: a search box or text box whose
    lower-cased name mentions search, query or find. *)
Fixpoint search_named (els : list Value) : outcome (option string) :=
  match els with
  | [] => Ok None
  | el :: rest =>
      let? role := py_get el "role" (VStr "") in
      let? name := py_get el "name" (VStr "") in
      let? lname := py_lower name in
      if is_str role "searchbox" || is_str role "textbox" then
        if existsb (fun kw => str_contains kw lname) ["search"; "query"; "find"] then
          let? nm := py_subscript el "name" in
          Ok (Some ("role=" +:+ py_str role +:+ "[name=" +:+ dq +:+ py_str nm +:+ dq +:+ "]"))
        else search_named rest
      else search_named rest
  end.

(** [any(el.get("role") == r for el in elements)], the fallback loops. *)
Fixpoint has_role (r : string) (els : list Value) : outcome bool :=
  match els with
  | [] => Ok false
  | el :: rest =>
      let? role := py_get el "role" VNone in
      if is_str role r then Ok true else has_role r rest
  end.

(** The count of each role, in the order roles are first met:
    [role_counts[role] = role_counts.get(role, 0) + 1]; the roles of the
    elements are strings (see [ax_interactive_roles]). *)
Fixpoint role_counts (els : list Value) (counts : list (string * Z)) : outcome (list (string * Z)) :=
  match els with
  | [] => Ok counts
  | el :: rest =>
      let? role := py_get el "role" (VStr "unknown") in
      match role with
      | VStr r => role_counts rest (dset counts r (default 0 (dget counts r) + 1)%Z)
      | v => Exc ("TypeError: '<' not supported between '" +:+ py_type_name v +:+ "' and 'str'")
      end
  end.

(** [sorted(role_counts.items())]: the roles are distinct, so the pairs
    sort by role. *)
Fixpoint insert_count (x : string * Z) (l : list (string * Z)) : list (string * Z) :=
  match l with
  | [] => [x]
  | y :: r => if String.leb x.1 y.1 then x :: y :: r else y :: insert_count x r
  end.

Definition sort_counts (l : list (string * Z)) : list (string * Z) := fold_right insert_count [] l.

(** The [Key elements] lines: the first 15 elements with a name, the
    name cut to 50 characters. *)
Fixpoint key_lines (els : list Value) : outcome (list string) :=
  match els with
  | [] => Ok []
  | el :: rest =>
      let? name := py_get el "name" (VStr "") in
      let? cut := py_slice 50 name in
      let? lines := key_lines rest in
      if truthy cut then
        let? role := py_subscript el "role" in
        Ok (("  - [" +:+ py_str role +:+ "] " +:+ py_str cut) :: lines)
      else Ok lines
  end.

(** The analyser with the world of its page: its state is the cached
    tree. *)
Abbreviation ax_st := (Value * world)%type.

Section AxTree.
Context `{Env}.

Definition ax_on_world {A} (m : st world A) : st ax_st A := zoom snd (fun w s => (s.1, w)) m.

(** [AXTreeAnalyzer.get_tree(refresh)] *)
Definition get_tree (refresh : bool) : st ax_st Value :=
  fun s =>
    if is_none s.1 || refresh then
      match handle AxSnapshot s.2 with
      | (Ok t, w) => (Ok t, (t, w))
      | (Exc e, w) => (Exc e, (s.1, w))
      end
    else (Ok s.1, s).

(** [AXTreeAnalyzer.get_interactive_elements()] *)
Definition get_interactive_elements : st ax_st (list Value) :=
  let! tree := get_tree true in
  if negb (truthy tree) then ret []
  else lift_outcome (ax_interactive (S (value_size tree)) tree 0 []).

(** [AXTreeAnalyzer.find_search_box()] *)
Definition find_search_box : st ax_st Value :=
  let! els := get_interactive_elements in
  lift_outcome
    (let? named := search_named els in
     match named with
     | Some loc => Ok (VStr loc)
     | None =>
         let? sb := has_role "searchbox" els in
         if sb then Ok (VStr "role=searchbox")
         else
           let? tb := has_role "textbox" els in
           Ok (if tb then VStr "role=textbox >> nth=0" else VNone)
     end).

(** [AXTreeAnalyzer.get_page_summary()] *)
Definition get_page_summary : st ax_st string :=
  let! els := get_interactive_elements in
  lift_outcome
    (let head := "Page has " +:+ py_str (VInt (Z.of_nat (length els))) +:+ " interactive elements:" in
     let? counts := role_counts els [] in
     let count_lines := map (fun rc => "  - " +:+ py_str (VInt rc.2) +:+ " " +:+ rc.1 +:+ "(s)")
                            (sort_counts counts) in
     let? keys := key_lines (take 15 els) in
     Ok (join_with nl ([head] ++ count_lines ++ [nl +:+ "Key elements:"] ++ keys))).

(** [AXTreeAnalyzer.click_by_role(role, name)] *)
Definition click_by_role (role : string) (name : Value) : st world bool :=
  try_except
    (io (PageClick (VStr (find_element_by_role role name false)) (VInt 10000)) !; ret true)
    (fun _ => ret false).

(** [AXTreeAnalyzer.type_in_role(role, text, name, press_enter)] *)
Definition type_in_role (role text : string) (name : Value) (press_enter : bool) : st world bool :=
  let loc := find_element_by_role role name false in
  try_except
    (io (LocatorFill loc "") !;
     io (LocatorType loc text 50) !;
     (if press_enter then io (LocatorPress loc "Enter") !; ret tt else ret tt) !;
     ret true)
    (fun _ => ret false).

End AxTree.

(** ** Termination of [_extract_interactive] *)

Lemma value_size_pos v : 1 <= value_size v.
Proof. destruct v; cbn; lia. Qed.

Lemma list_elem_size x l : x ∈ l -> value_size x < value_size (VList l).
Proof.
  induction l as [|y l IH]; intros Hx; [by apply elem_of_nil in Hx|]. cbn [value_size] in *.
  apply elem_of_cons in Hx as [->|Hx]; [lia|]. specialize (IH Hx). lia.
Qed.

Lemma dget_size d k v : dget d k = Some v -> value_size v < value_size (VDict d).
Proof.
  induction d as [|[k' v'] d IH]; intros E; [done|]. cbn [dget] in E. cbn [value_size] in *.
  destruct (String.eqb k' k); [injection E as <-; lia|]. specialize (IH E). lia.
Qed.

(** The children [for child in node.get("children", [])] visits are
    smaller than the node. *)
Lemma children_smaller node children kids k :
  py_get node "children" (VList []) = Ok children -> as_iter children = Ok kids -> k ∈ kids ->
  value_size k < value_size node.
Proof.
  destruct node as [| | | | |d| |]; try discriminate. cbn [py_get]. intros [= <-].
  unfold dget_or. destruct (dget d "children") as [c|] eqn:Ed.
  - pose proof (dget_size _ _ _ Ed) as Hc. intros Hi Hk.
    destruct c; cbn [as_iter] in Hi; simplify_eq.
    + apply list_elem_of_fmap in Hk as (?&->&_). cbn in *. lia.
    + pose proof (list_elem_size _ _ Hk). lia.
    + apply list_elem_of_fmap in Hk as (?&->&_). cbn in *. lia.
  - cbn. intros [= <-] Hk. by apply elem_of_nil in Hk.
Qed.

(** Fuel above the tree's size gives one result: the fuel of
    [get_interactive_elements], [value_size tree + 1], is never
    exhausted. *)
Lemma ax_interactive_fuel f1 f2 node depth result :
  value_size node < f1 -> value_size node < f2 ->
  ax_interactive f1 node depth result = ax_interactive f2 node depth result.
Proof.
  revert f2 node depth result. induction f1 as [|b1 IH]; intros [|b2] node depth result H1 H2; try lia.
  cbn [ax_interactive]. destruct (negb (truthy node)); [done|].
  destruct (py_get node "role" (VStr "")) as [role|e]; cbn [obind]; [|done].
  destruct (py_get node "name" (VStr "")) as [name|e]; cbn [obind]; [|done].
  destruct (ax_role_in role) as [b|e]; cbn [obind]; [|done].
  destruct (if b then _ else _) as [r|e]; cbn [obind]; [|done].
  destruct (py_get node "children" (VList [])) as [children|e] eqn:Ec; cbn [obind]; [|done].
  destruct (as_iter children) as [kids|e] eqn:Ek; cbn [obind]; [|done].
  pose proof (fun k => children_smaller node children kids k Ec Ek) as Hk. clear Ec Ek.
  revert r. induction kids as [|k ks IHk]; intros r; [done|].
  assert (Hs : value_size k < value_size node) by (apply Hk; by left).
  rewrite (IH b2 k (S depth) r) by lia.
  destruct (ax_interactive b2 k (S depth) r); cbn [obind]; [|done].
  apply IHk. intros k' Hk'. apply Hk. by right.
Qed.

(** ** The elements and the page summary *)

(** An element [_extract_interactive] appends: a dict whose role is one
    of the interactive roles. *)
Definition ax_elem_ok (e : Value) : Prop :=
  exists d r, e = VDict d /\ dget d "role" = Some (VStr r) /\ r ∈ ax_roles.

Lemma ax_entry_ok node role name depth e :
  ax_role_in role = Ok true -> ax_entry node role name depth = Ok e -> ax_elem_ok e.
Proof.
  destruct role as [| | |r| | | |]; cbn [ax_role_in]; try discriminate.
  intros [= Hr%bool_decide_eq_true]. unfold ax_entry.
  destruct (py_get node "description" _), (py_get node "value" _), (py_get node "focused" _);
    cbn [obind]; intros [=]; subst. eexists _, r. split; [reflexivity|]. by split.
Qed.

Lemma ax_interactive_elems f node depth result els :
  Forall ax_elem_ok result -> ax_interactive f node depth result = Ok els -> Forall ax_elem_ok els.
Proof.
  revert node depth result els. induction f as [|b IH]; intros node depth result els Hr E;
    cbn [ax_interactive] in E; [by simplify_eq|].
  destruct (negb (truthy node)); [by simplify_eq|].
  destruct (py_get node "role" (VStr "")) as [role|]; cbn [obind] in E; [|done].
  destruct (py_get node "name" (VStr "")) as [name|]; cbn [obind] in E; [|done].
  destruct (ax_role_in role) as [b'|] eqn:Ei; cbn [obind] in E; [|done].
  destruct (if b' then _ else _) as [r|] eqn:Eb; cbn [obind] in E; [|done].
  assert (Hr' : Forall ax_elem_ok r).
  { destruct b'; [|by simplify_eq].
    destruct (ax_entry node role name depth) as [e|] eqn:Ee; cbn [obind] in Eb; simplify_eq.
    apply Forall_app. split; [done|]. constructor; [exact (ax_entry_ok _ _ _ _ _ Ei Ee)|done]. }
  clear Hr Eb. destruct (py_get node "children" (VList [])) as [c|]; cbn [obind] in E; [|done].
  destruct (as_iter c) as [kids|]; cbn [obind] in E; [|done].
  revert r Hr' E. induction kids as [|k ks IHk]; intros r Hr E; [by simplify_eq|].
  destruct (ax_interactive b k (S depth) r) as [r'|] eqn:Ek; cbn [obind] in E; [|done].
  exact (IHk r' (IH _ _ _ _ Hr Ek) E).
Qed.

(** The total of the role counts. *)
Definition count_total (cs : list (string * Z)) : Z := fold_right (fun rc n => rc.2 + n)%Z 0%Z cs.

Lemma dset_count_total cs r :
  count_total (dset cs r (default 0 (dget cs r) + 1)%Z) = (count_total cs + 1)%Z.
Proof.
  unfold count_total. induction cs as [|[k v] cs IH]; cbn [dset dget]; [cbn; lia|].
  destruct (String.eqb k r); cbn in *; lia.
Qed.

Lemma role_counts_total els cs :
  Forall ax_elem_ok els ->
  exists cs', role_counts els cs = Ok cs' /\ count_total cs' = (count_total cs + Z.of_nat (length els))%Z.
Proof.
  revert cs. induction els as [|el els IH]; intros cs Hall; [exists cs; cbn; split; [done|lia]|].
  inversion Hall as [|? ? (d & r & -> & Hd & _) Hr]; subst.
  cbn [role_counts py_get obind]. unfold dget_or. rewrite Hd.
  destruct (IH (dset cs r (default 0 (dget cs r) + 1)%Z) Hr) as (cs' & E & Ht).
  exists cs'. split; [done|]. rewrite Ht, dset_count_total. cbn [length]. lia.
Qed.

Lemma insert_count_total x l : count_total (insert_count x l) = (x.2 + count_total l)%Z.
Proof.
  induction l as [|y l IH]; cbn [insert_count]; [done|].
  destruct (String.leb x.1 y.1); [done|]. unfold count_total in IH |- *. cbn. rewrite IH. lia.
Qed.

Lemma sort_counts_total cs : count_total (sort_counts cs) = count_total cs.
Proof.
  induction cs as [|x cs IH]; [done|]. unfold sort_counts in *. cbn [fold_right].
  rewrite insert_count_total, IH. done.
Qed.

Section AxTreeProofs.
Context `{Env}.

Lemma get_interactive_elements_ok : post (Forall ax_elem_ok) get_interactive_elements.
Proof.
  unfold get_interactive_elements. apply post_bind_any. intros tree.
  destruct (negb (truthy tree)); [by apply post_ret|].
  apply post_lift_outcome. intros els E. exact (ax_interactive_elems _ _ _ _ _ (Forall_nil_2 _) E).
Qed.

(** The summary's role lines count every interactive element once: the
    counts never raise, and they add up to the number of elements the
    head line reports. *)
Lemma page_summary_counts s els s' :
  get_interactive_elements s = (Ok els, s') ->
  exists cs, role_counts els [] = Ok cs /\ count_total (sort_counts cs) = Z.of_nat (length els).
Proof.
  intros E. destruct (role_counts_total els [] (get_interactive_elements_ok s els s' E)) as (cs & Ec & Ht).
  exists cs. split; [done|]. by rewrite sort_counts_total, Ht.
Qed.

End AxTreeProofs.

(** ** Concrete runs *)

(** [find_element_by_role] puts the name between double quotes without
    escaping it: a name that holds a double quote closes the quoted
    name early and leaves the rest of it in the selector. *)
Example find_element_by_role_unescaped :
  find_element_by_role "button" (VStr ("Say " +:+ dq +:+ "hi" +:+ dq)) true
    = "role=button[name=" +:+ dq +:+ "Say " +:+ dq +:+ "hi" +:+ dq +:+ dq +:+ "]".
Proof. vm_compute. reflexivity. Qed.

(** On the listing, whose accessibility tree holds a "Next" button while
    a next page exists, the summary lists that button; there is no
    search box. *)
Example page_summary_listing :
  let s0 : site := mkSite [["a"]; ["b"]] 0 5 0 [] in
  (@get_page_summary mock_env (VNone, s0)).1 =
    Ok ("Page has 1 interactive elements:" +:+ nl +:+ "  - 1 button(s)" +:+ nl +:+ nl +:+
        "Key elements:" +:+ nl +:+ "  - [button] Next") /\
  (@find_search_box mock_env (VNone, s0)).1 = Ok VNone.
Proof. vm_compute. split; reflexivity. Qed.
