(* ===== verification/Actions.v ===== *)
(** * The one-shot actions (src/actions/navigate.py, click.py, wait.py,
    reload.py, type_text.py, scroll.py)

    Each action class's [execute( **params)] is a function of the params
    dict to a computation on the page.  Python binds the dict's keys to
    the method's named parameters (a missing key takes the default) and
    the rest to [**kwargs]; a key ["self"] collides with the method's
    first parameter and raises before the body runs.  The page calls
    take the parameters as the plan gives them ([Env]'s [NavGoto],
    [PageClick], ...): Playwright decides what it accepts and raises
    otherwise, and each action's [try]/[except] turns that into a failed
    [ActionResult].  [run_action] dispatches on the action class, with
    extract, inspect, tab and screenshot from their own files; the
    classes added with [register_action] are a parameter [other]. *)

From Stdlib Require Import Ascii.
From S2P Require Import Prelude PyData Env Mock Extract Inspect Tab.

(** [f'role={role}[name*="{role_name}" i]'] when [role_name] is truthy,
    [f'role={role}'] otherwise. *)
Definition role_locator (role role_name : Value) : string :=
  if truthy role_name
  then "role=" +:+ py_str role +:+ "[name*=" +:+ dq +:+ py_str role_name +:+ dq +:+ " i]"
  else "role=" +:+ py_str role.

(** [if role_name is None: role_name = kwargs.get("name")] *)
Definition role_name_of (p : Dict) : Value :=
  match dget_or p "role_name" VNone with VNone => dget_or p "name" VNone | v => v end.

(** [text[:30]] and [len(text)] in [TypeTextAction]'s log line. *)
Definition py_len (v : Value) : outcome Z :=
  match v with
  | VStr s => Ok (Z.of_nat (String.length s))
  | VList l => Ok (Z.of_nat (length l))
  | VDict d => Ok (Z.of_nat (length d))
  | _ => Exc ("TypeError: object of type '" +:+ py_type_name v +:+ "' has no len()")
  end.

Definition py_slice_ok (v : Value) : outcome unit :=
  match v with
  | VStr _ | VList _ => Ok tt
  | VDict _ => Exc "TypeError: unhashable type: 'slice'"
  | _ => Exc ("TypeError: '" +:+ py_type_name v +:+ "' object is not subscriptable")
  end.

(** The locators [TypeTextAction] tries when neither a role nor a
    selector is given, in order. *)
Definition type_fallbacks : list string :=
  ["role=combobox"; "role=searchbox"; "role=textbox";
   "textarea[name=" +:+ dq +:+ "q" +:+ dq +:+ "]"; "input[name=" +:+ dq +:+ "q" +:+ dq +:+ "]";
   "input[type=" +:+ dq +:+ "text" +:+ dq +:+ "]"].

Section Actions.
Context `{Env}.

Definition navigate_name : Value := VStr "navigate".

(** [NavigateAction.execute(url=None, wait_until="domcontentloaded", timeout=30000)] *)
Definition navigate_execute (p : Dict) : st world ActionResult :=
  let url := dget_or p "url" VNone in
  let wait_until := dget_or p "wait_until" (VStr "domcontentloaded") in
  let timeout := dget_or p "timeout" (VInt 30000) in
  match validate_params ["url"] [("url", url)] with
  | Some err => ret (fail_result navigate_name err)
  | None =>
      try_except
        (let! response := io (NavGoto url wait_until timeout) in
         let! status := if truthy response then io (RespStatus response) else ret VNone in
         ret (mkResult true navigate_name (VDict [("status_code", status)]) None
                [("url", url); ("wait_until", wait_until)]))
        (fun e => ret (mkResult false navigate_name VNone (Some e) [("url", url)]))
  end.

(** [ClickAction.execute(selector=None, text=None, role=None,
    role_name=None, timeout=10000)]: the role first, then the selector,
    then the text. *)
Definition click_execute (p : Dict) : st world ActionResult :=
  let selector := dget_or p "selector" VNone in
  let text := dget_or p "text" VNone in
  let role := dget_or p "role" VNone in
  let role_name := role_name_of p in
  let timeout := dget_or p "timeout" (VInt 10000) in
  let md := [("role", role); ("selector", selector); ("text", text)] in
  try_except
    (if truthy role then
       io (PageClick (VStr (role_locator role role_name)) timeout) !;
       ret (mkResult true (VStr "click") VNone None md)
     else if truthy selector then
       io (PageClick selector timeout) !; ret (mkResult true (VStr "click") VNone None md)
     else if truthy text then
       io (PageClick (VStr ("text=" +:+ py_str text)) timeout) !;
       ret (mkResult true (VStr "click") VNone None md)
     else ret (fail_result (VStr "click") "Either 'role', 'selector', or 'text' must be provided"))
    (fun e => ret (mkResult false (VStr "click") VNone (Some e) md)).

(** [WaitAction.execute(selector=None, timeout=5000, state="visible",
    duration=None, wait_for=None)] *)
Definition wait_execute (p : Dict) : st world ActionResult :=
  let selector := dget_or p "selector" VNone in
  let timeout := dget_or p "timeout" (VInt 5000) in
  let state := dget_or p "state" (VStr "visible") in
  let duration := dget_or p "duration" VNone in
  let wait_for := dget_or p "wait_for" VNone in
  try_except
    (if negb (truthy duration) && negb (truthy wait_for) && negb (truthy selector) then
       io (WaitLoad (VStr "domcontentloaded") timeout) !;
       io (Sleep 1000) !;
       ret (mkResult true (VStr "wait") VNone None [("default_wait", VBool true)])
     else if truthy duration then
       sleep_ms duration !; ret (mkResult true (VStr "wait") VNone None [("duration", duration)])
     else if truthy wait_for then
       io (WaitLoad wait_for timeout) !;
       ret (mkResult true (VStr "wait") VNone None [("wait_for", wait_for)])
     else if truthy selector then
       io (WaitSel selector timeout state) !;
       ret (mkResult true (VStr "wait") VNone None [("selector", selector); ("state", state)])
     else ret (fail_result (VStr "wait") "No wait condition specified"))
    (fun e => ret (mkResult false (VStr "wait") VNone (Some e)
                     [("selector", selector); ("duration", duration)])).

(** [ReloadAction.execute(wait_until="domcontentloaded", timeout=30000)];
    the log line before the reload reads [self.page.url]. *)
Definition reload_execute (p : Dict) : st world ActionResult :=
  let wait_until := dget_or p "wait_until" (VStr "domcontentloaded") in
  let timeout := dget_or p "timeout" (VInt 30000) in
  try_except
    (io PageUrl !;
     io (PageReload wait_until timeout) !;
     let! url := io PageUrl in
     ret (mkResult true (VStr "reload") (VDict [("url", url)]) None [("wait_until", wait_until)]))
    (fun e => ret (fail_result (VStr "reload") e)).

(** The [for fallback_locator in [...]] search of [TypeTextAction]: the
    first locator whose element is visible; a failing probe is skipped
    ([except: continue]); [None] when the loop ends without [break]. *)
Fixpoint find_fallback (locs : list string) : st world (option string) :=
  match locs with
  | [] => ret None
  | l :: rest =>
      let! found := try_except (let! vis := io (LocVisible (VStr l) (VInt 2000)) in ret (truthy vis))
                               (fun _ => ret false) in
      if found then ret (Some l) else find_fallback rest
  end.

(** [TypeTextAction.execute(text=None, selector=None, role=None,
    role_name=None, clear_first=True, delay=30, press_enter=False,
    timeout=10000)] *)
Definition type_text_execute (p : Dict) : st world ActionResult :=
  let text := dget_or p "text" VNone in
  let selector := dget_or p "selector" VNone in
  let role := dget_or p "role" VNone in
  let role_name := role_name_of p in
  let clear_first := dget_or p "clear_first" (VBool true) in
  let delay := dget_or p "delay" (VInt 30) in
  let press_enter := dget_or p "press_enter" (VBool false) in
  let timeout := dget_or p "timeout" (VInt 10000) in
  if negb (truthy text) then ret (fail_result (VStr "type_text") "'text' parameter is required")
  else
    try_except
      (let! loc :=
         if truthy role then ret (Some (VStr (role_locator role role_name)))
         else if truthy selector then ret (Some selector)
         else let! f := find_fallback type_fallbacks in ret (option_map VStr f) in
       match loc with
       | None => ret (fail_result (VStr "type_text") "Could not find input element")
       | Some locator =>
           io (LocWaitFor locator (VStr "visible") timeout) !;
           io (LocClick locator) !;
           (if truthy clear_first then io (LocFill locator (VStr "")) !; ret tt else ret tt) !;
           io (LocType locator text delay) !;
           lift_outcome (py_slice_ok text) !;
           let! n := lift_outcome (py_len text) in
           (if truthy press_enter then io (LocPress locator (VStr "Enter")) !; ret tt else ret tt) !;
           ret (mkResult true (VStr "type_text") VNone None
                  [("role", role); ("selector", selector); ("text_length", VInt n);
                   ("press_enter", press_enter)])
       end)
      (fun e => ret (mkResult false (VStr "type_text") VNone (Some e)
                       [("role", role); ("selector", selector)])).

(** [ScrollAction._scroll_direction(direction, pixels, smooth)] *)
Definition scroll_direction (direction pixels smooth : Value) : st world ActionResult :=
  let! d := lift_outcome (py_lower direction) in
  let behavior := if truthy smooth then "'smooth'" else "'auto'" in
  let px := py_str pixels in
  let scroll_map :=
    [("down", "window.scrollBy({top: " +:+ px +:+ ", behavior: " +:+ behavior +:+ "})");
     ("up", "window.scrollBy({top: -" +:+ px +:+ ", behavior: " +:+ behavior +:+ "})");
     ("right", "window.scrollBy({left: " +:+ px +:+ ", behavior: " +:+ behavior +:+ "})");
     ("left", "window.scrollBy({left: -" +:+ px +:+ ", behavior: " +:+ behavior +:+ "})")] in
  match dget scroll_map d with
  | None => ret (fail_result (VStr "scroll")
                   ("Invalid direction: " +:+ d +:+ ". Use up, down, left, right"))
  | Some js =>
      io (Evaluate js) !;
      ret (mkResult true (VStr "scroll") VNone None [("direction", VStr d); ("pixels", pixels)])
  end.

(** [ScrollAction._scroll_to_element(selector, role, role_name)] *)
Definition scroll_to_element (selector role role_name : Value) : st world ActionResult :=
  try_except
    (let locator := if truthy role then VStr (role_locator role role_name) else selector in
     io (LocScroll locator) !;
     ret (mkResult true (VStr "scroll") VNone None [("selector", selector); ("role", role)]))
    (fun e => ret (fail_result (VStr "scroll") e)).

(** [ScrollAction.execute(direction=None, pixels=500, selector=None,
    role=None, role_name=None, to_bottom=False, to_top=False,
    smooth=True)] *)
Definition scroll_execute (p : Dict) : st world ActionResult :=
  let direction := dget_or p "direction" VNone in
  let pixels := dget_or p "pixels" (VInt 500) in
  let selector := dget_or p "selector" VNone in
  let role := dget_or p "role" VNone in
  let role_name := dget_or p "role_name" VNone in
  let to_bottom := dget_or p "to_bottom" (VBool false) in
  let to_top := dget_or p "to_top" (VBool false) in
  let smooth := dget_or p "smooth" (VBool true) in
  try_except
    (if truthy selector || truthy role then
       scroll_to_element selector role (if truthy role_name then role_name else dget_or p "name" VNone)
     else if truthy to_top then
       io (Evaluate "window.scrollTo({top: 0, behavior: 'smooth'})") !;
       ret (mkResult true (VStr "scroll") VNone None [("to_top", VBool true)])
     else if truthy to_bottom then
       io (Evaluate "window.scrollTo({top: document.body.scrollHeight, behavior: 'smooth'})") !;
       ret (mkResult true (VStr "scroll") VNone None [("to_bottom", VBool true)])
     else if truthy direction then scroll_direction direction pixels smooth
     else scroll_direction (VStr "down") pixels smooth)
    (fun e => ret (fail_result (VStr "scroll") e)).

(** [cls(page).execute( **params)] for the modelled classes; [other]
    runs the classes that are not modelled here.  A ["self"] key makes
    the call itself raise. *)
Definition run_action (other : simple_kind -> bool -> Dict -> st world ActionResult)
    (k : simple_kind) (has_context : bool) (p : Dict) : st world ActionResult :=
  if bool_decide ("self" ∈ p.*1) then
    raise "TypeError: execute() got multiple values for argument 'self'"
  else
    match k with
    | KNavigate => navigate_execute p
    | KClick => click_execute p
    | KWait => wait_execute p
    | KReload => reload_execute p
    | KTypeText => type_text_execute p
    | KScroll => scroll_execute p
    | KExtract => extract_execute p
    | KInspect => inspect_execute p
    | KTab => tab_execute has_context p
    | KScreenshot => screenshot_execute p
    | KCustom _ => other k has_context p
    end.

(** The actions of src/actions/ as the executor and the loop run them. *)
Definition winky_actions (other : simple_kind -> bool -> Dict -> st world ActionResult)
    : ActionImpl := {| act_execute := run_action other |}.


(** [BaseAction.wait_for_element(selector, timeout=5000, state="visible")]:
    whether [page.wait_for_selector] returned. *)
Definition wait_for_element (selector timeout state : Value) : st world bool :=
  try_except (io (WaitSel selector timeout state) !; ret true) (fun _ => ret false).

End Actions.

(** ** Properties of the actions *)

Section ActionProofs.
Context `{Henv : Env}.

(** Whether the probe of a fallback locator finds a visible element. *)
Definition probe_visible (w : world) (l : string) : bool :=
  match (handle (LocVisible (VStr l) (VInt 2000)) w).1 with Ok v => truthy v | Exc _ => false end.

Ltac never_raises_auto :=
  repeat first
    [ progress intros
    | apply try_except_never_raises
    | apply ret_never_raises
    | match goal with
      | |- never_raises (match ?x with _ => _ end) => destruct x
      | |- never_raises (if ?b then _ else _) => destruct b
      end ].

(** [TabAction.execute] never raises when its operation is a string
    (or falsy): the [.lower()] before the [try] is the only call outside
    it. *)
Lemma tab_never_raises c p :
  (truthy (dget_or p "operation" VNone) = true -> is_string (dget_or p "operation" VNone) = true) ->
  never_raises (tab_execute c p).
Proof.
  intros Hop. unfold tab_execute.
  destruct (truthy (dget_or p "operation" VNone)) eqn:Et; simpl; [|apply ret_never_raises].
  specialize (Hop eq_refl). destruct (dget_or p "operation" VNone); try discriminate Hop.
  apply bind_never_raises; [intros w; by eexists _, w|]. never_raises_auto.
Qed.

(** [TabAction.execute] with a truthy operation that is not a string
    raises [AttributeError] from [operation.lower()], outside its
    [try]: the contract of spec section 4.1 does not hold for it. *)
Lemma tab_raises_on_non_string_operation c w :
  tab_execute c [("operation", VInt 1)] w = (Exc "AttributeError: 'int' object has no attribute 'lower'", w).
Proof. reflexivity. Qed.

(** C11: the contract of spec section 4.1 for the modelled actions:
    navigate, click, wait, reload, type_text, scroll, extract, inspect
    and screenshot never raise, and tab does not when its operation is a
    string; every failure comes back as a failed [ActionResult].  With
    the classes added by [register_action] keeping the contract, the
    whole registry keeps it, for every params dict without a ["self"]
    key (with one, the call [execute( **params)] itself raises
    [TypeError]). *)
Theorem run_action_never_raises other k c p :
  (forall k' c' p', never_raises (other k' c' p')) -> "self" ∉ p.*1 ->
  (k = KTab -> truthy (dget_or p "operation" VNone) = true ->
   is_string (dget_or p "operation" VNone) = true) ->
  never_raises (run_action other k c p).
Proof.
  intros Ho Hs Ht. unfold run_action. rewrite bool_decide_false by done.
  destruct k; try apply Ho; try (apply tab_never_raises; by apply Ht);
    unfold navigate_execute, click_execute, wait_execute, reload_execute, type_text_execute,
      scroll_execute, extract_execute, inspect_execute, screenshot_execute; never_raises_auto.
Qed.

(** The last branch of [WaitAction.execute] is dead code: whatever
    the params and the page, the action never returns the failure "No
    wait condition specified"; with no condition it waits for the page
    to load and succeeds (spec section 5 classes missing parameters as
    a validation error). *)
Theorem wait_never_reports_no_condition p w r w' :
  wait_execute p w = (Ok r, w') -> r <> fail_result (VStr "wait") "No wait condition specified".
Proof.
  unfold wait_execute. intros E ->.
  destruct (truthy (dget_or p "duration" VNone)) eqn:Hd, (truthy (dget_or p "wait_for" VNone)) eqn:Hw,
    (truthy (dget_or p "selector" VNone)) eqn:Hs; simpl in E;
    unfold try_except, bind, ret, io, sleep_ms, lift_outcome in E; destruct_hyp_matches.
Qed.

(** The fallback search of [TypeTextAction] is [List.find]: on a
    page whose visibility probes change nothing, it returns the first
    fallback locator whose element is visible (a probe that raises
    counts as not visible), and [None] when there is none. *)
Theorem find_fallback_find locs w :
  (forall l w0, (handle (LocVisible (VStr l) (VInt 2000)) w0).2 = w0) ->
  find_fallback locs w = (Ok (List.find (probe_visible w) locs), w).
Proof.
  intros Hq. induction locs as [|l locs IH]; [done|]. cbn [find_fallback List.find].
  unfold probe_visible at 1, try_except, bind, io, ret.
  specialize (Hq l w). destruct (handle _ w) as [[v|x] w1]; simpl in Hq; subst w1;
    simpl; [destruct (truthy v); [reflexivity|exact IH]|exact IH].
Qed.


(** [wait_for_element] answers [False] on any failure of the driver:
    it never raises. *)
Lemma wait_for_element_never_raises selector timeout state :
  never_raises (wait_for_element selector timeout state).
Proof. unfold wait_for_element. auto with winky. Qed.

End ActionProofs.

(** ** Witnesses on the concrete site *)

(** The classes added by [register_action], answered by the test double. *)
Definition other_double : simple_kind -> bool -> Dict -> st site ActionResult :=
  @act_execute mock_env mock_actions.

Lemma other_double_never_raises k c p : never_raises (other_double k c p).
Proof. apply try_except_never_raises. intros e. apply ret_never_raises. Qed.

Lemma run_action_never_raises_witness :
  ("self" ∉ [("operation", VStr "list")].*1) /\
  (KTab = KTab -> truthy (dget_or [("operation", VStr "list")] "operation" VNone) = true ->
   is_string (dget_or [("operation", VStr "list")] "operation" VNone) = true) /\
  never_raises (run_action other_double KTab true [("operation", VStr "list")]).
Proof.
  assert (Hs : "self" ∉ [("operation", VStr "list")].*1)
    by (apply (bool_decide_unpack _); vm_compute; reflexivity).
  assert (Ht : KTab = KTab -> truthy (dget_or [("operation", VStr "list")] "operation" VNone) = true ->
                is_string (dget_or [("operation", VStr "list")] "operation" VNone) = true)
    by reflexivity.
  split; [exact Hs|]. split; [exact Ht|].
  apply run_action_never_raises; [exact other_double_never_raises|exact Hs|exact Ht].
Defined.

Lemma wait_never_reports_no_condition_witness :
  exists r w', @wait_execute mock_env [] two_pages = (Ok r, w') /\
    r <> fail_result (VStr "wait") "No wait condition specified".
Proof.
  destruct (@wait_execute mock_env [] two_pages) as [[r|x] w'] eqn:E; [|vm_compute in E; discriminate].
  exists r, w'. split; [done|]. exact (wait_never_reports_no_condition _ _ _ _ E).
Defined.

(** A page with a visible search box. *)
Definition search_page : site :=
  mkSite [["a"]] 0 0 0 ["input[name=" +:+ dq +:+ "q" +:+ dq +:+ "]"].

Lemma mock_probe_quiet : forall l w0,
  (@handle mock_env (LocVisible (VStr l) (VInt 2000)) w0).2 = w0.
Proof. reflexivity. Qed.

Lemma find_fallback_find_witness :
  @find_fallback mock_env type_fallbacks search_page =
    (Ok (List.find (@probe_visible mock_env search_page) type_fallbacks), search_page) /\
  List.find (@probe_visible mock_env search_page) type_fallbacks =
    Some ("input[name=" +:+ dq +:+ "q" +:+ dq +:+ "]").
Proof. split; [apply (@find_fallback_find mock_env), mock_probe_quiet | vm_compute; reflexivity]. Defined.
