(* ===== verification/Loop.v ===== *)
(** * The pattern-loop engine (src/actions/loop.py)

    [LoopAction.execute] repeats a pattern of steps, paginating between
    iterations, until a stop condition, the [on_empty] policy, a missing
    next page or [max_iterations] ends it.  Its local variables
    ([iteration], [self.collected_data]) survive an exception (the
    [except] branch reports them), so the loop runs in a state
    [loop_state] that holds them beside the page.  The steps are run by
    [_execute_step] through the loop's registry; a step whose class is
    [LoopAction] runs a nested loop built with [LoopAction(page)], whose
    registry is empty.  The [while] loop runs on fuel one above the
    iterations its guard allows; [loop_while_fuel_irrelevant] shows that
    the guard, not the fuel, ends it. *)

From S2P Require Import Prelude PyData Env Mock.

Section LoopAction.
Context `{Env} `{!ActionImpl}.

(** ** The inline steps *)

(** [el.get_attribute(attribute) if attribute else el.text_content()] *)
Definition read_value (attribute el : Value) : st world Value :=
  if truthy attribute then get_attribute el attribute else text_content el.

(** The [for el in elements] loop of [_extract_inline]. *)
Fixpoint extract_values (attribute : Value) (els acc : list Value) : st world (list Value) :=
  match els with
  | [] => ret acc
  | el :: rest =>
      let! v := read_value attribute el in
      if truthy v then
        let! s := lift_outcome (py_strip v) in extract_values attribute rest (acc ++ [s])
      else extract_values attribute rest acc
  end.

(** [LoopAction._extract_inline] *)
Definition extract_inline (step : Dict) : st world ActionResult :=
  let selector := dget_or step "selector" VNone in
  let attribute := dget_or step "attribute" VNone in
  let multiple := dget_or step "multiple" (VBool true) in
  try_except
    (let! data :=
       if truthy multiple then
         let! els := query_selector_all selector in
         let! vs := extract_values attribute els [] in
         ret (VList vs)
       else
         let! el := query_selector selector in
         if truthy el then
           let! d := read_value attribute el in
           if truthy d then lift_outcome (py_strip d) else ret VNone
         else ret VNone in
     ret (ok_result (VStr "extract") data []))
    (fun e => ret (fail_result (VStr "extract") e)).

(** [LoopAction._click_inline] *)
Definition click_inline (step : Dict) : st world ActionResult :=
  let selector := dget_or step "selector" VNone in
  try_except
    (let! s := lift_outcome (as_str selector) in
     io (ClickSel s (Some 5000%Z)) !;
     ret (ok_result (VStr "click") VNone []))
    (fun e => ret (fail_result (VStr "click") e)).

(** [LoopAction._wait_inline]: no [try], a bad duration raises. *)
Definition wait_inline (step : Dict) : st world ActionResult :=
  let duration := dget_or step "duration" (VInt 1000) in
  sleep_ms duration !;
  ret (ok_result (VStr "wait") VNone []).

(** [LoopAction._execute_step]: [nested_loop] runs a [LoopAction(page)]
    (empty registry) when the registry maps the step to the loop
    class. *)
Definition execute_step (reg : registry) (nested_loop : Dict -> st world ActionResult)
    (step : Value) : st world ActionResult :=
  let! d := lift_outcome (as_dict step) in
  let action_name := dget_or d "action" VNone in
  if negb (truthy action_name) then
    ret (fail_result (VStr "unknown") "Action name not specified in step")
  else
    let! cls := lift_outcome (reg_lookup reg action_name) in
    match cls with
    | None =>
        if is_str action_name "extract" then extract_inline d
        else if is_str action_name "click" then click_inline d
        else if is_str action_name "wait" then wait_inline d
        else ret (fail_result action_name ("Unknown action: " +:+ py_str action_name))
    | Some (Simple k) => act_execute k false (ddel d "action")
    | Some LoopClass => nested_loop (ddel d "action")
    end.

(** ** Pagination *)

Definition scroll_js : string := "window.scrollTo(0, document.body.scrollHeight)".

(** [LoopAction._paginate]: [true] when a next page was reached.  Only
    [pagination.get] (on a non-dict) can raise out of it. *)
Definition paginate (pagination : Value) : st world bool :=
  let! pg := lift_outcome (as_dict pagination) in
  let ptype := dget_or pg "type" (VStr "click") in
  let selector := dget_or pg "selector" VNone in
  let wait_after := dget_or pg "wait_after" (VInt 2000) in
  if is_str ptype "click" then
    try_except
      (let! nb := query_selector selector in
       if negb (truthy nb) then ret false else
       let! dis := get_attribute nb (VStr "disabled") in
       if truthy dis then ret false else
       click_elem nb !;
       sleep_ms wait_after !;
       ret true)
      (fun _ => ret false)
  else if is_str ptype "scroll" then
    try_except
      (io (Evaluate scroll_js) !;
       sleep_ms wait_after !;
       ret true)
      (fun _ => ret false)
  else ret false.

(** ** The loop *)

(** The state of one [execute] call: the page, the local [iteration]
    and the attribute [self.collected_data]. *)
Record loop_state : Type := mkLS {
  ls_world : world;
  ls_iteration : Z;
  ls_collected : list Value
}.

Definition on_loop_page {A} (m : st world A) : st loop_state A :=
  zoom ls_world (fun w s => mkLS w (ls_iteration s) (ls_collected s)) m.

(** The loop's parameters once read from the keyword arguments. *)
Record loop_cfg : Type := mkCfg {
  lc_pattern : Value;
  lc_pagination : Value;
  lc_on_empty : Value;
  lc_max_iterations : Value;
  lc_delay_between : Value;
  lc_stop_type : Value;
  lc_stop_value : Value
}.

(** The [for step in pattern] loop: the data of the successful steps
    up to the first failing one. *)
Fixpoint run_pattern (exec_step : Value -> st world ActionResult) (steps acc : list Value)
    : st world (list Value) :=
  match steps with
  | [] => ret acc
  | step :: rest =>
      let! r := exec_step step in
      if negb (ar_success r) then ret acc
      else run_pattern exec_step rest (if truthy (ar_data r) then acc ++ [ar_data r] else acc)
  end.

(** One iteration of the [while] body; [false] is a [break]. *)
Definition iteration_body (exec_step : Value -> st world ActionResult) (c : loop_cfg)
    : st loop_state bool :=
  modify (fun s => mkLS (ls_world s) (ls_iteration s + 1) (ls_collected s)) !;
  let! steps := lift_outcome (as_iter (lc_pattern c)) in
  let! data := on_loop_page (run_pattern exec_step steps []) in
  if bool_decide (data = []) && is_str (lc_on_empty c) "stop" then ret false else
  modify (fun s => mkLS (ls_world s) (ls_iteration s) (ls_collected s ++ data)) !;
  let! s := get in
  let! stop_max :=
    if is_str (lc_stop_type c) "max_iterations"
    then lift_outcome (py_ge (VInt (ls_iteration s)) (lc_stop_value c))
    else ret false in
  if stop_max then ret false else
  if is_str (lc_stop_type c) "empty_results" && bool_decide (data = []) then ret false else
  if truthy (lc_pagination c) then
    let! has_next := on_loop_page (paginate (lc_pagination c)) in
    if negb has_next then ret false else
    let! pos := lift_outcome (py_gt0 (lc_delay_between c)) in
    if pos then on_loop_page (sleep_ms (lc_delay_between c)) !; ret true else ret true
  else ret false.

(** [while iteration < max_iterations: ...].  Its guard is the test on
    [iteration]; the fuel bounds the recursion, and [loop_fuel] sets it
    one above the iterations the guard allows, so the guard always exits
    first ([loop_while_fuel_irrelevant]). *)
Fixpoint loop_while (exec_step : Value -> st world ActionResult) (c : loop_cfg) (fuel : nat)
    : st loop_state unit :=
  let! s := get in
  let! go := lift_outcome (py_lt (VInt (ls_iteration s)) (lc_max_iterations c)) in
  if negb go then ret tt else
  match fuel with
  | O => ret tt
  | S fuel' =>
      let! cont := iteration_body exec_step c in
      if cont then loop_while exec_step c fuel' else ret tt
  end.

(** One above the iterations [iteration < max_iterations] allows from
    [iteration = 0]; a [max_iterations] that is not a number makes the
    first test raise, before the fuel is looked at. *)
Definition loop_fuel (max_iterations : Value) : nat :=
  match as_int max_iterations with Some m => S (Z.to_nat m) | None => O end.

(** Reading [stop_condition] before the [try]: a truthy non-dict raises. *)
Definition parse_stop (stop_condition max_iterations : Value) : outcome (Value * Value) :=
  if truthy stop_condition then
    match as_dict stop_condition with
    | Ok sc => Ok (dget_or sc "type" (VStr "max_iterations"), dget_or sc "value" max_iterations)
    | Exc e => Exc e
    end
  else Ok (VStr "max_iterations", max_iterations).

Definition loop_success (stop_type : Value) (s : loop_state) : ActionResult :=
  ok_result (VStr "loop") (VList (ls_collected s))
    [("iterations", VInt (ls_iteration s));
     ("items_collected", VInt (Z.of_nat (length (ls_collected s))));
     ("stop_reason", stop_type)].

Definition loop_failure (e : string) (s : loop_state) : ActionResult :=
  mkResult false (VStr "loop") (VList (ls_collected s)) (Some e)
    [("iterations", VInt (ls_iteration s))].

(** The configuration read from the keyword arguments [p]. *)
Definition loop_config (p : Dict) (stop_type stop_value : Value) : loop_cfg :=
  mkCfg (dget_or p "pattern" VNone) (dget_or p "pagination" VNone)
    (dget_or p "on_empty" (VStr "stop")) (dget_or p "max_iterations" (VInt 100))
    (dget_or p "delay_between" (VInt 1000)) stop_type stop_value.

(** Runs the loop from [iteration = 0] and [self.collected_data = []]. *)
Definition with_locals {A} (m : st loop_state A) : st world A :=
  fun w => let (o, s) := m (mkLS w 0 []) in (o, ls_world s).

(** [LoopAction.execute], for a given [_execute_step]. *)
Definition loop_execute_with (exec_step : Value -> st world ActionResult) (p : Dict)
    : st world ActionResult :=
  let max_iterations := dget_or p "max_iterations" (VInt 100) in
  if negb (truthy (dget_or p "pattern" VNone)) then
    ret (fail_result (VStr "loop") "Pattern is required") else
  let! '(stop_type, stop_value) :=
    lift_outcome (parse_stop (dget_or p "stop_condition" VNone) max_iterations) in
  let c := loop_config p stop_type stop_value in
  with_locals
    (try_except
       (loop_while exec_step c (loop_fuel max_iterations) !;
        let! s := get in ret (loop_success stop_type s))
       (fun e => let! s := get in ret (loop_failure e s))).

(** [LoopAction(page)]: the nested loop of a pattern step, whose
    registry is empty (so it never reaches a nested loop itself). *)
Definition loop_in_step : Dict -> st world ActionResult :=
  loop_execute_with
    (execute_step [] (fun _ => ret (fail_result (VStr "loop") "unreachable"))).

(** [LoopAction(page, action_registry)].execute: the loop the executor
    builds with its registry. *)
Definition loop_execute (reg : registry) : Dict -> st world ActionResult :=
  loop_execute_with (execute_step reg loop_in_step).

End LoopAction.

(** ** Properties of the loop *)

Section LoopProofs.
Context `{Env} `{!ActionImpl}.

(** The data the first iteration collects: the successful steps' data,
    or nothing when the pattern raised. *)
Definition first_iteration_data (es : Value -> st world ActionResult) (pattern : Value)
    (w : world) : list Value :=
  match as_iter pattern with
  | Ok steps => match run_pattern es steps [] w with (Ok d, _) => d | _ => [] end
  | Exc _ => []
  end.

Definition same_iteration (s s' : loop_state) : Prop := ls_iteration s' = ls_iteration s.

#[local] Instance same_iteration_preorder : PreOrder same_iteration.
Proof. split; unfold same_iteration; repeat intro; congruence. Qed.

Lemma on_loop_page_same_iteration {A} (m : st world A) : st_rel same_iteration (on_loop_page m).
Proof. intros s o s' E. unfold on_loop_page, zoom in E. destruct (m _). by inversion E. Qed.

(** Each iteration increments [iteration] exactly once, whatever it
    does afterwards (breaks, continues or raises). *)
Lemma iteration_body_incr es c s o s' :
  iteration_body es c s = (o, s') -> ls_iteration s' = (ls_iteration s + 1)%Z.
Proof.
  unfold iteration_body. intros E.
  set (rest := (fun _ : unit => _)) in E.
  assert (Hr : st_rel same_iteration (rest tt)).
  { unfold rest; cbv beta. st_rel_auto; try apply on_loop_page_same_iteration.
    all: apply st_rel_modify; intros; reflexivity. }
  unfold bind, modify in E. by apply Hr in E.
Qed.

(** An iteration continues the loop only after pagination reached a
    next page. *)
Lemma iteration_body_true es c s s' :
  iteration_body es c s = (Ok true, s') ->
  truthy (lc_pagination c) = true /\ exists w w', paginate (lc_pagination c) w = (Ok true, w').
Proof.
  unfold iteration_body, bind, modify, lift_outcome, get, ret, on_loop_page, zoom.
  intros E. destruct_hyp_matches. all: split; [done | eauto].
Qed.

(** The first iteration leaves exactly its own data in
    [collected_data]. *)
Lemma iteration_body_first es c w o s' :
  iteration_body es c (mkLS w 0 []) = (o, s') ->
  ls_collected s' = first_iteration_data es (lc_pattern c) w.
Proof.
  unfold iteration_body, first_iteration_data, bind, modify, lift_outcome, get, ret,
    on_loop_page, zoom; simpl.
  intros E. destruct_hyp_matches; simpl in *; congruence.
Qed.

Lemma py_lt_int_l x v m : as_int v = Some m -> py_lt (VInt x) v = Ok (Z.ltb x m).
Proof. intros Hv. unfold py_lt. simpl. by rewrite Hv. Qed.

Lemma py_ge_int_l x v m : as_int v = Some m -> py_ge (VInt x) v = Ok (negb (Z.ltb x m)).
Proof. intros Hv. unfold py_ge. by rewrite (py_lt_int_l _ _ _ Hv). Qed.

Lemma loop_execute_with_eq es p w stt sv :
  truthy (dget_or p "pattern" VNone) = true ->
  parse_stop (dget_or p "stop_condition" VNone) (dget_or p "max_iterations" (VInt 100))
    = Ok (stt, sv) ->
  loop_execute_with es p w =
    with_locals
      (try_except
         (loop_while es (loop_config p stt sv) (loop_fuel (dget_or p "max_iterations" (VInt 100))) !;
          let! s := get in ret (loop_success stt s))
         (fun e => let! s := get in ret (loop_failure e s))) w.
Proof. intros Hp Hs. unfold loop_execute_with. rewrite Hp. simpl. unfold bind at 1, lift_outcome. by rewrite Hs. Qed.

(** When no next page can be reached, the loop performs exactly one
    iteration (reported in [metadata.iterations], on success and on an
    exception alike) and returns exactly the first iteration's data,
    for any step executor and any [max_iterations >= 1]. *)
Theorem loop_one_iteration_without_next es p w m :
  truthy (dget_or p "pattern" VNone) = true ->
  as_int (dget_or p "max_iterations" (VInt 100)) = Some m -> (1 <= m)%Z ->
  (forall e, parse_stop (dget_or p "stop_condition" VNone)
                        (dget_or p "max_iterations" (VInt 100)) <> Exc e) ->
  (forall w1 w2, paginate (dget_or p "pagination" VNone) w1 <> (Ok true, w2)) ->
  exists r w', loop_execute_with es p w = (Ok r, w') /\
    dget (ar_metadata r) "iterations" = Some (VInt 1) /\
    ar_data r = VList (first_iteration_data es (dget_or p "pattern" VNone) w).
Proof.
  intros Hp Hm Hm1 Hstop Hnext.
  destruct (parse_stop _ _) as [[stt sv]|e] eqn:Hps; [|by destruct (Hstop e)].
  rewrite (loop_execute_with_eq _ _ _ _ _ Hp Hps).
  unfold with_locals, loop_fuel. rewrite Hm.
  cbn [loop_while]. unfold try_except, bind, get, lift_outcome.
  rewrite (py_lt_int_l _ _ _ Hm). cbn [ls_iteration].
  destruct (Z.ltb_spec 0 m); [|lia]. cbn [negb].
  destruct (iteration_body es (loop_config p stt sv) (mkLS w 0 [])) as [[[|]|e] s'] eqn:Eb.
  - apply iteration_body_true in Eb as [_ (w1 & w2 & Hpg)]. by destruct (Hnext w1 w2).
  - pose proof (iteration_body_incr _ _ _ _ _ Eb) as Hi.
    pose proof (iteration_body_first _ _ _ _ _ Eb) as Hd.
    eexists _, _. split; [reflexivity|]. simpl in *. by rewrite Hi, Hd.
  - pose proof (iteration_body_incr _ _ _ _ _ Eb) as Hi.
    pose proof (iteration_body_first _ _ _ _ _ Eb) as Hd.
    eexists _, _. split; [reflexivity|]. simpl in *. by rewrite Hi, Hd.
Qed.

Lemma paginate_falsy_never_true v w w' : truthy v = false -> paginate v w <> (Ok true, w').
Proof.
  intros Hv. destruct v as [| | | | |d| |]; try discriminate; simpl in Hv.
  all: try (unfold paginate, bind, lift_outcome; simpl; discriminate).
  apply negb_false_iff, bool_decide_eq_true in Hv. subst d.
  unfold paginate, bind, lift_outcome, try_except, query_selector; simpl. discriminate.
Qed.

(** A click pagination whose selector the page never resolves never
    reaches a next page. *)
Lemma paginate_missing_next_never_true pg sel w w' :
  dget_or pg "type" (VStr "click") = VStr "click" ->
  dget_or pg "selector" VNone = VStr sel ->
  (forall w1, exists w2, handle (QuerySelector sel) w1 = (Ok VNone, w2)) ->
  paginate (VDict pg) w <> (Ok true, w').
Proof.
  intros Ht Hs Hq. unfold paginate, bind, lift_outcome. simpl. rewrite Ht, Hs. simpl.
  unfold try_except, query_selector, bind, lift_outcome, io. simpl.
  destruct (Hq w) as (w2 & ->). simpl. discriminate.
Qed.

Lemma run_pattern_never_raises es steps acc :
  (forall step, never_raises (es step)) -> never_raises (run_pattern es steps acc).
Proof.
  intros Hes. revert acc. induction steps as [|step rest IH]; intros acc w; simpl; [by eexists _, w|].
  unfold bind. destruct (Hes step w) as (r & w1 & ->). destruct (negb _); [by eexists _, _|apply IH].
Qed.

(** An iteration that reaches no next page ends the loop without
    raising, when its steps and its pagination never raise and the
    [max_iterations] stop value is a number. *)
Lemma iteration_body_stops es c s steps :
  as_iter (lc_pattern c) = Ok steps ->
  (forall step, never_raises (es step)) ->
  (is_str (lc_stop_type c) "max_iterations" = true -> as_int (lc_stop_value c) <> None) ->
  never_raises (paginate (lc_pagination c)) ->
  (forall w1 w2, paginate (lc_pagination c) w1 <> (Ok true, w2)) ->
  exists s', iteration_body es c s = (Ok false, s').
Proof.
  intros Hit Hes Hsv Hpn Hnext.
  unfold iteration_body, bind, modify, lift_outcome, get, ret, on_loop_page, zoom.
  cbn [ls_world ls_iteration ls_collected]. rewrite Hit.
  destruct (run_pattern_never_raises es steps [] Hes (ls_world s)) as (d & w1 & ->).
  destruct (bool_decide (d = []) && _); [by eexists|]. cbn [ls_world ls_iteration ls_collected].
  destruct (is_str (lc_stop_type c) "max_iterations") eqn:Hst;
    [destruct (as_int (lc_stop_value c)) as [k|] eqn:Hk; [|by destruct Hsv];
     rewrite (py_ge_int_l _ _ _ Hk); destruct (negb _); [by eexists|]|].
  all: cbv beta iota; destruct (_ && _); [by eexists|]; destruct (truthy _); [|by eexists].
  all: destruct (Hpn w1) as ([|] & w2 & E2); [by destruct (Hnext _ _ E2)|]; cbn [ls_world]; rewrite E2; by eexists.
Qed.

(** [_paginate] on a dict never raises: a failure while locating or
    clicking the next control, or while scrolling, is reported as "no
    next page" (spec section 4.3, failure policy). *)
Theorem paginate_dict_never_raises (pg : Dict) : never_raises (paginate (VDict pg)).
Proof.
  unfold paginate, bind, lift_outcome. simpl.
  destruct (is_str _ "click"); [|destruct (is_str _ "scroll")];
    auto using try_except_never_raises, ret_never_raises.
Qed.

(** Under the hypotheses of the counting theorem, an iteration continues
    exactly while [iteration < stop_value]. *)
Lemma iteration_body_counting es c s steps k dl :
  as_iter (lc_pattern c) = Ok steps ->
  (forall w, exists d w', run_pattern es steps [] w = (Ok d, w') /\ d <> []) ->
  lc_stop_type c = VStr "max_iterations" -> lc_stop_value c = VInt k ->
  (forall w, exists w', paginate (lc_pagination c) w = (Ok true, w')) ->
  as_int (lc_delay_between c) = Some dl ->
  (forall w, exists v w', sleep_ms (lc_delay_between c) w = (Ok v, w')) ->
  exists s', iteration_body es c s = (Ok (ls_iteration s + 1 <? k)%Z, s').
Proof.
  intros Hit Hpat Hst Hsv Hpg Hdl Hsl.
  assert (Htr : truthy (lc_pagination c) = true).
  { destruct (truthy _) eqn:Ht; [done|]. destruct (Hpg (ls_world s)) as (w' & E).
    by apply paginate_falsy_never_true in E. }
  destruct (Hpat (ls_world s)) as (d & w1 & Hd & Hne).
  destruct (Hpg w1) as (w2 & Hp2).
  destruct (Hsl w2) as (v & w3 & Hs3).
  unfold iteration_body, bind, modify, lift_outcome, get, ret, on_loop_page, zoom. simpl.
  rewrite Hit. simpl. rewrite Hd. simpl. rewrite bool_decide_false by done. simpl.
  rewrite Hst, Hsv. simpl.
  destruct (Z.ltb_spec (ls_iteration s + 1) k); simpl; [|by eexists].
  rewrite Htr. simpl. rewrite Hp2. simpl. unfold py_gt0. rewrite Hdl.
  destruct (0 <? dl)%Z; simpl; [rewrite Hs3|]; by eexists.
Qed.

Lemma loop_while_counting es c steps k m dl n s :
  as_iter (lc_pattern c) = Ok steps ->
  (forall w, exists d w', run_pattern es steps [] w = (Ok d, w') /\ d <> []) ->
  lc_stop_type c = VStr "max_iterations" -> lc_stop_value c = VInt k ->
  (forall w, exists w', paginate (lc_pagination c) w = (Ok true, w')) ->
  as_int (lc_delay_between c) = Some dl ->
  (forall w, exists v w', sleep_ms (lc_delay_between c) w = (Ok v, w')) ->
  as_int (lc_max_iterations c) = Some m ->
  (0 <= ls_iteration s <= m)%Z -> (ls_iteration s < k)%Z ->
  (Z.to_nat (m - ls_iteration s) < n)%nat ->
  exists s', loop_while es c n s = (Ok tt, s') /\ ls_iteration s' = Z.min k m.
Proof.
  intros Hit Hpat Hst Hsv Hpg Hdl Hsl Hm. revert s.
  induction n as [|n IH]; intros s Hj Hjk Hn; cbn [loop_while]; unfold bind, get, lift_outcome;
    rewrite (py_lt_int_l _ _ _ Hm).
  - lia.
  - destruct (Z.ltb_spec (ls_iteration s) m); [|exists s; split; [done|lia]]. cbn [negb].
    destruct (iteration_body_counting es c s steps k dl) as (s1 & Hb); try done.
    rewrite Hb. pose proof (iteration_body_incr _ _ _ _ _ Hb) as Hi.
    destruct (Z.ltb_spec (ls_iteration s + 1) k).
    + apply IH; lia.
    + exists s1. split; [done|lia].
Qed.

(** Whatever the iterations do, [iteration] never passes
    [max(iteration_0, max_iterations)]. *)
Lemma loop_while_bounded es c m n s o s' :
  as_int (lc_max_iterations c) = Some m ->
  (Z.to_nat (m - ls_iteration s) < n)%nat ->
  loop_while es c n s = (o, s') ->
  (ls_iteration s <= ls_iteration s' <= Z.max (ls_iteration s) m)%Z.
Proof.
  intros Hm. revert s. induction n as [|n IH]; intros s Hn E; cbn [loop_while] in E;
    unfold bind, get, lift_outcome, ret in E; rewrite (py_lt_int_l _ _ _ Hm) in E.
  - lia.
  - destruct (Z.ltb_spec (ls_iteration s) m); cbn [negb] in E; [|inv_pair; lia].
    destruct (iteration_body es c s) as [o1 s1] eqn:Hb.
    pose proof (iteration_body_incr _ _ _ _ _ Hb) as Hi.
    destruct o1 as [[|]|e]; [|inv_pair; lia|inv_pair; lia].
    apply IH in E; lia.
Qed.

(** C15: termination of the pagination loop (loop.py, [while iteration
    < max_iterations]): from any state the loop stops by its guard within
    the [max_iterations - iteration] iterations it still allows, whatever
    the steps and the pagination do: any two fuels above that bound
    compute the same result and final state, so the fuel [loop_fuel]
    gives, one above the bound, is never exhausted. *)
Lemma loop_while_fuel_irrelevant es c m f1 f2 s :
  as_int (lc_max_iterations c) = Some m ->
  (Z.to_nat (m - ls_iteration s) < f1)%nat -> (Z.to_nat (m - ls_iteration s) < f2)%nat ->
  loop_while es c f1 s = loop_while es c f2 s.
Proof.
  intros Hm. revert f2 s. induction f1 as [|f1 IH]; intros [|f2] s H1 H2; try lia.
  cbn [loop_while]. unfold bind, get, lift_outcome. rewrite (py_lt_int_l _ _ _ Hm).
  destruct (Z.ltb_spec (ls_iteration s) m); [cbn [negb]|done].
  destruct (iteration_body es c s) as [[[|]|e] s1] eqn:Hb; try done.
  pose proof (iteration_body_incr _ _ _ _ _ Hb). apply IH; lia.
Qed.

(** C12: with a readable stop condition the loop returns (it never
    raises) and reports at most [max(0, max_iterations)] iterations. *)
Theorem loop_iterations_bounded es p w m :
  as_int (dget_or p "max_iterations" (VInt 100)) = Some m ->
  (forall e, parse_stop (dget_or p "stop_condition" VNone)
                        (dget_or p "max_iterations" (VInt 100)) <> Exc e) ->
  exists r w', loop_execute_with es p w = (Ok r, w') /\
    forall i, dget (ar_metadata r) "iterations" = Some (VInt i) -> (0 <= i <= Z.max 0 m)%Z.
Proof.
  intros Hm Hstop.
  destruct (truthy (dget_or p "pattern" VNone)) eqn:Hp.
  2:{ unfold loop_execute_with. rewrite Hp. eexists _, _. split; [reflexivity|]. done. }
  destruct (parse_stop _ _) as [[stt sv]|e] eqn:Hps; [|by destruct (Hstop e)].
  rewrite (loop_execute_with_eq _ _ _ _ _ Hp Hps).
  unfold with_locals, loop_fuel. rewrite Hm.
  unfold try_except, bind at 1.
  destruct (loop_while es (loop_config p stt sv) (S (Z.to_nat m)) (mkLS w 0 [])) as [o s'] eqn:E.
  apply loop_while_bounded with (m := m) in E; [|done|rewrite Z.sub_0_r; simpl; lia].
  simpl in E. destruct o; eexists _, _; (split; [reflexivity|]); simpl; intros i Hi;
    inversion Hi; lia.
Qed.

(** C6: a loop without pagination (a pattern without a [pagination]
    spec, or a falsy one) performs exactly one iteration, whatever
    [max_iterations >= 1] is, and returns the first iteration's data
    (spec section 8, third property). *)
Theorem loop_no_pagination_one_iteration es p w m :
  truthy (dget_or p "pattern" VNone) = true ->
  truthy (dget_or p "pagination" VNone) = false ->
  as_int (dget_or p "max_iterations" (VInt 100)) = Some m -> (1 <= m)%Z ->
  (forall e, parse_stop (dget_or p "stop_condition" VNone)
                        (dget_or p "max_iterations" (VInt 100)) <> Exc e) ->
  exists r w', loop_execute_with es p w = (Ok r, w') /\
    dget (ar_metadata r) "iterations" = Some (VInt 1) /\
    ar_data r = VList (first_iteration_data es (dget_or p "pattern" VNone) w).
Proof.
  intros Hp Hpg Hm Hm1 Hstop. apply loop_one_iteration_without_next with m; try done.
  intros w1 w2. by apply paginate_falsy_never_true.
Qed.

(** C7: a click pagination whose next-button selector never resolves on
    the page stops the loop after one iteration: the action succeeds
    with [stop_reason] equal to the configured stop type, and its data
    and [items_collected] are the first iteration's results only (spec
    section 8, fourth property), when the pattern's steps never raise
    and a [max_iterations] stop value is a number. *)
Theorem loop_missing_next_one_iteration es p w m pg sel steps stt sv :
  truthy (dget_or p "pattern" VNone) = true ->
  as_iter (dget_or p "pattern" VNone) = Ok steps ->
  (forall step, never_raises (es step)) ->
  dget_or p "pagination" VNone = VDict pg ->
  dget_or pg "type" (VStr "click") = VStr "click" ->
  dget_or pg "selector" VNone = VStr sel ->
  (forall w1, exists w2, handle (QuerySelector sel) w1 = (Ok VNone, w2)) ->
  as_int (dget_or p "max_iterations" (VInt 100)) = Some m -> (1 <= m)%Z ->
  parse_stop (dget_or p "stop_condition" VNone) (dget_or p "max_iterations" (VInt 100))
    = Ok (stt, sv) ->
  (is_str stt "max_iterations" = true -> as_int sv <> None) ->
  exists r w', loop_execute_with es p w = (Ok r, w') /\ ar_success r = true /\
    dget (ar_metadata r) "iterations" = Some (VInt 1) /\
    dget (ar_metadata r) "stop_reason" = Some stt /\
    ar_data r = VList (first_iteration_data es (dget_or p "pattern" VNone) w) /\
    dget (ar_metadata r) "items_collected"
      = Some (VInt (Z.of_nat (length (first_iteration_data es (dget_or p "pattern" VNone) w)))).
Proof.
  intros Hp Hit Hes Hpg Ht Hs Hq Hm Hm1 Hps Hsv.
  rewrite (loop_execute_with_eq _ _ _ _ _ Hp Hps).
  unfold with_locals, loop_fuel. rewrite Hm. cbn [loop_while].
  unfold try_except, bind, get, lift_outcome. rewrite (py_lt_int_l _ _ _ Hm). cbn [ls_iteration].
  destruct (Z.ltb_spec 0 m); [|lia]. cbn [negb].
  destruct (iteration_body_stops es (loop_config p stt sv) (mkLS w 0 []) steps) as (s' & Eb);
    try done; cbn [lc_pagination loop_config]; rewrite ?Hpg.
  - apply paginate_dict_never_raises.
  - intros w1 w2. by apply paginate_missing_next_never_true with sel.
  - rewrite Eb. pose proof (iteration_body_incr _ _ _ _ _ Eb) as Hi.
    pose proof (iteration_body_first _ _ _ _ _ Eb) as Hd.
    eexists _, _. split; [reflexivity|]. simpl in *. by rewrite Hi, Hd.
Qed.

(** C13: when every iteration yields data and pagination always reaches
    a next page, a [max_iterations] stop condition of value [k >= 1]
    ends the loop after exactly [min(k, max_iterations)] iterations,
    successfully. *)
Theorem loop_counts_to_stop_value es p w steps k m dl :
  truthy (dget_or p "pattern" VNone) = true ->
  as_iter (dget_or p "pattern" VNone) = Ok steps ->
  (forall w1, exists d w2, run_pattern es steps [] w1 = (Ok d, w2) /\ d <> []) ->
  parse_stop (dget_or p "stop_condition" VNone) (dget_or p "max_iterations" (VInt 100))
    = Ok (VStr "max_iterations", VInt k) ->
  (forall w1, exists w2, paginate (dget_or p "pagination" VNone) w1 = (Ok true, w2)) ->
  as_int (dget_or p "delay_between" (VInt 1000)) = Some dl ->
  (forall w1, exists v w2, sleep_ms (dget_or p "delay_between" (VInt 1000)) w1 = (Ok v, w2)) ->
  as_int (dget_or p "max_iterations" (VInt 100)) = Some m ->
  (1 <= k)%Z -> (0 <= m)%Z ->
  exists r w', loop_execute_with es p w = (Ok r, w') /\ ar_success r = true /\
    dget (ar_metadata r) "iterations" = Some (VInt (Z.min k m)).
Proof.
  intros Hp Hit Hpat Hps Hpg Hdl Hsl Hm Hk Hm0.
  rewrite (loop_execute_with_eq _ _ _ _ _ Hp Hps).
  unfold with_locals, loop_fuel. rewrite Hm.
  destruct (loop_while_counting es (loop_config p (VStr "max_iterations") (VInt k))
              steps k m dl (S (Z.to_nat m)) (mkLS w 0 [])) as (s' & E & Hi);
    try done; try (simpl; rewrite ?Z.sub_0_r; lia).
  unfold try_except, bind at 1. rewrite E.
  eexists _, _. split; [reflexivity|]. simpl. by rewrite Hi.
Qed.

(** C23: a truthy [stop_condition] that is not a dict (for instance the
    string ["no_next_button"]) makes [LoopAction.execute] raise, since
    [stop_condition.get] runs before the [try]: the action breaks the
    never-raise contract of spec section 4.1. *)
Theorem loop_raises_on_non_dict_stop_condition es p w :
  truthy (dget_or p "pattern" VNone) = true ->
  truthy (dget_or p "stop_condition" VNone) = true ->
  (forall d, dget_or p "stop_condition" VNone <> VDict d) ->
  exists e, fst (loop_execute_with es p w) = Exc e.
Proof.
  intros Hp Hs Hnd. unfold loop_execute_with. rewrite Hp. simpl.
  unfold bind, lift_outcome, parse_stop. rewrite Hs.
  destruct (dget_or p "stop_condition" VNone) eqn:E; simpl; try by eexists.
  by destruct (Hnd d).
Qed.

(** C24: with [max_iterations <= 0] the loop runs no iteration at all
    and succeeds with no data, even without pagination, where spec
    section 8 expects exactly one iteration regardless of
    [max_iterations]. *)
Theorem loop_no_iteration_when_max_nonpositive es p w m :
  truthy (dget_or p "pattern" VNone) = true ->
  as_int (dget_or p "max_iterations" (VInt 100)) = Some m -> (m <= 0)%Z ->
  (forall e, parse_stop (dget_or p "stop_condition" VNone)
                        (dget_or p "max_iterations" (VInt 100)) <> Exc e) ->
  exists r w', loop_execute_with es p w = (Ok r, w') /\ ar_success r = true /\
    dget (ar_metadata r) "iterations" = Some (VInt 0) /\ ar_data r = VList [].
Proof.
  intros Hp Hm Hm0 Hstop.
  destruct (parse_stop _ _) as [[stt sv]|e] eqn:Hps; [|by destruct (Hstop e)].
  rewrite (loop_execute_with_eq _ _ _ _ _ Hp Hps).
  unfold with_locals, loop_fuel. rewrite Hm.
  cbn [loop_while]. unfold try_except, bind, get, lift_outcome, ret.
  rewrite (py_lt_int_l _ _ _ Hm). cbn [ls_iteration].
  destruct (Z.ltb_spec 0 m); [lia|]. simpl. by eexists _, _.
Qed.
(** A next button that carries the HTML boolean attribute
    [disabled] is read by [get_attribute("disabled")] as the empty
    string, which is falsy: [_paginate] does not see it as disabled,
    clicks it and reports a next page, so the loop goes on past the
    last page (loop.py checks [if is_disabled:] instead of
    [is not None]). *)
Theorem paginate_clicks_disabled_button sel h ms w w1 w2 w3 w4 v v' :
  handle (QuerySelector sel) w = (Ok (VObj h), w1) ->
  handle (GetAttribute h "disabled") w1 = (Ok (VStr ""), w2) ->
  handle (ClickElem h) w2 = (Ok v, w3) ->
  handle (Sleep ms) w3 = (Ok v', w4) ->
  paginate (VDict [("selector", VStr sel); ("wait_after", VInt ms)]) w = (Ok true, w4).
Proof.
  intros E1 E2 E3 E4. unfold paginate, query_selector, get_attribute, click_elem, sleep_ms, io.
  cbn -[handle]. unfold try_except, bind, lift_outcome, ret. cbn -[handle].
  rewrite E1. cbn -[handle]. rewrite E2. cbn -[handle]. rewrite E3. cbn -[handle].
  by rewrite E4.
Qed.

End LoopProofs.

(** ** The spec's scenarios on a concrete site, and witnesses *)

(** The step pattern of spec section 8's scenario. *)
Definition item_pattern : Value :=
  VList [VDict [("action", VStr "extract"); ("selector", VStr ".item"); ("multiple", VBool true)]].

(** The scenario's parameters, with the spec's key [wait_after_ms]. *)
Definition scenario_params : Dict :=
  [("pattern", item_pattern);
   ("pagination", VDict [("type", VStr "click"); ("selector", VStr "button.next");
                         ("wait_after_ms", VInt 500)]);
   ("stop_condition", VDict [("type", VStr "max_iterations"); ("value", VInt 3)])].

(** Spec section 8's scenario: with a [max_iterations] stop of 3
    and a next button that disappears after iteration 2, the loop stops
    after iteration 2 with both pages' items. *)
Theorem loop_scenario_next_disappears :
  exists w', loop_execute [] scenario_params two_pages =
    (Ok (ok_result (VStr "loop") (VList [VList [VStr "a"; VStr "b"]; VList [VStr "c"]])
           [("iterations", VInt 2); ("items_collected", VInt 2);
            ("stop_reason", VStr "max_iterations")]), w').
Proof. eexists. vm_compute. reflexivity. Qed.

(** [metadata.items_collected] counts the data blocks of the steps
    ([iteration_data] entries), not the items: three items over two
    pages are reported as 2; and the one page turn waits the default
    2000 ms (plus the 1000 ms [delay_between]), not the 500 ms the spec's
    [wait_after_ms] asks for, because the code reads [wait_after]. *)
Theorem loop_items_collected_counts_blocks :
  match loop_execute [] scenario_params two_pages with
  | (Ok r, w') => dget (ar_metadata r) "items_collected" = Some (VInt 2) /\
                  length (concat (map (fun v => match v with VList l => l | _ => [] end)
                                      [VList [VStr "a"; VStr "b"]; VList [VStr "c"]])) = 3 /\
                  s_clock w' = 3000%Z
  | _ => False
  end.
Proof. vm_compute. repeat split. Qed.

Definition mock_step : Value -> st world ActionResult := execute_step [] loop_in_step.

Lemma loop_no_pagination_one_iteration_witness :
  exists r w', loop_execute_with mock_step [("pattern", item_pattern)] two_pages = (Ok r, w') /\
    dget (ar_metadata r) "iterations" = Some (VInt 1) /\
    ar_data r = VList (first_iteration_data mock_step item_pattern two_pages).
Proof.
  apply (loop_no_pagination_one_iteration mock_step [("pattern", item_pattern)] two_pages 100);
    try reflexivity; try lia. discriminate.
Defined.

Definition missing_next_params : Dict :=
  [("pattern", item_pattern);
   ("pagination", VDict [("type", VStr "click"); ("selector", VStr "a.next")])].

(** A step that always succeeds with data. *)
Definition data_step : Value -> st world ActionResult :=
  fun _ => ret (ok_result (VStr "extract") (VInt 1) []).

Lemma loop_missing_next_one_iteration_witness :
  exists r w', loop_execute_with data_step missing_next_params two_pages = (Ok r, w') /\
    ar_success r = true /\ dget (ar_metadata r) "iterations" = Some (VInt 1) /\
    dget (ar_metadata r) "stop_reason" = Some (VStr "max_iterations") /\
    ar_data r = VList (first_iteration_data data_step item_pattern two_pages) /\
    dget (ar_metadata r) "items_collected"
      = Some (VInt (Z.of_nat (length (first_iteration_data data_step item_pattern two_pages)))).
Proof.
  apply (loop_missing_next_one_iteration data_step missing_next_params two_pages 100
           [("type", VStr "click"); ("selector", VStr "a.next")] "a.next"
           [VDict [("action", VStr "extract"); ("selector", VStr ".item"); ("multiple", VBool true)]]
           (VStr "max_iterations") (VInt 100)); try reflexivity; try lia.
  - intros step w1. by eexists _, _.
  - intros w1. by eexists.
  - intros _. discriminate.
Defined.

Definition scroll_params : Dict :=
  [("pattern", VList [VDict []]); ("pagination", VDict [("type", VStr "scroll")]);
   ("stop_condition", VDict [("type", VStr "max_iterations"); ("value", VInt 3)]);
   ("max_iterations", VInt 5)].

Lemma loop_while_fuel_irrelevant_witness :
  as_int (lc_max_iterations (loop_config scroll_params (VStr "empty_results") (VInt 100))) = Some 5%Z /\
  (Z.to_nat (5 - ls_iteration (mkLS two_pages 0 [])) < 6)%nat /\
  (Z.to_nat (5 - ls_iteration (mkLS two_pages 0 [])) < 9)%nat /\
  loop_while data_step (loop_config scroll_params (VStr "empty_results") (VInt 100)) 6 (mkLS two_pages 0 [])
  = loop_while data_step (loop_config scroll_params (VStr "empty_results") (VInt 100)) 9 (mkLS two_pages 0 []).
Proof.
  split; [reflexivity|]. split; [cbv; lia|]. split; [cbv; lia|].
  apply (loop_while_fuel_irrelevant _ _ 5); [reflexivity|cbv; lia|cbv; lia].
Defined.

Lemma loop_counts_to_stop_value_witness :
  exists r w', loop_execute_with data_step scroll_params two_pages = (Ok r, w') /\
    ar_success r = true /\ dget (ar_metadata r) "iterations" = Some (VInt (Z.min 3 5)).
Proof.
  apply (loop_counts_to_stop_value data_step scroll_params two_pages [VDict []] 3 5 1000);
    try reflexivity; try lia.
  - intros w1. eexists _, _. split; [reflexivity | done].
  - intros w1. eexists. cbv. reflexivity.
  - intros w1. eexists _, _. cbv. reflexivity.
Defined.

Lemma loop_iterations_bounded_witness :
  exists r w', loop_execute_with mock_step scenario_params two_pages = (Ok r, w') /\
    forall i, dget (ar_metadata r) "iterations" = Some (VInt i) -> (0 <= i <= Z.max 0 100)%Z.
Proof. apply (loop_iterations_bounded mock_step scenario_params two_pages 100); [reflexivity|discriminate]. Defined.

Lemma loop_raises_on_non_dict_stop_condition_witness :
  exists e, fst (loop_execute_with mock_step
                   [("pattern", item_pattern); ("stop_condition", VStr "no_next_button")]
                   two_pages) = Exc e.
Proof. apply loop_raises_on_non_dict_stop_condition; [reflexivity|reflexivity|discriminate]. Defined.

Lemma loop_no_iteration_when_max_nonpositive_witness :
  exists r w', loop_execute_with mock_step [("pattern", item_pattern); ("max_iterations", VInt 0)]
                 two_pages = (Ok r, w') /\ ar_success r = true /\
    dget (ar_metadata r) "iterations" = Some (VInt 0) /\ ar_data r = VList [].
Proof. apply (loop_no_iteration_when_max_nonpositive _ _ _ 0); try reflexivity; try lia. discriminate. Defined.

Lemma paginate_clicks_disabled_button_witness :
  @paginate disabled_env (VDict [("selector", VStr "button.next"); ("wait_after", VInt 500)]) 0%nat =
    (Ok true, 4%nat).
Proof. apply (@paginate_clicks_disabled_button disabled_env "button.next" 1 500 0 1 2 3 4 VNone VNone);
  reflexivity. Defined.
