(* ===== verification/Logger.v ===== *)
(** * The session recorder (src/session_logging/action_logger.py)

    [ActionLogger] keeps the open session in its fields ([session_id],
    [goal], [actions], [start_time]) and seals it into the file
    [<logs_dir>/<session_id>.json].  The logs directory is part of the
    model: a map from file path to its content, [Some v] for a file that
    holds the JSON text of [v], [None] for a file whose text is not JSON
    (what [json.dump] leaves behind when it raises half-way).  The clock
    ([datetime.now]) and [uuid4] are calls to the [Env]; a timestamp is
    the clock's reading, rendered by [isoformat] as its decimal digits,
    and a duration is in clock units.  A datetime is never falsy, so the
    code's [if self.start_time] is a test against [None] here.
    [list_sessions] reads every [.json] file of the directory and sorts
    the summaries newest first; a truncated file makes it raise. *)

From S2P Require Import Prelude PyData Env Mock.
From Stdlib Require Import Sorting.Sorted.

Record logger : Type := mkLogger {
  lg_logs_dir : string;
  lg_session_id : option string;
  lg_goal : Value;
  lg_actions : list Value;
  lg_start_time : Value;
  lg_files : list (string * option Value)
}.

(** [ActionLogger(logs_dir)].  Its [os.makedirs(logs_dir,
    exist_ok=True)] only makes sure the directory exists: the store
    [lg_files] maps paths to contents and has no directories, so the
    call changes nothing in it (and with [exist_ok=True] it never
    raises on an existing directory). *)
Definition new_logger (logs_dir : string) : logger :=
  mkLogger logs_dir None VNone [] VNone [].

(** [datetime.isoformat()] of a clock reading. *)
Definition isoformat (t : Value) : Value := VStr (py_str t).

(** [json.dump] raises on values that are not JSON (here: opaque
    objects such as element handles; references are resolved before). *)
Fixpoint json_ok (v : Value) : bool :=
  match v with
  | VObj _ | VRef _ => false
  | VList l => forallb json_ok l
  | VDict d => forallb (fun kv => json_ok kv.2) d
  | _ => true
  end.

(** [os.path.join(logs_dir, f"{session_id}.json")] *)
Definition log_path (dir sid : string) : string := path_join dir (sid +:+ ".json").

(** The recorder's state with the world it reads the clock from. *)
Abbreviation lg_st := (logger * world)%type.

Section Logger.
Context `{Env}.

Definition on_world {A} (m : st world A) : st lg_st A := zoom snd (fun w s => (s.1, w)) m.
Definition lg_get : st lg_st logger := fun s => (Ok s.1, s).
Definition lg_put (l : logger) : st lg_st unit := fun s => (Ok tt, (l, s.2)).

(** [ActionLogger.start_session(goal)] *)
Definition start_session (goal : Value) : st lg_st string :=
  let! hex := on_world (io Uuid4Hex) in
  let! hexs := lift_outcome (as_str hex) in
  let sid := "session_" +:+ String.substring 0 8 hexs in
  let! now := on_world (io Now) in
  let! l := lg_get in
  lg_put (mkLogger (lg_logs_dir l) (Some sid) goal [] now (lg_files l)) !;
  ret sid.

(** The entry [log_action] appends. *)
Definition log_entry (action params result : Value) (success : bool) (error : Value)
    (now : Value) : Value :=
  VDict [("action", action); ("params", params); ("result", result);
         ("success", VBool success); ("error", error); ("timestamp", isoformat now)].

(** [ActionLogger.log_action(action, params, result, success, error)] *)
Definition log_action (action params result : Value) (success : bool) (error : Value)
    : st lg_st unit :=
  let! now := on_world (io Now) in
  let! l := lg_get in
  lg_put (mkLogger (lg_logs_dir l) (lg_session_id l) (lg_goal l)
            (lg_actions l ++ [log_entry action params result success error now])
            (lg_start_time l) (lg_files l)).

(** The JSON object [end_session] writes. *)
Definition log_data (deref : Value -> Value) (l : logger) (sid : string) (end_time : Value)
    (success : bool) (error : Value) : Value :=
  VDict [("session_id", VStr sid); ("goal", lg_goal l);
         ("start_time",
            if is_none (lg_start_time l) then VNone else isoformat (lg_start_time l));
         ("end_time", isoformat end_time);
         ("duration_seconds",
            if is_none (lg_start_time l) then VInt 0
            else match as_int end_time, as_int (lg_start_time l) with
                 | Some e, Some b => VInt (e - b)
                 | _, _ => VNone
                 end);
         ("success", VBool success); ("error", error);
         ("action_count", VInt (Z.of_nat (length (lg_actions l))));
         ("actions", VList (map deref (lg_actions l)))].

(** [ActionLogger.end_session(success, error)]: writes the file, resets
    the session and returns the path; with no open session it returns
    [""] and writes nothing.  When [json.dump] raises, the file is left
    truncated and the session is not reset.  [json.dump] serialises the
    entries as they are when it runs: [deref] gives the current contents
    of the dicts the entries refer to (the identity when no entry holds
    a reference). *)
Definition end_session_with (deref : Value -> Value) (success : bool) (error : Value)
    : st lg_st string :=
  let! l := lg_get in
  match lg_session_id l with
  | None => ret ""
  | Some sid =>
      let! end_time := on_world (io Now) in
      let data := log_data deref l sid end_time success error in
      let path := log_path (lg_logs_dir l) sid in
      if json_ok data then
        lg_put (mkLogger (lg_logs_dir l) None VNone [] VNone
                  (dset (lg_files l) path (Some data))) !;
        ret path
      else
        lg_put (mkLogger (lg_logs_dir l) (lg_session_id l) (lg_goal l) (lg_actions l)
                  (lg_start_time l) (dset (lg_files l) path None)) !;
        raise "TypeError: Object is not JSON serializable"
  end.

(** [end_session] of a recorder used on its own: its entries hold
    plain values. *)
Definition end_session : bool -> Value -> st lg_st string := end_session_with (fun v => v).
End Logger.

(** [ActionLogger.get_log(session_id)]: [None] when the file does not
    exist, the parsed JSON otherwise; [json.load] raises on a file that
    is not JSON. *)
Definition get_log (l : logger) (sid : string) : outcome Value :=
  match dget (lg_files l) (log_path (lg_logs_dir l) sid) with
  | None => Ok VNone
  | Some None => Exc "JSONDecodeError: Expecting value"
  | Some (Some v) => Ok v
  end.

(** *** [ActionLogger.list_sessions()] *)

(** The name [os.listdir(self.logs_dir)] gives for a path of the store:
    the path is [os.path.join(logs_dir, name)], that is the name after
    the directory's prefix [os.path.join(logs_dir, "")]. *)
Definition dir_entry (dir path : string) : option string :=
  let p := path_join dir "" in
  if String.prefix p path
  then Some (String.substring (String.length p) (String.length path - String.length p) path)
  else None.

(** [os.listdir(self.logs_dir)] with what [open(filepath)] reads for each
    name; the store's order stands for the listing's. *)
Definition listdir (dir : string) (fs : list (string * option Value))
    : list (string * option Value) :=
  omap (fun e => (fun name => (name, e.2)) <$> dir_entry dir e.1) fs.

(** The summary dict appended for one log: [data.get] raises on JSON
    that is not an object. *)
Definition session_summary (data : Value) : outcome Value :=
  let? d := as_dict data in
  Ok (VDict [("session_id", dget_or d "session_id" VNone); ("goal", dget_or d "goal" VNone);
             ("start_time", dget_or d "start_time" VNone); ("success", dget_or d "success" VNone);
             ("action_count", dget_or d "action_count" VNone)]).

(** The [for filename in os.listdir(...)] loop: [json.load] raises on a
    file that is not JSON. *)
Fixpoint session_summaries (entries : list (string * option Value)) : outcome (list Value) :=
  match entries with
  | [] => Ok []
  | (name, content) :: rest =>
      if str_ends_with ".json" name then
        let? data := match content with
                     | Some v => Ok v
                     | None => Exc "JSONDecodeError: Expecting value"
                     end in
        let? s := session_summary data in
        let? ss := session_summaries rest in
        Ok (s :: ss)
      else session_summaries rest
  end.

(** The sort key [lambda x: x.get("start_time", "")]. *)
Definition start_key (s : Value) : Value :=
  match s with VDict d => dget_or d "start_time" (VStr "") | _ => VStr "" end.

(** Inserting [x] into a list sorted newest first: [x] goes before the
    first element whose key is below its own, after the ones with an
    equal key. *)
Fixpoint insert_desc (x : Value) (l : list Value) : outcome (list Value) :=
  match l with
  | [] => Ok [x]
  | y :: r =>
      let? lt := py_lt (start_key y) (start_key x) in
      if lt then Ok (x :: y :: r)
      else let? r' := insert_desc x r in Ok (y :: r')
  end.

Fixpoint sort_desc_acc (acc l : list Value) : outcome (list Value) :=
  match l with
  | [] => Ok acc
  | x :: r => let? acc' := insert_desc x acc in sort_desc_acc acc' r
  end.

(** [sessions.sort(key=..., reverse=True)]: Python's sort is stable also
    with [reverse=True], so the result is the descending order in which
    equal keys keep the listing's order, which the insertion sort builds.
    Timsort compares other pairs than the insertion sort; when two keys do
    not compare (a [None] start time beside a string) every comparison
    sort must compare one of them with a key of the other kind, and both
    raise the [TypeError]. *)
Definition sort_newest_first (l : list Value) : outcome (list Value) := sort_desc_acc [] l.

Definition list_sessions (l : logger) : outcome (list Value) :=
  let? ss := session_summaries (listdir (lg_logs_dir l) (lg_files l)) in
  sort_newest_first ss.

(** ** Properties of the recorder *)

(** One [log_action] call's arguments. *)
Record log_req : Type := mkReq {
  rq_action : Value; rq_params : Value; rq_result : Value; rq_success : bool; rq_error : Value
}.

(** An entry without its timestamp. *)
Definition entry_core (e : Value) : Value :=
  match e with VDict d => VDict (ddel d "timestamp") | v => v end.

Definition req_core (r : log_req) : Value :=
  VDict [("action", rq_action r); ("params", rq_params r); ("result", rq_result r);
         ("success", VBool (rq_success r)); ("error", rq_error r)].

Definition req_json_ok (r : log_req) : bool :=
  json_ok (rq_action r) && json_ok (rq_params r) && json_ok (rq_result r) && json_ok (rq_error r).

Section LoggerProofs.
Context `{Env}.

(** The clock and [uuid4] answer (as they always do in Python). *)
Definition clock_ok : Prop := forall w, exists t w', handle Now w = (Ok t, w').
Definition uuid_ok : Prop := forall w, exists h w', handle Uuid4Hex w = (Ok (VStr h), w').

(** A sequence of [log_action] calls. *)
Fixpoint log_all (rs : list log_req) : st lg_st unit :=
  match rs with
  | [] => ret tt
  | r :: rs' =>
      log_action (rq_action r) (rq_params r) (rq_result r) (rq_success r) (rq_error r) !;
      log_all rs'
  end.

Lemma entry_core_log_entry a p r sc e t :
  entry_core (log_entry a p r sc e t) = req_core (mkReq a p r sc e).
Proof. reflexivity. Qed.

Lemma json_ok_log_entry a p r sc e t :
  req_json_ok (mkReq a p r sc e) = true -> json_ok (log_entry a p r sc e t) = true.
Proof.
  unfold req_json_ok. simpl. intros Hr.
  repeat (apply andb_prop in Hr as [Hr ?]). by rewrite Hr, H1, H2, H0.
Qed.

Lemma start_session_spec (Hc : clock_ok) (Hu : uuid_ok) goal l w :
  exists h t w',
    start_session goal (l, w) =
      (Ok ("session_" +:+ String.substring 0 8 h),
       (mkLogger (lg_logs_dir l) (Some ("session_" +:+ String.substring 0 8 h)) goal [] t
                 (lg_files l), w')).
Proof.
  destruct (Hu w) as (h & w1 & E1). destruct (Hc w1) as (t & w2 & E2).
  exists h, t, w2. unfold start_session, bind, on_world, zoom, io, lift_outcome, lg_get, lg_put, ret.
  simpl. by rewrite E1; simpl; rewrite E2.
Qed.

(** Logging appends exactly one entry for each call, in call order, and
    touches no other field. *)
Lemma log_all_spec (Hc : clock_ok) rs l w :
  exists es w',
    log_all rs (l, w) =
      (Ok tt, (mkLogger (lg_logs_dir l) (lg_session_id l) (lg_goal l) (lg_actions l ++ es)
                        (lg_start_time l) (lg_files l), w')) /\
    map entry_core es = map req_core rs /\
    (Forall (fun r => req_json_ok r = true) rs -> forallb json_ok es = true).
Proof.
  revert l w. induction rs as [|[a p r sc e] rs IH]; intros l w.
  - exists [], w. rewrite app_nil_r. by destruct l.
  - destruct (Hc w) as (t & w1 & E1).
    destruct (IH (mkLogger (lg_logs_dir l) (lg_session_id l) (lg_goal l)
                    (lg_actions l ++ [log_entry a p r sc e t]) (lg_start_time l) (lg_files l)) w1)
      as (es & w2 & E2 & Hm & Hj).
    exists (log_entry a p r sc e t :: es), w2. split; [|split].
    + cbn [log_all]. unfold log_action, bind, on_world, zoom, io, lg_get, lg_put.
      simpl. rewrite E1. simpl. rewrite E2. simpl. by rewrite <- app_assoc.
    + simpl. by rewrite Hm.
    + intros Hf. inversion Hf; subst. cbn [forallb].
      rewrite json_ok_log_entry by done. by apply Hj.
Qed.

Lemma end_session_with_spec (Hc : clock_ok) deref l w sid succ err :
  lg_session_id l = Some sid ->
  json_ok (lg_goal l) = true -> json_ok err = true ->
  forallb json_ok (map deref (lg_actions l)) = true ->
  exists t w',
    end_session_with deref succ err (l, w) =
      (Ok (log_path (lg_logs_dir l) sid),
       (mkLogger (lg_logs_dir l) None VNone [] VNone
          (dset (lg_files l) (log_path (lg_logs_dir l) sid)
                (Some (log_data deref l sid t succ err))), w')).
Proof.
  intros Hs Hg He Ha. destruct (Hc w) as (t & w1 & E1). exists t, w1.
  unfold end_session_with, bind, on_world, zoom, io, lg_get, lg_put, ret.
  cbn -[json_ok log_data dset log_path]. rewrite Hs. cbn -[json_ok log_data dset log_path].
  rewrite E1. cbn -[json_ok log_data dset log_path].
  assert (Hd : json_ok (log_data deref l sid t succ err) = true).
  { unfold log_data. simpl. rewrite Hg, He, Ha.
    destruct (is_none (lg_start_time l)); [|destruct (as_int t), (as_int (lg_start_time l))];
      reflexivity. }
  by rewrite Hd.
Qed.

Lemma end_session_spec (Hc : clock_ok) l w sid succ err :
  lg_session_id l = Some sid ->
  json_ok (lg_goal l) = true -> json_ok err = true -> forallb json_ok (lg_actions l) = true ->
  exists t w',
    end_session succ err (l, w) =
      (Ok (log_path (lg_logs_dir l) sid),
       (mkLogger (lg_logs_dir l) None VNone [] VNone
          (dset (lg_files l) (log_path (lg_logs_dir l) sid)
                (Some (log_data (fun v => v) l sid t succ err))), w')).
Proof. intros. apply end_session_with_spec; try done. by rewrite map_id. Qed.

Lemma get_log_written l sid data :
  get_log (mkLogger (lg_logs_dir l) None VNone [] VNone
             (dset (lg_files l) (log_path (lg_logs_dir l) sid) (Some data))) sid = Ok data.
Proof. unfold get_log. simpl. by rewrite dget_dset_eq. Qed.

(** The recorder between two states of one open session: only entries
    are added. *)
Definition lg_append (l l' : logger) : Prop :=
  lg_logs_dir l' = lg_logs_dir l /\ lg_session_id l' = lg_session_id l /\
  lg_goal l' = lg_goal l /\ lg_start_time l' = lg_start_time l /\
  lg_files l' = lg_files l /\ lg_actions l `prefix_of` lg_actions l'.

#[export] Instance lg_append_preorder : PreOrder lg_append.
Proof.
  split.
  - intros l. unfold lg_append. by repeat split.
  - intros l1 l2 l3 (?&?&?&?&?&?) (?&?&?&?&?&?). unfold lg_append.
    repeat split; try congruence. by etransitivity.
Qed.

(** [log_action] appends exactly one entry and changes nothing else. *)
Lemma log_action_spec (Hc : clock_ok) a p r sc e l w :
  exists t w', log_action a p r sc e (l, w) =
    (Ok tt, (mkLogger (lg_logs_dir l) (lg_session_id l) (lg_goal l)
               (lg_actions l ++ [log_entry a p r sc e t]) (lg_start_time l) (lg_files l), w')).
Proof.
  destruct (Hc w) as (t & w' & E). exists t, w'.
  unfold log_action, bind, on_world, zoom, io, lg_get, lg_put. simpl. by rewrite E.
Qed.

Lemma log_action_append a p r sc e :
  st_rel (fun s s' : lg_st => lg_append s.1 s'.1) (log_action a p r sc e).
Proof.
  intros [l w] o [l' w'] E. unfold log_action, bind, on_world, zoom, io, lg_get, lg_put in E.
  simpl in E. destruct (handle Now w) as [[t|x] w1]; inv_pair; [|reflexivity].
  unfold lg_append; simpl. repeat split. by eexists.
Qed.

(** The recorder's logs directory never changes. *)
Definition lg_same_dir (s s' : lg_st) : Prop := lg_logs_dir s'.1 = lg_logs_dir s.1.

Lemma start_session_dir goal : st_rel lg_same_dir (start_session goal).
Proof.
  intros [l w] o [l' w'] E. unfold start_session, bind, on_world, zoom, io, lift_outcome,
    lg_get, lg_put, ret in E. simpl in E. destruct_hyp_matches; reflexivity.
Qed.

Lemma end_session_with_dir deref succ err : st_rel lg_same_dir (end_session_with deref succ err).
Proof.
  intros [l w] o [l' w'] E. unfold end_session_with, bind, on_world, zoom, io,
    lg_get, lg_put, ret, raise in E. simpl in E. destruct_hyp_matches; reflexivity.
Qed.

(** C9: round trip of a session (spec section 8, fifth property): a
    session started, fed any sequence of JSON-serialisable [log_action]
    calls and sealed, reads back with [get_log] under its id with
    [action_count] the number of calls and [actions] the logged entries
    in call order, field for field (all fields but the timestamp the
    recorder adds). *)
Theorem session_roundtrip (Hc : clock_ok) (Hu : uuid_ok) goal rs succ err l w :
  json_ok goal = true -> json_ok err = true ->
  Forall (fun r => req_json_ok r = true) rs ->
  exists sid l' w',
    (start_session goal !; log_all rs !; end_session succ err) (l, w) =
      (Ok (log_path (lg_logs_dir l) sid), (l', w')) /\
    exists d acts, get_log l' sid = Ok (VDict d) /\
      dget d "session_id" = Some (VStr sid) /\
      dget d "action_count" = Some (VInt (Z.of_nat (length rs))) /\
      dget d "actions" = Some (VList acts) /\
      map entry_core acts = map req_core rs.
Proof.
  intros Hg He Hrs.
  destruct (start_session_spec Hc Hu goal l w) as (h & t & w1 & E1).
  set (sid := "session_" +:+ String.substring 0 8 h) in *.
  set (l1 := mkLogger (lg_logs_dir l) (Some sid) goal [] t (lg_files l)) in *.
  destruct (log_all_spec Hc rs l1 w1) as (es & w2 & E2 & Hm & Hj).
  set (l2 := mkLogger (lg_logs_dir l1) (lg_session_id l1) (lg_goal l1) (lg_actions l1 ++ es)
               (lg_start_time l1) (lg_files l1)) in E2.
  destruct (end_session_spec Hc l2 w2 sid succ err) as (t' & w3 & E3); try done.
  { simpl. by apply Hj. }
  exists sid. eexists _, _. split.
  - rewrite (bind_ok _ _ _ _ _ E1). cbv beta. rewrite (bind_ok _ _ _ _ _ E2). exact E3.
  - rewrite get_log_written. eexists _, _. split; [reflexivity|]. simpl. rewrite map_id.
    split; [done|]. split.
    + do 2 f_equal. apply (f_equal length) in Hm. rewrite !length_map in Hm. by rewrite Hm.
    + by split.
Qed.

(** C16: sealing resets the recorder: after [end_session] there is no
    open session and no buffered entry, and a second [end_session]
    returns [""], writes nothing and changes nothing (spec section 4.4:
    the recorder can start a new, unrelated session). *)
Theorem end_session_resets (Hc : clock_ok) l w sid succ err :
  lg_session_id l = Some sid ->
  json_ok (lg_goal l) = true -> json_ok err = true -> forallb json_ok (lg_actions l) = true ->
  exists path l' w', end_session succ err (l, w) = (Ok path, (l', w')) /\
    lg_session_id l' = None /\ lg_actions l' = [] /\ lg_start_time l' = VNone /\
    forall succ' err' w'', end_session succ' err' (l', w'') = (Ok "", (l', w'')).
Proof.
  intros Hs Hg He Ha. destruct (end_session_spec Hc l w sid succ err) as (t & w' & E); try done.
  eexists _, _, _. split; [exact E|]. by repeat split.
Qed.
End LoggerProofs.

(** ** Properties of the listing *)

(** A log [list_sessions] reads without raising: a JSON object whose
    start time is a string (what [end_session] writes for a session that
    [start_session] opened). *)
Definition log_readable (c : option Value) : Prop :=
  exists d s, c = Some (VDict d) /\ dget_or d "start_time" VNone = VStr s.

(** The start time a summary is sorted by. *)
Definition start_time_of (s : Value) : string :=
  match start_key s with VStr t => t | _ => "" end.

Definition str_key (s : Value) : Prop := start_key s = VStr (start_time_of s).

(** Newest first: each summary's start time is at least every later one's. *)
Definition newest_first : list Value -> Prop :=
  StronglySorted (fun a b => String.le (start_time_of b) (start_time_of a)).

Lemma str_lt_le a b :
  (match String.compare a b with Lt => true | _ => false end) = true -> String.le a b.
Proof. unfold String.le, String.leb. destruct (String.compare a b); cbn; done. Qed.

Lemma str_not_lt_le a b :
  (match String.compare a b with Lt => true | _ => false end) = false -> String.le b a.
Proof.
  unfold String.le, String.leb. rewrite (String.compare_antisym b a).
  destruct (String.compare a b); cbn; done.
Qed.

Lemma insert_desc_spec x l :
  str_key x -> Forall str_key l -> newest_first l ->
  exists l', insert_desc x l = Ok l' /\ l' ≡ₚ x :: l /\ Forall str_key l' /\ newest_first l'.
Proof.
  intros Hx. induction l as [|y r IH]; intros Hl Hs.
  - eexists. split; [done|]. split; [done|]. split; repeat constructor; done.
  - inversion Hl as [|? ? Hy Hr]; subst. inversion Hs as [|? ? Hsr Hfr]; subst.
    cbn [insert_desc]. rewrite Hy, Hx. cbn [py_lt as_int obind].
    destruct (match String.compare _ _ with Lt => true | _ => false end) eqn:E.
    + apply str_lt_le in E. eexists. split; [done|]. split; [done|].
      split; [by constructor|]. constructor; [by apply SSorted_cons|]. constructor; [done|].
      eapply Forall_impl; [exact Hfr|]. intros z Hz. etrans; [exact Hz|exact E].
    + apply str_not_lt_le in E. destruct (IH Hr Hsr) as (r' & E' & Hp & Hf' & Hs').
      rewrite E'. eexists. split; [done|]. split; [by rewrite Hp; constructor|].
      split; [by constructor|]. constructor; [done|]. rewrite Hp. by constructor.
Qed.

Lemma sort_desc_acc_spec acc l :
  Forall str_key acc -> Forall str_key l -> newest_first acc ->
  exists l', sort_desc_acc acc l = Ok l' /\ l' ≡ₚ l ++ acc /\ newest_first l'.
Proof.
  revert acc. induction l as [|x r IH]; intros acc Ha Hl Hs; cbn [sort_desc_acc].
  - by eexists.
  - inversion Hl as [|? ? Hx Hr]; subst.
    destruct (insert_desc_spec x acc Hx Ha Hs) as (acc' & E & Hp & Ha' & Hs').
    rewrite E. cbn [obind]. destruct (IH acc' Ha' Hr Hs') as (l' & E' & Hp' & Hs'').
    exists l'. split; [done|]. split; [|done]. rewrite Hp', Hp. by rewrite <- Permutation_middle.
Qed.

Lemma session_summaries_spec entries :
  Forall (fun e => str_ends_with ".json" e.1 = true -> log_readable e.2) entries ->
  exists ss, session_summaries entries = Ok ss /\ Forall str_key ss.
Proof.
  induction entries as [|[name c] rest IH]; intros Hall; cbn [session_summaries]; [by eexists|].
  inversion Hall as [|? ? He Hr]; subst. destruct (IH Hr) as (ss & E & Hss).
  destruct (str_ends_with ".json" name) eqn:Ej; [|by eexists].
  destruct (He Ej) as (d & st & Hc & Hst). cbn [snd] in Hc. subst c. cbn [obind session_summary as_dict].
  rewrite E. eexists. split; [done|]. constructor; [|done].
  unfold str_key, start_time_of. cbn. unfold dget_or in Hst |- *. by destruct (dget d "start_time") as [v|]; subst.
Qed.

Lemma session_summaries_raises entries name :
  (name, None) ∈ entries -> str_ends_with ".json" name = true ->
  exists e, session_summaries entries = Exc e.
Proof.
  intros Hin Hj. induction entries as [|[name' c] rest IH]; [by apply elem_of_nil in Hin|].
  cbn [session_summaries]. apply elem_of_cons in Hin as [Heq|Hin].
  - simplify_eq. rewrite Hj. by eexists.
  - destruct (str_ends_with ".json" name'); [|by apply IH].
    destruct c as [v|]; cbn [obind]; [|by eexists].
    destruct (session_summary v) as [s|e]; cbn [obind]; [|by eexists].
    destruct (IH Hin) as [e E]. rewrite E. by eexists.
Qed.

Lemma path_join_app dir n : starts_with_slash n = false -> path_join dir n = path_join dir "" +:+ n.
Proof.
  intros Hn. unfold path_join. rewrite Hn. cbn [starts_with_slash].
  destruct (_ || _); [by rewrite string_app_nil_r|]. by rewrite string_app_assoc.
Qed.

(** A session file is listed under its own name, for a session id that
    is not an absolute path (ids are ["session_" + hex]). *)
Lemma dir_entry_log_path dir sid :
  starts_with_slash sid = false -> dir_entry dir (log_path dir sid) = Some (sid +:+ ".json").
Proof.
  intros Hs. unfold dir_entry, log_path. cbv zeta.
  rewrite (path_join_app dir (sid +:+ ".json")) by (destruct sid as [|c ?]; [done|exact Hs]).
  generalize (path_join dir "") as p. intros p.
  rewrite string_prefix_app, (string_app_length p).
  replace (String.length p + String.length (sid +:+ ".json") - String.length p)
    with (String.length (sid +:+ ".json")) by lia.
  by rewrite string_substring_app.
Qed.

Lemma listdir_elem_of dir fs path c name :
  (path, c) ∈ fs -> dir_entry dir path = Some name -> (name, c) ∈ listdir dir fs.
Proof.
  intros Hin He. apply list_elem_of_omap. exists (path, c). split; [done|]. cbn. by rewrite He.
Qed.

(** C18: [ActionLogger.list_sessions] lists the sessions newest first:
    when every [.json] file of the logs directory is a JSON object with a
    string start time, it returns a permutation of the summaries of the
    listing, sorted by start time in decreasing string order (the
    [isoformat] text). *)
Theorem list_sessions_newest_first l :
  Forall (fun e => str_ends_with ".json" e.1 = true -> log_readable e.2)
         (listdir (lg_logs_dir l) (lg_files l)) ->
  exists sums ss, session_summaries (listdir (lg_logs_dir l) (lg_files l)) = Ok sums /\
    list_sessions l = Ok ss /\ ss ≡ₚ sums /\ newest_first ss.
Proof.
  intros Hall. destruct (session_summaries_spec _ Hall) as (sums & E & Hk).
  destruct (sort_desc_acc_spec [] sums) as (ss & E' & Hp & Hs); [done|done|constructor|].
  exists sums, ss. unfold list_sessions, sort_newest_first. rewrite E. cbn [obind].
  split; [done|]. split; [done|]. by rewrite app_nil_r in Hp.
Qed.

(** A log file that is not JSON (a truncated one) makes
    [list_sessions] raise. *)
Lemma list_sessions_truncated_raises l name :
  (name, None) ∈ listdir (lg_logs_dir l) (lg_files l) -> str_ends_with ".json" name = true ->
  exists e, list_sessions l = Exc e.
Proof.
  intros Hin Hj. destruct (session_summaries_raises _ _ Hin Hj) as [e E].
  exists e. unfold list_sessions. by rewrite E.
Qed.

Section ListingProofs.
Context `{Env}.

(** When [json.dump] raises in [end_session], the truncated file it
    leaves makes every later [list_sessions] of the directory raise. *)
Lemma end_session_truncated_breaks_listing deref succ err l w sid t w1 :
  lg_session_id l = Some sid -> starts_with_slash sid = false -> handle Now w = (Ok t, w1) ->
  json_ok (log_data deref l sid t succ err) = false ->
  exists e l', end_session_with deref succ err (l, w) = (Exc e, (l', w1)) /\
    lg_logs_dir l' = lg_logs_dir l /\ exists e', list_sessions l' = Exc e'.
Proof.
  intros Hs Hsl E1 Hd.
  unfold end_session_with, bind, on_world, zoom, io, lg_get, lg_put, ret, raise.
  cbn -[json_ok log_data dset log_path]. rewrite Hs. cbn -[json_ok log_data dset log_path].
  rewrite E1. cbn -[json_ok log_data dset log_path]. rewrite Hd.
  do 2 eexists. split; [reflexivity|]. split; [done|].
  apply (list_sessions_truncated_raises _ (sid +:+ ".json")); [|apply str_ends_with_app].
  apply (listdir_elem_of _ _ (log_path (lg_logs_dir l) sid)); [apply dset_elem_of|].
  by apply dir_entry_log_path.
Qed.

End ListingProofs.

(** ** Witnesses on the concrete site *)

Lemma mock_clock_ok : clock_ok.
Proof. intros w. by eexists _, _. Qed.

Lemma mock_uuid_ok : uuid_ok.
Proof. intros w. by eexists _, _. Qed.

Definition nav_req : log_req :=
  mkReq (VStr "navigate") (VDict [("url", VStr "https://example.com")]) (VDict []) true VNone.

Lemma session_roundtrip_witness :
  exists sid l' w',
    (start_session (VStr "goal") !; log_all [nav_req; nav_req] !; end_session true VNone)
      (new_logger "./logs", two_pages) = (Ok (log_path "./logs" sid), (l', w')) /\
    exists d acts, get_log l' sid = Ok (VDict d) /\
      dget d "session_id" = Some (VStr sid) /\
      dget d "action_count" = Some (VInt (Z.of_nat (length [nav_req; nav_req]))) /\
      dget d "actions" = Some (VList acts) /\
      map entry_core acts = map req_core [nav_req; nav_req].
Proof.
  apply (session_roundtrip mock_clock_ok mock_uuid_ok); try reflexivity.
  repeat constructor.
Defined.

Definition open_logger : logger :=
  mkLogger "./logs" (Some "session_u0") (VStr "goal") [] (VInt 0) [].

Lemma end_session_resets_witness :
  exists path l' w', end_session true VNone (open_logger, two_pages) = (Ok path, (l', w')) /\
    lg_session_id l' = None /\ lg_actions l' = [] /\ lg_start_time l' = VNone /\
    forall succ' err' w'', end_session succ' err' (l', w'') = (Ok "", (l', w'')).
Proof. apply (end_session_resets mock_clock_ok _ _ "session_u0"); reflexivity. Defined.

(** Two sealed sessions, listed oldest first. *)
Definition two_logs : logger :=
  mkLogger "./logs" None VNone [] VNone
    [(log_path "./logs" "s1", Some (VDict [("session_id", VStr "s1"); ("start_time", VStr "2026-01-05T09:00:00")]));
     (log_path "./logs" "s2", Some (VDict [("session_id", VStr "s2"); ("start_time", VStr "2026-02-01T08:00:00")]))].

Lemma list_sessions_newest_first_witness :
  Forall (fun e => str_ends_with ".json" e.1 = true -> log_readable e.2)
         (listdir (lg_logs_dir two_logs) (lg_files two_logs)) /\
  exists sums ss, session_summaries (listdir (lg_logs_dir two_logs) (lg_files two_logs)) = Ok sums /\
    list_sessions two_logs = Ok ss /\ ss ≡ₚ sums /\ newest_first ss.
Proof.
  assert (Hall : Forall (fun e => str_ends_with ".json" e.1 = true -> log_readable e.2)
                        (listdir (lg_logs_dir two_logs) (lg_files two_logs))).
  { vm_compute. repeat constructor; intros _; eexists _, _; split; reflexivity. }
  split; [exact Hall|]. exact (list_sessions_newest_first two_logs Hall).
Defined.
