(* ===== verification/Executor.v ===== *)
(** * The plan executor (src/core/executor.py)

    [Executor] runs a plan, a list of task dicts, through its action
    registry.  Its fields are the record [executor]: the page (the
    [Env]'s world), whether a browser context was given, the recorder,
    [max_retries], the registry, [collected_data] and
    [last_inspect_result].

    Task parameters are shared, mutable dicts: [task.get("params", {})]
    returns the task's own dict, the extract repair assigns
    [params["selector"]] in it, and the recorder's entry keeps a
    reference to it.  The dicts live in the heap [ex_heap]; a task
    refers to its params dict by index ([PRef]), and a log entry holds a
    [VRef] that [json.dump] resolves when the session is sealed.  A task
    without a ["params"] key gets a fresh [{}] on every call ([PAbsent]).

    [execute_task] calls itself to retry; its recursion is computed with
    fuel [Z.to_nat (max_retries - retry_count)], the number of retries
    the guard [retry_count < max_retries] still allows.  The whole-plan
    [while] loop of [execute_plan] runs on fuel one above the attempts
    its guard allows, and [plan_loop_fuel_irrelevant] shows that the
    guard, not the fuel, ends it. *)

From S2P Require Import Prelude PyData Env Mock Loop Logger.

(** A task's ["params"] entry as the plan holds it. *)
Inductive params_slot : Type :=
| PAbsent                   (** no ["params"] key *)
| PRef (n : nat)            (** a dict: the [n]-th dict of the heap *)
| PVal (v : Value).         (** a value that is not a dict *)

(** A task of the plan: a dict (its other keys and its params), or a
    value of another type. *)
Inductive task : Type :=
| TDict (fields : Dict) (params : params_slot)
| TOther (v : Value).

(** The local variable [params] of [execute_task]. *)
Inductive pbox : Type :=
| BRef (n : nat)            (** the task's own dict *)
| BLocal (v : Value).       (** a value no one else refers to *)

Abbreviation heap := (list Dict).

(** The current contents of the dicts a value refers to. *)
Fixpoint deref (h : heap) (v : Value) : Value :=
  match v with
  | VRef n => VDict (default [] (h !! n))
  | VList l => VList (map (deref h) l)
  | VDict d => VDict (map (fun kv => (kv.1, deref h kv.2)) d)
  | _ => v
  end.

(** [task.get("params", {})] *)
Definition task_params (slot : params_slot) : pbox :=
  match slot with
  | PAbsent => BLocal (VDict [])
  | PRef n => BRef n
  | PVal v => BLocal v
  end.

Definition box_value (h : heap) (b : pbox) : Value :=
  match b with BRef n => VDict (default [] (h !! n)) | BLocal v => v end.

(** What [log_action(params=params)] stores: the dict itself. *)
Definition box_log_value (b : pbox) : Value :=
  match b with BRef n => VRef n | BLocal v => v end.

(** [v[0]] *)
Definition py_index0 (v : Value) : outcome Value :=
  match v with
  | VList (x :: _) => Ok x
  | VStr (String c _) => Ok (VStr (String c EmptyString))
  | VList [] | VStr EmptyString => Exc "IndexError: index out of range"
  | VDict _ => Exc "KeyError: 0"
  | _ => Exc ("TypeError: '" +:+ py_type_name v +:+ "' object is not subscriptable")
  end.

(** The [print] of the suggested selectors after an [inspect]:
    [', '.join(data['suggested_selectors'][:5])] when the key is [in]
    the data.  It prints nothing, but raises on data of the wrong
    shape. *)
Definition print_suggestions (data : Value) : outcome unit :=
  let key := "suggested_selectors" in
  let present :=
    match data with
    | VDict d => Ok (bool_decide (key ∈ d.*1))
    | VList l => Ok (existsb (fun x => is_str x key) l)
    | VStr s => Ok (str_contains key s)
    | _ => Exc ("TypeError: argument of type '" +:+ py_type_name data +:+ "' is not iterable")
    end in
  match present with
  | Exc e => Exc e
  | Ok false => Ok tt
  | Ok true =>
      match data with
      | VDict d =>
          match dget_or d key VNone with
          | VList l => if forallb (fun x => match x with VStr _ => true | _ => false end) (take 5 l)
                       then Ok tt else Exc "TypeError: sequence item: expected str instance"
          | VStr _ => Ok tt
          | v => Exc ("TypeError: '" +:+ py_type_name v +:+ "' object is not subscriptable")
          end
      | VList _ => Exc "TypeError: list indices must be integers or slices, not str"
      | _ => Exc "TypeError: string indices must be integers"
      end
  end.

Section Executor.
Context `{Env} `{!ActionImpl}.

Record executor : Type := mkExec {
  ex_world : world;
  ex_has_context : bool;
  ex_logger : logger;
  ex_max_retries : Z;
  ex_registry : registry;
  ex_collected : list Value;
  ex_last_inspect : Value;
  ex_heap : heap
}.

Definition set_world (w : world) (e : executor) : executor :=
  mkExec w (ex_has_context e) (ex_logger e) (ex_max_retries e) (ex_registry e)
    (ex_collected e) (ex_last_inspect e) (ex_heap e).
Definition set_logger_world (lw : logger * world) (e : executor) : executor :=
  mkExec lw.2 (ex_has_context e) lw.1 (ex_max_retries e) (ex_registry e)
    (ex_collected e) (ex_last_inspect e) (ex_heap e).
Definition set_collected (c : list Value) (e : executor) : executor :=
  mkExec (ex_world e) (ex_has_context e) (ex_logger e) (ex_max_retries e) (ex_registry e)
    c (ex_last_inspect e) (ex_heap e).
Definition set_last_inspect (v : Value) (e : executor) : executor :=
  mkExec (ex_world e) (ex_has_context e) (ex_logger e) (ex_max_retries e) (ex_registry e)
    (ex_collected e) v (ex_heap e).
Definition set_heap (h : heap) (e : executor) : executor :=
  mkExec (ex_world e) (ex_has_context e) (ex_logger e) (ex_max_retries e) (ex_registry e)
    (ex_collected e) (ex_last_inspect e) h.

Definition on_page {A} (m : st world A) : st executor A := zoom ex_world set_world m.
Definition on_logger {A} (m : st lg_st A) : st executor A :=
  zoom (fun e => (ex_logger e, ex_world e)) set_logger_world m.

(** [action_class(page, ...)].execute( **params): the constructor's
    arguments follow the action's name ([loop] gets the registry,
    [tab] the context, the others the page only). *)
Definition run_class (reg : registry) (has_context : bool) (name : Value) (c : action_class)
    (kw : Dict) : st world ActionResult :=
  match c with
  | LoopClass => if is_str name "loop" then loop_execute reg kw else loop_in_step kw
  | Simple k => act_execute k (is_str name "tab" && has_context) kw
  end.

(** [params["selector"] = selector] *)
Definition box_set_selector (b : pbox) (sel : string) : st executor pbox :=
  match b with
  | BRef n =>
      modify (fun e => set_heap (alter (fun d => dset d "selector" (VStr sel)) n (ex_heap e)) e) !;
      ret b
  | BLocal (VDict d) => ret (BLocal (VDict (dset d "selector" (VStr sel))))
  | BLocal v => raise ("TypeError: '" +:+ py_type_name v +:+ "' object does not support item assignment")
  end.

(** The first part of [execute_task]: run the action, remember an
    inspection, and try the first suggested selector on a failing
    extraction. *)
Definition attempt (fields : Dict) (b : pbox) (rc : Z) : st executor (ActionResult * pbox) :=
  let action_name := dget_or fields "action" VNone in
  let! e := get in
  let! cls := lift_outcome (reg_lookup (ex_registry e) action_name) in
  let! result :=
    match cls with
    | None => ret (fail_result action_name ("Unknown action: " +:+ py_str action_name))
    | Some c =>
        let! kw := lift_outcome (as_kwargs (box_value (ex_heap e) b)) in
        on_page (run_class (ex_registry e) (ex_has_context e) action_name c kw)
    end in
  (if ar_success result && is_str action_name "inspect" && truthy (ar_data result) then
     modify (set_last_inspect (ar_data result)) !;
     lift_outcome (print_suggestions (ar_data result))
   else ret tt) !;
  let! e := get in
  if negb (ar_success result) && is_str action_name "extract" && truthy (ex_last_inspect e) then
    let! li := lift_outcome (as_dict (ex_last_inspect e)) in
    let suggested := dget_or li "suggested_selectors" (VList []) in
    if truthy suggested && (rc <? ex_max_retries e)%Z then
      let! first := lift_outcome (py_index0 suggested) in
      let! sel := lift_outcome (py_split_first first) in
      let! b' := box_set_selector b sel in
      let! e := get in
      match cls with
      | None => raise "TypeError: 'NoneType' object is not callable"
      | Some c =>
          let! kw := lift_outcome (as_kwargs (box_value (ex_heap e) b')) in
          let! r := on_page (run_class (ex_registry e) false (VStr "extract") c kw) in
          ret (r, b')
      end
    else ret (result, b)
  else ret (result, b).

(** The pause before a retry, with a reload when the error mentions a
    timeout. *)
Definition backoff (result : ActionResult) : st executor unit :=
  on_page (io (Sleep 1000)) !;
  if str_contains "timeout" (lower (err_str (ar_error result))) then
    on_page (io (Reload "domcontentloaded")) !;
    on_page (io (Sleep 1000)) !;
    ret tt
  else ret tt.

(** The end of [execute_task]: log the final result and collect the
    data of a successful extraction or loop. *)
Definition finish (action_name : Value) (b : pbox) (result : ActionResult)
    : st executor ActionResult :=
  on_logger (log_action action_name (box_log_value b)
               (if truthy (ar_data result) then ar_data result else VDict [])
               (ar_success result) (opt_str (ar_error result))) !;
  (if ar_success result && truthy (ar_data result)
      && (is_str action_name "extract" || is_str action_name "loop") then
     let! e := get in
     let! pd := lift_outcome (as_dict (box_value (ex_heap e) b)) in
     modify (fun e => set_collected (ex_collected e ++
       [VDict [("action", action_name); ("data", ar_data result);
               ("save_as", dget_or pd "save_as" VNone)]]) e)
   else ret tt) !;
  ret result.

Fixpoint execute_task_fuel (fuel : nat) (t : task) (rc : Z) : st executor ActionResult :=
  match t with
  | TOther v => raise (no_method v "get")
  | TDict fields slot =>
      let action_name := dget_or fields "action" VNone in
      let! '(result, b) := attempt fields (task_params slot) rc in
      let! e := get in
      if negb (ar_success result) && (rc <? ex_max_retries e)%Z then
        match fuel with
        | O => finish action_name b result
        | S fuel' => backoff result !; execute_task_fuel fuel' t (rc + 1)
        end
      else finish action_name b result
  end.

(** [Executor.execute_task(task, retry_count)] *)
Definition execute_task (t : task) (rc : Z) : st executor ActionResult :=
  fun e => execute_task_fuel (Z.to_nat (ex_max_retries e - rc)) t rc e.

(** The task as the [failed_task] dict shows it. *)
Definition task_value (t : task) : Value :=
  match t with
  | TDict fields PAbsent => VDict fields
  | TDict fields (PRef n) => VDict (fields ++ [("params", VRef n)])
  | TDict fields (PVal v) => VDict (fields ++ [("params", v)])
  | TOther v => v
  end.

Definition failed_info (t : task) (r : ActionResult) (i : nat) : Value :=
  VDict [("task", task_value t); ("error", opt_str (ar_error r)); ("index", VInt (Z.of_nat i))].

(** The [for i, task in enumerate(tasks)] loop of one plan attempt:
    the final [success_count] and [failed_task]. *)
Fixpoint run_tasks (tasks : list task) (i : nat) (stop_on_error : bool)
    (success_count : nat) (failed : Value) : st executor (nat * Value) :=
  match tasks with
  | [] => ret (success_count, failed)
  | t :: rest =>
      let! r := execute_task t 0 in
      if ar_success r then run_tasks rest (S i) stop_on_error (S success_count) failed
      else if stop_on_error then ret (success_count, failed_info t r i)
      else run_tasks rest (S i) stop_on_error success_count (failed_info t r i)
  end.

Definition summary_success (n sc : nat) (attempts : Z) (collected : list Value) (path : string)
    : Value :=
  VDict [("success", VBool true); ("total_tasks", VInt (Z.of_nat n));
         ("completed_tasks", VInt (Z.of_nat sc)); ("attempts", VInt attempts);
         ("collected_data", VList collected); ("log_path", VStr path)].

Definition summary_failure (n sc : nat) (attempts : Z) (failed : Value) (collected : list Value)
    (path : string) : Value :=
  VDict [("success", VBool false); ("total_tasks", VInt (Z.of_nat n));
         ("completed_tasks", VInt (Z.of_nat sc)); ("attempts", VInt attempts);
         ("failed_task", failed); ("collected_data", VList collected); ("log_path", VStr path)].

(** After the [while] loop: seal the session as failed.  [last] holds
    the locals [success_count] and [failed_task] of the last attempt;
    when no attempt ran they are unbound and reading them raises. *)
Definition plan_failed (n : nat) (attempts : Z) (last : option (nat * Value))
    : st executor Value :=
  match last with
  | None => raise "UnboundLocalError: local variable 'failed_task' referenced before assignment"
  | Some (sc, failed) =>
      let err := if truthy failed
                 then match failed with VDict d => dget_or d "error" VNone | _ => VNone end
                 else VStr "Unknown error" in
      let! e := get in
      let! path := on_logger (end_session_with (deref (ex_heap e)) false err) in
      let! e := get in
      ret (summary_failure n sc attempts failed (ex_collected e) path)
  end.

(** The [while plan_attempts < max_plan_attempts] loop.  Its guard is
    the test on [attempts]; the fuel is a bound on the recursion that
    [execute_plan] sets one above the attempts the guard allows, so the
    guard always exits first ([plan_loop_fuel_irrelevant]: any fuel
    above that bound computes the same result). *)
Fixpoint plan_loop (fuel : nat) (tasks : list task) (stop_on_error retry_full_plan : bool)
    (attempts : Z) (last : option (nat * Value)) : st executor Value :=
  let! e := get in
  if (attempts <? ex_max_retries e)%Z then
    match fuel with
    | O => plan_failed (length tasks) attempts last
    | S fuel' =>
        let attempts' := (attempts + 1)%Z in
        (if (1 <? attempts')%Z then on_page (io (Sleep 2000)) !; ret tt else ret tt) !;
        let! '(sc, failed) := run_tasks tasks 0 stop_on_error 0 VNone in
        if Nat.eqb sc (length tasks) then
          let! e := get in
          let! path := on_logger (end_session_with (deref (ex_heap e)) true VNone) in
          let! e := get in
          ret (summary_success (length tasks) sc attempts' (ex_collected e) path)
        else if negb retry_full_plan then plan_failed (length tasks) attempts' (Some (sc, failed))
        else if (ex_max_retries e <=? attempts')%Z then
          plan_failed (length tasks) attempts' (Some (sc, failed))
        else
          (** the [print] of [failed_task['index'] + 1] *)
          lift_outcome (match failed with
                        | VDict _ => Ok tt
                        | _ => Exc "TypeError: 'NoneType' object is not subscriptable"
                        end) !;
          plan_loop fuel' tasks stop_on_error retry_full_plan attempts' (Some (sc, failed))
    end
  else plan_failed (length tasks) attempts last.

(** [Executor.execute_plan(tasks, goal, stop_on_error, retry_full_plan)] *)
Definition execute_plan (tasks : list task) (goal : Value) (stop_on_error retry_full_plan : bool)
    : st executor Value :=
  if bool_decide (tasks = []) then
    ret (VDict [("success", VBool false); ("error", VStr "No tasks to execute")])
  else
    on_logger (start_session goal) !;
    modify (set_collected []) !;
    let! e := get in
    plan_loop (S (Z.to_nat (ex_max_retries e))) tasks stop_on_error retry_full_plan 0 None.

End Executor.

(** ** Frame, fuel and the retry state machine *)

Section ExecutorProofs.
Context `{Henv : Env} `{!ActionImpl}.

(** What no operation of the executor changes. *)
Record ex_frame (e e' : executor) : Prop := {
  fr_max : ex_max_retries e' = ex_max_retries e;
  fr_reg : ex_registry e' = ex_registry e;
  fr_ctx : ex_has_context e' = ex_has_context e;
  fr_dir : lg_logs_dir (ex_logger e') = lg_logs_dir (ex_logger e)
}.

(** A step that touches neither the recorder nor [collected_data]. *)
Record quiet (e e' : executor) : Prop := {
  q_frame : ex_frame e e';
  q_logger : ex_logger e' = ex_logger e;
  q_collected : ex_collected e' = ex_collected e
}.

(** A step inside an open session: the recorder only gains entries and
    [collected_data] only grows. *)
Record task_frame (e e' : executor) : Prop := {
  tf_frame : ex_frame e e';
  tf_log : lg_append (ex_logger e) (ex_logger e');
  tf_collected : ex_collected e `prefix_of` ex_collected e'
}.

#[export] Instance ex_frame_preorder : PreOrder ex_frame.
Proof.
  split; [by intros e; split|].
  intros e1 e2 e3 [] []. split; congruence.
Qed.

#[export] Instance quiet_preorder : PreOrder quiet.
Proof.
  split; [intros e; split; [reflexivity|done|done]|].
  intros e1 e2 e3 [? ? ?] [? ? ?]. split; [by etransitivity|congruence|congruence].
Qed.

#[export] Instance task_frame_preorder : PreOrder task_frame.
Proof.
  split; [intros e; split; reflexivity|].
  intros e1 e2 e3 [? ? ?] [? ? ?]. split; by etransitivity.
Qed.

Lemma quiet_task_frame e e' : quiet e e' -> task_frame e e'.
Proof. intros [? E1 E2]. split; [done|rewrite E1|rewrite E2]; reflexivity. Qed.

Lemma task_frame_ex_frame e e' : task_frame e e' -> ex_frame e e'.
Proof. by intros []. Qed.

Lemma st_rel_weaken {S A} (R R' : S -> S -> Prop) (m : st S A) :
  (forall s s', R s s' -> R' s s') -> st_rel R m -> st_rel R' m.
Proof. intros HR Hm s o s' E. eauto. Qed.

Ltac setter_frame :=
  intros; match goal with e : executor |- _ => destruct e end;
  repeat split; simpl; try reflexivity.

Lemma on_page_quiet {A} (m : st world A) : st_rel quiet (on_page m).
Proof. apply (st_rel_zoom _ (fun _ _ => True)); [by intros ? ? ? ?|setter_frame]. Qed.

Lemma modify_quiet f : (forall e, quiet e (f e)) -> st_rel quiet (modify f).
Proof. apply st_rel_modify. Qed.

Ltac quiet_auto :=
  repeat first [ apply on_page_quiet
               | apply modify_quiet; setter_frame
               | st_rel_step ].

Lemma attempt_quiet fields b rc : st_rel quiet (attempt fields b rc).
Proof. unfold attempt, box_set_selector. quiet_auto. Qed.

Lemma backoff_quiet r : st_rel quiet (backoff r).
Proof. unfold backoff. quiet_auto. Qed.


Lemma on_logger_append {A} (m : st lg_st A) :
  st_rel (fun s s' : lg_st => lg_append s.1 s'.1) m -> st_rel task_frame (on_logger m).
Proof.
  intros Hm. apply (st_rel_zoom _ _ _ _ _ Hm).
  intros e [l w] Ha. destruct e. split; [split| |]; simpl in *; try done; apply Ha.
Qed.

Lemma finish_task_frame name b r : st_rel task_frame (finish name b r).
Proof.
  unfold finish. st_rel_auto.
  - apply on_logger_append, log_action_append.
  - apply st_rel_modify. intros e. destruct e. split; [by split|reflexivity|by eexists].
Qed.

Ltac task_frame_auto :=
  repeat first [ apply finish_task_frame
               | apply (st_rel_weaken quiet); [apply quiet_task_frame|];
                 first [apply attempt_quiet | apply backoff_quiet]
               | st_rel_step ].

Lemma execute_task_fuel_frame fuel t rc : st_rel task_frame (execute_task_fuel fuel t rc).
Proof.
  revert rc. induction fuel as [|fuel IH]; intros rc; destruct t; cbn [execute_task_fuel]; task_frame_auto; apply IH.
Qed.

Lemma execute_task_frame t rc : st_rel task_frame (execute_task t rc).
Proof. intros e o e' E. by eapply execute_task_fuel_frame. Qed.

Lemma run_tasks_frame tasks i soe sc failed : st_rel task_frame (run_tasks tasks i soe sc failed).
Proof.
  revert i sc failed. induction tasks; intros; cbn [run_tasks]; st_rel_auto; auto using execute_task_frame.
Qed.

Lemma pause_task_frame (b : bool) :
  st_rel task_frame (if b then on_page (io (Sleep 2000)) !; ret tt else ret tt).
Proof.
  destruct b; st_rel_auto. apply (st_rel_weaken quiet); [apply quiet_task_frame|apply on_page_quiet].
Qed.

(** C4: termination of the whole-plan retry loop (executor.py, [while
    plan_attempts < max_plan_attempts]): the loop stops by its guard
    within the [max_plan_attempts - plan_attempts] attempts it still
    allows, whatever the tasks do: any two fuels above that bound
    compute the same result and final state, so the fuel
    [execute_plan] gives, one above the bound, is never exhausted. *)
Lemma plan_loop_fuel_irrelevant f1 f2 tasks soe rfp a last e :
  (Z.to_nat (ex_max_retries e - a) < f1)%nat -> (Z.to_nat (ex_max_retries e - a) < f2)%nat ->
  plan_loop f1 tasks soe rfp a last e = plan_loop f2 tasks soe rfp a last e.
Proof.
  revert f2 a last e. induction f1 as [|f1 IH]; intros f2 a last e H1 H2; [lia|].
  destruct f2 as [|f2]; [lia|]. cbn [plan_loop].
  match goal with |- bind get ?k1 e = bind get ?k2 e => change (k1 e e = k2 e e) end. cbv beta.
  destruct (Z.ltb_spec a (ex_max_retries e)) as [Ha|Ha]; [|done].
  apply bind_ext_ok. intros [] e2 E2. apply bind_ext_ok. intros [sc failed] e3 E3.
  assert (Hm : ex_max_retries e3 = ex_max_retries e).
  { pose proof (pause_task_frame _ _ _ _ E2) as F2. pose proof (run_tasks_frame _ _ _ _ _ _ _ _ E3) as F3.
    rewrite (fr_max _ _ (task_frame_ex_frame _ _ F3)). exact (fr_max _ _ (task_frame_ex_frame _ _ F2)). }
  cbv beta iota. destruct (Nat.eqb sc (length tasks)); [done|]. destruct (negb rfp); [done|].
  destruct (Z.leb_spec (ex_max_retries e) (a + 1)); [done|].
  apply bind_ext_ok. intros [] e4 E4. apply pair_equal_spec in E4 as [_ <-].
  apply IH; rewrite Hm; lia.
Qed.

Lemma attempt_max fields b rc e o e' :
  attempt fields b rc e = (o, e') -> ex_max_retries e' = ex_max_retries e.
Proof. intros E. apply (attempt_quiet _ _ _ _ _ _ E). Qed.

Lemma backoff_max r e o e' : backoff r e = (o, e') -> ex_max_retries e' = ex_max_retries e.
Proof. intros E. apply (backoff_quiet _ _ _ _ E). Qed.

(** One step of the retry recursion. *)
Lemma execute_task_fuel_unfold fuel fields slot rc e :
  execute_task_fuel fuel (TDict fields slot) rc e =
    match attempt fields (task_params slot) rc e with
    | (Ok (r, b), e1) =>
        if negb (ar_success r) && (rc <? ex_max_retries e1)%Z then
          match fuel with
          | O => finish (dget_or fields "action" VNone) b r e1
          | S fuel' =>
              match backoff r e1 with
              | (Ok _, e2) => execute_task_fuel fuel' (TDict fields slot) (rc + 1) e2
              | (Exc x, e2) => (Exc x, e2)
              end
          end
        else finish (dget_or fields "action" VNone) b r e1
    | (Exc x, e1) => (Exc x, e1)
    end.
Proof.
  destruct fuel; cbn [execute_task_fuel]; unfold bind, get;
    destruct (attempt _ _ _ _) as [[[r b]|x] e1]; try done;
    destruct (_ && _); try done; by destruct (backoff r e1) as [[[]|] ?].
Qed.

Lemma execute_task_fuel_irrelevant f1 f2 t rc e :
  (Z.to_nat (ex_max_retries e - rc) <= f1)%nat -> (Z.to_nat (ex_max_retries e - rc) <= f2)%nat ->
  execute_task_fuel f1 t rc e = execute_task_fuel f2 t rc e.
Proof.
  revert f2 rc e. induction f1 as [|f1 IH]; intros f2 rc e H1 H2;
    (destruct t as [fields slot|v]; [|by destruct f2]); rewrite !execute_task_fuel_unfold;
    destruct (attempt fields (task_params slot) rc e) as [[[r b]|x] e1] eqn:Ea; try done;
    apply attempt_max in Ea;
    destruct (negb (ar_success r) && (rc <? ex_max_retries e1)%Z) eqn:G; try done;
    inv_pair; match goal with H : (_ <? _)%Z = true |- _ => apply Z.ltb_lt in H end;
    (destruct f2 as [|f2]; [lia|]).
  - lia.
  - destruct (backoff r e1) as [[u|x] e2] eqn:Eb; [|done].
    apply backoff_max in Eb. apply IH; lia.
Qed.

(** C5: the fuel of [execute_task] is enough: any fuel of at least
    [max_retries - retry_count] computes what [execute_task] computes,
    so the fuel-exhausted branch, which the Python code does not have,
    is never taken; the recursion [execute_task(task, retry_count + 1)]
    stops by its guard [retry_count < max_retries] alone. *)
Theorem execute_task_fuel_enough fuel t rc e :
  (Z.to_nat (ex_max_retries e - rc) <= fuel)%nat ->
  execute_task_fuel fuel t rc e = execute_task t rc e.
Proof. intros Hf. by apply execute_task_fuel_irrelevant. Qed.

(** Spec section 4.2: the retry state machine of one task.
    [task_run fields slot rc e n r e'] holds when the task, started at
    retry count [rc] in state [e], makes [n] attempts, each one that
    fails while [retry_count < max_retries] followed by the backoff
    (RETRY_WAIT, and RECOVERING on a timeout), and ends in state [e']
    with [r] logged and returned. *)
Inductive task_run (fields : Dict) (slot : params_slot)
    : Z -> executor -> nat -> ActionResult -> executor -> Prop :=
| tr_last rc e r b e1 e2 :
    attempt fields (task_params slot) rc e = (Ok (r, b), e1) ->
    ar_success r = true \/ (ex_max_retries e1 <= rc)%Z ->
    finish (dget_or fields "action" VNone) b r e1 = (Ok r, e2) ->
    task_run fields slot rc e 1 r e2
| tr_retry rc e r b e1 e2 n r' e3 :
    attempt fields (task_params slot) rc e = (Ok (r, b), e1) ->
    ar_success r = false -> (rc < ex_max_retries e1)%Z ->
    backoff r e1 = (Ok tt, e2) ->
    task_run fields slot (rc + 1) e2 n r' e3 ->
    task_run fields slot rc e (S n) r' e3.

Lemma finish_result name b r e r' e' : finish name b r e = (Ok r', e') -> r' = r.
Proof.
  intros E. unfold finish, bind, ret, get, lift_outcome, modify in E.
  destruct (on_logger _ e) as [[]?]; [|discriminate].
  destruct (_ && _ && _); [destruct (as_dict _)|]; by inv_pair.
Qed.

Lemma execute_task_fuel_run fuel fields slot rc e r e' :
  (Z.to_nat (ex_max_retries e - rc) <= fuel)%nat ->
  execute_task_fuel fuel (TDict fields slot) rc e = (Ok r, e') ->
  exists n, task_run fields slot rc e n r e'.
Proof.
  revert rc e. induction fuel as [|fuel IH]; intros rc e Hf E; rewrite execute_task_fuel_unfold in E;
    destruct (attempt fields (task_params slot) rc e) as [[[r0 b]|x] e1] eqn:Ea; try discriminate;
    pose proof (attempt_max _ _ _ _ _ _ Ea) as Hm;
    (destruct (ar_success r0) eqn:Hs; [|destruct (rc <? ex_max_retries e1)%Z eqn:G]); simpl in E;
    try (pose proof (finish_result _ _ _ _ _ _ E) as ->; exists 1%nat;
         eapply tr_last; [exact Ea | first [by left | right; by apply Z.ltb_ge] | exact E]).
  - apply Z.ltb_lt in G. lia.
  - apply Z.ltb_lt in G.
    destruct (backoff r0 e1) as [[[]|x] e2] eqn:Eb; [|discriminate].
    pose proof (backoff_max _ _ _ _ Eb). destruct (IH (rc + 1)%Z e2) as [n Hn]; [lia|done|].
    exists (S n). eapply tr_retry; eauto.
Qed.

Lemma task_run_execute fields slot rc e n r e' :
  task_run fields slot rc e n r e' -> execute_task (TDict fields slot) rc e = (Ok r, e').
Proof.
  induction 1 as [rc e r b e1 e2 Ea Hs Ef|rc e r b e1 e2 n r' e3 Ea Hs Hlt Eb _ IH];
    unfold execute_task; pose proof (attempt_max _ _ _ _ _ _ Ea);
    destruct (Z.to_nat (ex_max_retries e - rc)) as [|f] eqn:Hf; rewrite execute_task_fuel_unfold, Ea.
  1,2: destruct Hs as [-> | Hle]; [done|]; by replace (rc <? ex_max_retries e1)%Z with false
         by (symmetry; apply Z.ltb_ge; lia); rewrite andb_false_r.
  - lia.
  - rewrite Hs. replace (rc <? ex_max_retries e1)%Z with true by (symmetry; apply Z.ltb_lt; lia).
    simpl. rewrite Eb. rewrite <- IH. unfold execute_task.
    pose proof (backoff_max _ _ _ _ Eb). apply execute_task_fuel_irrelevant; lia.
Qed.

Lemma execute_task_run fields slot rc e r e' :
  execute_task (TDict fields slot) rc e = (Ok r, e') -> exists n, task_run fields slot rc e n r e'.
Proof. intros E. by eapply execute_task_fuel_run; [|exact E]. Qed.

(** C3: refinement: [execute_task] implements the retry state machine
    of spec section 4.2: it returns [r] in state [e'] exactly when some
    run of the machine from [retry_count] does. *)
Theorem execute_task_refines fields slot rc e r e' :
  execute_task (TDict fields slot) rc e = (Ok r, e') <-> exists n, task_run fields slot rc e n r e'.
Proof.
  split; [apply execute_task_run|]. intros [n Hn]. by eapply task_run_execute.
Qed.

Lemma log_action_entry a p r sc er l w l' w' :
  log_action a p r sc er (l, w) = (Ok tt, (l', w')) ->
  exists t, lg_actions l' = lg_actions l ++ [log_entry a p r sc er t].
Proof.
  unfold log_action, bind, on_world, zoom, io, lg_get, lg_put. simpl.
  destruct (handle Now w) as [[t|x] w1]; intros E; inv_pair. by exists t.
Qed.

(** The entry [finish] records for a result. *)
Definition final_entry (name : Value) (b : pbox) (r : ActionResult) : Value -> Value :=
  log_entry name (box_log_value b) (if truthy (ar_data r) then ar_data r else VDict [])
    (ar_success r) (opt_str (ar_error r)).

Lemma finish_log name b r e r' e' :
  finish name b r e = (Ok r', e') ->
  exists t, lg_actions (ex_logger e') = lg_actions (ex_logger e) ++ [final_entry name b r t].
Proof.
  intros E. unfold finish, bind, ret, get, lift_outcome, modify, on_logger, zoom in E.
  destruct (log_action _ _ _ _ _ _) as [[[]|x] [l w]] eqn:El; [|discriminate].
  apply log_action_entry in El as [t Ht]. exists t.
  destruct (_ && _ && _); [destruct (as_dict _)|]; inv_pair; destruct e; by simpl in *.
Qed.

Lemma quiet_logger {A} (m : st executor A) e o e' :
  st_rel quiet m -> m e = (o, e') -> ex_logger e' = ex_logger e.
Proof. intros Hm E. apply (q_logger _ _ (Hm _ _ _ E)). Qed.

(** C20: one entry per task, not per attempt: however many attempts a
    task makes, [execute_task] appends exactly one entry to the session
    log, the one of its final result; the failed attempts before it are
    not recorded (spec section 4.4 says the log is the trace of every
    executed action). *)
Theorem execute_task_logs_final_only fields slot rc e r e' :
  execute_task (TDict fields slot) rc e = (Ok r, e') ->
  exists b t, lg_actions (ex_logger e') =
              lg_actions (ex_logger e) ++ [final_entry (dget_or fields "action" VNone) b r t].
Proof.
  intros E. apply execute_task_run in E as [n Hn].
  induction Hn as [rc e r b e1 e2 Ea Hs Ef|rc e r b e1 e2 n r' e3 Ea Hs Hlt Eb _ IH].
  - destruct (finish_log _ _ _ _ _ _ Ef) as [t Ht]. exists b, t.
    by rewrite Ht, (quiet_logger _ _ _ _ (attempt_quiet _ _ _) Ea).
  - destruct IH as (b' & t & Ht). exists b', t.
    by rewrite Ht, (quiet_logger _ _ _ _ (backoff_quiet _) Eb),
               (quiet_logger _ _ _ _ (attempt_quiet _ _ _) Ea).
Qed.

(** The driver's waits and reloads answer. *)
Definition waits_ok : Prop :=
  (forall ms w, exists v w', handle (Sleep ms) w = (Ok v, w')) /\
  (forall u w, exists v w', handle (Reload u) w = (Ok v, w')).

Lemma on_page_io c e v w' :
  handle c (ex_world e) = (Ok v, w') -> on_page (io c) e = (Ok v, set_world w' e).
Proof. intros E. unfold on_page, zoom, io. by rewrite E. Qed.

Lemma backoff_ok (Hw : waits_ok) r e : exists e', backoff r e = (Ok tt, e').
Proof.
  destruct Hw as [Hs Hr]. unfold backoff.
  destruct (Hs 1000%Z (ex_world e)) as (v & w1 & E1).
  rewrite (bind_ok _ _ _ _ _ (on_page_io _ _ _ _ E1)).
  destruct (str_contains _ _); [|by eexists].
  destruct (Hr "domcontentloaded" (ex_world (set_world w1 e))) as (v' & w2 & E2).
  rewrite (bind_ok _ _ _ _ _ (on_page_io _ _ _ _ E2)).
  destruct (Hs 1000%Z (ex_world (set_world w2 (set_world w1 e)))) as (v'' & w3 & E3).
  rewrite (bind_ok _ _ _ _ _ (on_page_io _ _ _ _ E3)). by eexists.
Qed.

Lemma finish_failed_ok (Hc : clock_ok) name b r e :
  ar_success r = false -> exists e', finish name b r e = (Ok r, e').
Proof.
  intros Hs. unfold finish, on_logger, zoom, bind.
  destruct (log_action_spec Hc name (box_log_value b)
              (if truthy (ar_data r) then ar_data r else VDict []) (ar_success r)
              (opt_str (ar_error r)) (ex_logger e) (ex_world e)) as (t & w' & ->).
  rewrite Hs. by eexists.
Qed.

Lemma attempt_unknown fields slot rc e name :
  dget_or fields "action" VNone = VStr name -> dget (ex_registry e) name = None ->
  name <> "extract" ->
  attempt fields (task_params slot) rc e =
    (Ok (fail_result (VStr name) ("Unknown action: " +:+ name), task_params slot), e).
Proof.
  intros Hn Hr Hx. unfold attempt, bind, get, lift_outcome, ret. rewrite Hn. simpl.
  rewrite Hr. simpl. destruct (String.eqb name "extract") eqn:E; [|done].
  by apply String.eqb_eq in E.
Qed.

Lemma quiet_of_attempt fields b rc e o e' : attempt fields b rc e = (o, e') -> quiet e e'.
Proof. intros E. apply (attempt_quiet _ _ _ _ _ _ E). Qed.

Lemma quiet_of_backoff r e o e' : backoff r e = (o, e') -> quiet e e'.
Proof. intros E. apply (backoff_quiet _ _ _ _ E). Qed.

Lemma unknown_action_run (Hc : clock_ok) (Hw : waits_ok) fields slot name :
  dget_or fields "action" VNone = VStr name -> name <> "extract" ->
  forall k rc e, dget (ex_registry e) name = None -> Z.to_nat (ex_max_retries e - rc) = k ->
  exists e', task_run fields slot rc e (S k)
               (fail_result (VStr name) ("Unknown action: " +:+ name)) e'.
Proof.
  intros Hn Hx k. induction k as [|k IH]; intros rc e Hr Hk;
    pose proof (attempt_unknown fields slot rc e name Hn Hr Hx) as Ea.
  - destruct (finish_failed_ok Hc (VStr name) (task_params slot)
                (fail_result (VStr name) ("Unknown action: " +:+ name)) e) as [e' Ef]; [done|].
    exists e'. eapply tr_last; [exact Ea|right; lia|rewrite Hn; exact Ef].
  - destruct (backoff_ok Hw (fail_result (VStr name) ("Unknown action: " +:+ name)) e) as [e2 Eb].
    destruct (quiet_of_backoff _ _ _ _ Eb) as [[Hm Hreg _ _] _ _].
    destruct (IH (rc + 1)%Z e2) as [e' He']; [congruence|lia|].
    exists e'. eapply tr_retry; [exact Ea|done|lia|exact Eb|exact He'].
Qed.

(** C21: an unknown action is retried: a task naming an action that is
    not in the registry fails with "Unknown action: ..." only after
    [max_retries + 1] attempts, each retry after the backoff, where
    spec section 5 says an UnknownAction fails immediately and is not
    retried. *)
Theorem unknown_action_retried (Hc : clock_ok) (Hw : waits_ok) fields slot name e :
  dget_or fields "action" VNone = VStr name -> dget (ex_registry e) name = None ->
  name <> "extract" ->
  exists e',
    execute_task (TDict fields slot) 0 e =
      (Ok (fail_result (VStr name) ("Unknown action: " +:+ name)), e') /\
    task_run fields slot 0 e (S (Z.to_nat (ex_max_retries e)))
      (fail_result (VStr name) ("Unknown action: " +:+ name)) e'.
Proof.
  intros Hn Hr Hx.
  destruct (unknown_action_run Hc Hw fields slot name Hn Hx (Z.to_nat (ex_max_retries e)) 0 e Hr)
    as [e' He']; [f_equal; lia|].
  exists e'. split; [|exact He']. by eapply task_run_execute.
Qed.

(** C22: with [max_retries <= 0] the [while] loop of [execute_plan] never
    runs, and reading its locals afterwards raises [UnboundLocalError]:
    a non-empty plan then ends in an exception (the session stays open),
    not in an [ExecutionSummary]. *)
Theorem execute_plan_zero_retries_raises (Hc : clock_ok) (Hu : uuid_ok) tasks goal soe rfp e :
  tasks <> [] -> (ex_max_retries e <= 0)%Z ->
  exists e', execute_plan tasks goal soe rfp e =
    (Exc "UnboundLocalError: local variable 'failed_task' referenced before assignment", e').
Proof.
  intros Hne Hm. unfold execute_plan. rewrite bool_decide_false by done.
  destruct (start_session_spec Hc Hu goal (ex_logger e) (ex_world e)) as (h & t & w' & E).
  unfold on_logger, zoom, bind at 1. rewrite E. cbn.
  cbn [plan_loop]. unfold bind, get. cbn. replace (0 <? ex_max_retries e)%Z with false by lia.
  by eexists.
Qed.

End ExecutorProofs.

(** ** Witnesses on the concrete site *)

(** An executor on the two-page listing with the default registry, no
    context, a fresh recorder and [max_retries = 3]. *)
Definition ex0 : executor :=
  mkExec (two_pages : world) false (new_logger "./logs") 3 default_registry [] VNone [].

Definition t_hover : task := TDict [("action", VStr "hover")] PAbsent.

Lemma mock_waits_ok : waits_ok.
Proof. split; intros; by eexists _, _. Qed.

Lemma execute_task_fuel_enough_witness :
  (Z.to_nat (ex_max_retries ex0 - 0) <= 5)%nat /\
  execute_task_fuel 5 t_hover 0 ex0 = execute_task t_hover 0 ex0.
Proof. split; [cbv; lia|]. apply execute_task_fuel_enough. cbv; lia. Defined.

Lemma execute_task_refines_witness :
  exists r e' n, execute_task t_hover 0 ex0 = (Ok r, e') /\
                 task_run [("action", VStr "hover")] PAbsent 0 ex0 n r e'.
Proof.
  destruct (execute_task t_hover 0 ex0) as [[r|x] e'] eqn:E; [|vm_compute in E; discriminate].
  destruct (proj1 (execute_task_refines _ _ _ _ _ _) E) as [n Hn].
  exists r, e', n. by split.
Defined.

Lemma execute_task_logs_final_only_witness :
  exists r e', execute_task t_hover 0 ex0 = (Ok r, e') /\
    exists b t, lg_actions (ex_logger e') =
                lg_actions (ex_logger ex0) ++ [final_entry (VStr "hover") b r t].
Proof.
  destruct (execute_task t_hover 0 ex0) as [[r|x] e'] eqn:E; [|vm_compute in E; discriminate].
  exists r, e'. split; [done|]. exact (execute_task_logs_final_only _ _ _ _ _ _ E).
Defined.

Lemma unknown_action_retried_witness :
  exists e',
    execute_task t_hover 0 ex0 =
      (Ok (fail_result (VStr "hover") ("Unknown action: " +:+ "hover")), e') /\
    task_run [("action", VStr "hover")] PAbsent 0 ex0 (S (Z.to_nat (ex_max_retries ex0)))
      (fail_result (VStr "hover") ("Unknown action: " +:+ "hover")) e'.
Proof.
  apply (unknown_action_retried mock_clock_ok mock_waits_ok); [reflexivity|reflexivity|discriminate].
Defined.

Lemma plan_loop_fuel_irrelevant_witness :
  (Z.to_nat (ex_max_retries ex0 - 0) < 4)%nat /\ (Z.to_nat (ex_max_retries ex0 - 0) < 10)%nat /\
  plan_loop 4 [t_hover; t_hover] true true 0 None ex0 = plan_loop 10 [t_hover; t_hover] true true 0 None ex0.
Proof.
  split; [cbv; lia|]. split; [cbv; lia|].
  apply plan_loop_fuel_irrelevant; cbv; lia.
Defined.

Definition ex_no_retries : executor :=
  mkExec (two_pages : world) false (new_logger "./logs") 0 default_registry [] VNone [].

Lemma execute_plan_zero_retries_raises_witness :
  exists e', execute_plan [t_hover] (VStr "open the site") true true ex_no_retries =
    (Exc "UnboundLocalError: local variable 'failed_task' referenced before assignment", e').
Proof.
  apply (execute_plan_zero_retries_raises mock_clock_ok mock_uuid_ok); [done|simpl; lia].
Defined.
