(* ===== verification/Plan.v ===== *)
(** * Whole-plan runs of the executor (src/core/executor.py, [execute_plan])

    The theorems of spec section 8 about a plan: a plan whose tasks all
    succeed runs once; a plan with a task that always fails is run
    [max_retries] times and reports that task.  A task's behaviour is
    given by [task_ends]: run in any state of the plan (same registry,
    same [max_retries], log entries that [json.dump] accepts), it returns
    a result of the given success and keeps the log serialisable. *)

From S2P Require Import Prelude PyData Env Mock Loop Logger Executor.

Section PlanProofs.
Context `{Henv : Env} `{!ActionImpl}.

(** The open session's entries, with the dicts they refer to as they
    are now, are JSON. *)
Definition entries_json (e : executor) : bool :=
  forallb (fun a => json_ok (deref (ex_heap e) a)) (lg_actions (ex_logger e)).

(** [execute_task(t)] run anywhere in the plan started from [e0] ends
    with a result of success [succ] and a serialisable log. *)
Definition task_ends (e0 : executor) (t : task) (succ : bool) : Prop :=
  forall e1, ex_frame e0 e1 -> entries_json e1 = true ->
    exists r e2, execute_task t 0 e1 = (Ok r, e2) /\ ar_success r = succ /\ entries_json e2 = true.

(** A state of the plan started from [e0] with its session open. *)
Record plan_open (e0 e : executor) : Prop := {
  po_frame : ex_frame e0 e;
  po_sid : exists sid, lg_session_id (ex_logger e) = Some sid;
  po_goal : json_ok (lg_goal (ex_logger e)) = true;
  po_json : entries_json e = true
}.

Lemma plan_open_step e0 e1 e2 :
  plan_open e0 e1 -> task_frame e1 e2 -> entries_json e2 = true -> plan_open e0 e2.
Proof.
  intros [Hf [sid Hs] Hg _] [Hf' (_ & Hs' & Hg' & _) _] Hj. split; [by etransitivity| |congruence|done].
  exists sid. congruence.
Qed.

Lemma plan_open_set_world e0 e w : plan_open e0 e -> plan_open e0 (set_world w e).
Proof. intros [[] ? ? ?]. by destruct e. Qed.

Lemma run_tasks_succeed e0 tasks :
  Forall (fun t => task_ends e0 t true) tasks ->
  forall i soe sc failed e1, plan_open e0 e1 ->
  exists e2, run_tasks tasks i soe sc failed e1 = (Ok ((sc + length tasks)%nat, failed), e2) /\
             plan_open e0 e2.
Proof.
  induction 1 as [|t tasks Ht _ IH]; intros i soe sc failed e1 Ho.
  - exists e1. by rewrite Nat.add_0_r.
  - destruct (Ht e1 (po_frame _ _ Ho) (po_json _ _ Ho)) as (r & e2 & E & Hs & Hj).
    pose proof (plan_open_step _ _ _ Ho (execute_task_frame _ _ _ _ _ E) Hj) as Ho2.
    destruct (IH (S i) soe (S sc) failed e2 Ho2) as (e3 & E3 & Ho3).
    exists e3. cbn [run_tasks]. rewrite (bind_ok _ _ _ _ _ E), Hs, E3. split; [|done].
    do 3 f_equal. simpl. lia.
Qed.

Lemma run_tasks_stop e0 pre t post :
  Forall (fun t => task_ends e0 t true) pre -> task_ends e0 t false ->
  forall i sc failed e1, plan_open e0 e1 ->
  exists r e2, run_tasks (pre ++ t :: post) i true sc failed e1 =
                 (Ok ((sc + length pre)%nat, failed_info t r (i + length pre)), e2) /\
               plan_open e0 e2.
Proof.
  intros Hpre Ht. induction Hpre as [|t' pre Ht' _ IH]; intros i sc failed e1 Ho.
  - destruct (Ht e1 (po_frame _ _ Ho) (po_json _ _ Ho)) as (r & e2 & E & Hs & Hj).
    exists r, e2. cbn [run_tasks app]. rewrite (bind_ok _ _ _ _ _ E), Hs.
    rewrite !Nat.add_0_r. split; [done|].
    exact (plan_open_step _ _ _ Ho (execute_task_frame _ _ _ _ _ E) Hj).
  - destruct (Ht' e1 (po_frame _ _ Ho) (po_json _ _ Ho)) as (r & e2 & E & Hs & Hj).
    pose proof (plan_open_step _ _ _ Ho (execute_task_frame _ _ _ _ _ E) Hj) as Ho2.
    destruct (IH (S i) (S sc) failed e2 Ho2) as (r' & e3 & E3 & Ho3).
    exists r', e3. cbn [run_tasks app]. rewrite (bind_ok _ _ _ _ _ E), Hs, E3. split; [|done].
    simpl. do 3 f_equal; [lia|]. f_equal. lia.
Qed.

Lemma entries_json_deref e :
  entries_json e = forallb json_ok (map (deref (ex_heap e)) (lg_actions (ex_logger e))).
Proof. by rewrite forallb_map. Qed.

(** Sealing an open session succeeds and leaves the collected data. *)
Lemma seal_ok (Hc : clock_ok) e0 e succ err :
  plan_open e0 e -> json_ok err = true ->
  exists path e', on_logger (end_session_with (deref (ex_heap e)) succ err) e = (Ok path, e') /\
                  ex_collected e' = ex_collected e.
Proof.
  intros [_ [sid Hs] Hg Hj] He. rewrite entries_json_deref in Hj.
  destruct (end_session_with_spec Hc (deref (ex_heap e)) (ex_logger e) (ex_world e) sid succ err)
    as (t & w' & E); try done.
  unfold on_logger, zoom. rewrite E. eexists _, _. split; [reflexivity|]. by destruct e.
Qed.

Lemma plan_failed_ok (Hc : clock_ok) e0 e n attempts sc t r i :
  plan_open e0 e ->
  exists path e', plan_failed n attempts (Some (sc, failed_info t r i)) e =
    (Ok (summary_failure n sc attempts (failed_info t r i) (ex_collected e) path), e').
Proof.
  intros Ho. cbn [plan_failed]. unfold bind at 1, get.
  destruct (seal_ok Hc e0 e false (opt_str (ar_error r)) Ho) as (path & e' & E & Hcol);
    [by destruct (ar_error r)|].
  cbn -[on_logger end_session_with deref]. rewrite (bind_ok _ _ _ _ _ E). unfold bind, get, ret. rewrite Hcol. by eexists _, _.
Qed.

(** The start of [execute_plan] on a non-empty plan: the session is
    opened, [collected_data] emptied, and the loop of attempts runs. *)
Lemma execute_plan_start (Hc : clock_ok) (Hu : uuid_ok) tasks goal soe rfp e :
  tasks <> [] ->
  exists e1, execute_plan tasks goal soe rfp e =
               plan_loop (S (Z.to_nat (ex_max_retries e))) tasks soe rfp 0 None e1 /\
             ex_max_retries e1 = ex_max_retries e /\
             (json_ok goal = true -> plan_open e e1) /\ ex_collected e1 = [].
Proof.
  intros Hne. unfold execute_plan. rewrite bool_decide_false by done.
  destruct (start_session_spec Hc Hu goal (ex_logger e) (ex_world e)) as (h & t & w' & E).
  unfold on_logger, zoom, bind at 1. rewrite E. cbn -[plan_loop].
  eexists; split; [reflexivity|]. destruct e; split; [done|]. split; [|done].
  intros Hg. split; simpl; try done. by eexists.
Qed.

(** C1: spec section 8, first property: when every task of a non-empty
    plan succeeds, the plan succeeds on its first attempt:
    [attempts == 1] and [completed_tasks == total_tasks]. *)
Theorem execute_plan_all_succeed (Hc : clock_ok) (Hu : uuid_ok) tasks goal soe rfp e :
  tasks <> [] -> (1 <= ex_max_retries e)%Z -> json_ok goal = true ->
  Forall (fun t => task_ends e t true) tasks ->
  exists collected path e',
    execute_plan tasks goal soe rfp e =
      (Ok (summary_success (length tasks) (length tasks) 1 collected path), e').
Proof.
  intros Hne Hm Hg Hall.
  destruct (execute_plan_start Hc Hu tasks goal soe rfp e Hne) as (e1 & -> & _ & Ho & _).
  specialize (Ho Hg).
  cbn [plan_loop]. unfold bind at 1, get.
  rewrite (fr_max _ _ (po_frame _ _ Ho)). replace (0 <? ex_max_retries e)%Z with true by lia.
  destruct (run_tasks_succeed e tasks Hall 0 soe 0 VNone e1 Ho) as (e2 & E2 & Ho2).
  rewrite Nat.add_0_l in E2. change (0 + 1)%Z with 1%Z. change (1 <? 1)%Z with false.
  cbv iota. rewrite bind_ret_l, (bind_ok _ _ _ _ _ E2). cbv beta iota. rewrite Nat.eqb_refl.
  destruct (seal_ok Hc e e2 true VNone Ho2) as (path & e3 & E3 & _); [done|].
  unfold bind at 1, get. rewrite (bind_ok _ _ _ _ _ E3). by eexists _, _, _.
Qed.

(** The pause before a whole-plan retry. *)
Lemma pause_ok (Hw : waits_ok) e0 (b : bool) e :
  plan_open e0 e ->
  exists e', (if b then on_page (io (Sleep 2000)) !; ret tt else ret tt) e = (Ok tt, e') /\
             plan_open e0 e'.
Proof.
  intros Ho. destruct b; [|by exists e].
  destruct (proj1 Hw 2000%Z (ex_world e)) as (v & w & E).
  rewrite (bind_ok _ _ _ _ _ (on_page_io _ _ _ _ E)). eexists; split; [reflexivity|].
  by apply plan_open_set_world.
Qed.

Lemma length_app_cons_neq {A} (pre post : list A) t :
  Nat.eqb (length pre) (length (pre ++ t :: post)) = false.
Proof. apply Nat.eqb_neq. rewrite length_app. simpl. lia. Qed.

Lemma plan_loop_fails (Hc : clock_ok) (Hw : waits_ok) e0 pre t post :
  Forall (fun t => task_ends e0 t true) pre -> task_ends e0 t false ->
  forall fuel a last e1, plan_open e0 e1 -> (a < ex_max_retries e0)%Z ->
  (Z.to_nat (ex_max_retries e0 - a) < fuel)%nat ->
  exists r collected path e',
    plan_loop fuel (pre ++ t :: post) true true a last e1 =
      (Ok (summary_failure (length (pre ++ t :: post)) (length pre) (ex_max_retries e0)
             (failed_info t r (length pre)) collected path), e').
Proof.
  intros Hpre Ht fuel. induction fuel as [|fuel IH]; intros a last e1 Ho Ha Hk; [lia|];
    cbn [plan_loop]; unfold bind at 1, get;
    rewrite (fr_max _ _ (po_frame _ _ Ho)); replace (a <? ex_max_retries e0)%Z with true by lia;
    destruct (pause_ok Hw e0 (1 <? a + 1)%Z e1 Ho) as (e2 & E2 & Ho2);
    rewrite (bind_ok _ _ _ _ _ E2);
    destruct (run_tasks_stop e0 pre t post Hpre Ht 0 0 VNone e2 Ho2) as (r & e3 & E3 & Ho3);
    rewrite (bind_ok _ _ _ _ _ E3); cbv beta iota; rewrite !Nat.add_0_l, length_app_cons_neq;
    change (negb true) with false; cbv iota.
  destruct (Z.leb_spec (ex_max_retries e0) (a + 1)).
  - replace (a + 1)%Z with (ex_max_retries e0) by lia.
    destruct (plan_failed_ok Hc e0 e3 (length (pre ++ t :: post)) (ex_max_retries e0) (length pre)
                t r (length pre) Ho3) as (path & e' & E).
    rewrite E. by eexists _, _, _, _.
  - unfold failed_info; cbv iota. rewrite (bind_ok (lift_outcome (Ok tt)) _ e3 tt e3 eq_refl).
    apply IH; [done|lia|lia].
Qed.

(** C2: spec section 8, second property and the scenario "task 2 of 4
    always fails": with [stop_on_error] and whole-plan retry, a plan in
    which the tasks before [t] succeed and [t] always fails is run
    [max_retries] times, and the result is a failure with
    [attempts == max_retries], [completed_tasks] the number of tasks
    before [t], and [failed_task] reporting [t] at its 0-based index. *)
Theorem execute_plan_failing_task (Hc : clock_ok) (Hu : uuid_ok) (Hw : waits_ok)
    pre t post goal e :
  (1 <= ex_max_retries e)%Z -> json_ok goal = true ->
  Forall (fun t => task_ends e t true) pre -> task_ends e t false ->
  exists r collected path e',
    execute_plan (pre ++ t :: post) goal true true e =
      (Ok (summary_failure (length (pre ++ t :: post)) (length pre) (ex_max_retries e)
             (failed_info t r (length pre)) collected path), e').
Proof.
  intros Hm Hg Hpre Ht.
  destruct (execute_plan_start Hc Hu (pre ++ t :: post) goal true true e) as (e1 & -> & _ & Ho & _);
    [by destruct pre|]. specialize (Ho Hg).
  apply (plan_loop_fails Hc Hw); [done|done|done|lia|lia].
Qed.

(** The executor between two points of a plan run: the frame and
    [collected_data], which only grows. *)
Record plan_frame (e e' : executor) : Prop := {
  pf_frame : ex_frame e e';
  pf_collected : ex_collected e `prefix_of` ex_collected e'
}.

#[export] Instance plan_frame_preorder : PreOrder plan_frame.
Proof.
  split; [intros e; split; reflexivity|].
  intros e1 e2 e3 [? ?] [? ?]. split; by etransitivity.
Qed.

Lemma task_frame_plan_frame e e' : task_frame e e' -> plan_frame e e'.
Proof. by intros [? ? ?]. Qed.

Lemma on_logger_plan_frame {A} (m : st lg_st A) :
  st_rel lg_same_dir m -> st_rel plan_frame (on_logger m).
Proof.
  intros Hm. apply (st_rel_zoom _ _ _ _ _ Hm).
  intros e [l w] Hd. destruct e. split; [split|]; simpl in *; done.
Qed.

Ltac plan_frame_auto :=
  repeat first [ apply on_logger_plan_frame, end_session_with_dir
               | apply (st_rel_weaken task_frame); [apply task_frame_plan_frame|];
                 first [apply run_tasks_frame | apply (st_rel_weaken quiet);
                          [apply quiet_task_frame | apply on_page_quiet]]
               | st_rel_step ].

Lemma plan_failed_frame n attempts last : st_rel plan_frame (plan_failed n attempts last).
Proof. unfold plan_failed. plan_frame_auto. Qed.

(** C19: [collected_data] is not reset between whole-plan attempts: over
    the loop of attempts, the collected data at the start is a prefix of
    the collected data at the end, so every extraction of a failed
    attempt is still in the final summary (spec section 4.2 leaves the
    choice open and section 9 asks for a reset on each attempt). *)
Theorem plan_loop_keeps_collected fuel tasks soe rfp attempts last :
  st_rel plan_frame (plan_loop fuel tasks soe rfp attempts last).
Proof.
  revert attempts last. induction fuel as [|fuel IH]; intros; cbn [plan_loop];
    repeat first [apply plan_failed_frame | apply IH | plan_frame_auto].
Qed.

End PlanProofs.

(** ** Witnesses on the concrete site *)

Definition t_nav : task :=
  TDict [("action", VStr "navigate")] (PVal (VDict [("url", VStr "https://example.com")])).

(** Run on the concrete site in any state of a plan of [ex0], a
    navigation succeeds and an unknown action fails, both logging
    serialisable entries. *)
Ltac mock_task_ends :=
  intros [w ctx lg mx reg col li hp] [Hm Hr Hc Hd] Hj; simpl in Hm, Hr, Hc; subst;
  destruct w as [pages page clock ids clk];
  eexists _, _; split; [unfold execute_task; cbv; reflexivity|]; split; [reflexivity|];
  unfold entries_json in *; destruct lg; simpl in *; rewrite forallb_app, Hj; reflexivity.

Lemma t_nav_ends : task_ends ex0 t_nav true.
Proof. mock_task_ends. Qed.

Lemma t_hover_ends : task_ends ex0 t_hover false.
Proof. mock_task_ends. Qed.

Lemma execute_plan_all_succeed_witness :
  exists collected path e',
    execute_plan [t_nav; t_nav] (VStr "open the site") false true ex0 =
      (Ok (summary_success (length [t_nav; t_nav]) (length [t_nav; t_nav]) 1 collected path), e').
Proof.
  apply (execute_plan_all_succeed mock_clock_ok mock_uuid_ok); try done.
  repeat constructor; apply t_nav_ends.
Defined.

Lemma execute_plan_failing_task_witness :
  exists r collected path e',
    execute_plan ([t_nav] ++ t_hover :: [t_nav]) (VStr "open the site") true true ex0 =
      (Ok (summary_failure (length ([t_nav] ++ t_hover :: [t_nav])) (length [t_nav])
             (ex_max_retries ex0) (failed_info t_hover r (length [t_nav])) collected path), e').
Proof.
  apply (execute_plan_failing_task mock_clock_ok mock_uuid_ok mock_waits_ok); try done.
  - repeat constructor; apply t_nav_ends.
  - apply t_hover_ends.
Defined.

(** ** Concrete runs that show the findings *)

Definition t_extract : task :=
  TDict [("action", VStr "extract")] (PVal (VDict [("selector", VStr ".item")])).

Definition extracted_ab : Value :=
  VDict [("action", VStr "extract"); ("data", VList [VStr "a"; VStr "b"]); ("save_as", VNone)].

(** [collected_data] is kept across whole-plan retries: a plan
    that extracts and then fails is attempted three times, and its
    summary reports the extraction three times. *)
Example collected_duplicated_across_attempts :
  match (execute_plan [t_extract; t_hover] (VStr "list items") true true ex0).1 with
  | Ok (VDict d) =>
      dget d "attempts" = Some (VInt 3) /\
      dget d "collected_data" = Some (VList [extracted_ab; extracted_ab; extracted_ab])
  | _ => False
  end.
Proof. vm_compute. split; reflexivity. Qed.

Definition t_inspect : task := TDict [("action", VStr "inspect")] PAbsent.

(** An extraction whose params are the first dict of the heap. *)
Definition t_extract_ref : task := TDict [("action", VStr "extract")] (PRef 0).

Definition ex_missing : executor :=
  mkExec (two_pages : world) false (new_logger "./logs") 3 default_registry [] VNone
    [[("selector", VStr ".missing")]].

(** The inspection result outlives its plan, and the repair writes
    into the task: after a plan that only inspects, a second plan whose
    extraction names a missing selector succeeds with the selector the
    first plan suggested, and the task's own params now hold that
    selector (spec section 3: the last inspection result is scoped to
    one plan run and reset at the start of each plan). *)
Example inspection_survives_plans :
  let e1 := (execute_plan [t_inspect] (VStr "inspect") true true ex_missing).2 in
  let '(o, e2) := execute_plan [t_extract_ref] (VStr "extract") true true e1 in
  match o with
  | Ok (VDict d) => dget d "success" = Some (VBool true) /\
                    ex_heap e2 = [[("selector", VStr ".item")]]
  | _ => False
  end.
Proof. vm_compute. split; reflexivity. Qed.
