(* ===== verification/Repair.v ===== *)
(** * Inspection and extraction repair, across the executor and the actions

    [Executor.execute_task] keeps the data of a successful [inspect] and,
    when an [extract] fails, substitutes [suggested[0].split(" (")[0]]
    for its selector.  The suggestions are written by
    [InspectAction._find_working_selectors] as ["<selector> (<count>)"].
    That the two formats agree (what the executor cuts out of a
    suggestion is one of the inspection's common selectors) is proved in
    [Inspect]; this file runs a plan with the modelled actions, in which
    an inspection repairs a failing extraction. *)

From S2P Require Import Prelude PyData Env Mock Extract Inspect Actions Executor Plan.

(** ** The repair, end to end, with the modelled actions *)

(** The executor running the modelled actions of src/actions/ (tab,
    screenshot and custom classes by the test double). *)
Definition real_actions : @ActionImpl mock_env :=
  @winky_actions mock_env (@act_execute mock_env mock_actions).

Definition t_inspect_page : task := TDict [("action", VStr "inspect")] PAbsent.
Definition t_extract_missing : task :=
  TDict [("action", VStr "extract")] (PVal (VDict [("selector", VStr ".missing")])).

(** With the modelled [InspectAction] and [ExtractAction], a plan
    that inspects the listing and then extracts with a selector the page
    lacks succeeds on its first attempt: the extraction fails, the
    executor retries it with the first suggestion, [".item (2)"] cut to
    [".item"], and collects the first item's text. *)
Example inspect_repairs_extraction :
  let r := @execute_plan mock_env real_actions [t_inspect_page; t_extract_missing] (VStr "items")
             true true ex0 in
  (match r.1 with Ok (VDict d) => (dget d "success", dget d "attempts") | _ => (None, None) end)
    = (Some (VBool true), Some (VInt 1)) /\
  ex_collected r.2 = [VDict [("action", VStr "extract"); ("data", VStr "a"); ("save_as", VNone)]].
Proof. vm_compute. split; reflexivity. Qed.
