(* ===== verification/Replayer.v ===== *)
(** * The session replayer (src/session_logging/replayer.py)

    [Replayer(page, action_registry)] loads a sealed session with its own
    [ActionLogger()] (logs directory "./logs") and re-drives its entries
    on the page.  The file system is the recorder's map of files
    ([lg_files]); the replay reads it and never writes it.  Its state is
    the page only.  [replay_action] is [_execute_action]: the inline
    replays of navigate, click, type_text and wait, the skipped extract,
    the registry fallback and the unknown action; every dict it returns
    is a [Dict] here, so [result.get("success")] cannot raise.  [speed]
    is a rational number (the Python float), and the pause between two
    actions is the call [SleepSec (0.5 / speed)]. *)

From Stdlib Require Import QArith.
From S2P Require Import Prelude PyData Env Mock Loop Logger Executor Plan.

Section Replayer.
Context `{Env} `{!ActionImpl}.

Definition succ_dict : Dict := [("success", VBool true)].

Definition fail_dict (e : string) : Dict := [("success", VBool false); ("error", VStr e)].

(** The [try: ... return {"success": True} except Exception as e:
    return {"success": False, "error": str(e)}] of an inline replay. *)
Definition inline (m : st world unit) : st world Dict :=
  try_except (m !; ret succ_dict) (fun e => ret (fail_dict e)).

(** [params.get(key)] inside the [try]. *)
Definition param (params : Value) (key : string) (default : Value) : st world Value :=
  let! d := lift_outcome (as_dict params) in ret (dget_or d key default).

(** The class of the registry run by the replay: [action_class(self.page)],
    so a loop gets no registry and a tab no context. *)
Definition replay_class (c : action_class) (kw : Dict) : st world ActionResult :=
  match c with
  | LoopClass => loop_in_step kw
  | Simple k => act_execute k false kw
  end.

(** [Replayer._execute_action(action_name, params)] *)
Definition replay_action (reg : registry) (name params : Value) : st world Dict :=
  if is_str name "navigate" then
    inline (let! url := param params "url" VNone in
            let! u := lift_outcome (as_str url) in
            io (Goto u "domcontentloaded") !; ret tt)
  else if is_str name "click" then
    inline (let! selector := param params "selector" VNone in
            let! text := param params "text" VNone in
            if truthy selector then
              let! s := lift_outcome (as_str selector) in io (ClickSel s None) !; ret tt
            else if truthy text then io (ClickSel ("text=" +:+ py_str text) None) !; ret tt
            else ret tt)
  else if is_str name "type_text" then
    inline (let! selector := param params "selector" VNone in
            let! text := param params "text" VNone in
            let! s := lift_outcome (as_str selector) in
            io (Fill s "") !;
            let! t := lift_outcome (as_str text) in
            io (TypeSel s t) !;
            let! pe := param params "press_enter" VNone in
            if truthy pe then io (Press s "Enter") !; ret tt else ret tt)
  else if is_str name "wait" then
    inline (let! duration := param params "duration" (VInt 1000) in sleep_ms duration !; ret tt)
  else if is_str name "extract" then
    ret [("success", VBool true); ("skipped", VBool true)]
  else
    let! cls := lift_outcome (reg_lookup reg name) in
    match cls with
    | Some c =>
        let! kw := lift_outcome (as_kwargs params) in
        let! r := replay_class c kw in
        ret (match to_dict r with VDict d => d | _ => [] end)
    | None => ret (fail_dict ("Unknown action: " +:+ py_str name))
    end.

(** [if speed > 0 and i < len(actions) - 1: await asyncio.sleep(0.5 / speed)] *)
Definition pause (speed : Q) (i n : nat) : st world unit :=
  if negb (Qle_bool speed 0) && Nat.ltb i (n - 1) then io (SleepSec (/ 2 / speed)) !; ret tt
  else ret tt.

(** The [for i, action_log in enumerate(actions)] loop: the final
    [results] and [success_count]. *)
Fixpoint replay_loop (reg : registry) (speed : Q) (stop_on_error : bool) (n : nat)
    (acts : list Value) (i : nat) (results : list Value) (sc : nat)
    : st world (list Value * nat) :=
  match acts with
  | [] => ret (results, sc)
  | a :: rest =>
      let! d := lift_outcome (as_dict a) in
      let name := dget_or d "action" VNone in
      let params := dget_or d "params" (VDict []) in
      let! '(results', sc', brk) :=
        try_except
          (let! r := replay_action reg name params in
           if truthy (dget_or r "success" VNone) then ret (results ++ [VDict r], S sc, false)
           else ret (results ++ [VDict r], sc, stop_on_error))
          (fun e => ret (results ++ [VDict (fail_dict e)], sc, stop_on_error)) in
      if brk then ret (results', sc')
      else pause speed i n !; replay_loop reg speed stop_on_error n rest (S i) results' sc'
  end.

(** The summary [replay] returns. *)
Definition replay_summary (sid : string) (n : nat) (results : list Value) (sc : nat) : Value :=
  VDict [("success", VBool (Nat.eqb sc n)); ("session_id", VStr sid);
         ("total_actions", VInt (Z.of_nat n)); ("successful_actions", VInt (Z.of_nat sc));
         ("results", VList results)].

(** The recorder the replayer builds, [ActionLogger()], over the files
    [fs]. *)
Definition replay_logger (fs : list (string * option Value)) : logger :=
  mkLogger "./logs" None VNone [] VNone fs.

(** [Replayer.replay(session_id, speed, stop_on_error)] *)
Definition replay (reg : registry) (fs : list (string * option Value)) (sid : string) (speed : Q)
    (stop_on_error : bool) : st world Value :=
  let! log_data := lift_outcome (get_log (replay_logger fs) sid) in
  if negb (truthy log_data) then
    ret (VDict (fail_dict ("Session not found: " +:+ sid)))
  else
    let! ld := lift_outcome (as_dict log_data) in
    let actions := dget_or ld "actions" (VList []) in
    if negb (truthy actions) then ret (VDict (fail_dict "No actions to replay"))
    else
      let! acts := lift_outcome (as_iter actions) in
      let! '(results, sc) := replay_loop reg speed stop_on_error (length acts) acts 0 [] 0 in
      ret (replay_summary sid (length acts) results sc).

(** [Orchestrator.replay(session_id, speed)]: [Replayer(page)], with no
    registry, and the default [stop_on_error=True]. *)
Definition orchestrator_replay (fs : list (string * option Value)) (sid : string) (speed : Q)
    : st world Value :=
  replay [] fs sid speed true.

End Replayer.

(** ** Properties of the replayer *)

(** An entry that [_execute_action] replays inline as a navigation, a
    wait or a click, with params of the types the page accepts. *)
Definition replayable_entry (a : Value) : bool :=
  match a with
  | VDict d =>
      match dget_or d "params" (VDict []) with
      | VDict p =>
          let name := dget_or d "action" VNone in
          if is_str name "navigate" then
            match dget_or p "url" VNone with VStr _ => true | _ => false end
          else if is_str name "wait" then
            match as_int (dget_or p "duration" (VInt 1000)) with Some _ => true | None => false end
          else if is_str name "click" then
            match dget_or p "selector" VNone with
            | VStr _ => true
            | sel => negb (truthy sel)
            end
          else false
      | _ => false
      end
  | _ => false
  end.

(** A replayed action's dict reports success. *)
Definition result_ok (r : Value) : Prop :=
  match r with VDict d => truthy (dget_or d "success" VNone) = true | _ => False end.

Definition result_okb (r : Value) : bool :=
  match r with VDict d => truthy (dget_or d "success" VNone) | _ => false end.

(** The number of successful results. *)
Definition count_ok (rs : list Value) : nat := length (List.filter result_okb rs).

Lemma result_okb_ok r : result_okb r = true <-> result_ok r.
Proof. destruct r; simpl; split; try done; intros []. Qed.

Lemma count_ok_app l1 l2 : count_ok (l1 ++ l2) = (count_ok l1 + count_ok l2)%nat.
Proof. unfold count_ok. by rewrite List.filter_app, length_app. Qed.

Lemma count_ok_le l : (count_ok l <= length l)%nat.
Proof. unfold count_ok. induction l as [|x l IH]; simpl; [lia|]. destruct (result_okb x); simpl; lia. Qed.

Lemma count_ok_all l : count_ok l = length l <-> Forall result_ok l.
Proof.
  unfold count_ok. induction l as [|x l IH]; simpl; [split; auto|].
  pose proof (count_ok_le l) as Hle. unfold count_ok in Hle.
  destruct (result_okb x) eqn:Hx; simpl; split.
  - intros Hl. constructor; [by apply result_okb_ok|]. apply IH. lia.
  - intros Hf. inversion Hf. f_equal. by apply IH.
  - lia.
  - intros Hf. inversion Hf as [|? ? Hx' _]. apply result_okb_ok in Hx'. congruence.
Qed.

Section ReplayerProofs.
Context `{Henv : Env} `{!ActionImpl}.

(** The page answers every call (the actions "all succeed"). *)
Definition driver_ok : Prop := forall c w, exists v w', handle c w = (Ok v, w').

Lemma io_ok (Hd : driver_ok) c w : exists v w', io c w = (Ok v, w').
Proof. apply Hd. Qed.

Lemma inline_success m w w' : m w = (Ok tt, w') -> inline m w = (Ok succ_dict, w').
Proof. intros E. unfold inline. apply try_except_ok. by rewrite (bind_ok _ _ _ _ _ E). Qed.

Lemma replay_pause_ok (Hd : driver_ok) speed i n w : exists w', pause speed i n w = (Ok tt, w').
Proof.
  unfold pause. destruct (_ && _); [|by exists w].
  destruct (Hd (SleepSec (/ 2 / speed)) w) as (v & w' & E).
  exists w'. unfold io. by rewrite (bind_ok _ _ _ _ _ E).
Qed.

(** Run a computation whose driver calls all answer. *)
Ltac drive Hd :=
  unfold inline, io, sleep_ms, param, as_ms in *; st_unfold; cbn -[handle];
  repeat (match goal with
          | |- context [handle ?c ?w] =>
              let E := fresh "E" in destruct (Hd c w) as (? & ? & E); rewrite E
          end; cbn -[handle]).

Lemma replay_action_replayable (Hd : driver_ok) reg d w :
  replayable_entry (VDict d) = true ->
  exists r w', replay_action reg (dget_or d "action" VNone) (dget_or d "params" (VDict [])) w =
                 (Ok r, w') /\ truthy (dget_or r "success" VNone) = true.
Proof.
  unfold replayable_entry.
  destruct (dget_or d "params" (VDict [])) as [| | | | |p| |]; try discriminate.
  destruct (dget_or d "action" VNone) as [| | |name| | | |]; try discriminate. simpl.
  destruct (String.eqb name "navigate") eqn:Hn; [apply String.eqb_eq in Hn; subst|];
    [|destruct (String.eqb name "wait") eqn:Hw; [apply String.eqb_eq in Hw; subst|];
      [|destruct (String.eqb name "click") eqn:Hc; [apply String.eqb_eq in Hc; subst|]]];
    intros Hr; try discriminate; unfold replay_action; simpl.
  - destruct (dget_or p "url" VNone) eqn:Hu; try discriminate. drive Hd. rewrite Hu. drive Hd.
    by eexists _, _.
  - destruct (as_int (dget_or p "duration" (VInt 1000))) eqn:Hi; try discriminate.
    drive Hd. rewrite Hi. drive Hd. by eexists _, _.
  - drive Hd. destruct (dget_or p "selector" VNone) eqn:Hs; simpl in Hr |- *;
      repeat match goal with |- context [if ?c then _ else _] => destruct c eqn:? end;
      inv_pair; try discriminate; drive Hd; by eexists _, _.
Qed.

Lemma replay_loop_all_ok (Hd : driver_ok) reg speed stop n acts :
  Forall (fun a => replayable_entry a = true) acts ->
  forall i results sc w, exists rs w',
    replay_loop reg speed stop n acts i results sc w =
      (Ok (results ++ rs, (sc + length acts)%nat), w') /\
    length rs = length acts /\ Forall result_ok rs.
Proof.
  induction 1 as [|a acts Ha _ IH]; intros i results sc w.
  - exists [], w. by rewrite !app_nil_r, Nat.add_0_r.
  - destruct a as [| | | | |d| |]; try discriminate.
    destruct (replay_action_replayable Hd reg d w Ha) as (r & w1 & E1 & Hs).
    destruct (replay_pause_ok Hd speed i n w1) as [w2 E2].
    destruct (IH (S i) (results ++ [VDict r]) (S sc) w2) as (rs & w3 & E3 & Hl & Hf).
    exists (VDict r :: rs), w3. cbn [replay_loop]. unfold lift_outcome, bind at 1. simpl as_dict. cbv beta iota. unfold bind at 1.
    rewrite (try_except_ok _ _ _ (results ++ [VDict r], S sc, false) w1); cycle 1.
    { by rewrite (bind_ok _ _ _ _ _ E1), Hs. }
    cbv beta iota. rewrite (bind_ok _ _ _ _ _ E2), E3. split; [|split].
    + rewrite <- app_assoc. do 3 f_equal. simpl. lia.
    + simpl. by rewrite Hl.
    + by constructor.
Qed.

(** C10: spec section 8, replay determinism on success: replaying a
    session made only of navigate, wait and click entries, on a page
    that answers every call, reports [success] with
    [successful_actions == total_actions], every result a success, at
    any speed and whatever [stop_on_error]. *)
Theorem replay_all_succeed (Hd : driver_ok) reg fs sid ld acts speed stop w :
  dget fs (log_path "./logs" sid) = Some (Some (VDict ld)) ->
  dget_or ld "actions" (VList []) = VList acts -> acts <> [] ->
  Forall (fun a => replayable_entry a = true) acts ->
  exists results w',
    replay reg fs sid speed stop w =
      (Ok (replay_summary sid (length acts) results (length acts)), w') /\
    length results = length acts /\ Forall result_ok results.
Proof.
  intros Hf Ha Hne Hall.
  destruct (replay_loop_all_ok Hd reg speed stop (length acts) acts Hall 0 [] 0 w)
    as (rs & w' & E & Hl & Hok).
  exists rs, w'. split; [|done].
  unfold replay, get_log, replay_logger, lift_outcome, bind at 1. cbn [lg_files lg_logs_dir]. rewrite Hf.
  assert (ld <> []) as Hld by (intros ->; simpl in Ha; inversion Ha; congruence).
  cbv beta iota. replace (truthy (VDict ld)) with true by (unfold truthy; by rewrite bool_decide_false).
  change (negb true) with false. cbv iota. unfold bind at 1. cbn [as_dict]. cbv beta iota.
  rewrite Ha. destruct acts as [|a acts']; [done|].
  replace (truthy (VList (a :: acts'))) with true by done. change (negb true) with false.
  cbv iota. unfold bind at 1. cbn [as_iter]. cbv beta iota. by rewrite (bind_ok _ _ _ _ _ E).
Qed.

(** One pass of the loop appends one result per executed action, and
    [success_count] counts the successful ones. *)
Lemma replay_loop_count reg speed stop n acts : forall i results sc w rs sc' w',
  replay_loop reg speed stop n acts i results sc w = (Ok (rs, sc'), w') ->
  exists new, rs = results ++ new /\ (length new <= length acts)%nat /\
              sc' = (sc + count_ok new)%nat.
Proof.
  induction acts as [|a acts IH]; intros i results sc w rs sc' w' E; cbn [replay_loop] in E.
  - unfold ret in E. inv_pair. exists []. rewrite app_nil_r. unfold count_ok. simpl. repeat split; lia.
  - unfold bind at 1, lift_outcome in E. destruct (as_dict a) as [d|x]; [|discriminate].
    unfold bind at 1 in E.
    destruct (try_except _ _ w) as [[[[rs1 sc1] brk]|x] w1] eqn:Et; [|discriminate].
    assert (exists r, rs1 = results ++ [r] /\ sc1 = (sc + count_ok [r])%nat) as (r & -> & ->).
    { unfold try_except, bind in Et.
      destruct (replay_action _ _ _ w) as [[r|x] w0]; [|unfold ret in Et; inv_pair].
      - unfold count_ok; simpl.
        destruct (truthy (dget_or r "success" VNone)) eqn:Hr; unfold ret in Et; inv_pair;
          exists (VDict r); simpl; rewrite Hr; split; try done; simpl; lia.
      - exists (VDict (fail_dict x)). split; [done|]. unfold count_ok. simpl. lia. }
    destruct brk.
    + unfold ret in E. inv_pair. exists [r]. split; [done|]. simpl. lia.
    + unfold bind in E. destruct (pause speed i n w1) as [[[]|x] w2]; [|discriminate].
      destruct (IH _ _ _ _ _ _ _ E) as (new & -> & Hl & ->).
      exists (r :: new). rewrite <- app_assoc. split; [done|]. split; [simpl; lia|].
      change (r :: new) with ([r] ++ new). rewrite count_ok_app. lia.
Qed.

Lemma replay_summary_inj sid n rs sc sid' n' rs' sc' :
  replay_summary sid n rs sc = replay_summary sid' n' rs' sc' -> n = n' /\ rs = rs' /\ sc = sc'.
Proof. unfold replay_summary. intros E. inversion E. repeat split; lia. Qed.

(** C14: the replay reports [success] exactly when every recorded action
    was replayed and every replay succeeded: with or without
    [stop_on_error], [success_count == len(actions)] holds iff the
    results cover all actions and all are successes. *)
Theorem replay_success_iff reg fs sid speed stop w sid' n results sc w' :
  replay reg fs sid speed stop w = (Ok (replay_summary sid' n results sc), w') ->
  (Nat.eqb sc n = true <-> length results = n /\ Forall result_ok results).
Proof.
  intros E. unfold replay, bind at 1, lift_outcome in E.
  destruct (get_log _ sid) as [ld|x]; [|discriminate].
  destruct (negb (truthy ld)); [unfold ret in E; inv_pair; discriminate|].
  unfold bind at 1 in E. destruct (as_dict ld) as [d|x]; [|discriminate].
  destruct (negb _); [unfold ret in E; inv_pair; discriminate|].
  unfold bind at 1 in E. destruct (as_iter _) as [acts|x]; [|discriminate].
  unfold bind at 1 in E.
  destruct (replay_loop _ _ _ _ _ _ _ _ w) as [[[rs sc1]|x] w1] eqn:El; [|discriminate].
  unfold ret in E.
  assert (Hs : replay_summary sid (length acts) rs sc1 = replay_summary sid' n results sc)
    by congruence.
  apply replay_summary_inj in Hs as (Hn & -> & ->). subst n.
  destruct (replay_loop_count _ _ _ _ _ _ _ _ _ _ _ _ El) as (new & -> & Hl & ->).
  simpl. rewrite Nat.eqb_eq, <- count_ok_all. pose proof (count_ok_le new). lia.
Qed.

End ReplayerProofs.

(** ** Witnesses *)

Definition entry (a : string) (p : Dict) : Value := VDict [("action", VStr a); ("params", VDict p)].

Definition simple_acts : list Value :=
  [entry "navigate" [("url", VStr "https://example.com")]; entry "wait" [("duration", VInt 500)];
   entry "click" [("selector", VStr "button.ok")]].

Definition session_s1 : Dict := [("session_id", VStr "s1"); ("actions", VList simple_acts)].

Definition fs_s1 : list (string * option Value) := [(log_path "./logs" "s1", Some (VDict session_s1))].

Lemma accept_driver_ok : @driver_ok accept_env.
Proof. intros c w. by eexists _, _. Qed.

Lemma replay_all_succeed_witness :
  exists results w',
    @replay accept_env accept_actions [] fs_s1 "s1" 1 true tt =
      (Ok (replay_summary "s1" (length simple_acts) results (length simple_acts)), w') /\
    length results = length simple_acts /\ Forall result_ok results.
Proof.
  apply (@replay_all_succeed accept_env accept_actions accept_driver_ok _ _ _ session_s1);
    [reflexivity|reflexivity|discriminate|repeat constructor].
Defined.

Definition ok3 : list Value := [VDict succ_dict; VDict succ_dict; VDict succ_dict].

Lemma replay_success_iff_witness :
  @replay accept_env accept_actions [] fs_s1 "s1" 1 true tt =
    (Ok (replay_summary "s1" 3 ok3 3), tt) /\
  (Nat.eqb 3 3 = true <-> length ok3 = 3%nat /\ Forall result_ok ok3).
Proof.
  assert (E : @replay accept_env accept_actions [] fs_s1 "s1" 1 true tt =
                (Ok (replay_summary "s1" 3 ok3 3), tt)) by (vm_compute; reflexivity).
  split; [exact E|]. exact (@replay_success_iff accept_env accept_actions _ _ _ _ _ _ _ _ _ _ _ E).
Defined.

(** ** A session the executor records and the replayer cannot replay *)

Definition t_loop : task :=
  TDict [("action", VStr "loop")] (PVal (VDict [("pattern", item_pattern)])).

(** [Orchestrator.replay] builds [Replayer(page)] with no registry,
    so only the inline actions replay: a plan with a loop task, run
    and recorded by the executor with success, replays as a failure,
    its loop entry answered with "Unknown action: loop" (spec section
    4.5 lets the replayer fall back to the registry for the other
    actions). *)
Example executor_session_not_replayable :
  let '(o, e) := execute_plan [t_nav; t_loop] (VStr "collect") true true ex0 in
  (match o with Ok (VDict d) => dget d "success" = Some (VBool true) | _ => False end) /\
  (orchestrator_replay (lg_files (ex_logger e)) "session_u0" 1 (ex_world e)).1 =
    Ok (replay_summary "session_u0" 2 [VDict succ_dict; VDict (fail_dict "Unknown action: loop")] 1).
Proof. vm_compute. split; reflexivity. Qed.
