(* ===== verification/Exporters.v ===== *)
(** * The exporters (src/export/json_exporter.py, src/export/csv_exporter.py)

    [JSONExporter] and [CSVExporter] hold only their [output_dir]; their
    methods write and read files in it.  The output directory is part of
    the model as two stores: the JSON files, mapping a path to the value
    [json.dump] wrote (what [json.load] gives back), and the CSV files,
    mapping a path to the rows of cells [csv.writer] wrote (what
    [csv.reader] gives back: the [csv] module's quoting is its own round
    trip).  The exporters write [.json] and [.csv] names, so the two
    stores never share a path; a read of a file of the other kind is not
    modelled.  The clock ([datetime.now]) is the [Env]'s [Now]: a reading
    [VInt ms] is a count of milliseconds since 1970-01-01, from which
    [strftime("%Y%m%d_%H%M%S")] is computed with the civil calendar
    ([strftime_ts] of PyData).
    The [print]s are not modelled, nor are failures of [open]. *)

From Stdlib Require Import String Ascii.
From S2P Require Import Prelude PyData Env Mock Logger.

Record outdir : Type := mkOut {
  od_json : list (string * Value);
  od_csv : list (string * list (list string))
}.

Definition empty_out : outdir := mkOut [] [].

(** What [json.dump(..., default=str)] writes: a value it cannot
    serialise is written as its [str]. *)
Fixpoint json_default (v : Value) : Value :=
  match v with
  | VList l => VList (map json_default l)
  | VDict d => VDict (map (fun kv => (kv.1, json_default kv.2)) d)
  | VObj _ | VRef _ => VStr (py_str v)
  | _ => v
  end.

(** [len(data) if isinstance(data, (list, dict)) else 1] *)
Definition json_count (data : Value) : Z :=
  match data with
  | VList l => Z.of_nat (length l)
  | VDict d => Z.of_nat (length d)
  | _ => 1
  end.

(** A list as its items, any other value as a one-item list:
    [existing_data = [existing_data]] when it is not a list, and
    [extend] versus [append] of the new data. *)
Definition as_items (v : Value) : list Value :=
  match v with VList l => l | v => [v] end.

(** [content.get(key, default)] on what [json.load] returned. *)
Definition content_get (content : Value) (key : string) (default : Value) : outcome Value :=
  match content with
  | VDict d => Ok (dget_or d key default)
  | v => Exc (no_method v "get")
  end.

(** ** CSV rows *)

(** Python's [sorted] on strings: insertion by [String.leb]. *)
Fixpoint insert_str (s : string) (l : list string) : list string :=
  match l with
  | [] => [s]
  | x :: r => if String.leb s x then s :: x :: r else x :: insert_str s r
  end.

Definition sort_strings (l : list string) : list string := fold_right insert_str [] l.

(** [all_keys.update(item.keys())] over the dict items, then
    [sorted(list(all_keys))]. *)
Definition auto_headers (data : list Value) : list string :=
  sort_strings (remove_dups (concat (map (fun v => match v with VDict d => d.*1 | _ => [] end) data))).

(** The cell [csv.writer] writes for a value: [None] is empty, a string
    is itself, anything else its [str]. *)
Definition csv_cell (v : Value) : string :=
  match v with VNone => "" | _ => py_str v end.

(** [DictWriter(fieldnames=headers, extrasaction="ignore").writerow(d)]:
    one cell per field, [restval] [""] for a missing key, extra keys
    ignored. *)
Definition dict_row (headers : list string) (d : Dict) : list string :=
  map (fun h => csv_cell (dget_or d h (VStr ""))) headers.

(** The row written for one item of [data]. *)
Definition item_row (headers : list string) (item : Value) : list string :=
  match item with
  | VDict d => dict_row headers d
  | v => dict_row headers (match headers with h :: _ => [(h, v)] | [] => [("value", v)] end)
  end.

(** One row as [csv.DictReader] gives it: [dict(zip(fieldnames, row))],
    the missing fields set to [restval] [None], and the cells beyond the
    fields under [restkey] [None] (the second component, empty when the
    row has no extra cell). *)
Fixpoint zip_row (fields : list string) (row : list string) (acc : Dict) : Dict * list string :=
  match fields, row with
  | f :: fs, c :: cs => zip_row fs cs (dset acc f (VStr c))
  | f :: fs, [] => zip_row fs [] (dset acc f VNone)
  | [], cs => (acc, cs)
  end.

(** [list(csv.DictReader(f))] over the rows of a file: the first row
    names the fields, empty rows are skipped. *)
Definition dict_reader (rows : list (list string)) : list (Dict * list string) :=
  match rows with
  | [] => []
  | fields :: body =>
      map (fun r => zip_row fields r []) (List.filter (fun r => negb (bool_decide (r = []))) body)
  end.

Definition no_such_file (p : string) : string :=
  "FileNotFoundError: No such file or directory: " +:+ p.

Abbreviation ex_st := (outdir * world)%type.

Section Exporters.
Context `{Env}.

Definition on_clock {A} (m : st world A) : st ex_st A := zoom snd (fun w s => (s.1, w)) m.
Definition get_out : st ex_st outdir := fun s => (Ok s.1, s).
Definition put_json (p : string) (v : Value) : st ex_st unit :=
  fun s => (Ok tt, (mkOut (dset (od_json s.1) p v) (od_csv s.1), s.2)).
Definition put_csv (p : string) (rows : list (list string)) : st ex_st unit :=
  fun s => (Ok tt, (mkOut (od_json s.1) (dset (od_csv s.1) p rows), s.2)).

(** ** The JSON exporter *)

(** [JSONExporter.export(data, filename, timestamp, indent, metadata)] *)
Definition json_export (dir : string) (data : Value) (filename : string) (timestamp : bool)
    (metadata : Value) : st ex_st string :=
  let! filename :=
    if timestamp then let! t := on_clock (io Now) in ret (filename +:+ "_" +:+ strftime_ts t)
    else ret filename in
  let filepath := path_join dir (filename +:+ ".json") in
  let! now := on_clock (io Now) in
  let output := [("exported_at", isoformat now); ("count", VInt (json_count data)); ("data", data)] in
  let output := if truthy metadata then output ++ [("metadata", metadata)] else output in
  put_json filepath (json_default (VDict output)) !;
  ret filepath.

(** [json.load] of the file at [filepath]. *)
Definition json_load (filepath : string) : st ex_st Value :=
  let! o := get_out in
  match dget (od_json o) filepath with
  | Some v => ret v
  | None => raise (no_such_file filepath)
  end.

(** [JSONExporter.append(data, filename)] *)
Definition json_append (dir : string) (data : Value) (filename : string) : st ex_st string :=
  let filepath := path_join dir (filename +:+ ".json") in
  let! o := get_out in
  let! existing :=
    match dget (od_json o) filepath with
    | None => ret []
    | Some content =>
        let! ed := lift_outcome (content_get content "data" (VList [])) in
        ret (as_items ed)
    end in
  let existing := existing ++ as_items data in
  json_export dir (VList existing) (split_first "_" filename) false VNone.

(** [JSONExporter.read(filepath)] *)
Definition json_read (filepath : string) : st ex_st Value :=
  let! content := json_load filepath in
  lift_outcome (content_get content "data" content).

(** ** The CSV exporter *)

(** [CSVExporter.export(data, filename, append, timestamp, headers)];
    [None] for [headers] is the default, taken from the keys of the
    dict items. *)
Definition csv_export (dir : string) (data : list Value) (filename : string) (append timestamp : bool)
    (headers : option (list string)) : st ex_st string :=
  if bool_decide (data = []) then ret ""
  else
    let! filename :=
      if timestamp && negb append then
        let! t := on_clock (io Now) in ret (filename +:+ "_" +:+ strftime_ts t)
      else ret filename in
    let filepath := path_join dir (filename +:+ ".csv") in
    let headers := match headers with Some h => h | None => auto_headers data end in
    let! o := get_out in
    let rows := map (item_row headers) data in
    match append, dget (od_csv o) filepath with
    | true, Some old => put_csv filepath (old ++ rows)
    | _, _ => put_csv filepath (headers :: rows)
    end !;
    ret filepath.

(** [CSVExporter.export_flat(data, filename, column_name, timestamp)] *)
Definition csv_export_flat (dir : string) (data : list Value) (filename column_name : string)
    (timestamp : bool) : st ex_st string :=
  csv_export dir (map (fun item => VDict [(column_name, item)]) data) filename false timestamp None.

(** [CSVExporter.read(filepath)] *)
Definition csv_read (filepath : string) : st ex_st (list (Dict * list string)) :=
  let! o := get_out in
  match dget (od_csv o) filepath with
  | Some rows => ret (dict_reader rows)
  | None => raise (no_such_file filepath)
  end.

End Exporters.

(** ** Properties of the exporters *)

(** The name [export] gives its file: the stem, with the clock's
    [strftime] reading when a timestamp is asked for. *)
Definition export_name (filename : string) (ts : option Value) : string :=
  match ts with Some t => filename +:+ "_" +:+ strftime_ts t | None => filename end.

(** The JSON object [export] writes, with its clock reading [now]. *)
Definition json_output (data metadata now : Value) : Value :=
  let output := [("exported_at", isoformat now); ("count", VInt (json_count data)); ("data", data)] in
  json_default (VDict (if truthy metadata then output ++ [("metadata", metadata)] else output)).

Lemma json_output_data data md now :
  content_get (json_output data md now) "data" (json_output data md now) = Ok (json_default data).
Proof. unfold json_output. by destruct (truthy md). Qed.

Lemma json_default_idem v : json_default (json_default v) = json_default v.
Proof.
  revert v. fix IH 1. intros [| | | |l|d| |]; simpl; try reflexivity.
  - f_equal. rewrite map_map. revert l. fix IHl 1. intros [|x l]; simpl; [done|].
    rewrite (IH x). f_equal. apply IHl.
  - f_equal. rewrite map_map. revert d. fix IHd 1. intros [|[k x] d]; simpl; [done|].
    rewrite (IH x). f_equal. apply IHd.
Qed.

Lemma json_output_items data md now :
  content_get (json_output data md now) "data" (VList []) = Ok (json_default data).
Proof. unfold json_output. by destruct (truthy md). Qed.

#[local] Arguments ascii_dec : simpl never.

Lemma index_underscore a b :
  String.index 0 "_" a = None -> String.index 0 "_" (a +:+ "_" +:+ b) = Some (String.length a).
Proof.
  induction a as [|c a IH]; simpl.
  { intros _. destruct (ascii_dec "_" "_"); [|done]. by destruct b. }
  destruct (ascii_dec "_" c).
  { subst c. intros H. exfalso. revert H. by destruct a. }
  destruct (String.index 0 "_" a); [done|]. intros _. by rewrite IH.
Qed.

(** [s.split("_")[0]] of a name whose stem has no underscore. *)
Lemma split_first_app a b :
  str_contains "_" a = false -> split_first "_" (a +:+ "_" +:+ b) = a.
Proof.
  unfold str_contains, split_first. destruct (String.index 0 "_" a) eqn:E; [done|].
  intros _. rewrite index_underscore by done. clear E.
  induction a as [|c a IH]; simpl; [done|]. by rewrite IH.
Qed.

Lemma split_first_none a : str_contains "_" a = false -> split_first "_" a = a.
Proof. unfold str_contains, split_first. by destruct (String.index 0 "_" a). Qed.

Lemma path_join_rel a b :
  starts_with_slash b = false -> path_join a b = path_join a "" +:+ b.
Proof.
  intros Hb. unfold path_join. rewrite Hb. simpl.
  destruct (_ || _); by rewrite ?string_app_assoc, ?string_app_nil_r.
Qed.

(** Two names of different lengths that are both relative or both
    absolute are different paths in any directory. *)
Lemma path_join_length_ne a b1 b2 :
  starts_with_slash b1 = starts_with_slash b2 -> String.length b1 < String.length b2 ->
  path_join a b1 <> path_join a b2.
Proof.
  intros Hs Hl E. destruct (starts_with_slash b2) eqn:E2.
  - unfold path_join in E. rewrite Hs, E2 in E. subst. lia.
  - rewrite (path_join_rel a b1), (path_join_rel a b2) in E by congruence.
    apply (f_equal String.length) in E.
    rewrite !string_app_length in E. lia.
Qed.

(** *** CSV rows *)

Lemma dset_notin {V} (d : list (string * V)) k v : k ∉ d.*1 -> dset d k v = d ++ [(k, v)].
Proof.
  induction d as [|[k' v'] d IH]; simpl; intros Hk; [done|].
  apply not_elem_of_cons in Hk as [Hne Hk].
  destruct (String.eqb_spec k' k); [congruence|]. by rewrite IH.
Qed.

(** [DictReader] gives back a row of as many cells as fields, under
    distinct field names, as the fields zipped with the cells. *)
Lemma zip_row_exact fields row acc :
  NoDup fields -> length row = length fields -> (forall f, f ∈ fields -> f ∉ acc.*1) ->
  zip_row fields row acc = (acc ++ zip_with (fun h c => (h, VStr c)) fields row, []).
Proof.
  revert row acc. induction fields as [|f fs IH]; intros [|c cs] acc Hnd Hlen Hdis;
    simpl in *; try lia.
  - by rewrite app_nil_r.
  - apply NoDup_cons in Hnd as [Hf Hnd].
    rewrite dset_notin by (apply Hdis; left). rewrite IH; [by rewrite <- app_assoc|done|lia|].
    intros g Hg. rewrite fmap_app, elem_of_app. intros [Hin|Hin].
    + by apply (Hdis g); [right|].
    + simpl in Hin. apply list_elem_of_singleton in Hin. subst. done.
Qed.

Lemma dict_reader_rows hdrs rows :
  NoDup hdrs -> hdrs <> [] -> Forall (fun r => length r = length hdrs) rows ->
  dict_reader (hdrs :: rows) = map (fun r => (zip_with (fun h c => (h, VStr c)) hdrs r, [])) rows.
Proof.
  intros Hnd Hne Hrows. simpl. induction Hrows as [|r rows Hr Hrows IH]; [done|].
  assert (r <> []) by (intros ->; destruct hdrs; done).
  simpl. rewrite bool_decide_false by done. simpl. rewrite IH, zip_row_exact; [done|done|done|].
  intros f _. simpl. apply not_elem_of_nil.
Qed.

Lemma item_row_length hdrs item : length (item_row hdrs item) = length hdrs.
Proof. destruct item; apply length_map. Qed.

Lemma insert_str_perm s l : insert_str s l ≡ₚ s :: l.
Proof.
  induction l as [|x l IH]; simpl; [done|].
  destruct (String.leb s x); [done|]. rewrite IH. apply perm_swap.
Qed.

Lemma sort_strings_perm l : sort_strings l ≡ₚ l.
Proof. induction l as [|x l IH]; simpl; [done|]. by rewrite insert_str_perm, IH. Qed.

(** The header row [export] computes names each key once. *)
Lemma auto_headers_nodup data : NoDup (auto_headers data).
Proof. unfold auto_headers. rewrite sort_strings_perm. apply NoDup_remove_dups. Qed.

Lemma auto_headers_no_dicts data :
  Forall (fun v => forall d, v <> VDict d) data -> auto_headers data = [].
Proof.
  intros Hd. unfold auto_headers.
  replace (concat _) with (@nil string); [done|].
  induction Hd as [|v data Hv Hd IH]; [done|]. simpl. rewrite <- IH.
  destruct v; try done. by destruct (Hv d).
Qed.

Section ExporterProofs.
Context `{Henv : Env}.

Lemma on_clock_now (Hc : clock_ok) (o : outdir) w :
  exists t w', on_clock (io Now) (o, w) = (Ok t, (o, w')).
Proof.
  destruct (Hc w) as (t & w' & E). exists t, w'.
  unfold on_clock, zoom, io. simpl. by rewrite E.
Qed.

(** [export] writes one file, the object of its data, under the name
    it returns, and touches no other file. *)
Lemma json_export_spec (Hc : clock_ok) dir data filename (timestamp : bool) md o w :
  exists t now w',
    let path := path_join dir (export_name filename (if timestamp then Some t else None) +:+ ".json") in
    json_export dir data filename timestamp md (o, w) =
      (Ok path, (mkOut (dset (od_json o) path (json_output data md now)) (od_csv o), w')).
Proof.
  unfold json_export. destruct timestamp.
  - destruct (on_clock_now Hc o w) as (t & w1 & E1). rewrite bind_assoc, bind_ok with (1 := E1). simpl.
    destruct (on_clock_now Hc o w1) as (now & w2 & E2). exists t, now, w2.
    rewrite bind_ret_l, bind_ok with (1 := E2). reflexivity.
  - destruct (on_clock_now Hc o w) as (now & w1 & E1). exists VNone, now, w1.
    rewrite bind_ret_l, bind_ok with (1 := E1). reflexivity.
Qed.

Lemma json_read_file path v (o : outdir) w :
  dget (od_json o) path = Some v -> json_read path (o, w) = (content_get v "data" v, (o, w)).
Proof. intros E. unfold json_read, json_load, get_out, bind. simpl. by rewrite E. Qed.

(** [append] to a file holding [content]: it rewrites the data of the
    file named by the stem before the first underscore. *)
Lemma json_append_spec (Hc : clock_ok) dir data filename o w content ed :
  dget (od_json o) (path_join dir (filename +:+ ".json")) = Some content ->
  content_get content "data" (VList []) = Ok ed ->
  exists now w',
    let path := path_join dir (split_first "_" filename +:+ ".json") in
    json_append dir data filename (o, w) =
      (Ok path, (mkOut (dset (od_json o) path
                   (json_output (VList (as_items ed ++ as_items data)) VNone now)) (od_csv o), w')).
Proof.
  intros E1 E2. unfold json_append.
  rewrite (bind_ok get_out _ (o, w) o (o, w)) by reflexivity. rewrite E1.
  rewrite bind_assoc. rewrite (bind_ok (lift_outcome _) _ (o, w) ed (o, w)) by (by rewrite <- E2).
  rewrite !bind_ret_l.
  destruct (json_export_spec Hc dir (VList (as_items ed ++ as_items data)) (split_first "_" filename)
              false VNone o w) as (t & now & w' & E). exists now, w'. exact E.
Qed.

(** C31: [JSONExporter.export] always succeeds and writes its data
    where it says: [read] of the path it returns gives back the data, as
    [json.dump] with [default=str] wrote it, whether or not a timestamp
    and metadata were asked for. *)
Theorem json_export_read (Hc : clock_ok) dir data filename (timestamp : bool) md o w :
  exists path s',
    json_export dir data filename timestamp md (o, w) = (Ok path, s') /\
    json_read path s' = (Ok (json_default data), s').
Proof.
  destruct (json_export_spec Hc dir data filename timestamp md o w) as (t & now & w' & E).
  do 2 eexists. split; [exact E|].
  erewrite json_read_file by apply dget_dset_eq. by rewrite json_output_data.
Qed.

(** C32: [append] to a file that [export] wrote without a timestamp,
    under a name with no underscore, rewrites that same file, and [read]
    then gives the old items followed by the new ones. *)
Theorem json_append_after_export (Hc : clock_ok) dir l l' f md o w :
  str_contains "_" f = false ->
  exists p s1 s2,
    json_export dir (VList l) f false md (o, w) = (Ok p, s1) /\
    json_append dir (VList l') f s1 = (Ok p, s2) /\
    json_read p s2 = (Ok (json_default (VList (l ++ l'))), s2).
Proof.
  intros Hf. destruct (json_export_spec Hc dir (VList l) f false md o w) as (t & now & w1 & E1).
  simpl in E1.
  edestruct (json_append_spec Hc dir (VList l') f
    (mkOut (dset (od_json o) (path_join dir (f +:+ ".json")) (json_output (VList l) md now)) (od_csv o)) w1)
    as (now' & w2 & E2);
    [apply dget_dset_eq|apply json_output_items|].
  simpl in E2. rewrite split_first_none in E2 by done.
  do 3 eexists. split; [exact E1|]. split; [exact E2|].
  erewrite json_read_file by apply dget_dset_eq. rewrite json_output_data. simpl.
  do 3 f_equal. rewrite !map_app, map_map. f_equal. apply map_ext, json_default_idem.
Qed.

(** The path [export] returns with a timestamp is
    [<stem>_<YYYYmmdd_HHMMSS>.json]; [append] with that name (less the
    extension) splits it at its first underscore and writes
    [<stem>.json], another file, leaving the exported file as it was. *)
Theorem json_append_to_timestamped (Hc : clock_ok) dir l l' f md o w :
  str_contains "_" f = false ->
  exists t p p' s1 s2,
    json_export dir (VList l) f true md (o, w) = (Ok p, s1) /\
    p = path_join dir (f +:+ "_" +:+ strftime_ts t +:+ ".json") /\
    json_append dir (VList l') (f +:+ "_" +:+ strftime_ts t) s1 = (Ok p', s2) /\
    p' = path_join dir (f +:+ ".json") /\ p' <> p /\
    json_read p s2 = (Ok (json_default (VList l)), s2).
Proof.
  intros Hf. destruct (json_export_spec Hc dir (VList l) f true md o w) as (t & now & w1 & E1).
  simpl in E1. rewrite !string_app_assoc in E1.
  edestruct (json_append_spec Hc dir (VList l') (f +:+ "_" +:+ strftime_ts t)
    (mkOut (dset (od_json o) (path_join dir (f +:+ "_" +:+ strftime_ts t +:+ ".json"))
              (json_output (VList l) md now)) (od_csv o)) w1) as (now' & w2 & E2);
    [rewrite !string_app_assoc; apply dget_dset_eq|apply json_output_items|].
  simpl in E2. rewrite split_first_app in E2 by done.
  assert (Hne : path_join dir (f +:+ ".json") <> path_join dir (f +:+ "_" +:+ strftime_ts t +:+ ".json")).
  { apply path_join_length_ne.
    - destruct f; [done|reflexivity].
    - rewrite !string_app_length. simpl. lia. }
  do 5 eexists. split; [exact E1|]. split; [done|]. split; [exact E2|]. split; [done|]. split; [done|].
  erewrite json_read_file; [by rewrite json_output_data|].
  simpl. rewrite dget_dset_ne by done. apply dget_dset_eq.
Qed.

Lemma csv_read_file path rows (o : outdir) w :
  dget (od_csv o) path = Some rows -> csv_read path (o, w) = (Ok (dict_reader rows), (o, w)).
Proof. intros E. unfold csv_read, get_out, bind. simpl. by rewrite E. Qed.

(** [CSVExporter.export] of a non-empty list, not appending: it writes
    the header row and one row per item under the name it returns. *)
Lemma csv_export_spec (Hc : clock_ok) dir data f (ts : bool) hdrs o w :
  data <> [] ->
  exists t w',
    let path := path_join dir (export_name f (if ts then Some t else None) +:+ ".csv") in
    let headers := match hdrs with Some h => h | None => auto_headers data end in
    csv_export dir data f false ts hdrs (o, w) =
      (Ok path, (mkOut (od_json o) (dset (od_csv o) path (headers :: map (item_row headers) data)), w')).
Proof.
  intros Hd. unfold csv_export. rewrite bool_decide_false by done. simpl.
  destruct ts.
  - destruct (on_clock_now Hc o w) as (t & w1 & E1). exists t, w1.
    cbn [andb negb]. rewrite bind_assoc, bind_ok with (1 := E1), bind_ret_l. reflexivity.
  - exists VNone, w. cbn [andb negb]. rewrite bind_ret_l. reflexivity.
Qed.

(** C34: a CSV export of dict items round-trips through [read]: each
    item comes back, in order, as the header row zipped with the cells
    written for it (its values under the sorted keys of all items,
    [""] for a key it lacks), with no extra cells. *)
Theorem csv_export_read (Hc : clock_ok) dir data f (ts : bool) o w :
  data <> [] -> auto_headers data <> [] ->
  exists p s',
    csv_export dir data f false ts None (o, w) = (Ok p, s') /\
    csv_read p s' =
      (Ok (map (fun item => (zip_with (fun h c => (h, VStr c)) (auto_headers data)
                               (item_row (auto_headers data) item), [])) data), s').
Proof.
  intros Hd Hh. destruct (csv_export_spec Hc dir data f ts None o w Hd) as (t & w' & E).
  do 2 eexists. split; [exact E|].
  erewrite csv_read_file by apply dget_dset_eq. rewrite dict_reader_rows.
  - by rewrite map_map.
  - apply auto_headers_nodup.
  - done.
  - apply Forall_map, Forall_forall. intros item _. apply item_row_length.
Qed.

(** A CSV export of items none of which is a dict (the strings an
    [extract] collects) derives no header, writes only empty rows, and
    [read] finds no record: the data is lost. *)
Theorem csv_export_scalars_lost (Hc : clock_ok) dir data f (ts : bool) o w :
  data <> [] -> Forall (fun v => forall d, v <> VDict d) data ->
  exists p s',
    csv_export dir data f false ts None (o, w) = (Ok p, s') /\ csv_read p s' = (Ok [], s').
Proof.
  intros Hd Hnd. destruct (csv_export_spec Hc dir data f ts None o w Hd) as (t & w' & E).
  simpl in E. rewrite auto_headers_no_dicts in E by done.
  do 2 eexists. split; [exact E|].
  erewrite csv_read_file by apply dget_dset_eq. do 2 f_equal. simpl.
  clear. induction data as [|item data IH]; [done|]. by destruct item.
Qed.

(** A CSV file written in "w" mode is rectangular: the header row
    and every data row have the same number of cells, with custom or
    derived headers and whatever the items are. *)
Theorem csv_export_rectangular (Hc : clock_ok) dir data f (ts : bool) hdrs o w :
  data <> [] ->
  exists p s' rows,
    csv_export dir data f false ts hdrs (o, w) = (Ok p, s') /\
    dget (od_csv s'.1) p = Some rows /\
    Forall (fun r => length r = length (hd [] rows)) rows.
Proof.
  intros Hd. destruct (csv_export_spec Hc dir data f ts hdrs o w Hd) as (t & w' & E).
  do 3 eexists. split; [exact E|]. split; [apply dget_dset_eq|].
  simpl. constructor; [done|]. apply Forall_map, Forall_forall. intros item _. apply item_row_length.
Qed.

End ExporterProofs.

(** ** Witnesses on the concrete world *)

Definition rows_ab : list Value :=
  [VDict [("title", VStr "a"); ("price", VInt 3)]; VDict [("title", VStr "b")]].

Lemma json_export_read_witness :
  exists path s',
    @json_export mock_env "./output" (VList rows_ab) "items" true VNone (empty_out, two_pages)
      = (Ok path, s') /\
    json_read path s' = (Ok (json_default (VList rows_ab)), s').
Proof. apply (json_export_read mock_clock_ok). Defined.

Lemma json_append_after_export_witness :
  str_contains "_" "items" = false /\
  exists p s1 s2,
    @json_export mock_env "./output" (VList [VStr "a"]) "items" false VNone (empty_out, two_pages)
      = (Ok p, s1) /\
    json_append "./output" (VList [VStr "b"]) "items" s1 = (Ok p, s2) /\
    json_read p s2 = (Ok (json_default (VList ([VStr "a"] ++ [VStr "b"]))), s2).
Proof. split; [reflexivity|]. apply (json_append_after_export mock_clock_ok). reflexivity. Defined.

Lemma json_append_to_timestamped_witness :
  str_contains "_" "results" = false /\
  exists t p p' s1 s2,
    @json_export mock_env "./output" (VList [VStr "a"]) "results" true VNone (empty_out, two_pages)
      = (Ok p, s1) /\
    p = path_join "./output" ("results" +:+ "_" +:+ strftime_ts t +:+ ".json") /\
    json_append "./output" (VList [VStr "b"]) ("results" +:+ "_" +:+ strftime_ts t) s1 = (Ok p', s2) /\
    p' = path_join "./output" ("results" +:+ ".json") /\ p' <> p /\
    json_read p s2 = (Ok (json_default (VList [VStr "a"])), s2).
Proof. split; [reflexivity|]. apply (json_append_to_timestamped mock_clock_ok). reflexivity. Defined.

Lemma csv_export_read_witness :
  rows_ab <> [] /\ auto_headers rows_ab <> [] /\
  exists p s',
    @csv_export mock_env "./output" rows_ab "items" false true None (empty_out, two_pages)
      = (Ok p, s') /\
    csv_read p s' =
      (Ok (map (fun item => (zip_with (fun h c => (h, VStr c)) (auto_headers rows_ab)
                               (item_row (auto_headers rows_ab) item), [])) rows_ab), s').
Proof.
  split; [discriminate|]. split; [vm_compute; discriminate|].
  apply (csv_export_read mock_clock_ok); [discriminate|vm_compute; discriminate].
Defined.

Lemma csv_export_scalars_lost_witness :
  [VStr "a"; VStr "b"] <> [] /\ Forall (fun v => forall d, v <> VDict d) [VStr "a"; VStr "b"] /\
  exists p s',
    @csv_export mock_env "./output" [VStr "a"; VStr "b"] "items" false true None (empty_out, two_pages)
      = (Ok p, s') /\ csv_read p s' = (Ok [], s').
Proof.
  assert (Hf : Forall (fun v => forall d, v <> VDict d) [VStr "a"; VStr "b"])
    by (repeat constructor; discriminate).
  split; [discriminate|]. split; [exact Hf|].
  apply (csv_export_scalars_lost mock_clock_ok); [discriminate|exact Hf].
Defined.

Lemma csv_export_rectangular_witness :
  rows_ab <> [] /\
  exists p s' rows,
    @csv_export mock_env "./output" rows_ab "items" false true (Some ["title"]) (empty_out, two_pages)
      = (Ok p, s') /\
    dget (od_csv s'.1) p = Some rows /\
    Forall (fun r => length r = length (hd [] rows)) rows.
Proof. split; [discriminate|]. apply (csv_export_rectangular mock_clock_ok). discriminate. Defined.

(** [export(..., append=True)] keeps the header row of the file
    and writes the new rows under the headers of the new items: a
    [price] appended to a file of [title]s is read back as a [title]. *)
Example csv_append_misaligned :
  (@csv_read mock_env "./output/items.csv"
     (csv_export "./output" [VDict [("price", VStr "3")]] "items" true false None
        (csv_export "./output" [VDict [("title", VStr "a")]] "items" false false None
           (empty_out, two_pages)).2).2).1
  = Ok [([("title", VStr "a")], []); ([("title", VStr "3")], [])].
Proof. vm_compute. reflexivity. Qed.
