(* ===== verification/Planner.v ===== *)
(** * The planner and its memory (src/core/goal_planner.py,
      src/memory/context.py, src/memory/vector_store.py)

    [GoalPlanner.plan] records the goal in the [ContextManager], renders
    the context for the language model, asks it for a JSON plan through
    [OllamaClient.generate_json] and returns the answer's ["tasks"],
    after adding each of them to the context; any exception after the
    context is rendered gives [[]].  The context's state is the record
    [context]; the vector store behind it is the flag [cx_vs_active]
    ([CHROMADB_AVAILABLE] and a collection, which [vs_init] opens) and
    its collection's
    [add], [query], [get], [count] and re-creation, which are calls of
    the [Env]; [search] and [get_recent] turn their answers into memory
    dicts.  The planner's prompts are written out ([SYSTEM_PROMPT],
    [plan_prompt], [refine_prompt], [loop_prompt]); its model is a
    [Llm.client] whose [generate_json] the section's [ask_llm] calls as
    every method of the planner does; [json.loads] and
    [json.dumps(task, indent=2)] are parameters of the section. *)

From Stdlib Require Import Ascii QArith.
From S2P Require Import Prelude PyData Env Mock Logger Llm.

(** [datetime.now().strftime('%Y%m%d_%H%M%S_%f')]: the microseconds of
    a reading in milliseconds. *)
Definition strftime_us (t : Value) : string :=
  strftime_ts t +:+ "_" +:+
  match t with VInt ms => pad 6 ((ms mod 1000) * 1000)%Z | _ => "" end.

(** ** [ContextManager] *)

Record context : Type := mkContext {
  cx_vs_active : bool;           (** [CHROMADB_AVAILABLE and self.collection] of its store *)
  cx_history : list Value;       (** [session_history] *)
  cx_goal : option string;       (** [current_goal] *)
  cx_tasks : list Value;         (** [current_tasks] *)
  cx_extracted : list Value      (** [extracted_data] *)
}.

(** [ContextManager(vector_store)] *)
Definition new_context (vs_active : bool) : context := mkContext vs_active [] None [] [].

Definition set_history (h : list Value) (c : context) : context :=
  mkContext (cx_vs_active c) h (cx_goal c) (cx_tasks c) (cx_extracted c).
Definition set_goal_field (g : option string) (c : context) : context :=
  mkContext (cx_vs_active c) (cx_history c) g (cx_tasks c) (cx_extracted c).
Definition set_tasks (ts : list Value) (c : context) : context :=
  mkContext (cx_vs_active c) (cx_history c) (cx_goal c) ts (cx_extracted c).
Definition set_extracted (x : list Value) (c : context) : context :=
  mkContext (cx_vs_active c) (cx_history c) (cx_goal c) (cx_tasks c) x.

(** [{"type": event_type, **(metadata or {})}] *)
Definition memory_meta (event_type : string) (metadata : Dict) : Dict :=
  fold_left (fun d kv => dset d kv.1 kv.2) metadata [("type", VStr event_type)].

(** [self.session_history[-max_history:]] *)
Definition last_n (n : nat) (l : list Value) : list Value := drop (length l - n) l.

(** The lines of the [TASKS:] block. *)
Fixpoint task_lines (i : nat) (tasks : list Value) : outcome (list string) :=
  match tasks with
  | [] => Ok []
  | t :: rest =>
      let? completed := py_get t "completed" VNone in
      let status := if truthy completed then "✅" else "⏳" in
      let? desc := py_get t "description" (VStr "Unknown") in
      let? lines := task_lines (S i) rest in
      Ok (("  " +:+ status +:+ " " +:+ py_str (VInt (Z.of_nat (S i))) +:+ ". " +:+ py_str desc)
          :: lines)
  end.

(** The lines of the [RECENT ACTIONS:] block: [event['content'][:100]]. *)
Fixpoint history_lines (events : list Value) : outcome (list string) :=
  match events with
  | [] => Ok []
  | ev :: rest =>
      let? ty := py_subscript ev "type" in
      let? content := py_subscript ev "content" in
      let? cut := match content with
                  | VStr s => Ok (String.substring 0 100 s)
                  | _ => Exc ("TypeError: '" +:+ py_type_name content +:+ "' object is not subscriptable")
                  end in
      let? lines := history_lines rest in
      Ok (("  - [" +:+ py_str ty +:+ "] " +:+ cut) :: lines)
  end.

(** [ContextManager.get_context_for_llm(max_history)] *)
Definition get_context_for_llm (c : context) (max_history : nat) : outcome string :=
  let goal_part :=
    match cx_goal c with
    | Some g => if String.eqb g "" then [] else ["CURRENT GOAL: " +:+ g]
    | None => []
    end in
  let? task_part :=
    match cx_tasks c with
    | [] => Ok []
    | ts => let? lines := task_lines 0 ts in Ok ((nl +:+ "TASKS:") :: lines)
    end in
  let? hist_part :=
    match cx_history c with
    | [] => Ok []
    | h => let? lines := history_lines (last_n max_history h) in
           Ok ((nl +:+ "RECENT ACTIONS:") :: lines)
    end in
  let data_part :=
    match cx_extracted c with
    | [] => []
    | x => [nl +:+ "EXTRACTED DATA: " +:+ py_str (VInt (Z.of_nat (length x))) +:+ " items collected"]
    end in
  Ok (join_with nl (goal_part ++ task_part ++ hist_part ++ data_part)).

(** [ContextManager.to_dict()] *)
Definition context_to_dict (c : context) : Value :=
  VDict [("goal", match cx_goal c with Some g => VStr g | None => VNone end);
         ("tasks", VList (cx_tasks c)); ("history", VList (cx_history c));
         ("extracted_data", VList (cx_extracted c))].

(** [ContextManager.clear_session()]: the store is kept. *)
Definition clear_session (c : context) : context := new_context (cx_vs_active c).

(** [ContextManager.add_task(task)] *)
Definition add_task (task : Value) (c : context) : context := set_tasks (cx_tasks c ++ [task]) c.

(** [ContextManager.complete_task(task_index, result)]: item assignment
    raises on a task that is not a dict. *)
Definition complete_task (idx : Z) (result : Value) (c : context) : outcome context :=
  if (0 <=? idx)%Z && (idx <? Z.of_nat (length (cx_tasks c)))%Z then
    match cx_tasks c !! Z.to_nat idx with
    | Some (VDict d) =>
        Ok (set_tasks (<[Z.to_nat idx := VDict (dset (dset d "completed" (VBool true)) "result" result)]>
                         (cx_tasks c)) c)
    | Some t => Exc ("TypeError: '" +:+ py_type_name t +:+ "' object does not support item assignment")
    | None => Ok c
    end
  else Ok c.

(** ** The vector store's queries *)

(** [v[i]] on a list (or a string). *)
Definition py_index (v : Value) (i : nat) : outcome Value :=
  match v with
  | VList l => match l !! i with Some x => Ok x | None => Exc "IndexError: list index out of range" end
  | VStr s => match String.get i s with
              | Some c => Ok (VStr (String c EmptyString))
              | None => Exc "IndexError: string index out of range"
              end
  | VDict d => Exc ("KeyError: " +:+ pretty (N.of_nat i))
  | _ => Exc ("TypeError: '" +:+ py_type_name v +:+ "' object is not subscriptable")
  end.

(** [len(v)] of a sized value. *)
Definition py_length (v : Value) : outcome nat :=
  match v with
  | VList l => Ok (length l)
  | VStr s => Ok (String.length s)
  | VDict d => Ok (length d)
  | _ => Exc ("TypeError: object of type '" +:+ py_type_name v +:+ "' has no len()")
  end.

(** [x[k][0][i]]: the [i]-th answer to the one query. *)
Definition query_item (results : Value) (k : string) (i : nat) : outcome Value :=
  let? col := py_subscript results k in
  let? first := py_index col 0 in
  py_index first i.

(** The dicts [VectorStore.search] builds, for [i] in [range(len(ids))]. *)
Fixpoint search_items (results : Value) (i n : nat) : outcome (list Value) :=
  match n with
  | O => Ok []
  | S n' =>
      let? id := query_item results "ids" i in
      let? content := query_item results "documents" i in
      let? metas := py_subscript results "metadatas" in
      let? meta := if truthy metas then query_item results "metadatas" i else Ok (VDict []) in
      let? dists := py_subscript results "distances" in
      let? dist := if truthy dists then query_item results "distances" i else Ok VNone in
      let? rest := search_items results (S i) n' in
      Ok (VDict [("id", id); ("content", content); ("metadata", meta); ("distance", dist)] :: rest)
  end.

(** The post-processing of [VectorStore.search]. *)
Definition search_memories (results : Value) : outcome (list Value) :=
  let? ids := py_subscript results "ids" in
  let? ids0 := py_index ids 0 in
  let? n := py_length ids0 in
  search_items results 0 n.

(** The dicts [VectorStore.get_recent] builds. *)
Fixpoint recent_items (results : Value) (i n : nat) : outcome (list Value) :=
  match n with
  | O => Ok []
  | S n' =>
      let? ids := py_subscript results "ids" in
      let? id := py_index ids i in
      let? docs := py_subscript results "documents" in
      let? content := py_index docs i in
      let? metas := py_subscript results "metadatas" in
      let? meta := if truthy metas then py_index metas i else Ok (VDict []) in
      let? rest := recent_items results (S i) n' in
      Ok (VDict [("id", id); ("content", content); ("metadata", meta)] :: rest)
  end.

(** The sort key [x.get("metadata", {}).get("timestamp", "")]. *)
Definition recent_key (x : Value) : outcome Value :=
  let? meta := py_get x "metadata" (VDict []) in
  py_get meta "timestamp" (VStr "").

(** [sort(key=..., reverse=True)]: the keys are computed first, in
    order; the sort is stable, newest first. *)
Fixpoint insert_key_desc (x : Value * Value) (l : list (Value * Value)) : outcome (list (Value * Value)) :=
  match l with
  | [] => Ok [x]
  | y :: r =>
      let? lt := py_lt y.1 x.1 in
      if lt then Ok (x :: y :: r) else let? r' := insert_key_desc x r in Ok (y :: r')
  end.

Fixpoint keys_of (l : list Value) : outcome (list (Value * Value)) :=
  match l with
  | [] => Ok []
  | x :: r => let? k := recent_key x in let? ks := keys_of r in Ok ((k, x) :: ks)
  end.

Definition sort_recent (l : list Value) : outcome (list Value) :=
  let? keyed := keys_of l in
  let? sorted := fold_left (fun acc x => let? acc := acc in insert_key_desc x acc) keyed (Ok []) in
  Ok (map snd sorted).

(** The context with the world it reads the clock from. *)
Abbreviation cx_st := (context * world)%type.

(** ** [GoalPlanner]'s prompts *)

(** [SYSTEM_PROMPT], the text between its triple quotes (its double
    quotes are the separators [dq] of the pieces). *)
Definition SYSTEM_PROMPT : string :=
  String.concat dq ["You are a browser automation task planner. Break down user goals into browser actions.

IMPORTANT RULE: ALWAYS use ";
  "inspect";
  " action BEFORE any extract or click action to discover page elements!

AVAILABLE ACTIONS (use ONLY these):
- navigate: Go to URL. Params: {";
  "url";
  ": ";
  "https://...";
  "}
- wait: Wait. Params: {} for page load, {";
  "duration";
  ": 3000} for 3 seconds
- inspect: ALWAYS USE THIS FIRST after navigation! Params: {";
  "find_elements";
  ": true, ";
  "get_links";
  ": true}
- extract: Get data using selectors from inspect. Params: {";
  "selector";
  ": ";
  "article, .post, h2";
  ", ";
  "multiple";
  ": true}
- click: Click element. Params: {";
  "role";
  ": ";
  "link";
  ", ";
  "name";
  ": ";
  "Next";
  "} or {";
  "selector";
  ": ";
  "a.next";
  "}
- type_text: Type text. Params: {";
  "role";
  ": ";
  "textbox";
  ", ";
  "text";
  ": ";
  "...";
  ", ";
  "press_enter";
  ": true}
- scroll: Scroll page. Params: {";
  "direction";
  ": ";
  "down";
  "} or {";
  "to_bottom";
  ": true}
- screenshot: Take screenshot. Params: {}
- reload: Refresh page. Params: {}

REQUIRED WORKFLOW:
1. navigate -> wait -> inspect (learn page structure)
2. Then extract/click based on inspect results
3. Use suggested_selectors from inspect for extraction

RESPONSE FORMAT (JSON only):
{
  ";
  "tasks";
  ": [
    {";
  "action";
  ": ";
  "navigate";
  ", ";
  "description";
  ": ";
  "Go to website";
  ", ";
  "params";
  ": {";
  "url";
  ": ";
  "https://example.com";
  "}},
    {";
  "action";
  ": ";
  "wait";
  ", ";
  "description";
  ": ";
  "Wait for page";
  ", ";
  "params";
  ": {";
  "duration";
  ": 2000}},
    {";
  "action";
  ": ";
  "inspect";
  ", ";
  "description";
  ": ";
  "Analyze page structure";
  ", ";
  "params";
  ": {";
  "find_elements";
  ": true}},
    {";
  "action";
  ": ";
  "extract";
  ", ";
  "description";
  ": ";
  "Get articles";
  ", ";
  "params";
  ": {";
  "selector";
  ": ";
  "article, .post, .card";
  ", ";
  "multiple";
  ": true}}
  ]
}

RULES:
1. ALWAYS inspect after navigate+wait, BEFORE extract/click
2. Use broad selectors: article, .post, .card, h2, a, li
3. JSON only - no explanations
"].

(** The prompt of [plan]: the conditional [context_str if context_str else] the empty string is
    [context_str] itself. *)
Definition plan_prompt (goal context_str : string) : string :=
  "User Goal: " +:+ goal +:+ "

" +:+ context_str +:+
  String.concat dq ["

Break this goal into specific browser automation tasks.
Return a JSON object with a ";
  "tasks";
  " array containing the ordered steps.
Each task must have: action, description, params.

IMPORTANT: Use role-based element detection:
- For search boxes: {";
  "role";
  ": ";
  "combobox";
  "} or {";
  "role";
  ": ";
  "searchbox";
  "} or {";
  "role";
  ": ";
  "textbox";
  "}
- For buttons: {";
  "role";
  ": ";
  "button";
  ", ";
  "name";
  ": ";
  "button text";
  "}
- For links: {";
  "role";
  ": ";
  "link";
  ", ";
  "name";
  ": ";
  "link text";
  "}

JSON Response:"].

(** The prompt of [refine_task], given [json.dumps(task, indent=2)]. *)
Definition refine_prompt (task_json error : string) : string :=
  "The following browser automation task failed:

Task: " +:+ task_json +:+ "
Error: " +:+ error +:+
  String.concat dq ["

Please provide a corrected version of this task.
Consider:
- Use role-based selectors: {";
  "role";
  ": ";
  "textbox";
  "} instead of CSS selectors
- Add wait time before action
- Try alternative approaches

Return only the corrected task as JSON:"].

(** The prompt of [create_loop_pattern]. *)
Definition loop_prompt (extraction_goal page_context : string) : string :=
  "Create a loop pattern for bulk data extraction.

Goal: " +:+ extraction_goal +:+ "
Page Context: " +:+ page_context +:+
  String.concat dq ["

Return a loop configuration JSON with:
- pattern: Array of extraction steps
- pagination: How to go to next page
- stop_condition: When to stop

Example format:
{
  ";
  "action";
  ": ";
  "loop";
  ",
  ";
  "pattern";
  ": [
    {";
  "action";
  ": ";
  "extract";
  ", ";
  "selector";
  ": ";
  ".item-title";
  ", ";
  "save_as";
  ": ";
  "title";
  ", ";
  "multiple";
  ": true}
  ],
  ";
  "pagination";
  ": {
    ";
  "type";
  ": ";
  "click";
  ",
    ";
  "role";
  ": ";
  "link";
  ",
    ";
  "name";
  ": ";
  "Next";
  ",
    ";
  "wait_after";
  ": 2000
  },
  ";
  "stop_condition";
  ": {
    ";
  "type";
  ": ";
  "no_next_button";
  "
  }
}

JSON Response:"].

Section Planner.
Context `{Env} (json_loads : string -> outcome Value).

(** The planner's [self.llm] and the [json.dumps(task, indent=2)] of
    [refine_task]. *)
Context (llm : client) (json_dumps : Value -> string).

(** [self.llm.generate_json(prompt=prompt, system=SYSTEM_PROMPT,
    temperature=0.3)], as every method of the planner calls it. *)
Definition ask_llm (prompt : string) : st world Value :=
  generate_json json_loads llm prompt (Some SYSTEM_PROMPT) (3 # 10).

Definition cx_on_world {A} (m : st world A) : st cx_st A := zoom snd (fun w s => (s.1, w)) m.
Definition cx_get : st cx_st context := fun s => (Ok s.1, s).
Definition cx_modify (f : context -> context) : st cx_st unit := fun s => (Ok tt, (f s.1, s.2)).

(** [VectorStore.add_memory(content, metadata)] with [memory_id=None]. *)
Definition add_memory (active : bool) (content : string) (metadata : Dict) : st world string :=
  if negb active then ret ""
  else
    let! now := io Now in
    let memory_id := "mem_" +:+ strftime_us now in
    let! now2 := io Now in
    let meta := dset metadata "timestamp" (isoformat now2) in
    io (VsAdd content meta memory_id) !;
    ret memory_id.

(** [VectorStore(collection_name, persist_directory)] when the module
    was imported with [CHROMADB_AVAILABLE]: [_initialize] makes the
    directory, opens the persistent client and gets or creates the
    collection.  The result is whether the store has a collection, the
    flag its operations test. *)
Definition vs_init (chromadb_available : bool) (collection_name persist_directory : string) : st world bool :=
  if chromadb_available then
    io (Makedirs persist_directory) !;
    io (ChromaClient persist_directory) !;
    let! collection := io (ChromaCollection collection_name) in
    ret (truthy collection)
  else ret false.

(** [ContextManager(vector_store)]: [vector_store or VectorStore()];
    a store object is always truthy. *)
Definition context_manager_init (chromadb_available : bool) (vector_store : option bool) : st world context :=
  match vector_store with
  | Some active => ret (new_context active)
  | None => let! active := vs_init chromadb_available "browser_agent_memory" "./data/chromadb" in
            ret (new_context active)
  end.

(** [GoalPlanner(llm_client, context_manager)]: the client ([llm_client
    or OllamaClient()], in the environment [env]) and the context it
    holds; a given context is shared, not copied. *)
Definition new_planner (env : list (string * string)) (chromadb_available : bool)
    (llm_client : option client) (context_manager : option context) : st world (client * context) :=
  let llm := match llm_client with Some l => l | None => new_client env None None 120 end in
  let! ctx := match context_manager with
              | Some cm => ret cm
              | None => context_manager_init chromadb_available None
              end in
  ret (llm, ctx).

(** [VectorStore.search(query, n_results, where)] *)
Definition vs_search (active : bool) (query : string) (n : Z) (where_ : Value) : st world (list Value) :=
  if negb active then ret []
  else let! results := io (VsQuery query n where_) in lift_outcome (search_memories results).

(** [VectorStore.get_recent(limit)] *)
Definition vs_get_recent (active : bool) (limit : nat) : st world (list Value) :=
  if negb active then ret []
  else
    let! results := io VsGetAll in
    let! ids := lift_outcome (py_subscript results "ids") in
    let! n := lift_outcome (py_length ids) in
    let! memories := lift_outcome (recent_items results 0 n) in
    let! sorted := lift_outcome (sort_recent memories) in
    ret (take limit sorted).

(** [VectorStore.clear()] and [VectorStore.count()] *)
Definition vs_clear (active : bool) : st world unit :=
  if negb active then ret tt else io VsRecreate !; ret tt.
Definition vs_count (active : bool) : st world Value :=
  if negb active then ret (VInt 0) else io VsCount.

(** [ContextManager.get_relevant_memories(query, limit)] *)
Definition get_relevant_memories (query : string) (limit : Z) : st cx_st (list Value) :=
  let! c := cx_get in
  cx_on_world (vs_search (cx_vs_active c) query limit VNone).

(** [ContextManager._add_to_history(event_type, content, metadata)]: the
    store is an object, so [if self.vector_store] always holds. *)
Definition add_to_history (event_type content : string) (metadata : Dict) : st cx_st unit :=
  let! now := cx_on_world (io Now) in
  let event := VDict [("type", VStr event_type); ("content", VStr content);
                      ("timestamp", isoformat now); ("metadata", VDict metadata)] in
  cx_modify (fun c => set_history (cx_history c ++ [event]) c) !;
  let! c := cx_get in
  cx_on_world (add_memory (cx_vs_active c) content (memory_meta event_type metadata)) !;
  ret tt.

(** [ContextManager.set_goal(goal)] *)
Definition set_goal (goal : string) : st cx_st unit :=
  cx_modify (set_goal_field (Some goal)) !;
  add_to_history "goal" goal [].

(** [ContextManager.add_extracted_data(data)] *)
Definition add_extracted_data (data : Value) : st cx_st unit :=
  let! now := cx_on_world (io Now) in
  cx_modify (fun c => set_extracted (cx_extracted c ++ [VDict [("data", data); ("timestamp", isoformat now)]]) c).

(** The two loops of [plan] over the answer's tasks: every task is
    added to the context, then each is printed with [task.get]. *)
Definition add_tasks (tasks : list Value) : st cx_st unit :=
  cx_modify (fun c => fold_left (fun c t => add_task t c) tasks c).

Fixpoint print_tasks (tasks : list Value) : outcome unit :=
  match tasks with
  | [] => Ok tt
  | t :: rest =>
      let? _action := py_get t "action" VNone in
      let? _desc := py_get t "description" VNone in
      print_tasks rest
  end.

(** [GoalPlanner.plan(goal)] *)
Definition plan (goal : string) : st cx_st Value :=
  set_goal goal !;
  let! c := cx_get in
  let! context_str := lift_outcome (get_context_for_llm c 10) in
  try_except
    (let! response := cx_on_world (ask_llm (plan_prompt goal context_str)) in
     let! tasks := lift_outcome (py_get response "tasks" (VList [])) in
     let! items := lift_outcome (as_iter tasks) in
     add_tasks items !;
     lift_outcome (print_tasks items) !;
     ret tasks)
    (fun _ => ret (VList [])).

(** [GoalPlanner.refine_task(task, error)]: [json.dumps(task)] runs
    before the [try]. *)
Definition refine_task (task : Value) (error : string) : st world Value :=
  if json_ok task then
    try_except (ask_llm (refine_prompt (json_dumps task) error)) (fun _ => ret task)
  else raise "TypeError: Object is not JSON serializable".

(** [GoalPlanner.create_loop_pattern(extraction_goal, page_context)] *)
Definition create_loop_pattern (extraction_goal page_context : string) : st world Value :=
  try_except (ask_llm (loop_prompt extraction_goal page_context)) (fun _ => ret (VDict [])).

End Planner.

(** ** Properties of [plan] *)

(** [isinstance(v, dict)] *)
Definition is_dict (v : Value) : bool := match v with VDict _ => true | _ => false end.

(** A context holding a task that is not a dict. *)
Definition poisoned (c : context) : bool := existsb (fun t => negb (is_dict t)) (cx_tasks c).

Lemma py_get_non_dict t k d : is_dict t = false -> py_get t k d = Exc (no_method t "get").
Proof. by destruct t. Qed.

Lemma task_lines_raises i ts :
  existsb (fun t => negb (is_dict t)) ts = true -> exists e, task_lines i ts = Exc e.
Proof.
  revert i. induction ts as [|t ts IH]; intros i H; [done|]. cbn [existsb task_lines] in *.
  destruct (is_dict t) eqn:Ht.
  - destruct t; try done. destruct (IH (S i) H) as [e E]. cbn [py_get obind]. rewrite E. by eexists.
  - rewrite py_get_non_dict by done. by eexists.
Qed.

(** Rendering a poisoned context raises. *)
Lemma context_poisoned_raises c n : poisoned c = true -> exists e, get_context_for_llm c n = Exc e.
Proof.
  unfold poisoned, get_context_for_llm. destruct (cx_tasks c) as [|t ts]; [done|].
  intros H. destruct (task_lines_raises 0 (t :: ts) H) as [e E]. rewrite E. by eexists.
Qed.

Lemma poisoned_prefix c c' : cx_tasks c `prefix_of` cx_tasks c' -> poisoned c = true -> poisoned c' = true.
Proof.
  unfold poisoned. intros [l ->]. rewrite existsb_app. by intros ->.
Qed.

Lemma fold_add_tasks items c :
  cx_tasks (fold_left (fun c t => add_task t c) items c) = cx_tasks c ++ items.
Proof.
  revert c. induction items as [|t items IH]; intros c; cbn [fold_left]; [by rewrite app_nil_r|].
  rewrite IH. cbn. by rewrite <- app_assoc.
Qed.

Lemma print_tasks_dicts items u : print_tasks items = Ok u -> forallb is_dict items = true.
Proof.
  induction items as [|t items IH]; [done|]. cbn [print_tasks forallb].
  destruct (is_dict t) eqn:Ht.
  - destruct t; try done; cbn [py_get obind]; exact IH.
  - by rewrite py_get_non_dict.
Qed.

(** What [for task in tasks] can give when every item is a dict: the
    list itself, or nothing from an empty dict or string. *)
Lemma as_iter_dicts v items :
  as_iter v = Ok items -> forallb is_dict items = true -> truthy v = false \/ v = VList items.
Proof.
  intros Hi Hd. destruct v as [| | | s | l | d | |]; cbn [as_iter] in Hi; simplify_eq.
  - destruct s; [by left|done].
  - by right.
  - destruct d; [by left|done].
Qed.

(** *** The vector store's post-processing *)

(** [search] builds one memory per id of the first query. *)
Lemma search_items_length results i n l : search_items results i n = Ok l -> length l = n.
Proof.
  revert i l. induction n as [|n IH]; intros i l H; cbn in H; [by simplify_eq|].
  repeat (match type of H with
          | context [obind ?m _] => destruct m eqn:?; cbn [obind] in H; [|done]
          | context [if ?b then _ else _] => destruct b
          end).
  simplify_eq. cbn. f_equal. eapply IH. eassumption.
Qed.

Lemma keys_of_snd l keyed : keys_of l = Ok keyed -> map snd keyed = l.
Proof.
  revert keyed. induction l as [|x l IH]; intros keyed H; cbn in H; [by simplify_eq|].
  destruct (recent_key x); cbn in H; [|done].
  destruct (keys_of l) eqn:E; cbn in H; [|done]. simplify_eq. cbn. by rewrite (IH _ eq_refl).
Qed.

Lemma insert_key_desc_perm x l r : insert_key_desc x l = Ok r -> r ≡ₚ x :: l.
Proof.
  revert r. induction l as [|y l IH]; intros r H; cbn in H; [by simplify_eq|].
  destruct (py_lt y.1 x.1) as [[]|]; cbn in H; [by simplify_eq| |done].
  destruct (insert_key_desc x l) eqn:E; cbn in H; [|done]. simplify_eq.
  rewrite (IH _ eq_refl). by constructor.
Qed.

Lemma fold_insert_perm keyed (acc : outcome (list (Value * Value))) r :
  fold_left (fun acc x => let? acc := acc in insert_key_desc x acc) keyed acc = Ok r ->
  exists a, acc = Ok a /\ r ≡ₚ rev keyed ++ a.
Proof.
  revert acc. induction keyed as [|x keyed IH]; intros acc H; cbn [fold_left] in H.
  - exists r. by rewrite app_nil_l.
  - destruct (IH _ H) as (a & Ha & Hr).
    destruct acc as [a0|e]; cbn in Ha; [|done].
    exists a0. split; [done|]. rewrite Hr, (insert_key_desc_perm _ _ _ Ha). cbn.
    by rewrite <- app_assoc.
Qed.

(** [get_recent]'s sort only reorders the memories. *)
Lemma sort_recent_perm l l' : sort_recent l = Ok l' -> l' ≡ₚ l.
Proof.
  unfold sort_recent. destruct (keys_of l) as [keyed|] eqn:E; cbn; [|done].
  destruct (fold_left _ keyed _) eqn:F; cbn; [|done]. intros [= <-].
  destruct (fold_insert_perm _ _ _ F) as (a0 & [= <-] & Hr).
  rewrite Hr, app_nil_r, <- (keys_of_snd _ _ E), map_rev. by rewrite <- Permutation_rev.
Qed.

Section PlanProofs.
Context `{Env} (json_loads : string -> outcome Value) (llm : client).

Lemma cx_on_world_rel {A} (R : cx_st -> cx_st -> Prop) (m : st world A) :
  (forall s w, R s (s.1, w)) -> st_rel R (cx_on_world m).
Proof.
  intros HR s o s' E. unfold cx_on_world, zoom in E. destruct (m s.2). by inversion E.
Qed.

Lemma cx_modify_rel (R : cx_st -> cx_st -> Prop) f :
  (forall s, R s (f s.1, s.2)) -> st_rel R (cx_modify f).
Proof. intros HR s o s' E. by inversion E. Qed.

Lemma cx_get_rel (R : cx_st -> cx_st -> Prop) `{!Reflexive R} : st_rel R cx_get.
Proof. intros s o s' E. by inversion E. Qed.

(** The tasks of the context only grow; [set_goal] leaves them. *)
Definition tasks_ext (s s' : cx_st) : Prop := cx_tasks s.1 `prefix_of` cx_tasks s'.1.
Definition tasks_same (s s' : cx_st) : Prop := cx_tasks s'.1 = cx_tasks s.1.

#[local] Instance tasks_ext_preorder : PreOrder tasks_ext.
Proof.
  split; [intros s; unfold tasks_ext; reflexivity|intros s1 s2 s3 H12 H23; unfold tasks_ext in *; by etrans].
Qed.
#[local] Instance tasks_same_preorder : PreOrder tasks_same.
Proof. split; [intros s; by unfold tasks_same|intros s1 s2 s3 H12 H23; unfold tasks_same in *; congruence]. Qed.

Ltac cx_rel_step :=
  first [ apply cx_on_world_rel; intros; unfold tasks_ext, tasks_same; cbn; reflexivity
        | apply cx_get_rel; typeclasses eauto
        | apply cx_modify_rel; intros; unfold tasks_ext, tasks_same; cbn;
          rewrite ?fold_add_tasks; first [reflexivity | by apply prefix_app_r] ].

Lemma set_goal_same goal : st_rel tasks_same (set_goal goal).
Proof. unfold set_goal, add_to_history. repeat first [cx_rel_step | st_rel_step]. Qed.

Lemma plan_ext goal : st_rel tasks_ext (plan json_loads llm goal).
Proof.
  unfold plan, set_goal, add_to_history, add_tasks. repeat first [cx_rel_step | st_rel_step].
Qed.

(** C35: one malformed answer of the model breaks the planner for good:
    once the context holds a task that is not a dict (which [plan] adds
    before it checks the tasks), every later
    [plan] raises: [get_context_for_llm] calls [task.get] outside the
    [try], and the context stays poisoned. *)
Theorem plan_poisoned goal s :
  poisoned s.1 = true ->
  exists e s', plan json_loads llm goal s = (Exc e, s') /\ poisoned s'.1 = true.
Proof.
  intros Hp. destruct (plan json_loads llm goal s) as [o s'] eqn:E.
  pose proof (poisoned_prefix _ _ (plan_ext goal s o s' E) Hp) as Hs'.
  destruct o as [r|e]; [|by exists e, s']. exfalso. revert E.
  unfold plan, bind at 1. destruct (set_goal goal s) as [[u|e] s1] eqn:E1; [|done].
  assert (Hp1 : poisoned s1.1 = true).
  { apply (poisoned_prefix s.1); [|done]. rewrite (set_goal_same goal s _ s1 E1). reflexivity. }
  destruct (context_poisoned_raises s1.1 10 Hp1) as [e Ec].
  unfold bind, cx_get, lift_outcome. cbn beta iota. rewrite Ec. by intros [=].
Qed.

(** The handler's [return []] after [n] tasks were added. *)
Lemma plan_fallback_shape (s s0 s' : cx_st) items r :
  cx_tasks s0.1 = cx_tasks s.1 ++ items -> ret (VList []) s0 = (Ok r, s') ->
  exists items, cx_tasks s'.1 = cx_tasks s.1 ++ items /\
    (truthy r = false \/ (r = VList items /\ forallb is_dict items = true)).
Proof. intros Ht [= <- <-]. exists items. split; [done|by left]. Qed.

(** C39: what [plan] returns: a falsy value, or the list of tasks of the
    answer, all of them dicts; and the context's tasks grow by the items
    of the answer's ["tasks"] the loop added, also when [plan] then
    returns [[]]. *)
Theorem plan_result_shape goal s r s' :
  plan json_loads llm goal s = (Ok r, s') ->
  exists items, cx_tasks s'.1 = cx_tasks s.1 ++ items /\
    (truthy r = false \/ (r = VList items /\ forallb is_dict items = true)).
Proof.
  unfold plan, bind at 1. destruct (set_goal goal s) as [[u|e] s1] eqn:E1; [|done].
  pose proof (set_goal_same goal s _ s1 E1) as T1. unfold tasks_same in T1.
  unfold bind, cx_get, lift_outcome. cbn beta iota.
  destruct (get_context_for_llm s1.1 10) as [ctx|e]; [|done].
  unfold try_except, cx_on_world, zoom. destruct s1 as [c1 w1]. cbn [fst snd] in *.
  destruct (ask_llm json_loads llm (plan_prompt goal ctx) w1) as [[resp|e] w2].
  2:{ intros E. eapply (plan_fallback_shape s _ _ [] r); cycle 1; [exact E|cbn; by rewrite T1, app_nil_r]. }
  destruct (py_get resp "tasks" (VList [])) as [tasks|e].
  2:{ intros E. eapply (plan_fallback_shape s _ _ [] r); cycle 1; [exact E|cbn; by rewrite T1, app_nil_r]. }
  destruct (as_iter tasks) as [its|e] eqn:Ei.
  2:{ intros E. eapply (plan_fallback_shape s _ _ [] r); cycle 1; [exact E|cbn; by rewrite T1, app_nil_r]. }
  unfold add_tasks, cx_modify. cbn [fst snd].
  destruct (print_tasks its) as [u'|e] eqn:Ep.
  - intros [= <- <-]. exists its. cbn [fst]. rewrite fold_add_tasks, T1. split; [done|].
    pose proof (print_tasks_dicts _ _ Ep) as Hd.
    destruct (as_iter_dicts _ _ Ei Hd) as [Hf| ->]; [by left|by right].
  - intros E. eapply (plan_fallback_shape s _ _ its r); cycle 1; [exact E|cbn; by rewrite fold_add_tasks, T1].
Qed.

End PlanProofs.

(** ** Witnesses on the mock model *)

Definition planner_site : site := mkSite [["a"]] 0 5 0 [].
Definition planner_st0 : context * site := (new_context true, planner_site).

(** The state after a first plan whose answer holds a string task. *)
Definition planner_st1 : context * site := (@plan mock_env mock_loads default_client "find jobs" planner_st0).2.

Lemma plan_poisoned_witness :
  poisoned planner_st1.1 = true /\
  exists e s', @plan mock_env mock_loads default_client "again" planner_st1 = (Exc e, s') /\ poisoned s'.1 = true.
Proof.
  assert (Hp : poisoned planner_st1.1 = true) by (vm_compute; reflexivity).
  split; [exact Hp|]. exact (@plan_poisoned mock_env mock_loads default_client "again" planner_st1 Hp).
Defined.

Lemma plan_result_shape_witness :
  @plan mock_env mock_loads default_client "find jobs" planner_st0 = (Ok (VList []), planner_st1) /\
  exists items, cx_tasks planner_st1.1 = cx_tasks planner_st0.1 ++ items /\
    (truthy (VList []) = false \/ (VList [] = VList items /\ forallb is_dict items = true)).
Proof.
  assert (E : @plan mock_env mock_loads default_client "find jobs" planner_st0 = (Ok (VList []), planner_st1))
    by (vm_compute; reflexivity).
  split; [exact E|]. exact (@plan_result_shape mock_env mock_loads default_client _ _ _ _ E).
Defined.

(** [get_recent] orders the memories newest first by their timestamp,
    keeps the store's order among equal timestamps, and puts a memory
    without a timestamp (key [""]) last. *)
Example sort_recent_newest_first :
  let mem id ts := VDict [("id", VStr id); ("metadata", VDict ts)] in
  sort_recent [mem "a" [("timestamp", VStr "2024-01-01")]; mem "b" [];
               mem "c" [("timestamp", VStr "2024-03-01")]; mem "d" [("timestamp", VStr "2024-01-01")]]
  = Ok [mem "c" [("timestamp", VStr "2024-03-01")]; mem "a" [("timestamp", VStr "2024-01-01")];
        mem "d" [("timestamp", VStr "2024-01-01")]; mem "b" []].
Proof. vm_compute. reflexivity. Qed.
