(* ===== verification/Orchestrator.v ===== *)
(** * The orchestrator (src/core/orchestrator.py)

    [Orchestrator] owns the executor and the two exporters.  What its
    [initialize] (file [Lifecycle]) leaves behind is an executor on the
    page with the browser context ([new_executor]).  [orchestrator_run] takes the
    planner's task list, and [orchestrator_run_goal] is the whole [run]:
    it asks the planner ([Planner.plan]) for that list; both run
    [Executor.execute_plan] with its defaults and hands
    the collected data to [_export_data], which flattens it and writes a
    timestamped CSV and JSON file named after the goal.  The state is the
    executor with the output directory; the exporters read the clock of
    the executor's page.  Goals are ASCII text ([str.isalnum] and
    [str.lower] on ASCII characters). *)

From Stdlib Require Import String Ascii.
From S2P Require Import Prelude PyData Env Mock Llm Logger Executor Exporters Plan Planner.

(** ** The export file name *)

(** [c.isalnum()] on an ASCII character. *)
Definition is_alnum (c : ascii) : bool :=
  let n := nat_of_ascii c in
  ((48 <=? n) && (n <=? 57)) || ((65 <=? n) && (n <=? 90)) || ((97 <=? n) && (n <=? 122)).

Fixpoint str_map (f : ascii -> ascii) (s : string) : string :=
  match s with
  | EmptyString => EmptyString
  | String c s' => String (f c) (str_map f s')
  end.

(** [''.join(c for c in s if p(c))] *)
Fixpoint str_filter (p : ascii -> bool) (s : string) : string :=
  match s with
  | EmptyString => EmptyString
  | String c s' => if p c then String c (str_filter p s') else str_filter p s'
  end.

Definition space_to_underscore (c : ascii) : ascii :=
  if ascii_dec c " " then "_"%char else c.

Definition filename_char (c : ascii) : bool := is_alnum c || bool_decide (c = "_"%char).

(** [goal[:30].replace(" ", "_").lower()], then the characters that are
    alphanumeric or an underscore. *)
Definition goal_filename (goal : string) : string :=
  str_filter filename_char (lower (str_map space_to_underscore (String.substring 0 30 goal))).

(** The [for item in collected_data] loop of [_export_data]: a list is
    spread, any other truthy value kept. *)
Fixpoint export_items (collected : list Value) : outcome (list Value) :=
  match collected with
  | [] => Ok []
  | item :: rest =>
      match item with
      | VDict d =>
          let data := dget_or d "data" VNone in
          let here := match data with VList l => l | v => if truthy v then [v] else [] end in
          match export_items rest with Ok r => Ok (here ++ r) | Exc e => Exc e end
      | v => Exc (no_method v "get")
      end
  end.

(** The [print]s of [run]'s summary read [result["success"]],
    [result.get('failed_task', {}).get('error')] on failure, and
    [result['completed_tasks']], [result['total_tasks']]. *)
Definition print_summary (d : Dict) : outcome unit :=
  match dget d "success" with
  | None => Exc "KeyError: 'success'"
  | Some s =>
      match (if truthy s then Ok tt
             else match dget_or d "failed_task" (VDict []) with
                  | VDict _ => Ok tt
                  | v => Exc (no_method v "get")
                  end) with
      | Exc e => Exc e
      | Ok _ =>
          match dget d "completed_tasks", dget d "total_tasks" with
          | None, _ => Exc "KeyError: 'completed_tasks'"
          | _, None => Exc "KeyError: 'total_tasks'"
          | Some _, Some _ => Ok tt
          end
      end
  end.

Definition output_dir : string := "./output".

Section Orchestrator.
Context `{Env} `{!ActionImpl}.

(** [Executor(page, context=...)] with its defaults: a fresh
    [ActionLogger()], [max_retries = 3], the default registry. *)
Definition new_executor (page : world) (has_context : bool) : executor :=
  mkExec page has_context (new_logger "./logs") 3 default_registry [] VNone [].

Record orch : Type := mkOrch {
  or_exec : executor;
  or_out : outdir
}.

Definition on_exec {A} (m : st executor A) : st orch A :=
  zoom or_exec (fun e s => mkOrch e (or_out s)) m.
Definition on_export {A} (m : st ex_st A) : st orch A :=
  zoom (fun s => (or_out s, ex_world (or_exec s)))
       (fun ow s => mkOrch (set_world ow.2 (or_exec s)) ow.1) m.

(** [Orchestrator._export_data(collected_data, goal)] *)
Definition export_data (collected : list Value) (goal : string) : st ex_st unit :=
  let! all_data := lift_outcome (export_items collected) in
  if bool_decide (all_data = []) then ret tt
  else
    let filename := goal_filename goal in
    csv_export output_dir all_data filename false true None !;
    json_export output_dir (VList all_data) filename true VNone !;
    ret tt.

(** [Orchestrator.run(goal)] once initialised, with the planner's
    tasks. *)
Definition orchestrator_run (tasks : list task) (goal : string) : st orch Value :=
  if bool_decide (tasks = []) then
    ret (VDict [("success", VBool false); ("error", VStr "Failed to plan tasks")])
  else
    let! result := on_exec (execute_plan tasks (VStr goal) true true) in
    let! d := lift_outcome (as_dict result) in
    let collected := dget_or d "collected_data" VNone in
    (if truthy collected then
       let! items := lift_outcome (as_iter collected) in
       on_export (export_data items goal)
     else ret tt) !;
    lift_outcome (print_summary d) !;
    ret result.

End Orchestrator.

(** ** [Orchestrator.run(goal)] with the planner *)

(** A task dict of the plan as the executor holds it: its params dict
    goes to the heap, where the extract repair writes into it (the
    context's copy of the task is never read for its params). *)
Definition load_task (h : heap) (v : Value) : task * heap :=
  match v with
  | VDict d =>
      match dget d "params" with
      | None => (TDict d PAbsent, h)
      | Some (VDict pd) => (TDict (ddel d "params") (PRef (length h)), h ++ [pd])
      | Some pv => (TDict (ddel d "params") (PVal pv), h)
      end
  | v => (TOther v, h)
  end.

Fixpoint load_tasks (h : heap) (vs : list Value) : list task * heap :=
  match vs with
  | [] => ([], h)
  | v :: rest =>
      let '(t, h1) := load_task h v in
      let '(ts, h2) := load_tasks h1 rest in
      (t :: ts, h2)
  end.

Section OrchestratorPlanner.
Context `{Env} `{!ActionImpl} (json_loads : string -> outcome Value) (llm : client).

(** The orchestrator with its planner's context; the planner's calls
    (clock, model, memory store) go to the executor's page world. *)
Definition on_planner {A} (m : st cx_st A) : st (context * orch) A :=
  zoom (fun s => (s.1, ex_world (or_exec s.2)))
       (fun cw s => (cw.1, mkOrch (set_world cw.2 (or_exec s.2)) (or_out s.2))) m.

Definition on_orch {A} (m : st orch A) : st (context * orch) A :=
  zoom snd (fun o s => (s.1, o)) m.

(** [Orchestrator.run(goal)] once initialised: [tasks = await
    self.planner.plan(goal)]; [if not tasks] fails; otherwise the plan's
    dicts (a truthy answer of [plan] is a list of dicts, as the
    planner's properties show) are run by [orchestrator_run]. *)
Definition orchestrator_run_goal (goal : string) : st (context * orch) Value :=
  let! tasks := on_planner (plan json_loads llm goal) in
  if negb (truthy tasks) then
    ret (VDict [("success", VBool false); ("error", VStr "Failed to plan tasks")])
  else
    let items := match tasks with VList l => l | _ => [] end in
    let! ts := on_orch (fun o =>
                 let '(ts, h) := load_tasks (ex_heap (or_exec o)) items in
                 (Ok ts, mkOrch (set_heap h (or_exec o)) (or_out o))) in
    on_orch (orchestrator_run ts goal).

End OrchestratorPlanner.

(** [Orchestrator.list_sessions()]: a fresh [ActionLogger()] over the
    default logs directory, which holds the files [fs]. *)
Definition orchestrator_list_sessions (fs : list (string * option Value)) : outcome (list Value) :=
  list_sessions (mkLogger "./logs" None VNone [] VNone fs).

(** ** Properties of the orchestrator *)

Lemma substring_length_le n s : String.length (String.substring 0 n s) <= n.
Proof.
  revert s. induction n as [|n IH]; intros [|c s]; simpl; try lia.
  specialize (IH s). lia.
Qed.

Lemma str_map_length f s : String.length (str_map f s) = String.length s.
Proof. induction s as [|c s IH]; simpl; congruence. Qed.

Lemma lower_length s : String.length (lower s) = String.length s.
Proof. induction s as [|c s IH]; simpl; congruence. Qed.

Lemma str_filter_length_le p s : String.length (str_filter p s) <= String.length s.
Proof. induction s as [|c s IH]; simpl; [lia|]. destruct (p c); simpl; lia. Qed.

Lemma str_filter_forall p s : Forall (fun c => p c = true) (list_ascii_of_string (str_filter p s)).
Proof.
  induction s as [|c s IH]; simpl; [constructor|].
  destruct (p c) eqn:E; simpl; [constructor|]; done.
Qed.

(** The name [_export_data] derives from a goal has at most 30
    characters, each alphanumeric or an underscore, whatever the goal:
    no path separator or dot can reach [os.path.join]. *)
Theorem goal_filename_safe goal :
  String.length (goal_filename goal) <= 30 /\
  Forall (fun c => filename_char c = true) (list_ascii_of_string (goal_filename goal)).
Proof.
  split; [|apply str_filter_forall].
  unfold goal_filename. etransitivity; [apply str_filter_length_le|].
  rewrite lower_length, str_map_length. apply substring_length_le.
Qed.

Section OrchestratorProofs.
Context `{Henv : Env}.

(** [_export_data] of collected items whose data flatten to a
    non-empty list writes, besides the CSV file, the JSON file
    [<goal name>_<timestamp>.json] of the output directory, and that
    file reads back as exactly the flattened data, in order. *)
Theorem export_data_writes (Hc : clock_ok) collected goal all o w :
  export_items collected = Ok all -> all <> [] ->
  exists t p s',
    export_data collected goal (o, w) = (Ok tt, s') /\
    p = path_join output_dir (goal_filename goal +:+ "_" +:+ strftime_ts t +:+ ".json") /\
    json_read p s' = (Ok (json_default (VList all)), s').
Proof.
  intros Ei Ha. unfold export_data.
  rewrite (bind_ok (lift_outcome _) _ (o, w) all (o, w)) by (unfold lift_outcome; by rewrite Ei).
  rewrite bool_decide_false by done.
  destruct (csv_export_spec Hc output_dir all (goal_filename goal) true None o w Ha) as (t1 & w1 & E1).
  rewrite bind_ok with (1 := E1).
  destruct (json_export_spec Hc output_dir (VList all) (goal_filename goal) true VNone
              (mkOut (od_json o) (dset (od_csv o) (path_join output_dir
                 (export_name (goal_filename goal) (Some t1) +:+ ".csv"))
                 (auto_headers all :: map (item_row (auto_headers all)) all))) w1) as (t & now & w2 & E2).
  rewrite bind_ok with (1 := E2). simpl in E2.
  exists t, (path_join output_dir (export_name (goal_filename goal) (Some t) +:+ ".json")).
  eexists. split; [reflexivity|]. split; [by simpl; rewrite string_app_assoc|].
  erewrite json_read_file by apply dget_dset_eq. apply pair_equal_spec. split; [|done].
  unfold json_output. by destruct (truthy VNone).
Qed.

Lemma export_items_nonempty items all : export_items items = Ok all -> all <> [] -> items <> [].
Proof. intros E Ha ->. simpl in E. inv_pair. done. Qed.

(** C38: [run] exports whenever the plan collected data, also when the
    plan failed (the spec has the export follow a successful run): for
    any non-empty plan whose [execute_plan] ends in a failure summary
    with collected data that flatten to a non-empty list, [run] returns
    that failure summary and leaves a JSON export
    [<goal name>_<timestamp>.json] that reads back as the flattened data
    of every attempt. *)
Theorem orchestrator_exports_failed_plan `{!ActionImpl} (Hc : clock_ok) tasks goal o o1
    n sc att fd items path all :
  tasks <> [] ->
  on_exec (execute_plan tasks (VStr goal) true true) o
    = (Ok (summary_failure n sc att (VDict fd) items path), o1) ->
  export_items items = Ok all -> all <> [] ->
  exists t o', orchestrator_run tasks goal o = (Ok (summary_failure n sc att (VDict fd) items path), o') /\
    fst (json_read (path_join output_dir (goal_filename goal +:+ "_" +:+ strftime_ts t +:+ ".json"))
                   (or_out o', ex_world (or_exec o'))) = Ok (json_default (VList all)).
Proof.
  intros Ht E Ei Ha. unfold orchestrator_run. rewrite bool_decide_false by done.
  rewrite (bind_ok _ _ _ _ _ E). unfold bind at 1, lift_outcome at 1. cbn [as_dict summary_failure].
  cbv beta iota.
  change (dget_or _ "collected_data" VNone) with (VList items).
  assert (Hne := export_items_nonempty _ _ Ei Ha).
  replace (truthy (VList items)) with true by (destruct items; done).
  unfold bind at 1, lift_outcome at 1. cbn [as_iter]. cbv beta iota.
  destruct (export_data_writes Hc items goal all (or_out o1) (ex_world (or_exec o1)) Ei Ha)
    as (t & p & [od w'] & Ex & -> & Hj).
  unfold bind at 1. cbv beta iota. unfold on_export, zoom. rewrite Ex.
  exists t, (mkOrch (set_world w' (or_exec o1)) od). split; [reflexivity|].
  cbn [or_out or_exec set_world ex_world]. by rewrite Hj.
Qed.

End OrchestratorProofs.

(** ** Concrete runs *)

(** An initialised orchestrator on the two-page listing, with an empty
    output directory. *)
Definition orch0 : @orch mock_env :=
  mkOrch (@new_executor mock_env (two_pages : world) true) empty_out.

Lemma export_data_writes_witness :
  export_items [extracted_ab] = Ok [VStr "a"; VStr "b"] /\ [VStr "a"; VStr "b"] <> [] /\
  exists t p s',
    @export_data mock_env [extracted_ab] "List the items" (empty_out, two_pages) = (Ok tt, s') /\
    p = path_join output_dir (goal_filename "List the items" +:+ "_" +:+ strftime_ts t +:+ ".json") /\
    json_read p s' = (Ok (json_default (VList [VStr "a"; VStr "b"])), s').
Proof.
  split; [reflexivity|]. split; [discriminate|].
  apply (export_data_writes mock_clock_ok); [reflexivity|discriminate].
Defined.

Definition hover_failed : Dict :=
  [("task", VDict [("action", VStr "hover")]); ("error", VStr "Unknown action: hover");
   ("index", VInt 1)].

Definition ab_thrice : list Value := [VStr "a"; VStr "b"; VStr "a"; VStr "b"; VStr "a"; VStr "b"].

(** A plan that extracts two items and then fails on an unknown action
    is attempted three times and fails; [run] still exports the items of
    all three attempts. *)
Lemma orchestrator_exports_failed_plan_witness :
  exists t o',
    orchestrator_run [t_extract; t_hover] "List the items" orch0
      = (Ok (summary_failure 2 1 3 (VDict hover_failed) [extracted_ab; extracted_ab; extracted_ab]
               "./logs/session_u0.json"), o') /\
    fst (json_read (path_join output_dir (goal_filename "List the items" +:+ "_" +:+ strftime_ts t +:+ ".json"))
                   (or_out o', ex_world (or_exec o'))) = Ok (json_default (VList ab_thrice)).
Proof.
  apply (orchestrator_exports_failed_plan mock_clock_ok _ _ _
           (on_exec (execute_plan [t_extract; t_hover] (VStr "List the items") true true) orch0).2);
    [discriminate|vm_compute; reflexivity|reflexivity|discriminate].
Defined.

(** With the mock model, whose plan holds a string task, [run] answers
    "Failed to plan tasks" the first time and raises the second time:
    the string task stays in the planner's context, and rendering it
    for the next goal raises outside the planner's [try]. *)
Example orchestrator_plan_poisoned_run :
  let s1 := @orchestrator_run_goal mock_env mock_actions mock_loads default_client "find jobs" (new_context true, orch0) in
  s1.1 = Ok (VDict [("success", VBool false); ("error", VStr "Failed to plan tasks")]) /\
  (@orchestrator_run_goal mock_env mock_actions mock_loads default_client "again" s1.2).1
    = Exc "AttributeError: 'str' object has no attribute 'get'".
Proof. vm_compute. split; reflexivity. Qed.
