(* ===== verification/Lifecycle.v ===== *)
(** * The orchestrator's lifecycle (src/core/orchestrator.py)

    [Orchestrator.__init__] leaves every component [None];
    [initialize] creates them in order (the model client, which it probes
    with [check_connection] and [list_models], the vector store and the
    [ContextManager], the [BrowserManager], which it initialises, and the
    [GoalPlanner] and [Executor] over them) and sets [_initialized];
    [run] and [replay] call [initialize] first when the flag is down;
    [close] closes the browser and the HTTP client and lowers the flag.
    The state is the record [agent] with the world; its optional fields
    are the attributes that start as [None].  The planner's context is the
    orchestrator's [ContextManager] (the same object): [ag_context] is
    both, and [ag_planner] is the client the planner holds.  The
    executor's page is the world ([Executor.new_executor]); its copy of
    the world is refreshed from the state's world when [run] uses it.

    The section's parameters are what [initialize] reads outside the
    code: the process environment [env] (for [OllamaClient()]), the
    working directory and the loaded [PlaywrightConfig] (for
    [BrowserManager()]), whether [chromadb] could be imported
    ([CHROMADB_AVAILABLE], for [VectorStore()], [Planner.vs_init]), and
    [json.loads].

    The invariant [agent_wf] (an initialised agent has all its parts) holds
    in every state reachable by the lifecycle's operations
    ([agent_reachable_wf]); [initialize] succeeds from any state when the
    driver answers, the model lists string names and the store opens,
    and leaves fresh components ([initialize_ready]). *)

From Stdlib Require Import QArith.
From stdpp Require Import relations.
From S2P Require Import Prelude PyData Env Mock Llm Browser Logger Executor Exporters Replayer Planner Orchestrator.

(** ** [', '.join(models[:5])] *)

(** [v[:n]] on a list or a string. *)
Definition py_prefix (v : Value) (n : nat) : outcome Value :=
  match v with
  | VList l => Ok (VList (take n l))
  | VStr s => Ok (VStr (String.substring 0 n s))
  | _ => Exc ("TypeError: '" +:+ py_type_name v +:+ "' object is not subscriptable")
  end.

(** The items of [sep.join(items)], which must all be strings. *)
Fixpoint str_items (i : nat) (l : list Value) : outcome (list string) :=
  match l with
  | [] => Ok []
  | VStr s :: rest => let? ss := str_items (S i) rest in Ok (s :: ss)
  | v :: _ => Exc ("TypeError: sequence item " +:+ pretty (N.of_nat i) +:+
                   ": expected str instance, " +:+ py_type_name v +:+ " found")
  end.

Definition py_join (sep : string) (v : Value) : outcome string :=
  let? items := as_iter v in
  let? ss := str_items 0 items in
  Ok (join_with sep ss).

(** ** The orchestrator's attributes *)

Section Agent.
Context `{Env} `{!ActionImpl}.

Record agent : Type := mkAgent {
  ag_llm : option client;           (** [self.llm] *)
  ag_vector_store : option bool;    (** [self.vector_store]: whether it has a collection *)
  ag_context : option context;      (** [self.context], also [self.planner.context] *)
  ag_bm : option manager;           (** [self.browser_manager] *)
  ag_planner : option client;       (** [self.planner], by its [llm] *)
  ag_exec : option executor;        (** [self.executor] *)
  ag_out : outdir;                  (** the exporters' output directory *)
  ag_initialized : bool             (** [self._initialized] *)
}.

(** [Orchestrator()] *)
Definition new_agent : agent := mkAgent None None None None None None empty_out false.

Abbreviation ag_st := (agent * world)%type.

Definition set_llm x a := mkAgent x (ag_vector_store a) (ag_context a) (ag_bm a) (ag_planner a) (ag_exec a) (ag_out a) (ag_initialized a).
Definition set_vector_store x a := mkAgent (ag_llm a) x (ag_context a) (ag_bm a) (ag_planner a) (ag_exec a) (ag_out a) (ag_initialized a).
Definition set_ag_context x a := mkAgent (ag_llm a) (ag_vector_store a) x (ag_bm a) (ag_planner a) (ag_exec a) (ag_out a) (ag_initialized a).
Definition set_bm x a := mkAgent (ag_llm a) (ag_vector_store a) (ag_context a) x (ag_planner a) (ag_exec a) (ag_out a) (ag_initialized a).
Definition set_planner x a := mkAgent (ag_llm a) (ag_vector_store a) (ag_context a) (ag_bm a) x (ag_exec a) (ag_out a) (ag_initialized a).
Definition set_exec x a := mkAgent (ag_llm a) (ag_vector_store a) (ag_context a) (ag_bm a) (ag_planner a) x (ag_out a) (ag_initialized a).
Definition set_out x a := mkAgent (ag_llm a) (ag_vector_store a) (ag_context a) (ag_bm a) (ag_planner a) (ag_exec a) x (ag_initialized a).
Definition set_ag_initialized x a := mkAgent (ag_llm a) (ag_vector_store a) (ag_context a) (ag_bm a) (ag_planner a) (ag_exec a) (ag_out a) x.

Definition ag_get : st ag_st agent := fun s => (Ok s.1, s).
Definition ag_modify (f : agent -> agent) : st ag_st unit := fun s => (Ok tt, (f s.1, s.2)).
Definition ag_on_world {A} (m : st world A) : st ag_st A := zoom snd (fun w s => (s.1, w)) m.

(** [self.browser_manager.meth(...)]: on [None] the call raises. *)
Definition ag_on_bm {A} (meth : string) (m : st bm_st A) : st ag_st A := fun s =>
  match ag_bm s.1 with
  | Some bm => let '(r, (bm', w')) := m (bm, s.2) in (r, (set_bm (Some bm') s.1, w'))
  | None => (Exc (no_method VNone meth), s)
  end.

End Agent.

Abbreviation ag_st := (agent * world)%type.

(** ** [initialize], [run], [replay] and [close] *)

Section Lifecycle.
Context `{Env} `{!ActionImpl} (json_loads : string -> outcome Value).
Context (env : list (string * string)) (cwd : string) (c : config) (chromadb_available : bool).

(** [self.planner.plan(goal)] and what follows in [run], on the
    planner, its context and the executor.  [initialize] sets the three
    together ([agent_wf]); without them the first call, [plan], raises. *)
Definition ag_on_run (goal : string) : st ag_st Value := fun s =>
  match ag_planner s.1, ag_context s.1, ag_exec s.1 with
  | Some llm, Some ctx, Some e =>
      let '(r, (ctx', o')) :=
        orchestrator_run_goal json_loads llm goal (ctx, mkOrch (set_world s.2 e) (ag_out s.1)) in
      (r, (set_ag_context (Some ctx') (set_exec (Some (or_exec o')) (set_out (or_out o') s.1)),
           ex_world (or_exec o')))
  | _, _, _ => (Exc (no_method VNone "plan"), s)
  end.

(** The executor [initialize] builds: [Executor(page,
    context=self.browser_manager.context)], on the current page. *)
Definition ag_new_executor : st ag_st unit := fun s =>
  let has_ctx := match ag_bm s.1 with Some m => truthy (bm_context m) | None => false end in
  (Ok tt, (set_exec (Some (new_executor s.2 has_ctx)) s.1, s.2)).

(** [Orchestrator.initialize()] up to [self._initialized = True]. *)
Definition init_components : st ag_st unit :=
  let llm := new_client env None None 120 in
  ag_modify (set_llm (Some llm)) !;
  let! connected := ag_on_world (check_connection llm) in
  (if connected then
     let! models := ag_on_world (list_models json_loads llm) in
     let! first := lift_outcome (py_prefix models 5) in
     lift_outcome (py_join ", " first) !;
     ret tt
   else ret tt) !;
  let! vs_active := ag_on_world (vs_init chromadb_available "browser_agent_memory" "./data/chromadb") in
  ag_modify (set_vector_store (Some vs_active)) !;
  let! ctx := ag_on_world (context_manager_init chromadb_available (Some vs_active)) in
  ag_modify (set_ag_context (Some ctx)) !;
  ag_on_world (vs_count vs_active) !;
  ag_modify (set_bm (Some new_manager)) !;
  ag_on_bm "initialize" (bm_initialize cwd c) !;
  let! planner := ag_on_world (new_planner env chromadb_available (Some llm) (Some ctx)) in
  ag_modify (set_planner (Some planner.1)) !;
  ag_new_executor.

(** [Orchestrator.initialize()] *)
Definition orchestrator_initialize : st ag_st unit :=
  init_components !;
  ag_modify (set_ag_initialized true).

(** [if not self._initialized: await self.initialize()] *)
Definition ensure_initialized : st ag_st unit :=
  let! a := ag_get in
  if ag_initialized a then ret tt else orchestrator_initialize.

(** [Orchestrator.run(goal)] *)
Definition agent_run (goal : string) : st ag_st Value :=
  ensure_initialized !;
  ag_on_run goal.

(** [Orchestrator.replay(session_id, speed)] over the logs directory
    [fs]: [Replayer(page)] on the manager's page. *)
Definition agent_replay (fs : list (string * option Value)) (sid : string) (speed : Q) : st ag_st Value :=
  ensure_initialized !;
  ag_on_bm "get_page" (bm_get_page cwd c) !;
  ag_on_world (orchestrator_replay fs sid speed).

(** [Orchestrator.close()]: the components are kept. *)
Definition orchestrator_close : st ag_st unit :=
  let! a := ag_get in
  (match ag_bm a with Some _ => ag_on_bm "close" (bm_close c) | None => ret tt end) !;
  (match ag_llm a with Some _ => ag_on_world ollama_close | None => ret tt end) !;
  ag_modify (set_ag_initialized false).

(** [async with Orchestrator() as orchestrator]: [__aenter__]
    initialises (and returns the orchestrator), [__aexit__] closes. *)
Definition orchestrator_aenter : st ag_st unit := orchestrator_initialize.
Definition orchestrator_aexit : st ag_st unit := orchestrator_close.

End Lifecycle.

(** ** The lifecycle invariant *)

Section Invariant.
Context `{Env} `{!ActionImpl} (json_loads : string -> outcome Value).
Context (env : list (string * string)) (cwd : string) (c : config) (chromadb_available : bool).

(** [x is not None] *)
Definition is_set {A} (x : option A) : bool := if x then true else false.

(** The attributes [run] and [replay] use are all set. *)
Definition all_set (a : agent) : bool :=
  is_set (ag_llm a) && is_set (ag_context a) && is_set (ag_bm a) && is_set (ag_planner a) && is_set (ag_exec a).

(** An initialised orchestrator has all its parts. *)
Definition agent_wf (a : agent) : bool := negb (ag_initialized a) || all_set a.

(** The parts only go from [None] to set, and the flag is not raised. *)
Definition agent_le (a a' : agent) : Prop :=
  (is_set (ag_llm a) -> is_set (ag_llm a')) /\ (is_set (ag_context a) -> is_set (ag_context a')) /\
  (is_set (ag_bm a) -> is_set (ag_bm a')) /\ (is_set (ag_planner a) -> is_set (ag_planner a')) /\
  (is_set (ag_exec a) -> is_set (ag_exec a')) /\ (ag_initialized a' -> ag_initialized a).

Definition parts_le (s s' : ag_st) : Prop := agent_le s.1 s'.1.

#[local] Instance parts_le_preorder : PreOrder parts_le.
Proof. split; [intros s; unfold parts_le, agent_le; naive_solver|]. intros s1 s2 s3; unfold parts_le, agent_le; naive_solver. Qed.

Lemma all_set_le a a' : agent_le a a' -> all_set a -> all_set a'.
Proof.
  unfold agent_le, all_set. rewrite !andb_True. naive_solver.
Qed.

Lemma parts_le_wf s s' : parts_le s s' -> agent_wf s.1 -> agent_wf s'.1.
Proof.
  unfold parts_le, agent_wf. intros Hle. pose proof (all_set_le _ _ Hle) as Ha.
  destruct Hle as (_ & _ & _ & _ & _ & Hf). rewrite !orb_True, !negb_True. naive_solver.
Qed.

Lemma ag_on_world_le {A} (m : st world A) : st_rel parts_le (ag_on_world m).
Proof. apply st_rel_zoom with (R' := fun _ _ => True); [done|]. intros s w' _. unfold parts_le, agent_le. naive_solver. Qed.

Lemma ag_get_le : st_rel parts_le ag_get.
Proof. intros s o s' [= _ <-]. reflexivity. Qed.

Lemma ag_modify_le f : (forall a, agent_le a (f a)) -> st_rel parts_le (ag_modify f).
Proof. intros Hf s o s' [= _ <-]. apply Hf. Qed.

Lemma ag_on_bm_le {A} meth (m : st bm_st A) : st_rel parts_le (ag_on_bm meth m).
Proof.
  intros [a w] o s'. unfold ag_on_bm. cbn [fst snd].
  destruct (ag_bm a) eqn:Eb; [|intros [= _ <-]; reflexivity].
  destruct (m _) as [r [bm' w']]. intros [= _ <-]. unfold parts_le, agent_le. cbn. rewrite Eb. naive_solver.
Qed.

Lemma ag_new_executor_le : st_rel parts_le ag_new_executor.
Proof. intros [a w] o s' [= _ <-]. unfold parts_le, agent_le. cbn. naive_solver. Qed.

Lemma ag_on_run_le goal : st_rel parts_le (ag_on_run json_loads goal).
Proof.
  intros [a w] o s'. unfold ag_on_run. cbn [fst snd].
  destruct (ag_planner a) eqn:Ep, (ag_context a) eqn:Ec, (ag_exec a) eqn:Ee;
    try (intros [= _ <-]; reflexivity).
  destruct (orchestrator_run_goal _ _ _ _) as [r [ctx' o']]. intros [= _ <-].
  unfold parts_le, agent_le. cbn. rewrite Ep, Ec, Ee. naive_solver.
Qed.

Ltac ag_le :=
  repeat first
    [ apply ag_on_world_le | apply ag_get_le | apply ag_on_bm_le | apply ag_new_executor_le
    | apply ag_on_run_le
    | apply ag_modify_le; intros ?; unfold agent_le; cbn; naive_solver
    | st_rel_step ].

Lemma init_components_le : st_rel parts_le (init_components json_loads env cwd c chromadb_available).
Proof. unfold init_components. ag_le. Qed.

Lemma init_components_sets s s' :
  init_components json_loads env cwd c chromadb_available s = (Ok tt, s') -> all_set s'.1.
Proof.
  destruct s as [a w].
  unfold init_components, ag_modify, ag_on_world, ag_on_bm, ag_new_executor, bind, ret, lift_outcome, zoom.
  cbn. intros E. repeat (case_match; simplify_eq/=); done.
Qed.

(** [agent_wf] is kept: a preorder, so it composes through [bind]. *)
Definition wf_rel (s s' : ag_st) : Prop := agent_wf s.1 -> agent_wf s'.1.

#[local] Instance wf_rel_preorder : PreOrder wf_rel.
Proof. split; [intros s Hs; exact Hs|]. intros s1 s2 s3 H12 H23 H1. exact (H23 (H12 H1)). Qed.

Lemma le_wf {A} (m : st ag_st A) : st_rel parts_le m -> st_rel wf_rel m.
Proof. intros Hm s o s' E. exact (parts_le_wf s s' (Hm s o s' E)). Qed.

Lemma ag_modify_wf f : (forall a, agent_wf a -> agent_wf (f a)) -> st_rel wf_rel (ag_modify f).
Proof. intros Hf s o s' [= _ <-]. exact (Hf s.1). Qed.

Lemma initialize_wf : st_rel wf_rel (orchestrator_initialize json_loads env cwd c chromadb_available).
Proof.
  intros s o s' E. unfold orchestrator_initialize, bind in E.
  destruct (init_components _ _ _ _ _ s) as [[[]|e] s1] eqn:Ei.
  - injection E as _ <-. intros _. unfold agent_wf. cbn. exact (init_components_sets _ _ Ei).
  - injection E as _ <-. exact (parts_le_wf _ _ (init_components_le _ _ _ Ei)).
Qed.

Lemma ensure_initialized_wf : st_rel wf_rel (ensure_initialized json_loads env cwd c chromadb_available).
Proof.
  unfold ensure_initialized. repeat first [apply initialize_wf | apply le_wf; solve [ag_le] | st_rel_step].
Qed.

Ltac ag_wf :=
  repeat first
    [ apply ensure_initialized_wf | apply initialize_wf
    | apply le_wf; solve [ag_le]
    | apply ag_modify_wf; intros ?; unfold agent_wf; cbn; done
    | st_rel_step ].

Lemma agent_run_wf goal : st_rel wf_rel (agent_run json_loads env cwd c chromadb_available goal).
Proof. unfold agent_run. ag_wf. Qed.

Lemma agent_replay_wf fs sid speed : st_rel wf_rel (agent_replay json_loads env cwd c chromadb_available fs sid speed).
Proof. unfold agent_replay. ag_wf. Qed.

Lemma close_wf : st_rel wf_rel (orchestrator_close c).
Proof. unfold orchestrator_close. ag_wf. Qed.

(** One call of the orchestrator's public API. *)
Inductive agent_step : ag_st -> ag_st -> Prop :=
| step_initialize s o s' :
    orchestrator_initialize json_loads env cwd c chromadb_available s = (o, s') -> agent_step s s'
| step_run goal s o s' :
    agent_run json_loads env cwd c chromadb_available goal s = (o, s') -> agent_step s s'
| step_replay fs sid speed s o s' :
    agent_replay json_loads env cwd c chromadb_available fs sid speed s = (o, s') -> agent_step s s'
| step_close s o s' :
    orchestrator_close c s = (o, s') -> agent_step s s'.

Lemma agent_step_wf s s' : agent_step s s' -> wf_rel s s'.
Proof.
  destruct 1 as [? ? ? E|? ? ? ? E|? ? ? ? ? ? E|? ? ? E];
    [exact (initialize_wf _ _ _ E)|exact (agent_run_wf _ _ _ _ E)
    |exact (agent_replay_wf _ _ _ _ _ _ E)|exact (close_wf _ _ _ E)].
Qed.

(** C30: whatever sequence of [initialize], [run], [replay] and [close]
    calls, successful or raising, an orchestrator built by
    [Orchestrator()] that says it is initialised has its model client,
    context, browser manager, planner and executor: [run] and [replay]
    never reach a [None] attribute. *)
Theorem agent_reachable_wf w s :
  rtc agent_step (new_agent, w) s -> agent_wf s.1.
Proof.
  intros Hr. cut (wf_rel (new_agent, w) s); [intros Hw; by apply Hw|].
  induction Hr as [|s1 s2 s3 H12 _ IH]; [done|].
  intros H1. apply IH, (agent_step_wf _ _ H12), H1.
Qed.

End Invariant.

(** ** [initialize] reaches a ready orchestrator *)

Lemma forallb_take {A} (p : A -> bool) n l : forallb p l = true -> forallb p (take n l) = true.
Proof.
  revert n. induction l as [|x l IH]; intros [|n]; cbn; try done.
  rewrite !andb_true_iff. intros [Hx Hl]. split; [done|]. by apply IH.
Qed.

Lemma str_items_ok i l : forallb (has_type TStr) l = true -> exists ss, str_items i l = Ok ss.
Proof.
  revert i. induction l as [|v l IH]; intros i; cbn; [by eexists|].
  rewrite andb_true_iff. intros [Hv Hl]. destruct v; try done.
  destruct (IH (S i) Hl) as [ss ->]. by eexists.
Qed.

Section Ready.
Context `{Env} `{!ActionImpl} (json_loads : string -> outcome Value).
Context (env : list (string * string)) (cwd : string) (c : config) (chromadb_available : bool).

(** What the driver, the model server and the vector store must do for
    [initialize] to go through: the driver answers its calls with
    objects, the server, when it lists models, lists names that are
    strings, and the vector store opens (or is not available) and its
    collection answers [count()]. *)
Context (Hd : answers_objects).
Context (Hm : forall w names w', list_models json_loads (new_client env None None 120) w = (Ok (VList names), w') ->
                has_type (TList TStr) (VList names) = true).
Context (Hv : forall w, exists b w', vs_init chromadb_available "browser_agent_memory" "./data/chromadb" w = (Ok b, w')).
Context (Hc : forall w, exists v w', handle VsCount w = (Ok v, w')).

Lemma ag_on_world_ok {A} (m : st world A) (s : ag_st) a w' :
  m s.2 = (Ok a, w') -> ag_on_world m s = (Ok a, (s.1, w')).
Proof. intros E. unfold ag_on_world, zoom. by rewrite E. Qed.

Lemma list_models_join_ok (connected : bool) (a : agent) w :
  exists w', (if connected then
                let! models := ag_on_world (list_models json_loads (new_client env None None 120)) in
                let! first := lift_outcome (py_prefix models 5) in
                lift_outcome (py_join ", " first) !; ret tt
              else ret tt) (a, w) = (Ok tt, (a, w')).
Proof.
  destruct connected; [|by eexists].
  destruct (list_models_never_raises json_loads (new_client env None None 120) w) as (names & w2 & E2).
  rewrite (bind_ok _ _ _ _ _ (ag_on_world_ok _ (a, w) _ _ E2)).
  destruct (str_items_ok 0 (take 5 names) (forallb_take _ 5 _ (Hm _ _ _ E2))) as [ss Es].
  exists w2. unfold bind, lift_outcome, ret. cbn. unfold py_join. cbn. by rewrite Es.
Qed.

Lemma vs_count_ok (vs_active : bool) (s : ag_st) :
  exists v w', ag_on_world (vs_count vs_active) s = (Ok v, (s.1, w')).
Proof.
  unfold vs_count. destruct vs_active; cbn [negb].
  - destruct (Hc s.2) as (v & w' & E). exists v, w'. by apply ag_on_world_ok.
  - by eexists _, _.
Qed.

(** The orchestrator [initialize] leaves: its parts fresh. *)
Definition ready (a : agent) (w : world) : Prop :=
  ag_llm a = Some (new_client env None None 120) /\ ag_planner a = Some (new_client env None None 120) /\
  (exists vs_active, ag_context a = Some (new_context vs_active) /\ ag_vector_store a = Some vs_active) /\
  (exists m, ag_bm a = Some m /\ bm_initialized m = true) /\
  (exists has_ctx, ag_exec a = Some (new_executor w has_ctx)).

Lemma init_components_ready s :
  exists s', init_components json_loads env cwd c chromadb_available s = (Ok tt, s') /\ ready s'.1 s'.2.
Proof.
  destruct s as [a w]. unfold init_components. unfold bind at 1, ag_modify at 1. cbn beta iota.
  destruct (check_connection_spec (new_client env None None 120) w) as (b & w0 & E0 & _).
  rewrite (bind_ok _ _ _ _ _ (ag_on_world_ok _ (_, w) _ _ E0)).
  destruct (list_models_join_ok b (set_llm (Some (new_client env None None 120)) a) w0) as [w1 E1].
  rewrite (bind_ok _ _ _ _ _ E1).
  destruct (Hv w1) as (vs_active & w1' & Ev).
  rewrite (bind_ok _ _ _ _ _ (ag_on_world_ok _ (_, w1) _ _ Ev)).
  unfold bind at 1, ag_modify at 1. cbn beta iota.
  unfold bind at 1, ag_on_world at 1, zoom at 1, context_manager_init, ret at 1. cbn beta iota.
  unfold bind at 1, ag_modify at 1. cbn beta iota.
  lazymatch goal with
  | |- context [bind (ag_on_world (vs_count ?b)) _ ?st] =>
      destruct (vs_count_ok b st) as (v & w2 & E2); rewrite (bind_ok _ _ _ _ _ E2)
  end.
  unfold bind at 1, ag_modify at 1. cbn beta iota.
  destruct (bm_initialize_ready cwd c Hd (new_manager, w2)) as (page & [m w3] & E3 & Hi & _).
  unfold bind at 1, ag_on_bm at 1. cbn [fst snd ag_bm set_bm]. rewrite E3.
  unfold bind, ag_modify, ag_new_executor, ag_on_world, zoom, new_planner, ret. cbn.
  eexists. split; [reflexivity|]. unfold ready. cbn. naive_solver.
Qed.

(** C37: [initialize] goes through from any state of the orchestrator
    (fresh, initialised or closed) when the driver answers its calls,
    the model server lists string names and the vector store opens and
    answers [count()]; it leaves the flag set and fresh parts: a new client
    shared with the planner, an empty [ContextManager] (a re-initialised
    orchestrator forgets its memory), an initialised browser manager
    and a new executor on the current page. *)
Theorem initialize_ready s :
  exists s', orchestrator_initialize json_loads env cwd c chromadb_available s = (Ok tt, s') /\
    ag_initialized s'.1 = true /\ ready s'.1 s'.2.
Proof.
  destruct (init_components_ready s) as (s1 & E1 & Hr).
  unfold orchestrator_initialize. rewrite (bind_ok _ _ _ _ _ E1).
  eexists. split; [reflexivity|]. split; [done|]. exact Hr.
Qed.

End Ready.

(** ** Witnesses on the mock driver and model server *)

Definition lc_init (s : (@agent mock_env * site)%type) : (@agent mock_env * site)%type :=
  (orchestrator_initialize mock_loads [] "/app" mock_config true s).2.

Definition lc_s0 : (@agent mock_env * site)%type := (new_agent, two_pages).

Lemma agent_reachable_wf_witness :
  rtc (agent_step mock_loads [] "/app" mock_config true) lc_s0 (lc_init lc_s0) /\
  agent_wf (lc_init lc_s0).1.
Proof.
  assert (Hr : rtc (agent_step mock_loads [] "/app" mock_config true) lc_s0 (lc_init lc_s0)).
  { apply rtc_once. eapply step_initialize. unfold lc_init. rewrite <- surjective_pairing. reflexivity. }
  split; [exact Hr|]. exact (agent_reachable_wf mock_loads [] "/app" mock_config true two_pages _ Hr).
Defined.

Lemma mock_lists_str_names w names w' :
  list_models mock_loads (new_client [] None None 120) w = (Ok (VList names), w') ->
  has_type (TList TStr) (VList names) = true.
Proof. vm_compute. intros [= <- _]. reflexivity. Qed.

Lemma mock_vs_opens w :
  exists b w', vs_init true "browser_agent_memory" "./data/chromadb" w = (Ok b, w').
Proof. by eexists _, _. Qed.

Lemma mock_counts w : exists v w', handle (Env:=mock_env) VsCount w = (Ok v, w').
Proof. by eexists _, _. Qed.

Lemma initialize_ready_witness :
  exists s', orchestrator_initialize mock_loads [] "/app" mock_config true lc_s0 = (Ok tt, s') /\
    ag_initialized s'.1 = true /\ ready [] s'.1 s'.2.
Proof.
  exact (@initialize_ready mock_env mock_loads [] "/app" mock_config true
           mock_answers_objects mock_lists_str_names mock_vs_opens mock_counts lc_s0).
Defined.

(** [close] followed by [run] re-initialises the orchestrator with a new
    [ContextManager]: the string task the mock model planned, which makes
    every later [run] raise, is forgotten. *)
Example close_forgets_planner_memory :
  let s1 := lc_init lc_s0 in
  let s2 := (agent_run mock_loads [] "/app" mock_config true "find jobs" s1).2 in
  let s3 := (orchestrator_close mock_config s2).2 in
  ag_initialized s3.1 = false /\
  (exists e, (agent_run mock_loads [] "/app" mock_config true "again" s2).1 = Exc e) /\
  (agent_run mock_loads [] "/app" mock_config true "again" s3).1
    = Ok (VDict [("success", VBool false); ("error", VStr "Failed to plan tasks")]).
Proof. vm_compute. split; [reflexivity|]. split; [by eexists|reflexivity]. Qed.
