(* ===== verification/Cli.v ===== *)
(** * The command line (src/main.py)

    [main] parses its arguments ([cli_args], the namespace argparse
    returns), enters [async with Orchestrator()] (which initialises it)
    and then lists the sessions, replays one, runs a goal, or hands over
    to [interactive_mode], which reads goals from the standard input
    until ["exit"] or Ctrl-C; leaving the [async with] closes the
    orchestrator, also when the body raises.

    Standard input is the list of [input_event]s still to be read:
    [input()] returns a line, raises [KeyboardInterrupt], or, once the
    input is exhausted, raises [EOFError] at every call.  The state is the
    orchestrator's state ([Lifecycle.ag_st]) with that list.  The loop
    [while True] runs on fuel: [None] is "still running when the fuel
    ran out".  The logs directory that [list_sessions] and [replay] read
    is the parameter [fs], as in [Orchestrator.list_sessions]; the
    [print]s are not modelled, but the exceptions their f-strings raise
    are. *)

From Stdlib Require Import QArith.
From S2P Require Import Prelude PyData Env Mock Llm Browser Logger Executor Exporters Replayer Planner Orchestrator Lifecycle.

(** What [input()] does at one call. *)
Inductive input_event : Type :=
| Line (s : string)    (** returns the line *)
| Interrupt.           (** raises [KeyboardInterrupt] *)

(** [args = parser.parse_args()] *)
Record cli_args : Type := mkArgs {
  arg_goal : option string;       (** [--goal] *)
  arg_replay : option string;     (** [--replay] *)
  arg_list_sessions : bool;       (** [--list-sessions] *)
  arg_speed : Q                   (** [--speed], default [1.0] *)
}.

(** [args.replay] and [args.goal] as conditions: set and not empty. *)
Definition opt_truthy (o : option string) : bool :=
  match o with Some s => negb (String.eqb s "") | None => false end.

(** The listing's [print]s: [s.get("success")], [s.get('session_id')]
    and [s.get('goal', '')[:n]] for each session listed. *)
Fixpoint print_sessions (n : nat) (sessions : list Value) : outcome unit :=
  match sessions with
  | [] => Ok tt
  | s :: rest =>
      let? _success := py_get s "success" VNone in
      let? _sid := py_get s "session_id" VNone in
      let? goal := py_get s "goal" (VStr "") in
      let? _g := py_prefix goal n in
      print_sessions n rest
  end.

(** A line that ends [interactive_mode]: ["exit"], or Ctrl-C. *)
Definition is_stop (ev : input_event) : bool :=
  match ev with
  | Line s => String.eqb (lower (strip s)) "exit"
  | Interrupt => true
  end.

Section Cli.
Context `{Env} `{!ActionImpl} (json_loads : string -> outcome Value).
Context (env : list (string * string)) (cwd : string) (c : config) (chromadb_available : bool).
Context (fs : list (string * option Value)).

Abbreviation cli_st := (ag_st * list input_event)%type.

Definition on_agent {A} (m : st ag_st A) : st cli_st A := zoom fst (fun s t => (s, t.2)) m.

(** [input()]: the next event, or [None] for [EOFError] once the input
    is exhausted. *)
Definition read_input : st cli_st (option input_event) := fun t =>
  match t.2 with
  | [] => (Ok None, t)
  | ev :: rest => (Ok (Some ev), (t.1, rest))
  end.

(** The body of the [try] for a non-empty line other than ["exit"]. *)
Definition dispatch (user_input : string) : st ag_st unit :=
  if String.eqb (lower user_input) "sessions" then
    let! sessions := lift_outcome (orchestrator_list_sessions fs) in
    lift_outcome (print_sessions 40 (take 10 sessions))
  else if String.prefix "replay " (lower user_input) then
    let session_id := strip (String.substring 7 (String.length user_input - 7) user_input) in
    agent_replay json_loads env cwd c chromadb_available fs session_id 1 !; ret tt
  else agent_run json_loads env cwd c chromadb_available user_input !; ret tt.

(** [interactive_mode(orchestrator)]: [Some tt] when the loop breaks. *)
Fixpoint interactive_loop (fuel : nat) : st cli_st (option unit) :=
  match fuel with
  | O => ret None
  | S fuel' =>
      let! ev := read_input in
      match ev with
      | Some Interrupt => ret (Some tt)
      | None => interactive_loop fuel'
      | Some (Line raw) =>
          let user_input := strip raw in
          if String.eqb user_input "" then interactive_loop fuel'
          else if String.eqb (lower user_input) "exit" then ret (Some tt)
          else try_except (on_agent (dispatch user_input)) (fun _ => ret tt) !; interactive_loop fuel'
      end
  end.

(** The body of [async with Orchestrator() as orchestrator]. *)
Definition main_body (fuel : nat) (args : cli_args) : st cli_st (option unit) :=
  if arg_list_sessions args then
    let! sessions := lift_outcome (orchestrator_list_sessions fs) in
    lift_outcome (print_sessions 50 sessions) !; ret (Some tt)
  else if opt_truthy (arg_replay args) then
    on_agent (agent_replay json_loads env cwd c chromadb_available fs (default "" (arg_replay args)) (arg_speed args)) !;
    ret (Some tt)
  else if opt_truthy (arg_goal args) then
    on_agent (agent_run json_loads env cwd c chromadb_available (default "" (arg_goal args))) !; ret (Some tt)
  else interactive_loop fuel.

(** [main()]: [__aenter__] initialises; [__aexit__] closes after the
    body, also when it raises (then the exception goes on), but not when
    the body never ends. *)
Definition cli_main (fuel : nat) (args : cli_args) : st cli_st (option unit) :=
  on_agent (orchestrator_aenter json_loads env cwd c chromadb_available) !;
  let! r := try_except (main_body fuel args) (fun e => on_agent (orchestrator_aexit c) !; raise e) in
  (match r with Some _ => on_agent (orchestrator_aexit c) | None => ret tt end) !;
  ret r.

End Cli.

(** ** [interactive_mode] stops exactly at ["exit"] or Ctrl-C *)

Section CliProofs.
Context `{Env} `{!ActionImpl} (json_loads : string -> outcome Value).
Context (env : list (string * string)) (cwd : string) (c : config) (chromadb_available : bool).
Context (fs : list (string * option Value)).

(** A line the loop hands to the orchestrator never escapes its [try]. *)
Lemma dispatch_caught u s l :
  exists s', (try_except (on_agent (dispatch json_loads env cwd c chromadb_available fs u)) (fun _ => ret tt)) (s, l)
             = (Ok tt, (s', l)).
Proof.
  unfold try_except, on_agent, zoom, ret. cbn [fst snd].
  destruct (dispatch json_loads env cwd c chromadb_available fs u s) as [[[]|e] s']; by exists s'.
Qed.

(** C25: [interactive_mode] reads one input per iteration and returns
    exactly when a line is ["exit"] (after [strip], in any case) or
    Ctrl-C is pressed: within [fuel] iterations it has returned iff one
    of the first [fuel] inputs is such a stop, whatever the orchestrator
    does with the other lines.  Once the input is exhausted [input()]
    raises [EOFError], which [except Exception] catches: the loop then
    never returns. *)
Theorem interactive_loop_result fuel s l :
  (interactive_loop json_loads env cwd c chromadb_available fs fuel (s, l)).1
  = Ok (if existsb is_stop (take fuel l) then Some tt else None).
Proof.
  revert s l. induction fuel as [|fuel IH]; intros s l; [done|].
  destruct l as [|ev l]; cbn [interactive_loop].
  - unfold bind, read_input. cbn. pose proof (IH s []) as E. by rewrite take_nil in E.
  - unfold bind at 1, read_input. cbn [take existsb snd fst].
    destruct ev as [raw|]; [|done]. cbv zeta. unfold is_stop.
    destruct (String.eqb (strip raw) "") eqn:Ee.
    + apply String.eqb_eq in Ee. rewrite Ee. cbn [lower]. apply IH.
    + destruct (String.eqb (lower (strip raw)) "exit"); [done|].
      destruct (dispatch_caught (strip raw) s l) as [s' E].
      rewrite (bind_ok _ _ _ _ _ E). apply IH.
Qed.

End CliProofs.

(** ** Runs on the mock driver *)

(** The mock orchestrator lists the sessions and stops at [" EXIT "]; with
    no ["exit"] line, once the input is exhausted, the loop is still
    running after any number of iterations (here 50). *)
Example interactive_mode_runs :
  (interactive_loop mock_loads [] "/app" mock_config true [] 50
     (lc_init lc_s0, [Line "sessions"; Line "   "; Line " EXIT "; Line "never read"])).1 = Ok (Some tt) /\
  (interactive_loop mock_loads [] "/app" mock_config true [] 50 (lc_init lc_s0, [Line "sessions"])).1 = Ok None.
Proof. vm_compute. split; reflexivity. Qed.
